(** * Hyper-V SynIC message/event delivery and VTL switching (hw/hyperv/hyperv.c)

    A shallow embedding of the emulation logic of [hw/hyperv/hyperv.c]:
    the staged-message state machine of a SINT route, event-flag
    signalling, the per-VTL privileged state save/restore around a VTL
    switch, the VTL enablement hypercalls and the register read path.

    Conventions.  C integers are [Z] with the conversions of the source
    written out.  A pointer that the source dereferences is an [option]
    here and a dereference of [None], a failed [assert] and an access
    outside an array make the modelled function return [None].  Calls
    into other subsystems (memory dirty tracking, event notifiers, bottom
    halves, work scheduled on a vCPU thread, the completion callback) are
    appended, in program order, to a log of [effect]s. *)

From stdpp Require Import base numbers list gmap.

Open Scope Z_scope.

(** ** Host error numbers (errno.h on Linux) *)

Definition ENXIO : Z := 6.
Definition EAGAIN : Z := 11.
Definition EINVAL : Z := 22.

(** ** Constants of the Hyper-V protocol headers *)

(** Modelled from the spec: [hw/hyperv/hyperv-proto.h] is not part of the
    sources read here.  These are the numbers of synthetic interrupt
    sources and synthetic timers of a virtual processor, the message type
    "none" of an empty slot and the "pending" flag of a slot, with the
    values the Hyper-V interface fixes.  The number of event flags per
    SINT, [HV_EVENT_FLAGS_COUNT], is a parameter of the event-flag code
    below. *)

Definition HV_SINT_COUNT : Z := 16.
Definition HV_STIMER_COUNT : Z := 4.
Definition HV_MESSAGE_NONE : Z := 0.
Definition HV_MESSAGE_FLAG_PENDING : Z := 1.

(** ** Bit maps *)

(** Modelled from the spec: the macros of [qemu/bitops.h] and
    [qemu/bitmap.h] for a flag vector kept in [unsigned long] words, on a
    64-bit host. *)

Definition BITS_PER_LONG : Z := 64.

Definition BIT_WORD (nr : Z) : Z := nr / BITS_PER_LONG.
Definition BIT_MASK (nr : Z) : Z := Z.shiftl 1 (nr mod BITS_PER_LONG).
Definition BITS_TO_LONGS (nr : Z) : Z := (nr + BITS_PER_LONG - 1) / BITS_PER_LONG.

(** [unsigned] arithmetic wraps modulo 2^32. *)
Definition wrap32 (x : Z) : Z := x mod 2 ^ 32.

Module SynIC.

(** *** Data model *)

(** Modelled from the spec: [struct hyperv_message] of the protocol
    header, a slot of the message page with its type, flags and payload
    (header fields first, then the payload bytes). *)
Record hyperv_message := {
  message_type : Z;
  payload_size : Z;
  message_flags : Z;
  sender : Z;
  payload : list Z
}.

Definition set_message_flags (f : Z) (m : hyperv_message) : hyperv_message :=
  {| message_type := message_type m; payload_size := payload_size m;
     message_flags := f; sender := sender m; payload := payload m |}.

(** The anonymous enum of [HvSintStagedMessage.state]. *)
Inductive staged_state :=
  | HV_STAGED_MSG_FREE
  | HV_STAGED_MSG_BUSY
  | HV_STAGED_MSG_POSTED.

Definition staged_state_eqb (a b : staged_state) : bool :=
  match a, b with
  | HV_STAGED_MSG_FREE, HV_STAGED_MSG_FREE
  | HV_STAGED_MSG_BUSY, HV_STAGED_MSG_BUSY
  | HV_STAGED_MSG_POSTED, HV_STAGED_MSG_POSTED => true
  | _, _ => false
  end.

(** [HvSintStagedMessage]; [cb] is an opaque function pointer, its call is
    the effect [cb_call]. *)
Record HvSintStagedMessage := {
  msg : hyperv_message;
  cb_data : Z;
  status : Z;
  state : staged_state
}.

(** [struct HvSintRoute]; the notifiers are represented by the effects on
    them, [synic] is the one SynIC of the [world]. *)
Record HvSintRoute := {
  sint : Z;
  gsi : Z;
  staged_msg : option HvSintStagedMessage;
  refcount : Z
}.

(** [struct SynICState].  [msg_page] is the array [slot[HV_SINT_COUNT]] of
    the message page.  [event_page] is the event-flags page as the array
    of [unsigned long] words it occupies in guest RAM: each slot is a bit
    map of [flags_words] words, and the flags of slot [s] are the words
    [s * flags_words .. s * flags_words + flags_words - 1]. *)
Record SynICState := {
  sctl_enabled : bool;
  msg_page_addr : Z;
  event_page_addr : Z;
  msg_page : list hyperv_message;
  event_page : list Z
}.

(** Calls that leave this file. *)
Inductive effect :=
  | set_dirty_msg_page                (* memory_region_set_dirty(&synic->msg_page_mr, ..) *)
  | set_dirty_event_page              (* memory_region_set_dirty(&synic->event_page_mr, ..) *)
  | event_notifier_set (g : Z)        (* event_notifier_set(&sint_route->sint_set_notifier) *)
  | bh_schedule_sint_msg_bh           (* aio_bh_schedule_oneshot(.., sint_msg_bh, sint_route) *)
  | run_on_cpu_cpu_post_msg           (* async_run_on_cpu(cs, cpu_post_msg, sint_route) *)
  | cb_call (data st : Z)             (* staged_msg->cb(cb_data, status) *)
  | irqfd_release (g : Z)             (* irqfd notifier removed, virq released *)
  | route_free.                       (* g_free(sint_route) *)

Record world := {
  sint_route : HvSintRoute;
  synic : SynICState;
  effects : list effect
}.

(** *** Field updates *)

Definition with_staged (s : option HvSintStagedMessage) (r : HvSintRoute) : HvSintRoute :=
  {| sint := sint r; gsi := gsi r; staged_msg := s; refcount := refcount r |}.

Definition with_refcount (n : Z) (r : HvSintRoute) : HvSintRoute :=
  {| sint := sint r; gsi := gsi r; staged_msg := staged_msg r; refcount := n |}.

Definition with_route (r : HvSintRoute) (w : world) : world :=
  {| sint_route := r; synic := synic w; effects := effects w |}.

Definition with_synic (s : SynICState) (w : world) : world :=
  {| sint_route := sint_route w; synic := s; effects := effects w |}.

Definition emit (e : effect) (w : world) : world :=
  {| sint_route := sint_route w; synic := synic w; effects := effects w ++ [e] |}.

Definition with_msg_page (p : list hyperv_message) (s : SynICState) : SynICState :=
  {| sctl_enabled := sctl_enabled s; msg_page_addr := msg_page_addr s;
     event_page_addr := event_page_addr s; msg_page := p; event_page := event_page s |}.

Definition with_event_page (p : list Z) (s : SynICState) : SynICState :=
  {| sctl_enabled := sctl_enabled s; msg_page_addr := msg_page_addr s;
     event_page_addr := event_page_addr s; msg_page := msg_page s; event_page := p |}.

Section Operations.

(** [HV_EVENT_FLAGS_COUNT] of the protocol header: the number of event
    flags of one SINT. *)
Variable HV_EVENT_FLAGS_COUNT : Z.

(** What [event_notifier_set] returns (0, or a negative errno). *)
Variable notifier_rc : Z.

(** Words of [DECLARE_BITMAP(flags, HV_EVENT_FLAGS_COUNT)]. *)
Definition flags_words : Z := BITS_TO_LONGS HV_EVENT_FLAGS_COUNT.

(** *** Reference counting *)

Definition hyperv_sint_route_ref (w : world) : world :=
  with_route (with_refcount (wrap32 (refcount (sint_route w) + 1)) (sint_route w)) w.

Definition hyperv_sint_route_unref (w : world) : option world :=
  let r := sint_route w in
  if refcount r <=? 0 then None                       (* assert(refcount > 0) *)
  else
    let w1 := with_route (with_refcount (refcount r - 1) r) w in
    if negb (refcount r - 1 =? 0) then Some w1
    else
      let w2 := if negb (gsi r =? 0) then emit (irqfd_release (gsi r)) w1 else w1 in
      Some (emit route_free w2).

Definition hyperv_sint_route_set_sint (w : world) : Z * world :=
  if gsi (sint_route w) =? 0 then (0, w)
  else (notifier_rc, emit (event_notifier_set (gsi (sint_route w))) w).

(** *** The staged-message state machine *)

Definition sint_msg_bh (w : world) : option world :=
  match staged_msg (sint_route w) with
  | None => None
  | Some sm =>
      if negb (staged_state_eqb (state sm) HV_STAGED_MSG_POSTED) then Some w
      else
        let w1 := emit (cb_call (cb_data sm) (status sm)) w in
        let sm' := {| msg := msg sm; cb_data := cb_data sm; status := 0;
                      state := HV_STAGED_MSG_FREE |} in
        hyperv_sint_route_unref (with_route (with_staged (Some sm') (sint_route w1)) w1)
  end.

Definition posted (wait_for_sint_ack : bool) (st : Z) (sm : HvSintStagedMessage)
    (w : world) : world :=
  let sm' := {| msg := msg sm; cb_data := cb_data sm; status := st;
                state := HV_STAGED_MSG_POSTED |} in
  let w1 := with_route (with_staged (Some sm') (sint_route w)) w in
  if negb wait_for_sint_ack then emit bh_schedule_sint_msg_bh w1 else w1.

Definition cpu_post_msg (w : world) : option world :=
  match staged_msg (sint_route w) with
  | None => None
  | Some sm =>
      if negb (staged_state_eqb (state sm) HV_STAGED_MSG_BUSY) then None   (* assert *)
      else if msg_page_addr (synic w) =? 0 then
        Some (posted false (- ENXIO) sm w)
      else
        let i := Z.to_nat (sint (sint_route w)) in
        match msg_page (synic w) !! i with
        | None => None
        | Some dst_msg =>
            if negb (message_type dst_msg =? HV_MESSAGE_NONE) then
              let dst' := set_message_flags
                            (Z.lor (message_flags dst_msg) HV_MESSAGE_FLAG_PENDING) dst_msg in
              let w1 := with_synic (with_msg_page (<[i := dst']> (msg_page (synic w)))
                                      (synic w)) w in
              Some (posted true (- EAGAIN) sm (emit set_dirty_msg_page w1))
            else
              let w1 := with_synic (with_msg_page (<[i := msg sm]> (msg_page (synic w)))
                                      (synic w)) w in
              let '(st, w2) := hyperv_sint_route_set_sint w1 in
              Some (posted false st sm (emit set_dirty_msg_page w2))
        end
  end.

Definition hyperv_post_msg (w : world) (src_msg : hyperv_message) : option (Z * world) :=
  match staged_msg (sint_route w) with
  | None => None                                                   (* assert(staged_msg) *)
  | Some sm =>
      if negb (staged_state_eqb (state sm) HV_STAGED_MSG_FREE) then Some (- EAGAIN, w)
      else
        let sm' := {| msg := src_msg; cb_data := cb_data sm; status := status sm;
                      state := HV_STAGED_MSG_BUSY |} in
        let w1 := with_route (with_staged (Some sm') (sint_route w)) w in
        Some (0, emit run_on_cpu_cpu_post_msg (hyperv_sint_route_ref w1))
  end.

Definition sint_ack_handler (w : world) : world :=
  emit bh_schedule_sint_msg_bh w.

(** *** Event flags *)

Definition hyperv_set_event_flag (w : world) (eventno : Z) : option (Z * world) :=
  if eventno >? HV_EVENT_FLAGS_COUNT then Some (- EINVAL, w)
  else if negb (sctl_enabled (synic w)) || (event_page_addr (synic w) =? 0) then
    Some (- ENXIO, w)
  else
    let set_idx := BIT_WORD eventno in
    let set_mask := BIT_MASK eventno in
    let i := Z.to_nat (sint (sint_route w) * flags_words + set_idx) in
    match event_page (synic w) !! i with
    | None => None
    | Some old =>
        let w1 := with_synic (with_event_page (<[i := Z.lor old set_mask]>
                                                 (event_page (synic w))) (synic w)) w in
        if negb (Z.land old set_mask =? set_mask) then
          let '(ret, w2) := hyperv_sint_route_set_sint (emit set_dirty_event_page w1) in
          Some (ret, w2)
        else Some (0, w1)
    end.

End Operations.

End SynIC.


(** * Virtual trust levels: per-VTL state, switching, enablement, registers *)

Module Vsm.

(** ** Constants from headers outside this file *)

(** Modelled from the spec: the headers are not part of the sources read
    here.  Segment-descriptor flag layout and register indices of
    [target/i386/cpu.h], [MSR_IA32_APICBASE_BSP], [KVM_MP_STATE_RUNNABLE],
    [EXCP_HALTED], and the Hyper-V identifiers for "self", with the values
    the x86 architecture, KVM and the Hyper-V interface fix. *)

Definition DESC_TYPE_SHIFT : Z := 8.
Definition DESC_S_MASK : Z := Z.shiftl 1 12.
Definition DESC_DPL_SHIFT : Z := 13.
Definition DESC_P_MASK : Z := Z.shiftl 1 15.
Definition DESC_AVL_MASK : Z := Z.shiftl 1 20.
Definition DESC_L_SHIFT : Z := 21.
Definition DESC_B_SHIFT : Z := 22.
Definition DESC_G_MASK : Z := Z.shiftl 1 23.

Definition R_ESP : nat := 4.
Definition R_ES : nat := 0.
Definition R_CS : nat := 1.
Definition R_SS : nat := 2.
Definition R_DS : nat := 3.
Definition R_FS : nat := 4.
Definition R_GS : nat := 5.

Definition KVM_MP_STATE_RUNNABLE : Z := 0.
Definition MSR_IA32_APICBASE_BSP : Z := Z.shiftl 1 8.
Definition EXCP_HALTED : Z := 65537.
Definition HV_PARTITION_ID_SELF : Z := 2 ^ 64 - 1.
Definition HV_VP_INDEX_SELF : Z := 2 ^ 32 - 2.

(** Conversion of a 32-bit pattern to [int]. *)
Definition to_int32 (x : Z) : Z :=
  let y := x mod 2 ^ 32 in if y <? 2 ^ 31 then y else y - 2 ^ 32.

Definition wrap16 (x : Z) : Z := x mod 2 ^ 16.

(** Hypercall result codes (the [HV_STATUS_*] values this file returns). *)
Inductive hv_status :=
  | HV_STATUS_SUCCESS
  | HV_STATUS_INVALID_HYPERCALL_CODE
  | HV_STATUS_INVALID_HYPERCALL_INPUT
  | HV_STATUS_INVALID_PARAMETER
  | HV_STATUS_ACCESS_DENIED
  | HV_STATUS_INVALID_PARTITION_ID
  | HV_STATUS_INVALID_VP_INDEX.

(** [enum hv_vtl_entry_reason] *)
Definition HV_VTL_ENTRY_RESERVED : Z := 0.
Definition HV_VTL_ENTRY_VTL_CALL : Z := 1.
Definition HV_VTL_ENTRY_INTERRUPT : Z := 2.

(** ** Register structures *)

(** Modelled from the spec: QEMU's [SegmentCache] ([target/i386/cpu.h]),
    a segment register as the general/segment register snapshot keeps it. *)
Module SegmentCache.
Record t := { selector : Z; base : Z; limit : Z; flags : Z }.
End SegmentCache.

(** [struct hv_x64_segment_register], the attribute bit-fields one by one. *)
Module hv_x64_segment_register.
Record t := {
  base : Z;
  limit : Z;
  selector : Z;
  segment_type : Z;
  non_system_segment : Z;
  descriptor_privilege_level : Z;
  present : Z;
  reserved : Z;
  available : Z;
  _long : Z;
  _default : Z;
  granularity : Z
}.
Definition zero : t :=
  {| base := 0; limit := 0; selector := 0; segment_type := 0;
     non_system_segment := 0; descriptor_privilege_level := 0; present := 0;
     reserved := 0; available := 0; _long := 0; _default := 0; granularity := 0 |}.
End hv_x64_segment_register.

(** [struct hv_x64_table_register] *)
Module hv_x64_table_register.
Record t := { pad : Z; limit : Z; base : Z }.
Definition zero : t := {| pad := 0; limit := 0; base := 0 |}.
End hv_x64_table_register.

(** [struct hv_init_vp_context] *)
Module hv_init_vp_context.
Record t := {
  rip : Z; rsp : Z; rflags : Z;
  cs : hv_x64_segment_register.t;
  ds : hv_x64_segment_register.t;
  es : hv_x64_segment_register.t;
  fs : hv_x64_segment_register.t;
  gs : hv_x64_segment_register.t;
  ss : hv_x64_segment_register.t;
  tr : hv_x64_segment_register.t;
  ldtr : hv_x64_segment_register.t;
  idtr : hv_x64_table_register.t;
  gdtr : hv_x64_table_register.t;
  efer : Z; cr0 : Z; cr3 : Z; cr4 : Z; msr_cr_pat : Z
}.
End hv_init_vp_context.

(** [struct kvm_hv_vcpu_per_vtl_state] *)
Module kvm_hv_vcpu_per_vtl_state.
Record t := {
  rip : Z; rsp : Z; rflags : Z; efer : Z; cr0 : Z; cr3 : Z; cr4 : Z; dr7 : Z;
  msr_cr_pat : Z; msr_kernel_gsbase : Z; msr_gsbase : Z; msr_fsbase : Z;
  msr_tsc_aux : Z; msr_sysenter_cs : Z; msr_sysenter_esp : Z;
  msr_sysenter_eip : Z; msr_star : Z; msr_lstar : Z; msr_cstar : Z;
  msr_sfmask : Z;
  msr_hv_synic_control : Z; msr_hv_synic_evt_page : Z; msr_hv_synic_msg_page : Z;
  msr_hv_synic_sint : list Z;
  msr_hv_stimer_config : list Z;
  msr_hv_stimer_count : list Z;
  msr_hv_guest_os_id : Z; msr_hv_hypercall : Z; msr_hv_tsc : Z;
  apic_base : Z;
  cs : hv_x64_segment_register.t;
  ds : hv_x64_segment_register.t;
  es : hv_x64_segment_register.t;
  fs : hv_x64_segment_register.t;
  gs : hv_x64_segment_register.t;
  ss : hv_x64_segment_register.t;
  tr : hv_x64_segment_register.t;
  ldtr : hv_x64_segment_register.t;
  idtr : hv_x64_table_register.t;
  gdtr : hv_x64_table_register.t;
  exception_nr : Z; interrupt_injected : Z; soft_interrupt : Z;
  exception_pending : Z; exception_injected : Z; has_error_code : Z;
  exception_has_payload : Z; exception_payload : Z; triple_fault_pending : Z;
  ins_len : Z; sipi_vector : Z
}.
(** The state of a freshly allocated [VpVsmState]: all zero. *)
Definition zero : t :=
  {| rip := 0; rsp := 0; rflags := 0; efer := 0; cr0 := 0; cr3 := 0; cr4 := 0;
     dr7 := 0; msr_cr_pat := 0; msr_kernel_gsbase := 0; msr_gsbase := 0;
     msr_fsbase := 0; msr_tsc_aux := 0; msr_sysenter_cs := 0;
     msr_sysenter_esp := 0; msr_sysenter_eip := 0; msr_star := 0;
     msr_lstar := 0; msr_cstar := 0; msr_sfmask := 0;
     msr_hv_synic_control := 0; msr_hv_synic_evt_page := 0;
     msr_hv_synic_msg_page := 0;
     msr_hv_synic_sint := replicate (Z.to_nat HV_SINT_COUNT) 0;
     msr_hv_stimer_config := replicate (Z.to_nat HV_STIMER_COUNT) 0;
     msr_hv_stimer_count := replicate (Z.to_nat HV_STIMER_COUNT) 0;
     msr_hv_guest_os_id := 0; msr_hv_hypercall := 0; msr_hv_tsc := 0;
     apic_base := 0;
     cs := hv_x64_segment_register.zero; ds := hv_x64_segment_register.zero;
     es := hv_x64_segment_register.zero; fs := hv_x64_segment_register.zero;
     gs := hv_x64_segment_register.zero; ss := hv_x64_segment_register.zero;
     tr := hv_x64_segment_register.zero; ldtr := hv_x64_segment_register.zero;
     idtr := hv_x64_table_register.zero; gdtr := hv_x64_table_register.zero;
     exception_nr := 0; interrupt_injected := 0; soft_interrupt := 0;
     exception_pending := 0; exception_injected := 0; has_error_code := 0;
     exception_has_payload := 0; exception_payload := 0;
     triple_fault_pending := 0; ins_len := 0; sipi_vector := 0 |}.
End kvm_hv_vcpu_per_vtl_state.

(** Modelled from the spec: QEMU's [CPUX86State] ([target/i386/cpu.h]),
    the architectural register state of a context.  The fields are those
    this file reads or writes; [other] stands for the remainder of the
    structure (state that only [memcpy] moves). *)
Module CPUX86State.
Record t := {
  regs : list Z;
  eip : Z;
  eflags : Z;
  segs : list SegmentCache.t;
  ldt : SegmentCache.t;
  tr : SegmentCache.t;
  gdt : SegmentCache.t;
  idt : SegmentCache.t;
  cr : list Z;
  dr : list Z;
  efer : Z;
  pat : Z;
  mp_state : Z;
  kernelgsbase : Z; gsbase : Z; fsbase : Z;
  tsc_aux : Z;
  sysenter_cs : Z; sysenter_esp : Z; sysenter_eip : Z;
  star : Z; lstar : Z; cstar : Z; fmask : Z;
  msr_hv_synic_control : Z; msr_hv_synic_evt_page : Z; msr_hv_synic_msg_page : Z;
  msr_hv_synic_sint : list Z;
  msr_hv_stimer_config : list Z;
  msr_hv_stimer_count : list Z;
  msr_hv_guest_os_id : Z; msr_hv_hypercall : Z; msr_hv_tsc : Z;
  msr_hv_vapic : Z;
  vsm_code_page_offsets64 : Z; vsm_code_page_offsets32 : Z;
  exception_nr : Z; interrupt_injected : Z; soft_interrupt : Z;
  exception_pending : Z; exception_injected : Z; has_error_code : Z;
  exception_has_payload : Z; exception_payload : Z; triple_fault_pending : Z;
  ins_len : Z; sipi_vector : Z;
  other : Z
}.
End CPUX86State.

#[global] Instance SegmentCache_inhabited : Inhabited SegmentCache.t :=
  populate {| SegmentCache.selector := 0; SegmentCache.base := 0;
              SegmentCache.limit := 0; SegmentCache.flags := 0 |}.

(** ** Segment conversion *)

Definition hyperv_set_seg (lhs : SegmentCache.t) (rhs : hv_x64_segment_register.t)
    : SegmentCache.t :=
  {| SegmentCache.selector := hv_x64_segment_register.selector rhs;
     SegmentCache.base := hv_x64_segment_register.base rhs;
     SegmentCache.limit := hv_x64_segment_register.limit rhs;
     SegmentCache.flags :=
       Z.lor (Z.lor (Z.lor (Z.lor (Z.lor (Z.lor (Z.lor
         (Z.shiftl (hv_x64_segment_register.segment_type rhs) DESC_TYPE_SHIFT)
         (hv_x64_segment_register.present rhs * DESC_P_MASK))
         (Z.shiftl (hv_x64_segment_register.descriptor_privilege_level rhs) DESC_DPL_SHIFT))
         (Z.shiftl (hv_x64_segment_register._default rhs) DESC_B_SHIFT))
         (hv_x64_segment_register.non_system_segment rhs * DESC_S_MASK))
         (Z.shiftl (hv_x64_segment_register._long rhs) DESC_L_SHIFT))
         (hv_x64_segment_register.granularity rhs * DESC_G_MASK))
         (hv_x64_segment_register.available rhs * DESC_AVL_MASK) |}.

Definition nonzero (x : Z) : Z := if x =? 0 then 0 else 1.

Definition hyperv_get_seg (lhs : SegmentCache.t) : hv_x64_segment_register.t :=
  let flags := SegmentCache.flags lhs in
  {| hv_x64_segment_register.selector := wrap16 (SegmentCache.selector lhs);
     hv_x64_segment_register.base := SegmentCache.base lhs;
     hv_x64_segment_register.limit := SegmentCache.limit lhs;
     hv_x64_segment_register.segment_type :=
       Z.land (Z.shiftr flags DESC_TYPE_SHIFT) 15;
     hv_x64_segment_register.non_system_segment := nonzero (Z.land flags DESC_S_MASK);
     hv_x64_segment_register.descriptor_privilege_level :=
       Z.land (Z.shiftr flags DESC_DPL_SHIFT) 3;
     hv_x64_segment_register.present := nonzero (Z.land flags DESC_P_MASK);
     hv_x64_segment_register.reserved := 0;
     hv_x64_segment_register.available := nonzero (Z.land flags DESC_AVL_MASK);
     hv_x64_segment_register._long := Z.land (Z.shiftr flags DESC_L_SHIFT) 1;
     hv_x64_segment_register._default := Z.land (Z.shiftr flags DESC_B_SHIFT) 1;
     hv_x64_segment_register.granularity := nonzero (Z.land flags DESC_G_MASK) |}.

(** [env->idt.limit = ..; env->idt.base = ..]: selector and flags stay. *)
Definition set_table (t : SegmentCache.t) (r : hv_x64_table_register.t) : SegmentCache.t :=
  {| SegmentCache.selector := SegmentCache.selector t;
     SegmentCache.base := hv_x64_table_register.base r;
     SegmentCache.limit := hv_x64_table_register.limit r;
     SegmentCache.flags := SegmentCache.flags t |}.

(** [for (i = 0; i < n; i++) dst[i] = src[i];] *)
Fixpoint array_copy (n : nat) (src dst : list Z) : list Z :=
  match n with
  | O => dst
  | S k => <[k := src !!! k]> (array_copy k src dst)
  end.

Definition hyperv_set_vtl_cpu_state (env : CPUX86State.t) (c : hv_init_vp_context.t)
    : CPUX86State.t :=
  let segs0 := CPUX86State.segs env in
  let segs1 := <[R_CS := hyperv_set_seg (segs0 !!! R_CS) (hv_init_vp_context.cs c)]> segs0 in
  let segs2 := <[R_DS := hyperv_set_seg (segs1 !!! R_DS) (hv_init_vp_context.ds c)]> segs1 in
  let segs3 := <[R_ES := hyperv_set_seg (segs2 !!! R_ES) (hv_init_vp_context.es c)]> segs2 in
  let segs4 := <[R_FS := hyperv_set_seg (segs3 !!! R_FS) (hv_init_vp_context.fs c)]> segs3 in
  let segs5 := <[R_GS := hyperv_set_seg (segs4 !!! R_GS) (hv_init_vp_context.gs c)]> segs4 in
  let segs6 := <[R_SS := hyperv_set_seg (segs5 !!! R_SS) (hv_init_vp_context.ss c)]> segs5 in
  {| CPUX86State.regs := <[R_ESP := hv_init_vp_context.rsp c]> (CPUX86State.regs env);
     CPUX86State.eip := hv_init_vp_context.rip c;
     CPUX86State.eflags := hv_init_vp_context.rflags c;
     CPUX86State.segs := segs6;
     CPUX86State.ldt := hyperv_set_seg (CPUX86State.ldt env) (hv_init_vp_context.ldtr c);
     CPUX86State.tr := hyperv_set_seg (CPUX86State.tr env) (hv_init_vp_context.tr c);
     CPUX86State.gdt := set_table (CPUX86State.gdt env) (hv_init_vp_context.gdtr c);
     CPUX86State.idt := set_table (CPUX86State.idt env) (hv_init_vp_context.idtr c);
     CPUX86State.cr :=
       <[4%nat := hv_init_vp_context.cr4 c]>
         (<[3%nat := hv_init_vp_context.cr3 c]>
            (<[0%nat := hv_init_vp_context.cr0 c]> (CPUX86State.cr env)));
     CPUX86State.dr := CPUX86State.dr env;
     CPUX86State.efer := hv_init_vp_context.efer c;
     CPUX86State.pat := hv_init_vp_context.msr_cr_pat c;
     CPUX86State.mp_state := KVM_MP_STATE_RUNNABLE;
     CPUX86State.kernelgsbase := CPUX86State.kernelgsbase env;
     CPUX86State.gsbase := hv_x64_segment_register.base (hv_init_vp_context.gs c);
     CPUX86State.fsbase := hv_x64_segment_register.base (hv_init_vp_context.fs c);
     CPUX86State.tsc_aux := CPUX86State.tsc_aux env;
     CPUX86State.sysenter_cs := CPUX86State.sysenter_cs env;
     CPUX86State.sysenter_esp := CPUX86State.sysenter_esp env;
     CPUX86State.sysenter_eip := CPUX86State.sysenter_eip env;
     CPUX86State.star := CPUX86State.star env;
     CPUX86State.lstar := CPUX86State.lstar env;
     CPUX86State.cstar := CPUX86State.cstar env;
     CPUX86State.fmask := CPUX86State.fmask env;
     CPUX86State.msr_hv_synic_control := CPUX86State.msr_hv_synic_control env;
     CPUX86State.msr_hv_synic_evt_page := CPUX86State.msr_hv_synic_evt_page env;
     CPUX86State.msr_hv_synic_msg_page := CPUX86State.msr_hv_synic_msg_page env;
     CPUX86State.msr_hv_synic_sint := CPUX86State.msr_hv_synic_sint env;
     CPUX86State.msr_hv_stimer_config := CPUX86State.msr_hv_stimer_config env;
     CPUX86State.msr_hv_stimer_count := CPUX86State.msr_hv_stimer_count env;
     CPUX86State.msr_hv_guest_os_id := CPUX86State.msr_hv_guest_os_id env;
     CPUX86State.msr_hv_hypercall := CPUX86State.msr_hv_hypercall env;
     CPUX86State.msr_hv_tsc := CPUX86State.msr_hv_tsc env;
     CPUX86State.msr_hv_vapic := CPUX86State.msr_hv_vapic env;
     CPUX86State.vsm_code_page_offsets64 := CPUX86State.vsm_code_page_offsets64 env;
     CPUX86State.vsm_code_page_offsets32 := CPUX86State.vsm_code_page_offsets32 env;
     CPUX86State.exception_nr := CPUX86State.exception_nr env;
     CPUX86State.interrupt_injected := CPUX86State.interrupt_injected env;
     CPUX86State.soft_interrupt := CPUX86State.soft_interrupt env;
     CPUX86State.exception_pending := CPUX86State.exception_pending env;
     CPUX86State.exception_injected := CPUX86State.exception_injected env;
     CPUX86State.has_error_code := CPUX86State.has_error_code env;
     CPUX86State.exception_has_payload := CPUX86State.exception_has_payload env;
     CPUX86State.exception_payload := CPUX86State.exception_payload env;
     CPUX86State.triple_fault_pending := CPUX86State.triple_fault_pending env;
     CPUX86State.ins_len := CPUX86State.ins_len env;
     CPUX86State.sipi_vector := CPUX86State.sipi_vector env;
     CPUX86State.other := CPUX86State.other env |}.

(** The assignments of [hyperv_save_priv_vtl_state]; [apic_base] is not
    written and keeps the value [old] has. *)
Definition save_priv (env : CPUX86State.t) (old : kvm_hv_vcpu_per_vtl_state.t)
    : kvm_hv_vcpu_per_vtl_state.t :=
  let n_sint := Z.to_nat HV_SINT_COUNT in
  let n_stimer := Z.to_nat HV_STIMER_COUNT in
  {| kvm_hv_vcpu_per_vtl_state.msr_kernel_gsbase := CPUX86State.kernelgsbase env;
     kvm_hv_vcpu_per_vtl_state.msr_gsbase := CPUX86State.gsbase env;
     kvm_hv_vcpu_per_vtl_state.msr_fsbase := CPUX86State.fsbase env;
     kvm_hv_vcpu_per_vtl_state.msr_tsc_aux := CPUX86State.tsc_aux env;
     kvm_hv_vcpu_per_vtl_state.msr_sysenter_cs := CPUX86State.sysenter_cs env;
     kvm_hv_vcpu_per_vtl_state.msr_sysenter_esp := CPUX86State.sysenter_esp env;
     kvm_hv_vcpu_per_vtl_state.msr_sysenter_eip := CPUX86State.sysenter_eip env;
     kvm_hv_vcpu_per_vtl_state.msr_star := CPUX86State.star env;
     kvm_hv_vcpu_per_vtl_state.msr_lstar := CPUX86State.lstar env;
     kvm_hv_vcpu_per_vtl_state.msr_cstar := CPUX86State.cstar env;
     kvm_hv_vcpu_per_vtl_state.msr_sfmask := CPUX86State.fmask env;
     kvm_hv_vcpu_per_vtl_state.msr_cr_pat := CPUX86State.pat env;
     kvm_hv_vcpu_per_vtl_state.msr_hv_synic_control := CPUX86State.msr_hv_synic_control env;
     kvm_hv_vcpu_per_vtl_state.msr_hv_synic_evt_page := CPUX86State.msr_hv_synic_evt_page env;
     kvm_hv_vcpu_per_vtl_state.msr_hv_synic_msg_page := CPUX86State.msr_hv_synic_msg_page env;
     kvm_hv_vcpu_per_vtl_state.msr_hv_synic_sint :=
       array_copy n_sint (CPUX86State.msr_hv_synic_sint env)
         (kvm_hv_vcpu_per_vtl_state.msr_hv_synic_sint old);
     kvm_hv_vcpu_per_vtl_state.msr_hv_stimer_config :=
       array_copy n_stimer (CPUX86State.msr_hv_stimer_config env)
         (kvm_hv_vcpu_per_vtl_state.msr_hv_stimer_config old);
     kvm_hv_vcpu_per_vtl_state.msr_hv_stimer_count :=
       array_copy n_stimer (CPUX86State.msr_hv_stimer_count env)
         (kvm_hv_vcpu_per_vtl_state.msr_hv_stimer_count old);
     kvm_hv_vcpu_per_vtl_state.msr_hv_guest_os_id := CPUX86State.msr_hv_guest_os_id env;
     kvm_hv_vcpu_per_vtl_state.msr_hv_hypercall := CPUX86State.msr_hv_hypercall env;
     kvm_hv_vcpu_per_vtl_state.msr_hv_tsc := CPUX86State.msr_hv_tsc env;
     kvm_hv_vcpu_per_vtl_state.apic_base := kvm_hv_vcpu_per_vtl_state.apic_base old;
     kvm_hv_vcpu_per_vtl_state.rip := CPUX86State.eip env;
     kvm_hv_vcpu_per_vtl_state.rsp := CPUX86State.regs env !!! R_ESP;
     kvm_hv_vcpu_per_vtl_state.rflags := CPUX86State.eflags env;
     kvm_hv_vcpu_per_vtl_state.efer := CPUX86State.efer env;
     kvm_hv_vcpu_per_vtl_state.cr0 := CPUX86State.cr env !!! 0%nat;
     kvm_hv_vcpu_per_vtl_state.cr3 := CPUX86State.cr env !!! 3%nat;
     kvm_hv_vcpu_per_vtl_state.cr4 := CPUX86State.cr env !!! 4%nat;
     kvm_hv_vcpu_per_vtl_state.dr7 := CPUX86State.dr env !!! 7%nat;
     kvm_hv_vcpu_per_vtl_state.cs := hyperv_get_seg (CPUX86State.segs env !!! R_CS);
     kvm_hv_vcpu_per_vtl_state.ds := hyperv_get_seg (CPUX86State.segs env !!! R_DS);
     kvm_hv_vcpu_per_vtl_state.es := hyperv_get_seg (CPUX86State.segs env !!! R_ES);
     kvm_hv_vcpu_per_vtl_state.fs := hyperv_get_seg (CPUX86State.segs env !!! R_FS);
     kvm_hv_vcpu_per_vtl_state.gs := hyperv_get_seg (CPUX86State.segs env !!! R_GS);
     kvm_hv_vcpu_per_vtl_state.ss := hyperv_get_seg (CPUX86State.segs env !!! R_SS);
     kvm_hv_vcpu_per_vtl_state.tr := hyperv_get_seg (CPUX86State.tr env);
     kvm_hv_vcpu_per_vtl_state.ldtr := hyperv_get_seg (CPUX86State.ldt env);
     kvm_hv_vcpu_per_vtl_state.idtr :=
       {| hv_x64_table_register.pad :=
            hv_x64_table_register.pad (kvm_hv_vcpu_per_vtl_state.idtr old);
          hv_x64_table_register.limit := wrap16 (SegmentCache.limit (CPUX86State.idt env));
          hv_x64_table_register.base := SegmentCache.base (CPUX86State.idt env) |};
     kvm_hv_vcpu_per_vtl_state.gdtr :=
       {| hv_x64_table_register.pad :=
            hv_x64_table_register.pad (kvm_hv_vcpu_per_vtl_state.gdtr old);
          hv_x64_table_register.limit := wrap16 (SegmentCache.limit (CPUX86State.gdt env));
          hv_x64_table_register.base := SegmentCache.base (CPUX86State.gdt env) |};
     kvm_hv_vcpu_per_vtl_state.exception_nr := CPUX86State.exception_nr env;
     kvm_hv_vcpu_per_vtl_state.interrupt_injected := CPUX86State.interrupt_injected env;
     kvm_hv_vcpu_per_vtl_state.soft_interrupt := CPUX86State.soft_interrupt env;
     kvm_hv_vcpu_per_vtl_state.exception_pending := CPUX86State.exception_pending env;
     kvm_hv_vcpu_per_vtl_state.exception_injected := CPUX86State.exception_injected env;
     kvm_hv_vcpu_per_vtl_state.has_error_code := CPUX86State.has_error_code env;
     kvm_hv_vcpu_per_vtl_state.exception_has_payload := CPUX86State.exception_has_payload env;
     kvm_hv_vcpu_per_vtl_state.exception_payload := CPUX86State.exception_payload env;
     kvm_hv_vcpu_per_vtl_state.triple_fault_pending := CPUX86State.triple_fault_pending env;
     kvm_hv_vcpu_per_vtl_state.ins_len := CPUX86State.ins_len env;
     kvm_hv_vcpu_per_vtl_state.sipi_vector := CPUX86State.sipi_vector env |}.

(** The first half of [hyperv_restore_priv_vtl_state]: MSRs and pending
    event state are written back field by field. *)
Definition restore_msrs (env : CPUX86State.t) (p : kvm_hv_vcpu_per_vtl_state.t)
    : CPUX86State.t :=
  let n_sint := Z.to_nat HV_SINT_COUNT in
  let n_stimer := Z.to_nat HV_STIMER_COUNT in
  {| CPUX86State.regs := CPUX86State.regs env;
     CPUX86State.eip := CPUX86State.eip env;
     CPUX86State.eflags := CPUX86State.eflags env;
     CPUX86State.segs := CPUX86State.segs env;
     CPUX86State.ldt := CPUX86State.ldt env;
     CPUX86State.tr := CPUX86State.tr env;
     CPUX86State.gdt := CPUX86State.gdt env;
     CPUX86State.idt := CPUX86State.idt env;
     CPUX86State.cr := CPUX86State.cr env;
     CPUX86State.dr := CPUX86State.dr env;
     CPUX86State.efer := CPUX86State.efer env;
     CPUX86State.pat := CPUX86State.pat env;
     CPUX86State.mp_state := CPUX86State.mp_state env;
     CPUX86State.kernelgsbase := kvm_hv_vcpu_per_vtl_state.msr_kernel_gsbase p;
     CPUX86State.gsbase := kvm_hv_vcpu_per_vtl_state.msr_gsbase p;
     CPUX86State.fsbase := kvm_hv_vcpu_per_vtl_state.msr_fsbase p;
     CPUX86State.tsc_aux := kvm_hv_vcpu_per_vtl_state.msr_tsc_aux p;
     CPUX86State.sysenter_cs := kvm_hv_vcpu_per_vtl_state.msr_sysenter_cs p;
     CPUX86State.sysenter_esp := kvm_hv_vcpu_per_vtl_state.msr_sysenter_esp p;
     CPUX86State.sysenter_eip := kvm_hv_vcpu_per_vtl_state.msr_sysenter_eip p;
     CPUX86State.star := kvm_hv_vcpu_per_vtl_state.msr_star p;
     CPUX86State.lstar := kvm_hv_vcpu_per_vtl_state.msr_lstar p;
     CPUX86State.cstar := kvm_hv_vcpu_per_vtl_state.msr_cstar p;
     CPUX86State.fmask := kvm_hv_vcpu_per_vtl_state.msr_sfmask p;
     CPUX86State.msr_hv_synic_control := kvm_hv_vcpu_per_vtl_state.msr_hv_synic_control p;
     CPUX86State.msr_hv_synic_evt_page := kvm_hv_vcpu_per_vtl_state.msr_hv_synic_evt_page p;
     CPUX86State.msr_hv_synic_msg_page := kvm_hv_vcpu_per_vtl_state.msr_hv_synic_msg_page p;
     CPUX86State.msr_hv_synic_sint :=
       array_copy n_sint (kvm_hv_vcpu_per_vtl_state.msr_hv_synic_sint p)
         (CPUX86State.msr_hv_synic_sint env);
     CPUX86State.msr_hv_stimer_config :=
       array_copy n_stimer (kvm_hv_vcpu_per_vtl_state.msr_hv_stimer_config p)
         (CPUX86State.msr_hv_stimer_config env);
     CPUX86State.msr_hv_stimer_count :=
       array_copy n_stimer (kvm_hv_vcpu_per_vtl_state.msr_hv_stimer_count p)
         (CPUX86State.msr_hv_stimer_count env);
     CPUX86State.msr_hv_guest_os_id := kvm_hv_vcpu_per_vtl_state.msr_hv_guest_os_id p;
     CPUX86State.msr_hv_hypercall := kvm_hv_vcpu_per_vtl_state.msr_hv_hypercall p;
     CPUX86State.msr_hv_tsc := kvm_hv_vcpu_per_vtl_state.msr_hv_tsc p;
     CPUX86State.msr_hv_vapic := CPUX86State.msr_hv_vapic env;
     CPUX86State.vsm_code_page_offsets64 := CPUX86State.vsm_code_page_offsets64 env;
     CPUX86State.vsm_code_page_offsets32 := CPUX86State.vsm_code_page_offsets32 env;
     CPUX86State.exception_nr := kvm_hv_vcpu_per_vtl_state.exception_nr p;
     CPUX86State.interrupt_injected := kvm_hv_vcpu_per_vtl_state.interrupt_injected p;
     CPUX86State.soft_interrupt := kvm_hv_vcpu_per_vtl_state.soft_interrupt p;
     CPUX86State.exception_pending := kvm_hv_vcpu_per_vtl_state.exception_pending p;
     CPUX86State.exception_injected := kvm_hv_vcpu_per_vtl_state.exception_injected p;
     CPUX86State.has_error_code := kvm_hv_vcpu_per_vtl_state.has_error_code p;
     CPUX86State.exception_has_payload := kvm_hv_vcpu_per_vtl_state.exception_has_payload p;
     CPUX86State.exception_payload := kvm_hv_vcpu_per_vtl_state.exception_payload p;
     CPUX86State.triple_fault_pending := kvm_hv_vcpu_per_vtl_state.triple_fault_pending p;
     CPUX86State.ins_len := kvm_hv_vcpu_per_vtl_state.ins_len p;
     CPUX86State.sipi_vector := kvm_hv_vcpu_per_vtl_state.sipi_vector p;
     CPUX86State.other := CPUX86State.other env |}.

(** The [ctx] that [hyperv_restore_priv_vtl_state] builds on its stack. *)
Definition restore_ctx (p : kvm_hv_vcpu_per_vtl_state.t) : hv_init_vp_context.t :=
  {| hv_init_vp_context.rip := kvm_hv_vcpu_per_vtl_state.rip p;
     hv_init_vp_context.rsp := kvm_hv_vcpu_per_vtl_state.rsp p;
     hv_init_vp_context.rflags := kvm_hv_vcpu_per_vtl_state.rflags p;
     hv_init_vp_context.efer := kvm_hv_vcpu_per_vtl_state.efer p;
     hv_init_vp_context.cr0 := kvm_hv_vcpu_per_vtl_state.cr0 p;
     hv_init_vp_context.cr3 := kvm_hv_vcpu_per_vtl_state.cr3 p;
     hv_init_vp_context.cr4 := kvm_hv_vcpu_per_vtl_state.cr4 p;
     hv_init_vp_context.msr_cr_pat := kvm_hv_vcpu_per_vtl_state.msr_cr_pat p;
     hv_init_vp_context.cs := kvm_hv_vcpu_per_vtl_state.cs p;
     hv_init_vp_context.ds := kvm_hv_vcpu_per_vtl_state.ds p;
     hv_init_vp_context.es := kvm_hv_vcpu_per_vtl_state.es p;
     hv_init_vp_context.fs := kvm_hv_vcpu_per_vtl_state.fs p;
     hv_init_vp_context.gs := kvm_hv_vcpu_per_vtl_state.gs p;
     hv_init_vp_context.ss := kvm_hv_vcpu_per_vtl_state.ss p;
     hv_init_vp_context.tr := kvm_hv_vcpu_per_vtl_state.tr p;
     hv_init_vp_context.ldtr := kvm_hv_vcpu_per_vtl_state.ldtr p;
     hv_init_vp_context.idtr := kvm_hv_vcpu_per_vtl_state.idtr p;
     hv_init_vp_context.gdtr := kvm_hv_vcpu_per_vtl_state.gdtr p |}.

(** ** vCPU objects *)

(** Modelled from the spec: [struct hv_vp_vtl_control] of the protocol
    header, the part of the guest-visible VP assist page that reports the
    entry reason. *)
Record hv_vp_vtl_control := {
  vtl_entry_reason : Z;
  vina_status : Z;
  vtl_ret_x64rax : Z;
  vtl_ret_x64rcx : Z
}.

(** [struct VpVsmState]; [vsm_vp_status] by its bit-fields. *)
Record VpVsmState := {
  enabled_vtl_set : Z;
  active_vtl : Z;
  vsm_vtl_config : list Z;
  priv_state : kvm_hv_vcpu_per_vtl_state.t;
  vp_assist : option hv_vp_vtl_control
}.

(** A vCPU: [env] of its [X86CPU], the base register of its APIC, the
    ["vp-vsm"] child object if any, and the run-control flags. *)
Record CPUState := {
  env : CPUX86State.t;
  apic_base : Z;
  vp_vsm : option VpVsmState;
  stop : bool;
  stopped : bool
}.

(** [hv_vsm_partition_status] by its bit-fields. *)
Record partition_status := {
  p_enabled_vtl_set : Z;
  maximum_vtl : Z;
  mbec_enabled_vtl_set : Z
}.

(** The machine: vCPUs by [cpu_index], the partition-wide globals of this
    file, and whether the iothread lock is held. *)
Record machine := {
  cpus : gmap Z CPUState;
  hv_vsm_partition_status : partition_status;
  hv_vsm_partition_capabilities : Z;
  hv_vsm_partition_config : list Z;
  iothread_locked : bool
}.

Definition with_env (e : CPUX86State.t) (c : CPUState) : CPUState :=
  {| env := e; apic_base := apic_base c; vp_vsm := vp_vsm c; stop := stop c;
     stopped := stopped c |}.

Definition with_vp_vsm (v : option VpVsmState) (c : CPUState) : CPUState :=
  {| env := env c; apic_base := apic_base c; vp_vsm := v; stop := stop c;
     stopped := stopped c |}.

Definition with_run (st sd : bool) (c : CPUState) : CPUState :=
  {| env := env c; apic_base := apic_base c; vp_vsm := vp_vsm c; stop := st;
     stopped := sd |}.

Definition with_priv_state (p : kvm_hv_vcpu_per_vtl_state.t) (v : VpVsmState) : VpVsmState :=
  {| enabled_vtl_set := enabled_vtl_set v; active_vtl := active_vtl v;
     vsm_vtl_config := vsm_vtl_config v; priv_state := p; vp_assist := vp_assist v |}.

Definition with_enabled_vtl_set (s : Z) (v : VpVsmState) : VpVsmState :=
  {| enabled_vtl_set := s; active_vtl := active_vtl v;
     vsm_vtl_config := vsm_vtl_config v; priv_state := priv_state v;
     vp_assist := vp_assist v |}.

Definition with_vp_assist (a : option hv_vp_vtl_control) (v : VpVsmState) : VpVsmState :=
  {| enabled_vtl_set := enabled_vtl_set v; active_vtl := active_vtl v;
     vsm_vtl_config := vsm_vtl_config v; priv_state := priv_state v; vp_assist := a |}.

Definition with_cpus (cs : gmap Z CPUState) (m : machine) : machine :=
  {| cpus := cs; hv_vsm_partition_status := hv_vsm_partition_status m;
     hv_vsm_partition_capabilities := hv_vsm_partition_capabilities m;
     hv_vsm_partition_config := hv_vsm_partition_config m;
     iothread_locked := iothread_locked m |}.

Definition with_partition_status (s : partition_status) (m : machine) : machine :=
  {| cpus := cpus m; hv_vsm_partition_status := s;
     hv_vsm_partition_capabilities := hv_vsm_partition_capabilities m;
     hv_vsm_partition_config := hv_vsm_partition_config m;
     iothread_locked := iothread_locked m |}.

Definition with_iothread_locked (b : bool) (m : machine) : machine :=
  {| cpus := cpus m; hv_vsm_partition_status := hv_vsm_partition_status m;
     hv_vsm_partition_capabilities := hv_vsm_partition_capabilities m;
     hv_vsm_partition_config := hv_vsm_partition_config m;
     iothread_locked := b |}.

(** ** Saving and restoring the private state of a VTL *)

Definition hyperv_save_priv_vtl_state (c : CPUState) : option CPUState :=
  vpvsm ← vp_vsm c;
  Some (with_vp_vsm (Some (with_priv_state (save_priv (env c) (priv_state vpvsm)) vpvsm)) c).

Definition hyperv_restore_priv_vtl_state (c : CPUState) : option CPUState :=
  vpvsm ← vp_vsm c;
  let e1 := restore_msrs (env c) (priv_state vpvsm) in
  let ctx := restore_ctx (priv_state vpvsm) in
  let val := Z.lor (apic_base c) MSR_IA32_APICBASE_BSP in
  Some {| env := hyperv_set_vtl_cpu_state e1 ctx; apic_base := val;
          vp_vsm := vp_vsm c; stop := stop c; stopped := stopped c |}.

(** [cpu_synchronize_state] and [kvm_cpu_synchronize_post_reset] move
    registers between KVM and [env]; [env] is the register state here. *)
Definition hyperv_sync_shared_vtl_state (m : machine) (active_cs next_cs : Z)
    : option machine :=
  if negb (iothread_locked m) then Some m
  else
    a ← cpus m !! active_cs;
    n ← cpus m !! next_cs;
    n1 ← hyperv_save_priv_vtl_state n;
    n2 ← hyperv_restore_priv_vtl_state (with_env (env a) n1);
    Some (with_cpus (<[next_cs := n2]> (cpus m)) m).

(** ** Finding the vCPU of a VTL

    A [CPUState *] is the [cpu_index] of a vCPU of the machine, [None] is
    [NULL].  Every vCPU in the list has a non-negative index. *)

(** Modelled from the spec: [qemu_get_cpu] belongs to the virtual-CPU
    execution collaborator.  Each enabled VTL has its own execution
    context; the call finds the context with the given index and gives
    [NULL] when there is none. *)
Definition qemu_get_cpu (m : machine) (index : Z) : option Z :=
  if index <? 0 then None
  else match cpus m !! index with Some _ => Some index | None => None end.

(** [cs->cpu_index], read through the pointer. *)
Definition cpu_index (m : machine) (cs : option Z) : option Z :=
  p ← cs; _ ← cpus m !! p; Some p.

Definition get_active_vtl (m : machine) (cpu : option Z) : option Z := cpu_index m cpu.

Definition hyperv_vsm_vp_index (m : machine) (cs : option Z) : option Z := cpu_index m cs.

(** Modelled from the spec: [hyperv_vp_index] is an inline function of
    [hw/hyperv/hyperv.h].  The VP index of a context is the index of its
    vCPU, as in [hyperv_vsm_vp_index] above. *)
Definition hyperv_vp_index (m : machine) (cs : option Z) : option Z := cpu_index m cs.

(** The result is the pointer returned; the outer [None] is a failed
    [assert] or the dereference of [NULL] in its argument. *)
Definition hyperv_vsm_vcpu (m : machine) (vp_index vtl : Z) : option (option Z) :=
  let cs := qemu_get_cpu m (to_int32 vtl) in
  idx ← hyperv_vp_index m cs;
  if wrap32 idx =? wrap32 vtl then Some cs else None.

Definition hyperv_get_next_vtl (m : machine) (cs : Z) : option (option Z) :=
  vp ← hyperv_vsm_vp_index m (Some cs);
  a ← get_active_vtl m (Some cs);
  hyperv_vsm_vcpu m (wrap32 vp) (wrap32 (a + 1)).

Definition hyperv_get_prev_vtl (m : machine) (cs : Z) : option (option Z) :=
  vp ← hyperv_vsm_vp_index m (Some cs);
  a ← get_active_vtl m (Some cs);
  hyperv_vsm_vcpu m (wrap32 vp) (wrap32 (a - 1)).

Definition update_cpu (m : machine) (cs : Z) (c : CPUState) : machine :=
  with_cpus (<[cs := c]> (cpus m)) m.

(** ** Entry reason in the VP assist page *)

Definition hyperv_hv_assist_page_enabled (m : machine) (cs : Z) : option bool :=
  c ← cpus m !! cs;
  match vp_vsm c with
  | None => Some false
  | Some vpvsm => Some (bool_decide (is_Some (vp_assist vpvsm)))
  end.

Definition hv_write_vtl_control (m : machine) (cs : Z) (ctl : hv_vp_vtl_control)
    : option machine :=
  c ← cpus m !! cs;
  vpvsm ← vp_vsm c;
  match vp_assist vpvsm with
  | None => Some m
  | Some _ => Some (update_cpu m cs (with_vp_vsm (Some (with_vp_assist (Some ctl) vpvsm)) c))
  end.

Definition set_vtl_entry_reason (m : machine) (cs : Z) (reason : Z) : option machine :=
  match hyperv_hv_assist_page_enabled m cs with
  | None => None
  | Some true =>
      hv_write_vtl_control m cs
        {| vtl_entry_reason := reason; vina_status := 0; vtl_ret_x64rax := 0;
           vtl_ret_x64rcx := 0 |}
  | Some false => Some m
  end.

(** ** The switch *)

(** Modelled from the spec: resume and stop of a logical-processor context
    are supplied by the virtual-CPU execution collaborator; after resume
    the context is running, after stop it is stopped. *)
Definition cpu_resume (m : machine) (cs : Z) : option machine :=
  c ← cpus m !! cs; Some (update_cpu m cs (with_run false false c)).

Definition qemu_cpu_stop (m : machine) (cs : Z) (exit : bool) : option machine :=
  c ← cpus m !! cs; Some (update_cpu m cs (with_run false true c)).

Definition switch_vtl (m : machine) (active_cs next_cs : Z) : option machine :=
  let m1 := with_iothread_locked true m in
  m2 ← hyperv_sync_shared_vtl_state m1 active_cs next_cs;
  m3 ← cpu_resume m2 next_cs;
  m4 ← qemu_cpu_stop m3 active_cs true;
  Some (with_iothread_locked false m4).

Definition hyperv_hcall_vtl_call (m : machine) (active_cs : Z) : option (Z * machine) :=
  next_cs ← hyperv_get_next_vtl m active_cs;
  a ← get_active_vtl m (Some active_cs);
  _ ← get_active_vtl m next_cs;                       (* argument of the trace point *)
  match next_cs with
  | None => Some (-1, m)
  | Some next =>
      if a >? 1 then Some (-1, m)
      else
        m1 ← set_vtl_entry_reason m next HV_VTL_ENTRY_VTL_CALL;
        m2 ← switch_vtl m1 active_cs next;
        Some (EXCP_HALTED, m2)
  end.

Definition hyperv_hcall_vtl_return (m : machine) (active_cs : Z) : option (Z * machine) :=
  next_cs ← hyperv_get_prev_vtl m active_cs;
  _ ← get_active_vtl m (Some active_cs);
  _ ← get_active_vtl m next_cs;                       (* argument of the trace point *)
  next ← next_cs;
  m2 ← switch_vtl m active_cs next;
  Some (EXCP_HALTED, m2).

(** ** Enabling VTLs *)

Section Enable.

(** [HV_NUM_VTLS] of the protocol header. *)
Variable HV_NUM_VTLS : Z.

(** State of a vCPU as [x86_cpu_new] leaves it. *)
Variable new_cpu_state : CPUState.

(** [cpu_physical_memory_map(param, &len, 0)] for an input block of
    [sizeof(struct hv_enable_vp_vtl)] bytes: the block when all of it is
    mapped, [None] when the mapping comes back shorter. *)
Record hv_enable_vp_vtl := {
  partition_id : Z;
  vp_index : Z;
  target_vtl : Z;
  vp_context : hv_init_vp_context.t
}.

Variable cpu_physical_memory_map : Z -> option hv_enable_vp_vtl.

(** A new, zero-filled [VpVsmState] for vCPU [cs] after [vp_vsm_realize]:
    VTL0 enabled, the active VTL that of the vCPU. *)
Definition vp_vsm_realize (cs : Z) : VpVsmState :=
  {| enabled_vtl_set := Z.shiftl 1 0;
     active_vtl := Z.land cs 15;
     vsm_vtl_config := replicate (Z.to_nat HV_NUM_VTLS) 0;
     priv_state := kvm_hv_vcpu_per_vtl_state.zero;
     vp_assist := None |}.

(** [object_property_add_child] aborts when the vCPU already has a child
    of the name ["vp-vsm"]. *)
Definition hyperv_vp_vsm_add (m : machine) (cs : Z) : option machine :=
  c ← cpus m !! cs;
  match vp_vsm c with
  | Some _ => None
  | None => Some (update_cpu m cs (with_vp_vsm (Some (vp_vsm_realize cs)) c))
  end.

Definition hyperv_hcall_vtl_enable_partition_vtl (m : machine) (cs : Z)
    (param1 param2 : Z) (fast : bool) : hv_status * machine :=
  if negb fast then (HV_STATUS_INVALID_HYPERCALL_CODE, m)
  else
    let target_partition_id := param1 in
    let input_target_vtl := Z.land param2 255 in
    let flags_as_u8 := Z.land (Z.shiftr param2 8) 255 in
    let enable_mbec := Z.land flags_as_u8 1 in
    let st := hv_vsm_partition_status m in
    if negb (target_partition_id =? HV_PARTITION_ID_SELF) then
      (HV_STATUS_INVALID_PARTITION_ID, m)
    else if negb (enable_mbec =? 0) then (HV_STATUS_INVALID_PARAMETER, m)
    else if input_target_vtl >? maximum_vtl st then (HV_STATUS_INVALID_PARAMETER, m)
    else if negb (Z.land (p_enabled_vtl_set st) (Z.shiftl 1 input_target_vtl) =? 0) then
      (HV_STATUS_INVALID_PARAMETER, m)
    else
      let st' :=
        {| p_enabled_vtl_set :=
             wrap16 (Z.lor (p_enabled_vtl_set st) (Z.shiftl 1 input_target_vtl));
           maximum_vtl := maximum_vtl st;
           mbec_enabled_vtl_set := mbec_enabled_vtl_set st |} in
      (HV_STATUS_SUCCESS, with_partition_status st' m).

(** Modelled from the spec: [x86_cpu_new] belongs to the machine code;
    the target VTL's context is created lazily, if absent.  The vCPU it
    makes for APIC id [apic_id] gets that number as its [cpu_index]; when
    one exists already the call only warns. *)
Definition x86_cpu_new (m : machine) (apic_id : Z) : machine :=
  match cpus m !! apic_id with
  | Some _ => m
  | None => update_cpu m apic_id (with_vp_vsm None new_cpu_state)
  end.

Definition hyperv_init_vtl_vcpu (m : machine) (cpu : Z) (vp_index vtl : Z)
    : option (machine * option Z) :=
  _ ← cpus m !! cpu;
  let m1 := x86_cpu_new m 1 in
  new_cpu ← hyperv_vsm_vcpu m1 (wrap32 vp_index) (wrap32 vtl);
  _ ← cpu_index m1 new_cpu;                           (* printed *)
  Some (m1, new_cpu).

Definition hyperv_hcall_vtl_enable_vp_vtl (m : machine) (cs : Z) (param : Z)
    (fast : bool) : option (hv_status * machine) :=
  if fast then Some (HV_STATUS_INVALID_HYPERCALL_INPUT, m)
  else
    match cpu_physical_memory_map param with
    | None => Some (HV_STATUS_INVALID_PARAMETER, m)
    | Some input =>
        let tvtl := Z.land (target_vtl input) 15 in
        if negb (partition_id input =? HV_PARTITION_ID_SELF) then
          Some (HV_STATUS_INVALID_PARTITION_ID, m)
        else if negb (vp_index input =? HV_VP_INDEX_SELF) && negb (vp_index input =? 0) then
          Some (HV_STATUS_INVALID_VP_INDEX, m)
        else
          self ← cpu_index m (Some cs);
          target ←
            (if negb (vp_index input =? HV_VP_INDEX_SELF) &&
                negb (vp_index input =? wrap32 self)
             then hyperv_vsm_vcpu m (vp_index input) (wrap32 self)
             else Some (Some cs));
          match target with
          | None => Some (HV_STATUS_INVALID_VP_INDEX, m)
          | Some target_vcpu =>
              let st := hv_vsm_partition_status m in
              if tvtl >? maximum_vtl st then Some (HV_STATUS_INVALID_PARAMETER, m)
              else if Z.land (p_enabled_vtl_set st) (Z.shiftl 1 tvtl) =? 0 then
                Some (HV_STATUS_INVALID_PARAMETER, m)
              else
                tc ← cpus m !! target_vcpu;
                m1 ← (match vp_vsm tc with
                      | None => hyperv_vp_vsm_add m target_vcpu
                      | Some _ => Some m
                      end);
                tc1 ← cpus m1 !! target_vcpu;
                v1 ← vp_vsm tc1;
                if negb (Z.land (enabled_vtl_set v1) (Z.shiftl 1 tvtl) =? 0) then
                  Some (HV_STATUS_INVALID_PARAMETER, m1)
                else
                  '(m2, vtl_cpu) ← hyperv_init_vtl_vcpu m1 target_vcpu target_vcpu tvtl;
                  match vtl_cpu with
                  | None => Some (HV_STATUS_INVALID_PARAMETER, m2)
                  | Some vc =>
                      m3 ← hyperv_vp_vsm_add m2 vc;
                      c3 ← cpus m3 !! vc;
                      let m4 :=
                        update_cpu m3 vc
                          (with_env (hyperv_set_vtl_cpu_state (env c3) (vp_context input)) c3) in
                      tc4 ← cpus m4 !! target_vcpu;
                      v4 ← vp_vsm tc4;
                      let v5 :=
                        with_enabled_vtl_set
                          (wrap16 (Z.lor (enabled_vtl_set v4) (Z.shiftl 1 tvtl))) v4 in
                      Some (HV_STATUS_SUCCESS,
                            update_cpu m4 target_vcpu (with_vp_vsm (Some v5) tc4))
                  end
          end
    end.

End Enable.

(** ** Reading VP registers *)

(** The register names [get_vp_register] dispatches on; [HV_REGISTER_OTHER]
    is any code without a [case]. *)
Inductive hv_register_name :=
  | HV_X64_REGISTER_RSP
  | HV_X64_REGISTER_RIP
  | HV_X64_REGISTER_RFLAGS
  | HV_X64_REGISTER_CR0
  | HV_X64_REGISTER_CR3
  | HV_X64_REGISTER_CR4
  | HV_X64_REGISTER_DR7
  | HV_X64_REGISTER_LDTR
  | HV_X64_REGISTER_TR
  | HV_X64_REGISTER_IDTR
  | HV_X64_REGISTER_GDTR
  | HV_X64_REGISTER_EFER
  | HV_X64_REGISTER_SYSENTER_CS
  | HV_X64_REGISTER_SYSENTER_EIP
  | HV_X64_REGISTER_SYSENTER_ESP
  | HV_X64_REGISTER_STAR
  | HV_X64_REGISTER_LSTAR
  | HV_X64_REGISTER_CSTAR
  | HV_X64_REGISTER_SFMASK
  | HV_X64_REGISTER_TSC_AUX
  | HV_X64_REGISTER_APIC_BASE
  | HV_REGISTER_VSM_CAPABILITIES
  | HV_REGISTER_VSM_PARTITION_STATUS
  | HV_REGISTER_VSM_VP_STATUS
  | HV_REGISTER_VSM_PARTITION_CONFIG
  | HV_REGISTER_VSM_VP_SECURE_CONFIG_VTL (n : Z)       (* VTL0 .. VTL14 *)
  | HV_REGISTER_VP_ASSIST_PAGE
  | HV_REGISTER_VSM_CODE_PAGE_OFFSETS
  | HV_REGISTER_OTHER (code : Z).

(** [struct hv_vp_register_val] *)
Record hv_vp_register_val := { low : Z; high : Z }.

(** [memcpy(&rhs, val, sizeof(rhs))]: the sixteen bytes of [val] laid over
    the packed segment register (little endian). *)
Definition seg_of_val (val : hv_vp_register_val) : hv_x64_segment_register.t :=
  let attributes := Z.land (Z.shiftr (high val) 48) 65535 in
  {| hv_x64_segment_register.base := low val;
     hv_x64_segment_register.limit := Z.land (high val) (2 ^ 32 - 1);
     hv_x64_segment_register.selector := Z.land (Z.shiftr (high val) 32) 65535;
     hv_x64_segment_register.segment_type := Z.land attributes 15;
     hv_x64_segment_register.non_system_segment := Z.land (Z.shiftr attributes 4) 1;
     hv_x64_segment_register.descriptor_privilege_level := Z.land (Z.shiftr attributes 5) 3;
     hv_x64_segment_register.present := Z.land (Z.shiftr attributes 7) 1;
     hv_x64_segment_register.reserved := Z.land (Z.shiftr attributes 8) 15;
     hv_x64_segment_register.available := Z.land (Z.shiftr attributes 12) 1;
     hv_x64_segment_register._long := Z.land (Z.shiftr attributes 13) 1;
     hv_x64_segment_register._default := Z.land (Z.shiftr attributes 14) 1;
     hv_x64_segment_register.granularity := Z.land (Z.shiftr attributes 15) 1 |}.

(** A segment case of [get_vp_register]: [rhs] is filled from the segment
    cache, then overwritten with the bytes of [val]; the pair is the final
    [rhs] (a local) and [val]. *)
Definition get_seg_register (seg : SegmentCache.t) (val : hv_vp_register_val)
    : hv_x64_segment_register.t * hv_vp_register_val :=
  let rhs := hyperv_get_seg seg in
  let rhs' := seg_of_val val in
  (rhs', val).

Definition partition_status_as_u64 (s : partition_status) : Z :=
  Z.lor (Z.lor (Z.land (p_enabled_vtl_set s) 65535)
               (Z.shiftl (Z.land (maximum_vtl s) 15) 16))
        (Z.shiftl (Z.land (mbec_enabled_vtl_set s) 65535) 20).

Definition vp_status_as_u64 (v : VpVsmState) : Z :=
  Z.lor (Z.land (active_vtl v) 15) (Z.shiftl (Z.land (enabled_vtl_set v) 65535) 16).

Definition get_vsm_code_page_offsets (e : CPUX86State.t) : Z :=
  CPUX86State.vsm_code_page_offsets64 e.

Definition get_vsm_vp_secure_vtl_config (m : machine) (cs : Z) (reg_vtl : Z)
    : option (option Z) :=
  target_vtl ← get_active_vtl m (Some cs);
  if (target_vtl =? 0) || (reg_vtl >=? target_vtl) then Some None
  else
    c ← cpus m !! cs;
    v ← vp_vsm c;
    if reg_vtl <? 0 then None
    else
      x ← vsm_vtl_config v !! Z.to_nat reg_vtl;
      Some (Some x).

Definition get_vp_register (m : machine) (name : hv_register_name) (target_vcpu : Z)
    : option (hv_status * hv_vp_register_val) :=
  c ← cpus m !! target_vcpu;
  let e := env c in
  let val := {| low := 0; high := 0 |} in
  let ok (l : Z) := Some (HV_STATUS_SUCCESS, {| low := l; high := high val |}) in
  match name with
  | HV_X64_REGISTER_RSP => ok (CPUX86State.regs e !!! R_ESP)
  | HV_X64_REGISTER_RIP => ok (CPUX86State.eip e)
  | HV_X64_REGISTER_RFLAGS => ok (CPUX86State.eflags e)
  | HV_X64_REGISTER_CR0 => ok (CPUX86State.cr e !!! 0%nat)
  | HV_X64_REGISTER_CR3 => ok (CPUX86State.cr e !!! 3%nat)
  | HV_X64_REGISTER_CR4 => ok (CPUX86State.cr e !!! 4%nat)
  | HV_X64_REGISTER_DR7 => ok (CPUX86State.dr e !!! 7%nat)
  | HV_X64_REGISTER_LDTR =>
      Some (HV_STATUS_SUCCESS, snd (get_seg_register (CPUX86State.ldt e) val))
  | HV_X64_REGISTER_TR =>
      Some (HV_STATUS_SUCCESS, snd (get_seg_register (CPUX86State.tr e) val))
  | HV_X64_REGISTER_IDTR =>
      Some (HV_STATUS_SUCCESS, snd (get_seg_register (CPUX86State.idt e) val))
  | HV_X64_REGISTER_GDTR =>
      Some (HV_STATUS_SUCCESS, snd (get_seg_register (CPUX86State.gdt e) val))
  | HV_X64_REGISTER_EFER => ok (CPUX86State.efer e)
  | HV_X64_REGISTER_SYSENTER_CS => ok (CPUX86State.sysenter_cs e)
  | HV_X64_REGISTER_SYSENTER_EIP => ok (CPUX86State.sysenter_eip e)
  | HV_X64_REGISTER_SYSENTER_ESP => ok (CPUX86State.sysenter_esp e)
  | HV_X64_REGISTER_STAR => ok (CPUX86State.star e)
  | HV_X64_REGISTER_LSTAR => ok (CPUX86State.lstar e)
  | HV_X64_REGISTER_CSTAR => ok (CPUX86State.cstar e)
  | HV_X64_REGISTER_SFMASK => ok (CPUX86State.fmask e)
  | HV_X64_REGISTER_TSC_AUX => ok (CPUX86State.tsc_aux e)
  | HV_X64_REGISTER_APIC_BASE => ok (apic_base c)
  | HV_REGISTER_VSM_CAPABILITIES => ok (hv_vsm_partition_capabilities m)
  | HV_REGISTER_VSM_PARTITION_STATUS =>
      ok (partition_status_as_u64 (hv_vsm_partition_status m))
  | HV_REGISTER_VSM_VP_STATUS => v ← vp_vsm c; ok (vp_status_as_u64 v)
  | HV_REGISTER_VSM_PARTITION_CONFIG =>
      x ← hv_vsm_partition_config m !! Z.to_nat target_vcpu; ok x
  | HV_REGISTER_VSM_VP_SECURE_CONFIG_VTL n =>
      r ← get_vsm_vp_secure_vtl_config m target_vcpu n;
      match r with
      | None => Some (HV_STATUS_INVALID_PARAMETER, val)
      | Some x => ok x
      end
  | HV_REGISTER_VP_ASSIST_PAGE => ok (CPUX86State.msr_hv_vapic e)
  | HV_REGISTER_VSM_CODE_PAGE_OFFSETS => ok (get_vsm_code_page_offsets e)
  | HV_REGISTER_OTHER _ => Some (HV_STATUS_INVALID_PARAMETER, val)
  end.

End Vsm.

(** * Connection registries and the hypercalls that look them up *)

Module Handlers.

(** Host error numbers of the registration functions (errno.h on Linux). *)
Definition ENOENT : Z := 2.
Definition EEXIST : Z := 17.

(** Modelled from the spec: the [HV_STATUS_*] result codes of the protocol
    header that POST_MESSAGE and SIGNAL_EVENT return, with the values the
    Hyper-V interface fixes. *)
Definition HV_STATUS_INVALID_HYPERCALL_CODE : Z := 2.
Definition HV_STATUS_INVALID_HYPERCALL_INPUT : Z := 3.
Definition HV_STATUS_INVALID_ALIGNMENT : Z := 4.
Definition HV_STATUS_INSUFFICIENT_MEMORY : Z := 11.
Definition HV_STATUS_INVALID_PORT_ID : Z := 17.
Definition HV_STATUS_INVALID_CONNECTION_ID : Z := 18.

(** Modelled from the spec: [struct hyperv_post_message_input] of the
    protocol header, the input block of POST_MESSAGE. *)
Record hyperv_post_message_input := {
  connection_id : Z;
  message_type : Z;
  payload_size : Z;
  payload : list Z
}.

(** [HvMsgHandler]: the handler gets the message and the [data] it was
    registered with and returns a result code. *)
Definition HvMsgHandler : Type := hyperv_post_message_input -> Z -> Z.

(** [struct MsgHandler] *)
Module MsgHandler.
Record t := { conn_id : Z; handler : HvMsgHandler; data : Z }.
End MsgHandler.

(** [struct EventFlagHandler]; an [EventNotifier *] is a number. *)
Module EventFlagHandler.
Record t := { conn_id : Z; notifier : Z }.
End EventFlagHandler.

(** [QLIST_FOREACH (h, list, link) if (h->conn_id == k) ..]: the first
    entry with the key, from the head. *)
Fixpoint qlist_find {A : Type} (key : A -> Z) (k : Z) (l : list A) : option A :=
  match l with
  | [] => None
  | h :: l' => if key h =? k then Some h else qlist_find key k l'
  end.

(** [QLIST_REMOVE_RCU] of that entry. *)
Fixpoint qlist_remove {A : Type} (key : A -> Z) (k : Z) (l : list A) : list A :=
  match l with
  | [] => []
  | h :: l' => if key h =? k then l' else h :: qlist_remove key k l'
  end.

(** The result and the new [msg_handlers]; [handler = None] is a [NULL]
    handler, the request to unregister. *)
Definition hyperv_set_msg_handler (msg_handlers : list MsgHandler.t) (conn_id : Z)
    (handler : option HvMsgHandler) (data : Z) : Z * list MsgHandler.t :=
  match qlist_find MsgHandler.conn_id conn_id msg_handlers with
  | Some mh =>
      match handler with
      | Some _ => (- EEXIST, msg_handlers)
      | None => (0, qlist_remove MsgHandler.conn_id conn_id msg_handlers)
      end
  | None =>
      match handler with
      | Some h =>
          (0, {| MsgHandler.conn_id := conn_id; MsgHandler.handler := h;
                 MsgHandler.data := data |} :: msg_handlers)
      | None => (- ENOENT, msg_handlers)
      end
  end.

(** The same for [event_flag_handlers]; [notifier = None] is [NULL]. *)
Definition set_event_flag_handler (event_flag_handlers : list EventFlagHandler.t)
    (conn_id : Z) (notifier : option Z) : Z * list EventFlagHandler.t :=
  match qlist_find EventFlagHandler.conn_id conn_id event_flag_handlers with
  | Some handler =>
      match notifier with
      | Some _ => (- EEXIST, event_flag_handlers)
      | None => (0, qlist_remove EventFlagHandler.conn_id conn_id event_flag_handlers)
      end
  | None =>
      match notifier with
      | Some n =>
          (0, {| EventFlagHandler.conn_id := conn_id; EventFlagHandler.notifier := n |}
                :: event_flag_handlers)
      | None => (- ENOENT, event_flag_handlers)
      end
  end.

(** The event-flag table with the file-level flag that selects it. *)
Record event_registry := {
  process_event_flags_userspace : bool;
  event_flag_handlers : list EventFlagHandler.t
}.

Section Hypercalls.

(** [HV_CONNECTION_ID_MASK] of the protocol header, a plain integer
    constant. *)
Variable HV_CONNECTION_ID_MASK : Z.

(** [__alignof__(struct hyperv_post_message_input)] and
    [sizeof(msg->payload)]. *)
Variable msg_align : Z.
Variable payload_capacity : Z.

(** [cpu_physical_memory_map(param, &len, 0)] for the input block: the
    block when all of it is mapped, [None] when the mapping comes back
    shorter. *)
Variable cpu_physical_memory_map : Z -> option hyperv_post_message_input.

(** [ldq_phys(&address_space_memory, addr)] *)
Variable ldq_phys : Z -> Z.

(** [kvm_check_extension(kvm_state, KVM_CAP_HYPERV_EVENTFD)] and what the
    [KVM_HYPERV_EVENTFD] ioctl returns. *)
Variable kvm_has_hyperv_eventfd : bool.
Variable kvm_vm_ioctl_rc : Z.

(** [ret] is a [uint16_t]: the handler's result is converted to it. *)
Definition hyperv_hcall_post_message (msg_handlers : list MsgHandler.t) (param : Z)
    (fast : bool) : Z :=
  if fast then HV_STATUS_INVALID_HYPERCALL_CODE
  else if negb (Z.land param (msg_align - 1) =? 0) then HV_STATUS_INVALID_ALIGNMENT
  else
    match cpu_physical_memory_map param with
    | None => HV_STATUS_INSUFFICIENT_MEMORY
    | Some msg =>
        if payload_size msg >? payload_capacity then HV_STATUS_INVALID_HYPERCALL_INPUT
        else
          match qlist_find MsgHandler.conn_id
                  (Z.land (connection_id msg) HV_CONNECTION_ID_MASK) msg_handlers with
          | Some mh => Vsm.wrap16 (MsgHandler.handler mh msg (MsgHandler.data mh))
          | None => HV_STATUS_INVALID_CONNECTION_ID
          end
    end.

Definition hyperv_set_event_flag_handler (r : event_registry) (conn_id : Z)
    (notifier : option Z) : Z * event_registry :=
  let userspace :=
    if negb (process_event_flags_userspace r) && negb kvm_has_hyperv_eventfd then true
    else process_event_flags_userspace r in
  if negb userspace then
    (kvm_vm_ioctl_rc,
     {| process_event_flags_userspace := userspace;
        event_flag_handlers := event_flag_handlers r |})
  else
    let '(ret, l) := set_event_flag_handler (event_flag_handlers r) conn_id notifier in
    (ret, {| process_event_flags_userspace := userspace; event_flag_handlers := l |}).

(** The result and the notifiers [event_notifier_set] was called on.
    [hwaddr] is a 64-bit integer, aligned to 8; the complement of the
    connection-id mask covers every other bit of the 64-bit parameter. *)
Definition hyperv_hcall_signal_event (event_flag_handlers : list EventFlagHandler.t)
    (param : Z) (fast : bool) : Z * list Z :=
  let lookup (param : Z) : Z * list Z :=
    if negb (Z.land param 281470681743360 =? 0) then (HV_STATUS_INVALID_PORT_ID, [])
    else if negb (Z.ldiff param HV_CONNECTION_ID_MASK =? 0) then
      (HV_STATUS_INVALID_HYPERCALL_INPUT, [])
    else
      match qlist_find EventFlagHandler.conn_id param event_flag_handlers with
      | Some handler => (0, [EventFlagHandler.notifier handler])
      | None => (HV_STATUS_INVALID_CONNECTION_ID, [])
      end in
  if negb fast then
    if negb (Z.land param (8 - 1) =? 0) then (HV_STATUS_INVALID_ALIGNMENT, [])
    else lookup (ldq_phys param)
  else lookup param.

End Hypercalls.

End Handlers.

(** * The SynIC device: page mapping, reset, creation of a SINT route *)

Module SynICDev.
Import SynIC.

(** Calls on the system memory region. *)
Inductive region_op :=
  | msg_page_del                      (* memory_region_del_subregion(.., &synic->msg_page_mr) *)
  | msg_page_add (addr : Z)           (* memory_region_add_subregion(.., addr, &synic->msg_page_mr) *)
  | event_page_del
  | event_page_add (addr : Z).

Definition synic_update (synic : SynICState) (sctl_enable : bool)
    (msg_page_addr' event_page_addr' : Z) : SynICState * list region_op :=
  let msg_changed := negb (msg_page_addr synic =? msg_page_addr') in
  let event_changed := negb (event_page_addr synic =? event_page_addr') in
  let ops1 :=
    if msg_changed then
      (if negb (msg_page_addr synic =? 0) then [msg_page_del] else []) ++
      (if negb (msg_page_addr' =? 0) then [msg_page_add msg_page_addr'] else [])
    else [] in
  let ops2 :=
    if event_changed then
      (if negb (event_page_addr synic =? 0) then [event_page_del] else []) ++
      (if negb (event_page_addr' =? 0) then [event_page_add event_page_addr'] else [])
    else [] in
  ({| sctl_enabled := sctl_enable;
      msg_page_addr := if msg_changed then msg_page_addr' else msg_page_addr synic;
      event_page_addr := if event_changed then event_page_addr' else event_page_addr synic;
      msg_page := msg_page synic;
      event_page := event_page synic |},
   ops1 ++ ops2).

(** [get_synic(cs)] gives [NULL] for a vCPU without a SynIC. *)
Definition hyperv_synic_update (synic : option SynICState) (sctl_enable : bool)
    (msg_page_addr' event_page_addr' : Z) : option SynICState * list region_op :=
  match synic with
  | None => (None, [])
  | Some s =>
      let '(s', ops) := synic_update s sctl_enable msg_page_addr' event_page_addr' in
      (Some s', ops)
  end.

(** [memset(.., 0, ..)] over a message slot. *)
Definition zero_message (m : hyperv_message) : hyperv_message :=
  {| message_type := 0; payload_size := 0; message_flags := 0; sender := 0;
     payload := replicate (length (payload m)) 0 |}.

(** [None] is the failed [assert(QLIST_EMPTY(&synic->sint_routes))]. *)
Definition synic_reset (synic : SynICState) (sint_routes : list HvSintRoute)
    : option (SynICState * list region_op) :=
  let s1 := with_msg_page (map zero_message (msg_page synic)) synic in
  let s2 := with_event_page (replicate (length (event_page synic)) 0) s1 in
  let r := synic_update s2 false 0 0 in
  match sint_routes with
  | [] => Some r
  | _ :: _ => None
  end.

(** What the error paths of [hyperv_sint_route_new] undo. *)
Inductive cleanup :=
  | release_virq (g : Z)              (* kvm_irqchip_release_virq(kvm_state, gsi) *)
  | cleanup_set_notifier              (* event_notifier_cleanup(&sint_route->sint_set_notifier) *)
  | cleanup_ack_notifier              (* handler removed, event_notifier_cleanup(ack_notifier) *)
  | free_staged_msg                   (* g_free(sint_route->staged_msg) *)
  | free_sint_route.                  (* g_free(sint_route) *)

Section RouteNew.

(** [get_synic(cs)]: the SynIC of a vCPU, if it has one. *)
Variable get_synic : Z -> option SynICState.

(** Results of [event_notifier_init] on the ack and on the set notifier,
    of [kvm_irqchip_add_hv_sint_route(kvm_state, vp_index, sint)] and of
    [kvm_irqchip_add_irqfd_notifier_gsi(.., gsi)]. *)
Variable ack_notifier_init_rc : Z.
Variable set_notifier_init_rc : Z.
Variable kvm_irqchip_add_hv_sint_route : Z -> Z -> Z.
Variable kvm_irqchip_add_irqfd_notifier_gsi : Z -> Z.

(** The number of payload bytes of a [struct hyperv_message], from a
    header outside the file. *)
Variable HV_MESSAGE_PAYLOAD_BYTE_COUNT : nat.

(** [None] is the failed [assert]. *)
Definition hyperv_find_vcpu (m : Vsm.machine) (vp_index : Z) : option (option Z) :=
  let cs := Vsm.qemu_get_cpu m (Vsm.to_int32 vp_index) in
  idx ← Vsm.hyperv_vp_index m cs;
  if wrap32 idx =? vp_index then Some cs else None.

(** The [cleanup_err_sint] label. *)
Definition cleanup_err_sint (cb ack_event_initialized : bool) : list cleanup :=
  (if cb then
     (if ack_event_initialized then [cleanup_ack_notifier] else []) ++ [free_staged_msg]
   else []) ++ [free_sint_route].

(** The pointer returned ([None]: [NULL]), the [sint_routes] list of the
    SynIC afterwards, and what was undone.  [cb] tells whether a
    completion callback was passed; the zero-filled staging area has the
    state [HV_STAGED_MSG_FREE]. *)
Definition hyperv_sint_route_new (m : Vsm.machine) (sint_routes : list HvSintRoute)
    (vp_index sint : Z) (cb : bool) (cb_data : Z)
    : option (option HvSintRoute * list HvSintRoute * list cleanup) :=
  cs ← hyperv_find_vcpu m vp_index;
  match cs with
  | None => Some (None, sint_routes, [])
  | Some c =>
      match get_synic c with
      | None => Some (None, sint_routes, [])
      | Some synic =>
          let staged :=
            if cb then
              Some {| msg := {| message_type := 0; payload_size := 0;
                                message_flags := 0; sender := 0;
                                payload := replicate HV_MESSAGE_PAYLOAD_BYTE_COUNT 0 |};
                      cb_data := cb_data; status := 0; state := HV_STAGED_MSG_FREE |}
            else None in
          let route (g : Z) :=
            {| sint := sint; gsi := g; staged_msg := staged; refcount := 1 |} in
          if cb && negb (ack_notifier_init_rc =? 0) then
            Some (None, sint_routes, cleanup_err_sint cb false)
          else if negb (sctl_enabled synic) then
            Some (Some (route 0), route 0 :: sint_routes, [])
          else if negb (set_notifier_init_rc =? 0) then
            Some (None, sint_routes, cleanup_err_sint cb cb)
          else
            let gsi := kvm_irqchip_add_hv_sint_route vp_index sint in
            if gsi <? 0 then
              Some (None, sint_routes, cleanup_set_notifier :: cleanup_err_sint cb cb)
            else if negb (kvm_irqchip_add_irqfd_notifier_gsi gsi =? 0) then
              Some (None, sint_routes,
                    release_virq gsi :: cleanup_set_notifier :: cleanup_err_sint cb cb)
            else
              Some (Some (route gsi), route gsi :: sint_routes, [])
      end
  end.

End RouteNew.

End SynICDev.

(** * Writing VP registers, the VP assist page, interrupt-driven VTL entry *)

Module VsmRegs.
Import Vsm.

Definition with_vsm_vtl_config (l : list Z) (v : VpVsmState) : VpVsmState :=
  {| enabled_vtl_set := enabled_vtl_set v; active_vtl := active_vtl v;
     vsm_vtl_config := l; priv_state := priv_state v; vp_assist := vp_assist v |}.

Definition with_partition_config (l : list Z) (m : machine) : machine :=
  {| cpus := cpus m; hv_vsm_partition_status := hv_vsm_partition_status m;
     hv_vsm_partition_capabilities := hv_vsm_partition_capabilities m;
     hv_vsm_partition_config := l;
     iothread_locked := iothread_locked m |}.

(** ** The VTL control block of the VP assist page *)

(** The caller's [*vtl_control] after the call. *)
Definition hv_read_vtl_control (m : machine) (cs : Z) (vtl_control : hv_vp_vtl_control)
    : option hv_vp_vtl_control :=
  c ← cpus m !! cs;
  vpvsm ← vp_vsm c;
  match vp_assist vpvsm with
  | None => Some vtl_control
  | Some ctl => Some ctl
  end.

(** ** Secure-configuration registers *)

(** The result and the machine; the check that MBEC is supported only
    prints. *)
Definition set_vsm_vp_secure_vtl_config (m : machine) (cs : Z) (reg_vtl : Z) (data : Z)
    : option (bool * machine) :=
  target_vtl ← get_active_vtl m (Some cs);
  if (target_vtl =? 0) || (reg_vtl >=? target_vtl) then Some (false, m)
  else
    c ← cpus m !! cs;
    v ← vp_vsm c;
    if reg_vtl <? 0 then None
    else
      _ ← vsm_vtl_config v !! Z.to_nat reg_vtl;
      Some (true,
            update_cpu m cs
              (with_vp_vsm
                 (Some (with_vsm_vtl_config
                          (<[Z.to_nat reg_vtl := data]> (vsm_vtl_config v)) v)) c)).

(** [to.f = from.f] for a bit-field [f] that occupies the bits [bits] of
    the 64-bit word. *)
Definition copy_bits (bits from to : Z) : Z :=
  Z.lor (Z.ldiff to bits) (Z.land from bits).

(** [struct hv_get_set_vp_registers], the fixed part of the input of the
    register hypercalls; [input_vtl] is the byte [as_uint8] of the
    union. *)
Module hv_get_set_vp_registers.
Record t := { partition_id : Z; vp_index : Z; input_vtl : Z }.
End hv_get_set_vp_registers.

(** [exit->u.hcall] of [struct kvm_hyperv_exit]: the hypercall input
    value, the two parameters and the XMM registers as 64-bit halves. *)
Module kvm_hyperv_exit.
Record t := { input : Z; ingpa : Z; outgpa : Z; xmm : list Z }.
End kvm_hyperv_exit.

Definition wrap64 (x : Z) : Z := x mod 2 ^ 64.

(** Modelled from the spec: [ROUND_UP] of [qemu/osdep.h], the next
    multiple of [d]. *)
Definition ROUND_UP (n d : Z) : Z := (n + d - 1) / d * d.

Definition KVM_HV_VP_REGISTER_LIST_SIZE : Z := 16.

(** What the register code takes from outside this file: the layout of
    two bit-fields, an index, register codes and MSR bits of the headers,
    and the mapping of guest memory. *)
Record platform := {
  (** the bits of [union hv_register_vsm_partition_config] that the fields
      [enable_vtl_protection] and [default_vtl_protection_mask] occupy *)
  enable_vtl_protection_bits : Z;
  default_vtl_protection_mask_bits : Z;
  (** the index [REG_RSP] names in the headers this file includes *)
  REG_RSP : nat;
  (** codes of the registers [set_vp_register] accepts and that
      [hv_register_name] leaves under [HV_REGISTER_OTHER] *)
  HV_X64_REGISTER_PENDING_EVENT0 : Z;
  HV_REGISTER_VSM_VINA : Z;
  HV_X64_REGISTER_CR_INTERCEPT_CONTROL : Z;
  HV_X64_REGISTER_CR_INTERCEPT_CR0_MASK : Z;
  HV_X64_REGISTER_CR_INTERCEPT_CR4_MASK : Z;
  HV_X64_REGISTER_CR_INTERCEPT_IA32_MISC_ENABLE_MASK : Z;
  (** bits of the VP assist page MSR *)
  HV_X64_MSR_VP_ASSIST_PAGE_ADDRESS_MASK : Z;
  HV_X64_MSR_VP_ASSIST_PAGE_ENABLE : Z;
  (** [cpu_physical_memory_map(gpa, &len, 0)] of the assist page: the VTL
      control block found there, [None] for [NULL] *)
  map_vp_assist : Z -> option hv_vp_vtl_control;
  (** [HV_NUM_VTLS] and the bits of the hypercall input value *)
  HV_NUM_VTLS : Z;
  HV_HYPERCALL_FAST : Z;
  HV_HYPERCALL_REP_COMP_OFFSET : Z;
  HV_HYPERCALL_REP_START_OFFSET : Z;
  (** the register a 32-bit code of the protocol header names *)
  register_name : Z -> hv_register_name;
  (** [cpu_physical_memory_read] of the input block, of [n] register codes
      and of [n] register values at a guest address *)
  read_input : Z -> hv_get_set_vp_registers.t;
  read_names : Z -> nat -> list Z;
  read_vals : Z -> nat -> list hv_vp_register_val
}.

Section Registers.

Variable P : platform.

(** The warning about VP-startup intercepts only prints. *)
Definition set_vsm_partition_config (m : machine) (vtl : Z) (data : Z) : option machine :=
  old ← hv_vsm_partition_config m !! Z.to_nat vtl;
  let new_val :=
    if negb (Z.land old (enable_vtl_protection_bits P) =? 0) then
      copy_bits (default_vtl_protection_mask_bits P) old
        (copy_bits (enable_vtl_protection_bits P) old data)
    else data in
  Some (with_partition_config (<[Z.to_nat vtl := new_val]> (hv_vsm_partition_config m)) m).

(** The machine afterwards and the page handed to
    [cpu_physical_memory_unmap] ([None]: no call).  A page that was
    mapped is unmapped before the enable bit is looked at, and
    [vpvsm->vp_assist] is not cleared: with the bit clear the pointer
    keeps its value although its page has been unmapped; with the bit set
    it becomes what [cpu_physical_memory_map] returns, [NULL] included. *)
Definition hyperv_setup_vp_assist (m : machine) (cs : Z) (data : Z) (vtl : Z)
    : option (machine * option hv_vp_vtl_control) :=
  c ← cpus m !! cs;
  let gpa := Z.land data (HV_X64_MSR_VP_ASSIST_PAGE_ADDRESS_MASK P) in
  let enable := negb (Z.land data (HV_X64_MSR_VP_ASSIST_PAGE_ENABLE P) =? 0) in
  _ ← hyperv_vp_index m (Some cs);                    (* argument of the trace point *)
  a ← get_active_vtl m (Some cs);
  if negb (vtl =? a) then Some (m, None)
  else
    match vp_vsm c with
    | None => Some (m, None)
    | Some vpvsm =>
        let unmapped := vp_assist vpvsm in
        if negb enable then Some (m, unmapped)
        else
          Some (update_cpu m cs
                  (with_vp_vsm (Some (with_vp_assist (map_vp_assist P gpa) vpvsm)) c),
                unmapped)
    end.

(** ** Writing a register *)

(** One assignment to a field of [env]. *)
Inductive env_write :=
  | W_regs (i : nat) (v : Z)
  | W_eip (v : Z)
  | W_eflags (v : Z)
  | W_cr (i : nat) (v : Z)
  | W_dr (i : nat) (v : Z)
  | W_ldt (s : SegmentCache.t)
  | W_tr (s : SegmentCache.t)
  | W_idt (s : SegmentCache.t)
  | W_gdt (s : SegmentCache.t)
  | W_efer (v : Z)
  | W_sysenter_cs (v : Z)
  | W_sysenter_eip (v : Z)
  | W_sysenter_esp (v : Z)
  | W_star (v : Z)
  | W_lstar (v : Z)
  | W_cstar (v : Z)
  | W_fmask (v : Z)
  | W_tsc_aux (v : Z)
  | W_msr_hv_vapic (v : Z).

Definition env_assign (w : env_write) (e : CPUX86State.t) : CPUX86State.t :=
  {| CPUX86State.regs :=
       match w with W_regs i v => <[i := v]> (CPUX86State.regs e)
                  | _ => CPUX86State.regs e end;
     CPUX86State.eip := match w with W_eip v => v | _ => CPUX86State.eip e end;
     CPUX86State.eflags := match w with W_eflags v => v | _ => CPUX86State.eflags e end;
     CPUX86State.segs := CPUX86State.segs e;
     CPUX86State.ldt := match w with W_ldt s => s | _ => CPUX86State.ldt e end;
     CPUX86State.tr := match w with W_tr s => s | _ => CPUX86State.tr e end;
     CPUX86State.gdt := match w with W_gdt s => s | _ => CPUX86State.gdt e end;
     CPUX86State.idt := match w with W_idt s => s | _ => CPUX86State.idt e end;
     CPUX86State.cr :=
       match w with W_cr i v => <[i := v]> (CPUX86State.cr e) | _ => CPUX86State.cr e end;
     CPUX86State.dr :=
       match w with W_dr i v => <[i := v]> (CPUX86State.dr e) | _ => CPUX86State.dr e end;
     CPUX86State.efer := match w with W_efer v => v | _ => CPUX86State.efer e end;
     CPUX86State.pat := CPUX86State.pat e;
     CPUX86State.mp_state := CPUX86State.mp_state e;
     CPUX86State.kernelgsbase := CPUX86State.kernelgsbase e;
     CPUX86State.gsbase := CPUX86State.gsbase e;
     CPUX86State.fsbase := CPUX86State.fsbase e;
     CPUX86State.tsc_aux := match w with W_tsc_aux v => v | _ => CPUX86State.tsc_aux e end;
     CPUX86State.sysenter_cs :=
       match w with W_sysenter_cs v => v | _ => CPUX86State.sysenter_cs e end;
     CPUX86State.sysenter_esp :=
       match w with W_sysenter_esp v => v | _ => CPUX86State.sysenter_esp e end;
     CPUX86State.sysenter_eip :=
       match w with W_sysenter_eip v => v | _ => CPUX86State.sysenter_eip e end;
     CPUX86State.star := match w with W_star v => v | _ => CPUX86State.star e end;
     CPUX86State.lstar := match w with W_lstar v => v | _ => CPUX86State.lstar e end;
     CPUX86State.cstar := match w with W_cstar v => v | _ => CPUX86State.cstar e end;
     CPUX86State.fmask := match w with W_fmask v => v | _ => CPUX86State.fmask e end;
     CPUX86State.msr_hv_synic_control := CPUX86State.msr_hv_synic_control e;
     CPUX86State.msr_hv_synic_evt_page := CPUX86State.msr_hv_synic_evt_page e;
     CPUX86State.msr_hv_synic_msg_page := CPUX86State.msr_hv_synic_msg_page e;
     CPUX86State.msr_hv_synic_sint := CPUX86State.msr_hv_synic_sint e;
     CPUX86State.msr_hv_stimer_config := CPUX86State.msr_hv_stimer_config e;
     CPUX86State.msr_hv_stimer_count := CPUX86State.msr_hv_stimer_count e;
     CPUX86State.msr_hv_guest_os_id := CPUX86State.msr_hv_guest_os_id e;
     CPUX86State.msr_hv_hypercall := CPUX86State.msr_hv_hypercall e;
     CPUX86State.msr_hv_tsc := CPUX86State.msr_hv_tsc e;
     CPUX86State.msr_hv_vapic :=
       match w with W_msr_hv_vapic v => v | _ => CPUX86State.msr_hv_vapic e end;
     CPUX86State.vsm_code_page_offsets64 := CPUX86State.vsm_code_page_offsets64 e;
     CPUX86State.vsm_code_page_offsets32 := CPUX86State.vsm_code_page_offsets32 e;
     CPUX86State.exception_nr := CPUX86State.exception_nr e;
     CPUX86State.interrupt_injected := CPUX86State.interrupt_injected e;
     CPUX86State.soft_interrupt := CPUX86State.soft_interrupt e;
     CPUX86State.exception_pending := CPUX86State.exception_pending e;
     CPUX86State.exception_injected := CPUX86State.exception_injected e;
     CPUX86State.has_error_code := CPUX86State.has_error_code e;
     CPUX86State.exception_has_payload := CPUX86State.exception_has_payload e;
     CPUX86State.exception_payload := CPUX86State.exception_payload e;
     CPUX86State.triple_fault_pending := CPUX86State.triple_fault_pending e;
     CPUX86State.ins_len := CPUX86State.ins_len e;
     CPUX86State.sipi_vector := CPUX86State.sipi_vector e;
     CPUX86State.other := CPUX86State.other e |}.

(** The status, the machine and [*dirty] after the call.  A write outside
    [env->regs] is a fault; [sysenter_cs] is a 32-bit field of
    [CPUX86State]. *)
Definition set_vp_register (m : machine) (name : hv_register_name)
    (val : hv_vp_register_val) (target_vcpu : Z) (dirty : bool)
    : option (hv_status * machine * bool) :=
  c ← cpus m !! target_vcpu;
  let e := env c in
  let store (w : env_write) :=
    Some (HV_STATUS_SUCCESS, update_cpu m target_vcpu (with_env (env_assign w e) c), true) in
  match name with
  | HV_X64_REGISTER_RSP =>
      if decide (REG_RSP P < length (CPUX86State.regs e))%nat
      then store (W_regs (REG_RSP P) (low val)) else None
  | HV_X64_REGISTER_RIP => store (W_eip (low val))
  | HV_X64_REGISTER_RFLAGS => store (W_eflags (low val))
  | HV_X64_REGISTER_CR0 => store (W_cr 0%nat (low val))
  | HV_X64_REGISTER_CR3 => store (W_cr 3%nat (low val))
  | HV_X64_REGISTER_CR4 => store (W_cr 4%nat (low val))
  | HV_X64_REGISTER_DR7 => store (W_dr 7%nat (low val))
  | HV_X64_REGISTER_LDTR =>
      store (W_ldt (hyperv_set_seg (CPUX86State.ldt e) (seg_of_val val)))
  | HV_X64_REGISTER_TR =>
      store (W_tr (hyperv_set_seg (CPUX86State.tr e) (seg_of_val val)))
  | HV_X64_REGISTER_IDTR =>
      store (W_idt (hyperv_set_seg (CPUX86State.idt e) (seg_of_val val)))
  | HV_X64_REGISTER_GDTR =>
      store (W_gdt (hyperv_set_seg (CPUX86State.gdt e) (seg_of_val val)))
  | HV_X64_REGISTER_EFER => store (W_efer (low val))
  | HV_X64_REGISTER_SYSENTER_CS => store (W_sysenter_cs (wrap32 (low val)))
  | HV_X64_REGISTER_SYSENTER_EIP => store (W_sysenter_eip (low val))
  | HV_X64_REGISTER_SYSENTER_ESP => store (W_sysenter_esp (low val))
  | HV_X64_REGISTER_STAR => store (W_star (low val))
  | HV_X64_REGISTER_LSTAR => store (W_lstar (low val))
  | HV_X64_REGISTER_CSTAR => store (W_cstar (low val))
  | HV_X64_REGISTER_SFMASK => store (W_fmask (low val))
  | HV_X64_REGISTER_TSC_AUX => store (W_tsc_aux (low val))
  | HV_REGISTER_VSM_PARTITION_CONFIG =>
      a ← get_active_vtl m (Some target_vcpu);
      m' ← set_vsm_partition_config m (Z.land a 255) (low val);
      Some (HV_STATUS_SUCCESS, m', true)
  | HV_REGISTER_VSM_VP_SECURE_CONFIG_VTL n =>
      match set_vsm_vp_secure_vtl_config m target_vcpu n (low val) with
      | None => None
      | Some (true, m') => Some (HV_STATUS_SUCCESS, m', true)
      | Some (false, m') => Some (HV_STATUS_INVALID_PARAMETER, m', dirty)
      end
  | HV_REGISTER_VP_ASSIST_PAGE =>
      let m1 := update_cpu m target_vcpu (with_env (env_assign (W_msr_hv_vapic (low val)) e) c) in
      a ← get_active_vtl m1 (Some target_vcpu);
      r ← hyperv_setup_vp_assist m1 target_vcpu (low val) a;
      Some (HV_STATUS_SUCCESS, r.1, true)        (* r.2: the page unmapped on the way *)
  | HV_REGISTER_OTHER code =>
      if code =? (HV_X64_REGISTER_PENDING_EVENT0 P) then Some (HV_STATUS_SUCCESS, m, true)
      else if (code =? (HV_REGISTER_VSM_VINA P))
              || (code =? (HV_X64_REGISTER_CR_INTERCEPT_CONTROL P))
              || (code =? (HV_X64_REGISTER_CR_INTERCEPT_CR0_MASK P))
              || (code =? (HV_X64_REGISTER_CR_INTERCEPT_CR4_MASK P))
              || (code =? (HV_X64_REGISTER_CR_INTERCEPT_IA32_MISC_ENABLE_MASK P))
      then Some (HV_STATUS_SUCCESS, m, dirty)
      else Some (HV_STATUS_INVALID_PARAMETER, m, dirty)
  | HV_X64_REGISTER_APIC_BASE
  | HV_REGISTER_VSM_CAPABILITIES
  | HV_REGISTER_VSM_PARTITION_STATUS
  | HV_REGISTER_VSM_VP_STATUS
  | HV_REGISTER_VSM_CODE_PAGE_OFFSETS => Some (HV_STATUS_INVALID_PARAMETER, m, dirty)
  end.

(** ** The GET/SET_VP_REGISTERS hypercall *)

(** The loop over the registers, from one register on: the status of the
    last access made, the machine, [dirty], and the values gathered in
    [vals].  It stops at the first access that fails. *)
Fixpoint access_registers (set : bool) (target_vcpu : Z) (names : list Z)
    (vals : list hv_vp_register_val) (m : machine) (dirty : bool)
    (done : list hv_vp_register_val)
    : option (hv_status * machine * bool * list hv_vp_register_val) :=
  match names, vals with
  | [], _ => Some (HV_STATUS_SUCCESS, m, dirty, done)
  | name :: names', val :: vals' =>
      if set then
        match set_vp_register m (register_name P name) val target_vcpu dirty with
        | None => None
        | Some (HV_STATUS_SUCCESS, m', dirty') =>
            access_registers set target_vcpu names' vals' m' dirty' (done ++ [val])
        | Some (status, m', dirty') => Some (status, m', dirty', done ++ [val])
        end
      else
        match get_vp_register m (register_name P name) target_vcpu with
        | None => None
        | Some (HV_STATUS_SUCCESS, val') =>
            access_registers set target_vcpu names' vals' m dirty (done ++ [val'])
        | Some (status, val') => Some (status, m, dirty, done ++ [val'])
        end
  | _ :: _, [] => None
  end.

(** [xmm[i] = v] *)
Definition xmm_store (i : nat) (v : Z) (e : kvm_hyperv_exit.t) : kvm_hyperv_exit.t :=
  {| kvm_hyperv_exit.input := kvm_hyperv_exit.input e;
     kvm_hyperv_exit.ingpa := kvm_hyperv_exit.ingpa e;
     kvm_hyperv_exit.outgpa := kvm_hyperv_exit.outgpa e;
     kvm_hyperv_exit.xmm := <[i := v]> (kvm_hyperv_exit.xmm e) |}.

(** [for (i = 0; i < nregs; ++i, xmm_index += 2) { xmm[xmm_index] =
    vals[i].low; xmm[xmm_index + 1] = vals[i].high; }] *)
Fixpoint xmm_store_vals (xmm_index : nat) (vals : list hv_vp_register_val)
    (e : kvm_hyperv_exit.t) : kvm_hyperv_exit.t :=
  match vals with
  | [] => e
  | val :: vals' =>
      xmm_store_vals (xmm_index + 2) vals'
        (xmm_store (xmm_index + 1) (high val) (xmm_store xmm_index (low val) e))
  end.

(** The result of the hypercall is the 64-bit value returned, as the
    status in its low bits and the count of completed repetitions at
    [HV_HYPERCALL_REP_COMP_OFFSET]; then the machine, the exit structure
    and, for a memory-based GET, the values written to guest memory and
    their address. *)
Definition hcall_result : Type :=
  hv_status * Z * machine * kvm_hyperv_exit.t * option (Z * list hv_vp_register_val).

(** The function from the check of the partition id on: the input is
    marshalled into the fixed part [inp], the register codes [names] and
    the values [vals]; [xmm_index] is the next free XMM half.  With no
    register to access the function tests [status] before anything was
    assigned to it: [None]. *)
Definition get_set_marshalled (m : machine) (cs : Z) (exit : kvm_hyperv_exit.t)
    (set fast : bool) (nregs rep_idx : Z) (inp : hv_get_set_vp_registers.t)
    (names : list Z) (vals : list hv_vp_register_val) (xmm_index : nat)
    : option hcall_result :=
  let fail (status : hv_status) : option hcall_result := Some (status, 0, m, exit, None) in
  if negb (hv_get_set_vp_registers.partition_id inp =? HV_PARTITION_ID_SELF) then
    fail HV_STATUS_INVALID_PARTITION_ID
  else
    a ← get_active_vtl m (Some cs);
    let use_target_vtl := negb (Z.land (hv_get_set_vp_registers.input_vtl inp) 16 =? 0) in
    let target_vtl := Z.land (hv_get_set_vp_registers.input_vtl inp) 15 in
    if use_target_vtl && (target_vtl >=? HV_NUM_VTLS P) then
      fail HV_STATUS_INVALID_HYPERCALL_INPUT
    else if use_target_vtl && (target_vtl >? a) then fail HV_STATUS_ACCESS_DENIED
    else
      let vtl := if use_target_vtl then target_vtl else Z.land a 255 in
      let vp := hv_get_set_vp_registers.vp_index inp in
      if negb (vp =? HV_VP_INDEX_SELF) && negb (vp =? 0) then
        fail HV_STATUS_INVALID_VP_INDEX
      else
        let search := negb (vp =? HV_VP_INDEX_SELF) && negb (vp =? wrap32 a) in
        target ←
          (if search then hyperv_vsm_vcpu m vp vtl
           else vpi ← hyperv_vsm_vp_index m (Some cs); hyperv_vsm_vcpu m (wrap32 vpi) vtl);
        match target with
        | None => if search then fail HV_STATUS_INVALID_VP_INDEX else None
        | Some target_vcpu =>
            match names with
            | [] => None
            | _ :: _ =>
                r ← access_registers set target_vcpu names vals
                      (with_iothread_locked true m) false [];
                let '(status, m1, dirty, vals') := r in
                let m2 := with_iothread_locked false m1 in
                match status with
                | HV_STATUS_SUCCESS =>
                    if set then Some (status, nregs, m2, exit, None)
                    else if fast then
                      Some (status, nregs, m2, xmm_store_vals xmm_index vals' exit, None)
                    else
                      let outgpa := wrap64 (kvm_hyperv_exit.outgpa exit + rep_idx * 16) in
                      Some (status, nregs, m2, exit, Some (outgpa, vals'))
                | _ => Some (status, 0, m2, exit, None)
                end
            end
        end.

Definition hyperv_hcall_get_set_vp_register (m : machine) (cs : Z)
    (exit : kvm_hyperv_exit.t) (set : bool) : option hcall_result :=
  let hinput := kvm_hyperv_exit.input exit in
  let xmm := kvm_hyperv_exit.xmm exit in
  let rep_cnt := Z.land (Z.shiftr hinput (HV_HYPERCALL_REP_COMP_OFFSET P)) 4095 in
  let rep_idx := Z.land (Z.shiftr hinput (HV_HYPERCALL_REP_START_OFFSET P)) 4095 in
  let fast := negb (Z.land hinput (HV_HYPERCALL_FAST P) =? 0) in
  let nregs0 := wrap16 (rep_cnt - rep_idx) in
  let nregs :=
    if nregs0 >? KVM_HV_VP_REGISTER_LIST_SIZE then KVM_HV_VP_REGISTER_LIST_SIZE else nregs0 in
  let n := Z.to_nat nregs in
  let fail (status : hv_status) : option hcall_result := Some (status, 0, m, exit, None) in
  let zero := {| low := 0; high := 0 |} in
  if fast then
    let inp :=
      {| hv_get_set_vp_registers.partition_id := kvm_hyperv_exit.ingpa exit;
         hv_get_set_vp_registers.vp_index :=
           Z.land (kvm_hyperv_exit.outgpa exit) 4294967295;
         hv_get_set_vp_registers.input_vtl :=
           Z.land (Z.shiftr (kvm_hyperv_exit.outgpa exit) 32) 255 |} in
    if negb (rep_idx =? 0) then fail HV_STATUS_INVALID_HYPERCALL_INPUT
    else if nregs >? 4 then fail HV_STATUS_INVALID_HYPERCALL_INPUT
    else
      let names :=
        take n [wrap32 (xmm !!! 0%nat); wrap32 (Z.shiftr (xmm !!! 0%nat) 32);
                wrap32 (xmm !!! 1%nat); wrap32 (Z.shiftr (xmm !!! 1%nat) 32)] in
      let xmm_index := if 0 <? nregs then 2%nat else 0%nat in
      let vals :=
        if set then
          (fun i => {| low := xmm !!! (xmm_index + 2 * i)%nat;
                       high := xmm !!! (xmm_index + 2 * i + 1)%nat |}) <$> seq 0 n
        else replicate n zero in
      get_set_marshalled m cs exit set fast nregs rep_idx inp names vals
        (if set then (xmm_index + 2 * n)%nat else xmm_index)
  else
    let inp := read_input P (kvm_hyperv_exit.ingpa exit) in
    let ingpa1 := wrap64 (kvm_hyperv_exit.ingpa exit + (16 + rep_idx * 4)) in
    let names := read_names P ingpa1 n in
    let vals :=
      if set then
        read_vals P (wrap64 (ROUND_UP (wrap64 (ingpa1 + nregs * 4)) 16 + rep_idx * 16)) n
      else replicate n zero in
    get_set_marshalled m cs exit set fast nregs rep_idx inp names vals 0%nat.

End Registers.

(** ** VTL entry on an interrupt *)

(** Modelled from the spec: stop-and-wait on a logical-processor context
    is supplied by the virtual-CPU execution collaborator; when it returns
    the context has taken the stop request and is stopped. *)
Definition wait_cpu_stopped (m : machine) (cs : Z) : option machine :=
  c ← cpus m !! cs; Some (update_cpu m cs (with_run false true c)).

(** [next_cs] is [vpvsm->cs], the vCPU the notifier belongs to. *)
Definition vp_vsm_notifier (m : machine) (next_cs : Z) : option machine :=
  a ← get_active_vtl m (Some next_cs);
  if a =? 0 then Some m
  else
    active ← hyperv_get_prev_vtl m next_cs;
    match active with
    | None => Some m
    | Some active_cs =>
        n ← cpus m !! next_cs;
        if negb (stopped n) then Some m
        else
          _ ← hyperv_vp_index m (Some active_cs);     (* arguments of the trace point *)
          ca ← cpus m !! active_cs;
          let m1 := update_cpu m active_cs (with_run true (stopped ca) ca) in
          m2 ← wait_cpu_stopped m1 active_cs;
          m3 ← set_vtl_entry_reason m2 next_cs HV_VTL_ENTRY_INTERRUPT;
          m4 ← hyperv_sync_shared_vtl_state m3 active_cs next_cs;
          cpu_resume m4 next_cs
    end.

End VsmRegs.

(** * Observations on effect logs and sample configurations *)

Definition is_cb_call (e : SynIC.effect) : bool :=
  match e with SynIC.cb_call _ _ => true | _ => false end.

Definition is_event_notifier_set (e : SynIC.effect) : bool :=
  match e with SynIC.event_notifier_set _ => true | _ => false end.

(** Number of completion-callback invocations recorded in a log. *)
Definition cb_calls (l : list SynIC.effect) : nat :=
  length (List.filter is_cb_call l).

(** Number of interrupt edges raised on the route's line. *)
Definition sint_raised (l : list SynIC.effect) : nat :=
  length (List.filter is_event_notifier_set l).

Module Sample.
Import SynIC.

Definition msg0 : hyperv_message :=
  {| message_type := 0; payload_size := 0; message_flags := 0; sender := 0;
     payload := [] |}.

(** The scenario payload: sixteen bytes 0xAA. *)
Definition msgAA : hyperv_message :=
  {| message_type := 1; payload_size := 16; message_flags := 0; sender := 0;
     payload := replicate 16 170 |}.

(** 2048 event flags per SINT (256 bytes, thirty-two words). *)
Definition flags_count : Z := 256 * 8.

Definition synic0 : SynICState :=
  {| sctl_enabled := true; msg_page_addr := 4096; event_page_addr := 8192;
     msg_page := replicate 16 msg0; event_page := replicate 512 0 |}.

Definition staged0 (st : staged_state) : HvSintStagedMessage :=
  {| msg := msgAA; cb_data := 7; status := 0; state := st |}.

(** A route for SINT 2 with interrupt line [g] ([0]: none) and one
    reference. *)
Definition world0 (g : Z) (st : staged_state) : world :=
  {| sint_route := {| sint := 2; gsi := g; staged_msg := Some (staged0 st);
                      refcount := 1 |};
     synic := synic0; effects := [] |}.

End Sample.

(** ** Well-formedness of register state and sample machines *)

(** The array fields have the sizes QEMU's [CPUX86State] gives them. *)
Definition env_wf (e : Vsm.CPUX86State.t) : Prop :=
  length (Vsm.CPUX86State.regs e) = 16%nat /\
  length (Vsm.CPUX86State.segs e) = 6%nat /\
  length (Vsm.CPUX86State.cr e) = 5%nat /\
  length (Vsm.CPUX86State.dr e) = 8%nat /\
  length (Vsm.CPUX86State.msr_hv_synic_sint e) = Z.to_nat HV_SINT_COUNT /\
  length (Vsm.CPUX86State.msr_hv_stimer_config e) = Z.to_nat HV_STIMER_COUNT /\
  length (Vsm.CPUX86State.msr_hv_stimer_count e) = Z.to_nat HV_STIMER_COUNT.

(** The array fields of a saved state have their declared sizes. *)
Definition priv_wf (p : Vsm.kvm_hv_vcpu_per_vtl_state.t) : Prop :=
  length (Vsm.kvm_hv_vcpu_per_vtl_state.msr_hv_synic_sint p) = Z.to_nat HV_SINT_COUNT /\
  length (Vsm.kvm_hv_vcpu_per_vtl_state.msr_hv_stimer_config p) = Z.to_nat HV_STIMER_COUNT /\
  length (Vsm.kvm_hv_vcpu_per_vtl_state.msr_hv_stimer_count p) = Z.to_nat HV_STIMER_COUNT.

(** What [hyperv_sync_shared_vtl_state] leaves in the destination's
    register file, [s] being the source's and [d] the destination's before
    the call, [p] the destination's previously saved state. *)
Definition synced_env (s d : Vsm.CPUX86State.t) (p : Vsm.kvm_hv_vcpu_per_vtl_state.t)
    : Vsm.CPUX86State.t :=
  Vsm.hyperv_set_vtl_cpu_state (Vsm.restore_msrs s (Vsm.save_priv d p))
    (Vsm.restore_ctx (Vsm.save_priv d p)).

Module VsmSample.
Import Vsm.

Definition seg (sel b : Z) : SegmentCache.t :=
  {| SegmentCache.selector := sel; SegmentCache.base := b;
     SegmentCache.limit := 1048575; SegmentCache.flags := 0 |}.

(** A register file whose scalar fields are all [k + i] for distinct small
    [i], so that two such files differ in every field. *)
Definition env_of (k : Z) : CPUX86State.t :=
  {| CPUX86State.regs := replicate 16 (k + 1);
     CPUX86State.eip := k + 2;
     CPUX86State.eflags := k + 3;
     CPUX86State.segs := replicate 6 (seg 8 (k + 4));
     CPUX86State.ldt := seg 0 (k + 5);
     CPUX86State.tr := seg 0 (k + 6);
     CPUX86State.gdt := seg 0 (k + 7);
     CPUX86State.idt := seg 0 (k + 8);
     CPUX86State.cr := replicate 5 (k + 9);
     CPUX86State.dr := replicate 8 (k + 10);
     CPUX86State.efer := k + 11;
     CPUX86State.pat := k + 12;
     CPUX86State.mp_state := 0;
     CPUX86State.kernelgsbase := k + 13;
     CPUX86State.gsbase := k + 14;
     CPUX86State.fsbase := k + 15;
     CPUX86State.tsc_aux := k + 16;
     CPUX86State.sysenter_cs := k + 17;
     CPUX86State.sysenter_esp := k + 18;
     CPUX86State.sysenter_eip := k + 19;
     CPUX86State.star := k + 20;
     CPUX86State.lstar := k + 21;
     CPUX86State.cstar := k + 22;
     CPUX86State.fmask := k + 23;
     CPUX86State.msr_hv_synic_control := k + 24;
     CPUX86State.msr_hv_synic_evt_page := k + 25;
     CPUX86State.msr_hv_synic_msg_page := k + 26;
     CPUX86State.msr_hv_synic_sint := replicate 16 (k + 27);
     CPUX86State.msr_hv_stimer_config := replicate 4 (k + 28);
     CPUX86State.msr_hv_stimer_count := replicate 4 (k + 29);
     CPUX86State.msr_hv_guest_os_id := k + 30;
     CPUX86State.msr_hv_hypercall := k + 31;
     CPUX86State.msr_hv_tsc := k + 32;
     CPUX86State.msr_hv_vapic := k + 33;
     CPUX86State.vsm_code_page_offsets64 := k + 34;
     CPUX86State.vsm_code_page_offsets32 := k + 35;
     CPUX86State.exception_nr := k + 36;
     CPUX86State.interrupt_injected := k + 37;
     CPUX86State.soft_interrupt := 0;
     CPUX86State.exception_pending := 0;
     CPUX86State.exception_injected := 0;
     CPUX86State.has_error_code := 0;
     CPUX86State.exception_has_payload := 0;
     CPUX86State.exception_payload := k + 38;
     CPUX86State.triple_fault_pending := 0;
     CPUX86State.ins_len := k + 39;
     CPUX86State.sipi_vector := k + 40;
     CPUX86State.other := k + 41 |}.

Definition vpvsm_of (vtl set : Z) : VpVsmState :=
  {| enabled_vtl_set := set; active_vtl := vtl; vsm_vtl_config := replicate 2 0;
     priv_state := kvm_hv_vcpu_per_vtl_state.zero; vp_assist := None |}.

Definition cpu_of (k : Z) (v : option VpVsmState) (sd : bool) : CPUState :=
  {| env := env_of k; apic_base := 4276092928; vp_vsm := v; stop := false;
     stopped := sd |}.

Definition status_of (set : Z) : partition_status :=
  {| p_enabled_vtl_set := set; maximum_vtl := 1; mbec_enabled_vtl_set := 0 |}.

Definition machine_of (cs : gmap Z CPUState) (set : Z) : machine :=
  {| cpus := cs; hv_vsm_partition_status := status_of set;
     hv_vsm_partition_capabilities := 0; hv_vsm_partition_config := replicate 2 0;
     iothread_locked := false |}.

(** One vCPU, VTL0 only. *)
Definition machine_vtl0 (set : Z) : machine :=
  machine_of {[ 0 := cpu_of 100 None false ]} set.

(** VTL0 running in vCPU 0, VTL1 enabled and stopped in vCPU 1. *)
Definition machine_vtl01 : machine :=
  machine_of {[ 0 := cpu_of 100 (Some (vpvsm_of 0 3)) false;
                1 := cpu_of 200 (Some (vpvsm_of 1 1)) true ]} 3.

(** The same with VTL1 running and VTL0 stopped. *)
Definition machine_vtl10 : machine :=
  machine_of {[ 0 := cpu_of 100 (Some (vpvsm_of 0 3)) true;
                1 := cpu_of 200 (Some (vpvsm_of 1 1)) false ]} 3.

Definition seg_reg (b : Z) : hv_x64_segment_register.t :=
  {| hv_x64_segment_register.base := b; hv_x64_segment_register.limit := 1048575;
     hv_x64_segment_register.selector := 16;
     hv_x64_segment_register.segment_type := 11;
     hv_x64_segment_register.non_system_segment := 1;
     hv_x64_segment_register.descriptor_privilege_level := 0;
     hv_x64_segment_register.present := 1; hv_x64_segment_register.reserved := 0;
     hv_x64_segment_register.available := 0; hv_x64_segment_register._long := 1;
     hv_x64_segment_register._default := 0;
     hv_x64_segment_register.granularity := 1 |}.

Definition vp_context0 : hv_init_vp_context.t :=
  {| hv_init_vp_context.rip := 1048576; hv_init_vp_context.rsp := 2097152;
     hv_init_vp_context.rflags := 2;
     hv_init_vp_context.cs := seg_reg 0; hv_init_vp_context.ds := seg_reg 0;
     hv_init_vp_context.es := seg_reg 0; hv_init_vp_context.fs := seg_reg 4096;
     hv_init_vp_context.gs := seg_reg 8192; hv_init_vp_context.ss := seg_reg 0;
     hv_init_vp_context.tr := seg_reg 0; hv_init_vp_context.ldtr := seg_reg 0;
     hv_init_vp_context.idtr := hv_x64_table_register.zero;
     hv_init_vp_context.gdtr := hv_x64_table_register.zero;
     hv_init_vp_context.efer := 3329; hv_init_vp_context.cr0 := 2147483699;
     hv_init_vp_context.cr3 := 1056768; hv_init_vp_context.cr4 := 160;
     hv_init_vp_context.msr_cr_pat := 0 |}.

Definition enable_input (vtl : Z) : hv_enable_vp_vtl :=
  {| partition_id := HV_PARTITION_ID_SELF; vp_index := HV_VP_INDEX_SELF;
     target_vtl := vtl; vp_context := vp_context0 |}.

(** Guest memory with an [hv_enable_vp_vtl] block for VTL [gpa mod 16] at
    every address below 2^20 and nothing mapped above. *)
Definition guest_map (gpa : Z) : option hv_enable_vp_vtl :=
  if gpa <? 1048576 then Some (enable_input (gpa mod 16)) else None.

(** The same memory seen by a guest that names partition 0 in the block. *)
Definition guest_map_partition0 (gpa : Z) : option hv_enable_vp_vtl :=
  if gpa <? 1048576 then
    Some {| partition_id := 0; vp_index := HV_VP_INDEX_SELF;
            target_vtl := gpa mod 16; vp_context := vp_context0 |}
  else None.

(** The vCPU [x86_cpu_new] makes: registers of [env_of 0], stopped. *)
Definition fresh_cpu : CPUState := cpu_of 0 None true.

End VsmSample.

(** ** A register file seeded from a [vp_context] *)

(** The descriptor attribute word of a segment register: the type in bits
    8 to 11, S in bit 12, the privilege level in bits 13 and 14, P in bit
    15, AVL in bit 20, L in bit 21, D/B in bit 22 and G in bit 23. *)
Definition segment_attributes (r : Vsm.hv_x64_segment_register.t) : Z :=
  Z.lor (Z.shiftl (Vsm.hv_x64_segment_register.segment_type r) 8)
 (Z.lor (Z.shiftl (Vsm.hv_x64_segment_register.non_system_segment r) 12)
 (Z.lor (Z.shiftl (Vsm.hv_x64_segment_register.descriptor_privilege_level r) 13)
 (Z.lor (Z.shiftl (Vsm.hv_x64_segment_register.present r) 15)
 (Z.lor (Z.shiftl (Vsm.hv_x64_segment_register.available r) 20)
 (Z.lor (Z.shiftl (Vsm.hv_x64_segment_register._long r) 21)
 (Z.lor (Z.shiftl (Vsm.hv_x64_segment_register._default r) 22)
        (Z.shiftl (Vsm.hv_x64_segment_register.granularity r) 23))))))).

(** The segment cache [s] holds the segment register [r] of a context:
    selector, base and limit as given, the attributes at their descriptor
    positions and no other flag. *)
Definition seeded_segment (r : Vsm.hv_x64_segment_register.t) (s : Vsm.SegmentCache.t)
    : Prop :=
  Vsm.SegmentCache.selector s = Vsm.hv_x64_segment_register.selector r /\
  Vsm.SegmentCache.base s = Vsm.hv_x64_segment_register.base r /\
  Vsm.SegmentCache.limit s = Vsm.hv_x64_segment_register.limit r /\
  Vsm.SegmentCache.flags s = segment_attributes r.

(** The table register [s] has the base and the limit of [r]. *)
Definition seeded_table (r : Vsm.hv_x64_table_register.t) (s : Vsm.SegmentCache.t) : Prop :=
  Vsm.SegmentCache.base s = Vsm.hv_x64_table_register.base r /\
  Vsm.SegmentCache.limit s = Vsm.hv_x64_table_register.limit r.

(** The register file [e] has the initial architectural state that the
    context [ctx] gives: instruction pointer, stack pointer, flags, EFER,
    CR0, CR3, CR4, PAT, the six segment registers, LDTR, TR, GDTR and
    IDTR; the FS and GS base are the bases of the two segments, and the
    processor is runnable. *)
Definition seeded_from (ctx : Vsm.hv_init_vp_context.t) (e : Vsm.CPUX86State.t) : Prop :=
  Vsm.CPUX86State.eip e = Vsm.hv_init_vp_context.rip ctx /\
  Vsm.CPUX86State.regs e !!! Vsm.R_ESP = Vsm.hv_init_vp_context.rsp ctx /\
  Vsm.CPUX86State.eflags e = Vsm.hv_init_vp_context.rflags ctx /\
  Vsm.CPUX86State.efer e = Vsm.hv_init_vp_context.efer ctx /\
  Vsm.CPUX86State.cr e !!! 0%nat = Vsm.hv_init_vp_context.cr0 ctx /\
  Vsm.CPUX86State.cr e !!! 3%nat = Vsm.hv_init_vp_context.cr3 ctx /\
  Vsm.CPUX86State.cr e !!! 4%nat = Vsm.hv_init_vp_context.cr4 ctx /\
  Vsm.CPUX86State.pat e = Vsm.hv_init_vp_context.msr_cr_pat ctx /\
  seeded_segment (Vsm.hv_init_vp_context.cs ctx) (Vsm.CPUX86State.segs e !!! Vsm.R_CS) /\
  seeded_segment (Vsm.hv_init_vp_context.ds ctx) (Vsm.CPUX86State.segs e !!! Vsm.R_DS) /\
  seeded_segment (Vsm.hv_init_vp_context.es ctx) (Vsm.CPUX86State.segs e !!! Vsm.R_ES) /\
  seeded_segment (Vsm.hv_init_vp_context.fs ctx) (Vsm.CPUX86State.segs e !!! Vsm.R_FS) /\
  seeded_segment (Vsm.hv_init_vp_context.gs ctx) (Vsm.CPUX86State.segs e !!! Vsm.R_GS) /\
  seeded_segment (Vsm.hv_init_vp_context.ss ctx) (Vsm.CPUX86State.segs e !!! Vsm.R_SS) /\
  seeded_segment (Vsm.hv_init_vp_context.ldtr ctx) (Vsm.CPUX86State.ldt e) /\
  seeded_segment (Vsm.hv_init_vp_context.tr ctx) (Vsm.CPUX86State.tr e) /\
  seeded_table (Vsm.hv_init_vp_context.gdtr ctx) (Vsm.CPUX86State.gdt e) /\
  seeded_table (Vsm.hv_init_vp_context.idtr ctx) (Vsm.CPUX86State.idt e) /\
  Vsm.CPUX86State.fsbase e =
    Vsm.hv_x64_segment_register.base (Vsm.hv_init_vp_context.fs ctx) /\
  Vsm.CPUX86State.gsbase e =
    Vsm.hv_x64_segment_register.base (Vsm.hv_init_vp_context.gs ctx) /\
  Vsm.CPUX86State.mp_state e = Vsm.KVM_MP_STATE_RUNNABLE.

(** ** Segment registers with every bit-field in its range *)

(** The ranges the bit-fields of [struct hv_x64_segment_register] have:
    a 16-bit selector, a 4-bit type, a 2-bit privilege level, one-bit
    flags, and the reserved bits zero. *)
Definition seg_wf (r : Vsm.hv_x64_segment_register.t) : Prop :=
  0 <= Vsm.hv_x64_segment_register.selector r < 2 ^ 16 /\
  0 <= Vsm.hv_x64_segment_register.segment_type r < 16 /\
  0 <= Vsm.hv_x64_segment_register.non_system_segment r < 2 /\
  0 <= Vsm.hv_x64_segment_register.descriptor_privilege_level r < 4 /\
  0 <= Vsm.hv_x64_segment_register.present r < 2 /\
  Vsm.hv_x64_segment_register.reserved r = 0 /\
  0 <= Vsm.hv_x64_segment_register.available r < 2 /\
  0 <= Vsm.hv_x64_segment_register._long r < 2 /\
  0 <= Vsm.hv_x64_segment_register._default r < 2 /\
  0 <= Vsm.hv_x64_segment_register.granularity r < 2.

(** Whether the attribute values [t] (type), [s] (S), [d] (DPL), [p] (P),
    [a] (AVL), [l] (L), [b] (D/B), [g] (G) come back from [hyperv_get_seg]
    after [hyperv_set_seg]. *)
Definition seg_attrs_back (t s d p a l b g : Z) : bool :=
  let r :=
    Vsm.hyperv_get_seg
      (Vsm.hyperv_set_seg inhabitant
         {| Vsm.hv_x64_segment_register.base := 0;
            Vsm.hv_x64_segment_register.limit := 0;
            Vsm.hv_x64_segment_register.selector := 0;
            Vsm.hv_x64_segment_register.segment_type := t;
            Vsm.hv_x64_segment_register.non_system_segment := s;
            Vsm.hv_x64_segment_register.descriptor_privilege_level := d;
            Vsm.hv_x64_segment_register.present := p;
            Vsm.hv_x64_segment_register.reserved := 0;
            Vsm.hv_x64_segment_register.available := a;
            Vsm.hv_x64_segment_register._long := l;
            Vsm.hv_x64_segment_register._default := b;
            Vsm.hv_x64_segment_register.granularity := g |}) in
  (Vsm.hv_x64_segment_register.segment_type r =? t) &&
  (Vsm.hv_x64_segment_register.non_system_segment r =? s) &&
  (Vsm.hv_x64_segment_register.descriptor_privilege_level r =? d) &&
  (Vsm.hv_x64_segment_register.present r =? p) &&
  (Vsm.hv_x64_segment_register.available r =? a) &&
  (Vsm.hv_x64_segment_register._long r =? l) &&
  (Vsm.hv_x64_segment_register._default r =? b) &&
  (Vsm.hv_x64_segment_register.granularity r =? g).

(** The same for all attribute values in range. *)
Definition seg_attrs_all_back : bool :=
  forallb (fun t => forallb (fun s => forallb (fun d => forallb (fun p =>
  forallb (fun a => forallb (fun l => forallb (fun b => forallb (fun g =>
    seg_attrs_back t s d p a l b g) (seqZ 0 2)) (seqZ 0 2)) (seqZ 0 2)) (seqZ 0 2))
    (seqZ 0 2)) (seqZ 0 4)) (seqZ 0 2)) (seqZ 0 16).

(** The descriptor flag bits [hyperv_get_seg] reads: type, S, DPL, P (bits
    8 to 15) and AVL, L, B, G (bits 20 to 23). *)
Definition DESC_ATTR_MASK : Z :=
  Z.lor (Z.shiftl 255 Vsm.DESC_TYPE_SHIFT) (Z.shiftl 15 20).

(** ** The register state a VTL switch isolates and the state it shares *)

(** The scalar fields of [env] that [hyperv_save_priv_vtl_state] saves and
    [hyperv_restore_priv_vtl_state] writes back as they were saved.  The
    segment state, which goes through a conversion on the way, is in
    [descriptor_fields]; DR7, which is saved and not written back, is
    among the [shared_fields]. *)
Definition isolated_fields (e : Vsm.CPUX86State.t) :=
  ((Vsm.CPUX86State.eip e, Vsm.CPUX86State.regs e !!! Vsm.R_ESP,
    Vsm.CPUX86State.eflags e, Vsm.CPUX86State.efer e,
    Vsm.CPUX86State.cr e !!! 0%nat, Vsm.CPUX86State.cr e !!! 3%nat,
    Vsm.CPUX86State.cr e !!! 4%nat, Vsm.CPUX86State.pat e),
   (Vsm.CPUX86State.kernelgsbase e, Vsm.CPUX86State.tsc_aux e,
    Vsm.CPUX86State.sysenter_cs e, Vsm.CPUX86State.sysenter_esp e,
    Vsm.CPUX86State.sysenter_eip e, Vsm.CPUX86State.star e,
    Vsm.CPUX86State.lstar e, Vsm.CPUX86State.cstar e, Vsm.CPUX86State.fmask e),
   (Vsm.CPUX86State.msr_hv_synic_control e, Vsm.CPUX86State.msr_hv_synic_evt_page e,
    Vsm.CPUX86State.msr_hv_synic_msg_page e, Vsm.CPUX86State.msr_hv_synic_sint e,
    Vsm.CPUX86State.msr_hv_stimer_config e, Vsm.CPUX86State.msr_hv_stimer_count e,
    Vsm.CPUX86State.msr_hv_guest_os_id e, Vsm.CPUX86State.msr_hv_hypercall e,
    Vsm.CPUX86State.msr_hv_tsc e),
   (Vsm.CPUX86State.exception_nr e, Vsm.CPUX86State.interrupt_injected e,
    Vsm.CPUX86State.soft_interrupt e, Vsm.CPUX86State.exception_pending e,
    Vsm.CPUX86State.exception_injected e, Vsm.CPUX86State.has_error_code e,
    Vsm.CPUX86State.exception_has_payload e, Vsm.CPUX86State.exception_payload e,
    Vsm.CPUX86State.triple_fault_pending e, Vsm.CPUX86State.ins_len e,
    Vsm.CPUX86State.sipi_vector e)).

(** The fields that only the [memcpy] of the switch writes: the general
    registers other than RSP, CR1 and CR2, the debug registers, and the
    rest of the structure. *)
Definition shared_fields (e : Vsm.CPUX86State.t) :=
  (<[Vsm.R_ESP := 0]> (Vsm.CPUX86State.regs e),
   Vsm.CPUX86State.cr e !!! 1%nat, Vsm.CPUX86State.cr e !!! 2%nat,
   Vsm.CPUX86State.dr e, Vsm.CPUX86State.msr_hv_vapic e,
   Vsm.CPUX86State.vsm_code_page_offsets64 e, Vsm.CPUX86State.vsm_code_page_offsets32 e,
   Vsm.CPUX86State.other e).

(** The segment state of a register file: the six segment registers,
    LDTR, TR, GDTR, IDTR, the FS and GS base, and the run state that
    [hyperv_set_vtl_cpu_state] sets along with them. *)
Definition descriptor_fields (e : Vsm.CPUX86State.t) :=
  (Vsm.CPUX86State.segs e, Vsm.CPUX86State.ldt e, Vsm.CPUX86State.tr e,
   Vsm.CPUX86State.gdt e, Vsm.CPUX86State.idt e,
   Vsm.CPUX86State.fsbase e, Vsm.CPUX86State.gsbase e, Vsm.CPUX86State.mp_state e).

(** A segment register after a save and a restore: base and limit as
    they were, the selector cut to sixteen bits, and of the flags only the
    attribute bits. *)
Definition carried_segment (s : Vsm.SegmentCache.t) : Vsm.SegmentCache.t :=
  {| Vsm.SegmentCache.selector := Vsm.wrap16 (Vsm.SegmentCache.selector s);
     Vsm.SegmentCache.base := Vsm.SegmentCache.base s;
     Vsm.SegmentCache.limit := Vsm.SegmentCache.limit s;
     Vsm.SegmentCache.flags := Z.land (Vsm.SegmentCache.flags s) DESC_ATTR_MASK |}.

(** A descriptor-table register after a save and a restore: the base of
    the destination [d], its limit cut to sixteen bits, and the selector
    and flags of the source [s], which only the copy of the whole
    structure writes. *)
Definition carried_table (s d : Vsm.SegmentCache.t) : Vsm.SegmentCache.t :=
  {| Vsm.SegmentCache.selector := Vsm.SegmentCache.selector s;
     Vsm.SegmentCache.base := Vsm.SegmentCache.base d;
     Vsm.SegmentCache.limit := Vsm.wrap16 (Vsm.SegmentCache.limit d);
     Vsm.SegmentCache.flags := Vsm.SegmentCache.flags s |}.

(** The segment state of the destination after a switch from the register
    file [s] into the register file [d]: the destination's own segment
    registers, LDTR and TR as [carried_segment] gives them, its own
    table registers as [carried_table] gives them, and as FS and GS base
    the bases of its FS and GS segment registers (not the values the two
    base registers had). *)
Definition switched_descriptors (s d : Vsm.CPUX86State.t) :=
  (carried_segment <$> Vsm.CPUX86State.segs d,
   carried_segment (Vsm.CPUX86State.ldt d), carried_segment (Vsm.CPUX86State.tr d),
   carried_table (Vsm.CPUX86State.gdt s) (Vsm.CPUX86State.gdt d),
   carried_table (Vsm.CPUX86State.idt s) (Vsm.CPUX86State.idt d),
   Vsm.SegmentCache.base (Vsm.CPUX86State.segs d !!! Vsm.R_FS),
   Vsm.SegmentCache.base (Vsm.CPUX86State.segs d !!! Vsm.R_GS),
   Vsm.KVM_MP_STATE_RUNNABLE).

(** The VTL control block [set_vtl_entry_reason] writes for [reason]. *)
Definition entry_control (reason : Z) : Vsm.hv_vp_vtl_control :=
  {| Vsm.vtl_entry_reason := reason; Vsm.vina_status := 0; Vsm.vtl_ret_x64rax := 0;
     Vsm.vtl_ret_x64rcx := 0 |}.

(** The entry reason as the destination's assist page shows it after
    [set_vtl_entry_reason]: written when a page is mapped. *)
Definition with_entry_reason (reason : Z) (v : Vsm.VpVsmState) : Vsm.VpVsmState :=
  Vsm.with_vp_assist
    (match Vsm.vp_assist v with
     | Some _ => Some (entry_control reason)
     | None => None
     end) v.

(** The destination vCPU [cn] with VP-VSM state [v] after the registers of
    the source [ca] have been transplanted into it and it has been
    resumed. *)
Definition switched_cpu (ca cn : Vsm.CPUState) (v : Vsm.VpVsmState) : Vsm.CPUState :=
  {| Vsm.env := synced_env (Vsm.env ca) (Vsm.env cn) (Vsm.priv_state v);
     Vsm.apic_base := Z.lor (Vsm.apic_base cn) Vsm.MSR_IA32_APICBASE_BSP;
     Vsm.vp_vsm :=
       Some (Vsm.with_priv_state (Vsm.save_priv (Vsm.env cn) (Vsm.priv_state v)) v);
     Vsm.stop := false; Vsm.stopped := false |}.

(** ** Registers that are one field of [env] on both the read and the write side *)

Definition scalar_register (name : Vsm.hv_register_name) : bool :=
  match name with
  | Vsm.HV_X64_REGISTER_RIP | Vsm.HV_X64_REGISTER_RFLAGS
  | Vsm.HV_X64_REGISTER_CR0 | Vsm.HV_X64_REGISTER_CR3 | Vsm.HV_X64_REGISTER_CR4
  | Vsm.HV_X64_REGISTER_DR7 | Vsm.HV_X64_REGISTER_EFER
  | Vsm.HV_X64_REGISTER_SYSENTER_EIP | Vsm.HV_X64_REGISTER_SYSENTER_ESP
  | Vsm.HV_X64_REGISTER_STAR | Vsm.HV_X64_REGISTER_LSTAR | Vsm.HV_X64_REGISTER_CSTAR
  | Vsm.HV_X64_REGISTER_SFMASK | Vsm.HV_X64_REGISTER_TSC_AUX => true
  | _ => false
  end.

(** Registers [get_vp_register] reads and [set_vp_register] has no case
    for. *)
Definition read_only_register (name : Vsm.hv_register_name) : bool :=
  match name with
  | Vsm.HV_X64_REGISTER_APIC_BASE | Vsm.HV_REGISTER_VSM_CAPABILITIES
  | Vsm.HV_REGISTER_VSM_PARTITION_STATUS | Vsm.HV_REGISTER_VSM_VP_STATUS
  | Vsm.HV_REGISTER_VSM_CODE_PAGE_OFFSETS => true
  | _ => false
  end.

(** ** The fields of a register hypercall's input *)

Definition hcall_rep_cnt (P : VsmRegs.platform) (exit : VsmRegs.kvm_hyperv_exit.t) : Z :=
  Z.land (Z.shiftr (VsmRegs.kvm_hyperv_exit.input exit)
            (VsmRegs.HV_HYPERCALL_REP_COMP_OFFSET P)) 4095.

Definition hcall_rep_idx (P : VsmRegs.platform) (exit : VsmRegs.kvm_hyperv_exit.t) : Z :=
  Z.land (Z.shiftr (VsmRegs.kvm_hyperv_exit.input exit)
            (VsmRegs.HV_HYPERCALL_REP_START_OFFSET P)) 4095.

Definition hcall_fast (P : VsmRegs.platform) (exit : VsmRegs.kvm_hyperv_exit.t) : bool :=
  negb (Z.land (VsmRegs.kvm_hyperv_exit.input exit) (VsmRegs.HV_HYPERCALL_FAST P) =? 0).

(** The number of registers one call handles. *)
Definition hcall_nregs (P : VsmRegs.platform) (exit : VsmRegs.kvm_hyperv_exit.t) : Z :=
  let n := Vsm.wrap16 (hcall_rep_cnt P exit - hcall_rep_idx P exit) in
  if n >? VsmRegs.KVM_HV_VP_REGISTER_LIST_SIZE then VsmRegs.KVM_HV_VP_REGISTER_LIST_SIZE
  else n.

(** The fixed part of the input: in registers for a fast call, in guest
    memory otherwise. *)
Definition hcall_input (P : VsmRegs.platform) (exit : VsmRegs.kvm_hyperv_exit.t)
    : VsmRegs.hv_get_set_vp_registers.t :=
  if hcall_fast P exit then
    {| VsmRegs.hv_get_set_vp_registers.partition_id := VsmRegs.kvm_hyperv_exit.ingpa exit;
       VsmRegs.hv_get_set_vp_registers.vp_index :=
         Z.land (VsmRegs.kvm_hyperv_exit.outgpa exit) 4294967295;
       VsmRegs.hv_get_set_vp_registers.input_vtl :=
         Z.land (Z.shiftr (VsmRegs.kvm_hyperv_exit.outgpa exit) 32) 255 |}
  else VsmRegs.read_input P (VsmRegs.kvm_hyperv_exit.ingpa exit).

(** A fast call for the caller's own vCPU and VTL with [k] registers. *)
Definition hcall_fast_self (P : VsmRegs.platform) (exit : VsmRegs.kvm_hyperv_exit.t)
    (k : Z) : Prop :=
  hcall_fast P exit = true /\ hcall_rep_idx P exit = 0 /\ hcall_nregs P exit = k /\
  VsmRegs.kvm_hyperv_exit.ingpa exit = Vsm.HV_PARTITION_ID_SELF /\
  Z.land (VsmRegs.kvm_hyperv_exit.outgpa exit) 4294967295 = Vsm.HV_VP_INDEX_SELF /\
  Z.land (Z.land (Z.shiftr (VsmRegs.kvm_hyperv_exit.outgpa exit) 32) 255) 16 = 0.

(** ** Sample registries, platform constants and hypercall exits *)

Module SynICSample.
Import SynIC Sample.

(** [world0] with the slot of SINT 2 still holding a message the guest
    has not consumed. *)
Definition world_occupied (g : Z) : world :=
  with_synic (with_msg_page (<[2%nat := msgAA]> (msg_page synic0)) synic0)
    (world0 g HV_STAGED_MSG_FREE).

(** Every vCPU has the SynIC [synic0], switched on or off. *)
Definition get_synic_of (enabled : bool) (c : Z) : option SynICState :=
  Some {| sctl_enabled := enabled; msg_page_addr := msg_page_addr synic0;
          event_page_addr := event_page_addr synic0; msg_page := msg_page synic0;
          event_page := event_page synic0 |}.

End SynICSample.

Module HandlerSample.
Import Handlers.

Definition connection_mask : Z := 16777215.

Definition post_input : hyperv_post_message_input :=
  {| connection_id := 7; message_type := 1; payload_size := 16;
     payload := replicate 16 170 |}.

(** Guest memory with that input block at 4096 and nothing else mapped. *)
Definition guest_memory (gpa : Z) : option hyperv_post_message_input :=
  if gpa =? 4096 then Some post_input else None.

(** A handler that answers with the payload size plus its data. *)
Definition size_handler : HvMsgHandler := fun msg data => payload_size msg + data.

Definition msg_handlers : list MsgHandler.t :=
  [ {| MsgHandler.conn_id := 3; MsgHandler.handler := size_handler;
       MsgHandler.data := 10 |} ].

Definition registry : event_registry :=
  {| process_event_flags_userspace := false; event_flag_handlers := [] |}.

End HandlerSample.

Module RegSample.
Import Vsm VsmRegs.

(** A decoder for four register codes. *)
Definition register_name0 (code : Z) : hv_register_name :=
  if code =? 131088 then HV_X64_REGISTER_RIP
  else if code =? 131089 then HV_X64_REGISTER_RFLAGS
  else if code =? 262144 then HV_X64_REGISTER_CR0
  else if code =? 851972 then HV_REGISTER_VSM_PARTITION_STATUS
  else HV_REGISTER_OTHER code.

Definition control0 : hv_vp_vtl_control :=
  {| vtl_entry_reason := 0; vina_status := 0; vtl_ret_x64rax := 0; vtl_ret_x64rcx := 0 |}.

(** Constants for the runs: protection enable in bit 0 and the default
    mask in bits 1 to 4 of the partition configuration; [REG_RSP] is 15,
    the value the host C library's <sys/ucontext.h> gives the name, where
    QEMU's index of the stack pointer, [R_ESP], is 4; two VTLs, the fast
    flag in bit 16, the repetition count from bit 32 and the start index
    from bit 48 of the hypercall input, an assist page mapped at 12288. *)
Definition platform0 : platform :=
  {| enable_vtl_protection_bits := 1;
     default_vtl_protection_mask_bits := 30;
     REG_RSP := 15%nat;
     HV_X64_REGISTER_PENDING_EVENT0 := 65540;
     HV_REGISTER_VSM_VINA := 851973;
     HV_X64_REGISTER_CR_INTERCEPT_CONTROL := 917504;
     HV_X64_REGISTER_CR_INTERCEPT_CR0_MASK := 917505;
     HV_X64_REGISTER_CR_INTERCEPT_CR4_MASK := 917506;
     HV_X64_REGISTER_CR_INTERCEPT_IA32_MISC_ENABLE_MASK := 917507;
     HV_X64_MSR_VP_ASSIST_PAGE_ADDRESS_MASK := 2 ^ 64 - 4096;
     HV_X64_MSR_VP_ASSIST_PAGE_ENABLE := 1;
     map_vp_assist := fun gpa => if gpa =? 12288 then Some control0 else None;
     HV_NUM_VTLS := 2;
     HV_HYPERCALL_FAST := 65536;
     HV_HYPERCALL_REP_COMP_OFFSET := 32;
     HV_HYPERCALL_REP_START_OFFSET := 48;
     register_name := register_name0;
     read_input := fun _ =>
       {| hv_get_set_vp_registers.partition_id := HV_PARTITION_ID_SELF;
          hv_get_set_vp_registers.vp_index := HV_VP_INDEX_SELF;
          hv_get_set_vp_registers.input_vtl := 0 |};
     read_names := fun _ n => replicate n 131088;
     read_vals := fun _ n => replicate n {| low := 0; high := 0 |} |}.

(** A fast call with [reps] registers for the caller's own vCPU:
    [codes] in the first XMM half, the first value in the third;
    [input_vtl] is the byte passed in bits 32 to 39 of the second
    argument. *)
Definition fast_exit (reps codes value input_vtl : Z) : kvm_hyperv_exit.t :=
  {| kvm_hyperv_exit.input := Z.lor 65536 (Z.shiftl reps 32);
     kvm_hyperv_exit.ingpa := HV_PARTITION_ID_SELF;
     kvm_hyperv_exit.outgpa := Z.lor HV_VP_INDEX_SELF (Z.shiftl input_vtl 32);
     kvm_hyperv_exit.xmm := [codes; 0; value; 0; 0; 0; 0; 0; 0; 0; 0; 0] |}.

(** The same call in the memory-based convention, input block at 4096
    and output at 8192. *)
Definition slow_exit (reps : Z) : kvm_hyperv_exit.t :=
  {| kvm_hyperv_exit.input := Z.shiftl reps 32;
     kvm_hyperv_exit.ingpa := 4096;
     kvm_hyperv_exit.outgpa := 8192;
     kvm_hyperv_exit.xmm := replicate 12 0 |}.

End RegSample.

(** * Bit and array lemmas shared by the proofs *)

Lemma land_pow2_testbit old k :
  0 <= k -> (Z.land old (2 ^ k) =? 2 ^ k) = Z.testbit old k.
Proof.
  intros Hk. destruct (Z.testbit old k) eqn:Hb.
  - apply Z.eqb_eq. apply Z.bits_inj'. intros n Hn.
    rewrite Z.land_spec, Z.pow2_bits_eqb by lia.
    destruct (k =? n) eqn:Hkn.
    + apply Z.eqb_eq in Hkn. subst n. rewrite Hb. reflexivity.
    + apply andb_false_r.
  - apply Z.eqb_neq. intros H.
    assert (Ht : Z.testbit (Z.land old (2 ^ k)) k = true).
    { rewrite H. rewrite Z.pow2_bits_eqb by lia. apply Z.eqb_refl. }
    rewrite Z.land_spec, Hb in Ht. discriminate Ht.
Qed.

Lemma lor_pow2_id old k :
  0 <= k -> Z.testbit old k = true -> Z.lor old (2 ^ k) = old.
Proof.
  intros Hk Hb. apply Z.bits_inj'. intros n Hn.
  rewrite Z.lor_spec, Z.pow2_bits_eqb by lia.
  destruct (k =? n) eqn:Hkn.
  - apply Z.eqb_eq in Hkn. subst n. rewrite Hb. reflexivity.
  - apply orb_false_r.
Qed.

Lemma land_pow2_zero s t :
  0 <= t -> (Z.land s (Z.shiftl 1 t) =? 0) = negb (Z.testbit s t).
Proof.
  intros Ht. rewrite Z.shiftl_1_l. destruct (Z.testbit s t) eqn:Hb; simpl.
  - apply Z.eqb_neq. intros H.
    assert (Hx : Z.testbit (Z.land s (2 ^ t)) t = true).
    { rewrite Z.land_spec, Hb, Z.pow2_bits_eqb, Z.eqb_refl by lia. reflexivity. }
    rewrite H, Z.bits_0 in Hx. discriminate Hx.
  - apply Z.eqb_eq. apply Z.bits_inj'. intros n Hn.
    rewrite Z.land_spec, Z.pow2_bits_eqb, Z.bits_0 by lia.
    destruct (t =? n) eqn:Htn.
    + apply Z.eqb_eq in Htn. subst n. rewrite Hb. reflexivity.
    + apply andb_false_r.
Qed.

Lemma testbit_small_high a n j :
  0 <= a < 2 ^ n -> 0 <= n <= j -> Z.testbit a j = false.
Proof.
  intros Ha Hj. rewrite <- (Z.mod_small a (2 ^ n)) by exact Ha.
  apply Z.mod_pow2_bits_high. lia.
Qed.

(** Setting one of the low sixteen bits of a 16-bit value stays within
    sixteen bits. *)
Lemma wrap16_lor_pow2 a t :
  0 <= a < 2 ^ 16 -> 0 <= t <= 15 -> Vsm.wrap16 (Z.lor a (2 ^ t)) = Z.lor a (2 ^ t).
Proof.
  intros Ha Ht. unfold Vsm.wrap16. apply Z.bits_inj'. intros n Hn.
  destruct (Z_lt_le_dec n 16) as [Hlt | Hge].
  - apply Z.mod_pow2_bits_low. lia.
  - rewrite Z.mod_pow2_bits_high by lia.
    rewrite Z.lor_spec, (testbit_small_high a 16 n), Z.pow2_bits_eqb by lia.
    symmetry. apply Z.eqb_neq. lia.
Qed.

Lemma array_copy_length n src dst : length (Vsm.array_copy n src dst) = length dst.
Proof. induction n as [|k IH]; simpl; [reflexivity|]. rewrite length_insert. exact IH. Qed.

Lemma array_copy_lookup n src dst i :
  (i < length dst)%nat ->
  Vsm.array_copy n src dst !! i =
    if decide (i < n)%nat then Some (src !!! i) else dst !! i.
Proof.
  intros Hi. induction n as [|k IH]; simpl.
  - destruct (decide (i < 0)%nat); [lia | reflexivity].
  - destruct (decide (i = k)) as [-> | Hne].
    + rewrite list_lookup_insert_eq by (rewrite array_copy_length; exact Hi).
      destruct (decide (k < S k)%nat); [reflexivity | lia].
    + rewrite list_lookup_insert_ne by congruence. rewrite IH.
      destruct (decide (i < k)%nat), (decide (i < S k)%nat); try reflexivity; lia.
Qed.

(** Copying all [n] elements between arrays of [n] elements gives the
    source array. *)
Lemma array_copy_all n src dst :
  length src = n -> length dst = n -> Vsm.array_copy n src dst = src.
Proof.
  intros Hs Hd. apply list_eq. intros i.
  destruct (decide (i < n)%nat) as [Hlt | Hge].
  - rewrite array_copy_lookup by lia.
    destruct (decide (i < n)%nat); [|lia].
    symmetry. apply list_lookup_lookup_total_lt. lia.
  - rewrite !lookup_ge_None_2; [reflexivity | lia |].
    rewrite array_copy_length. lia.
Qed.

(** * Properties of the staged-message state machine *)

Section SynICFacts.
Import SynIC.

Variable HV_EVENT_FLAGS_COUNT : Z.
Variable notifier_rc : Z.

Lemma staged_state_eqb_eq a b : staged_state_eqb a b = true <-> a = b.
Proof. destruct a, b; simpl; split; intros H; try reflexivity; discriminate H. Qed.

Lemma cb_calls_app l1 l2 : cb_calls (l1 ++ l2) = (cb_calls l1 + cb_calls l2)%nat.
Proof. unfold cb_calls. rewrite List.filter_app, length_app. reflexivity. Qed.

Lemma sint_raised_app l1 l2 :
  sint_raised (l1 ++ l2) = (sint_raised l1 + sint_raised l2)%nat.
Proof. unfold sint_raised. rewrite List.filter_app, length_app. reflexivity. Qed.

Lemma world_eta w :
  {| sint_route := sint_route w; synic := synic w; effects := effects w |} = w.
Proof. destruct w; reflexivity. Qed.

Lemma synic_eta s :
  {| sctl_enabled := sctl_enabled s; msg_page_addr := msg_page_addr s;
     event_page_addr := event_page_addr s; msg_page := msg_page s;
     event_page := event_page s |} = s.
Proof. destruct s; reflexivity. Qed.

(** C1. [hyperv_post_msg] grabs the staging area only from FREE: it then
    moves it to BUSY, copies the caller's message, takes one reference and
    schedules [cpu_post_msg] on the vCPU; from BUSY or POSTED it returns
    [-EAGAIN] and the world is unchanged. *)
Theorem hyperv_post_msg_spec (w : world) (sm : HvSintStagedMessage)
    (src_msg : hyperv_message) :
  staged_msg (sint_route w) = Some sm ->
  match state sm with
  | HV_STAGED_MSG_FREE =>
      exists w',
        hyperv_post_msg w src_msg = Some (0, w') /\
        staged_msg (sint_route w') =
          Some {| msg := src_msg; cb_data := cb_data sm; status := status sm;
                  state := HV_STAGED_MSG_BUSY |} /\
        refcount (sint_route w') = wrap32 (refcount (sint_route w) + 1) /\
        sint (sint_route w') = sint (sint_route w) /\
        gsi (sint_route w') = gsi (sint_route w) /\
        synic w' = synic w /\
        effects w' = effects w ++ [run_on_cpu_cpu_post_msg]
  | HV_STAGED_MSG_BUSY | HV_STAGED_MSG_POSTED =>
      hyperv_post_msg w src_msg = Some (- EAGAIN, w)
  end /\
  ((exists w', hyperv_post_msg w src_msg = Some (0, w')) <->
   state sm = HV_STAGED_MSG_FREE).
Proof.
  intros Hsm. unfold hyperv_post_msg. rewrite Hsm.
  destruct (state sm) eqn:Hst; simpl.
  - split.
    + eexists. split; [reflexivity|]. simpl. repeat split; reflexivity.
    + split; [reflexivity | intros _; eexists; reflexivity].
  - split; [reflexivity|]. split; [intros [w' H]; discriminate H | discriminate].
  - split; [reflexivity|]. split; [intros [w' H]; discriminate H | discriminate].
Qed.

(** When the counter is below its maximum the reference taken by
    [hyperv_post_msg] raises it by exactly one. *)
Lemma hyperv_post_msg_takes_one_ref w sm src_msg w' :
  staged_msg (sint_route w) = Some sm ->
  0 <= refcount (sint_route w) < 2 ^ 32 - 1 ->
  hyperv_post_msg w src_msg = Some (0, w') ->
  refcount (sint_route w') = refcount (sint_route w) + 1.
Proof.
  intros Hsm Hr. unfold hyperv_post_msg. rewrite Hsm.
  destruct (staged_state_eqb (state sm) HV_STAGED_MSG_FREE); simpl.
  - intros [= <-]. simpl. unfold wrap32. rewrite Z.mod_small; lia.
  - intros H. discriminate H.
Qed.

(** C2, as the code has it.  Run in state BUSY, [cpu_post_msg] always
    ends in POSTED and takes exactly one of three paths: no message page
    ([-ENXIO], completion scheduled); slot occupied (pending flag set,
    [-EAGAIN], page marked dirty, no completion scheduled); slot free
    (staged message copied into the slot, the route's notifier set when
    the route has a GSI and not otherwise, page marked dirty, completion
    scheduled). *)
Theorem cpu_post_msg_spec (w : world) (sm : HvSintStagedMessage) :
  staged_msg (sint_route w) = Some sm ->
  state sm = HV_STAGED_MSG_BUSY ->
  msg_page_addr (synic w) = 0 \/
    0 <= sint (sint_route w) < Z.of_nat (length (msg_page (synic w))) ->
  let i := Z.to_nat (sint (sint_route w)) in
  let g := gsi (sint_route w) in
  exists w' st,
    cpu_post_msg notifier_rc w = Some w' /\
    sint_route w' =
      with_staged (Some {| msg := msg sm; cb_data := cb_data sm; status := st;
                           state := HV_STAGED_MSG_POSTED |}) (sint_route w) /\
    if msg_page_addr (synic w) =? 0 then
      st = - ENXIO /\ synic w' = synic w /\
      effects w' = effects w ++ [bh_schedule_sint_msg_bh]
    else
      exists dst_msg,
        msg_page (synic w) !! i = Some dst_msg /\
        if message_type dst_msg =? HV_MESSAGE_NONE then
          synic w' = with_msg_page (<[i := msg sm]> (msg_page (synic w))) (synic w) /\
          msg_page (synic w') !! i = Some (msg sm) /\
          st = (if g =? 0 then 0 else notifier_rc) /\
          effects w' =
            effects w ++ (if g =? 0 then [] else [event_notifier_set g]) ++
              [set_dirty_msg_page; bh_schedule_sint_msg_bh]
        else
          synic w' =
            with_msg_page
              (<[i := set_message_flags
                        (Z.lor (message_flags dst_msg) HV_MESSAGE_FLAG_PENDING) dst_msg]>
                 (msg_page (synic w))) (synic w) /\
          st = - EAGAIN /\
          effects w' = effects w ++ [set_dirty_msg_page].
Proof.
  intros Hsm Hst Hrange i g. unfold cpu_post_msg. rewrite Hsm, Hst. simpl.
  destruct (msg_page_addr (synic w) =? 0) eqn:Haddr.
  - eexists _, _. split; [reflexivity|]. split; [reflexivity|].
    simpl. repeat split; reflexivity.
  - apply Z.eqb_neq in Haddr. destruct Hrange as [H0 | Hrange]; [contradiction|].
    assert (Hlt : (i < length (msg_page (synic w)))%nat) by (subst i; lia).
    destruct (lookup_lt_is_Some_2 _ _ Hlt) as [dst Hdst].
    fold i. rewrite Hdst.
    destruct (message_type dst =? HV_MESSAGE_NONE) eqn:Hty; simpl.
    + unfold hyperv_sint_route_set_sint. simpl. fold g.
      destruct (g =? 0) eqn:Hg; simpl.
      * eexists _, _. split; [reflexivity|]. split; [reflexivity|].
        exists dst. split; [reflexivity|]. rewrite Hty. simpl.
        split; [reflexivity|]. split; [apply list_lookup_insert_eq; exact Hlt|].
        split; [reflexivity|]. rewrite <- app_assoc. reflexivity.
      * eexists _, _. split; [reflexivity|]. split; [reflexivity|].
        exists dst. split; [reflexivity|]. rewrite Hty. simpl.
        split; [reflexivity|]. split; [apply list_lookup_insert_eq; exact Hlt|].
        split; [reflexivity|]. rewrite <- !app_assoc. reflexivity.
    + eexists _, _. split; [reflexivity|]. split; [reflexivity|].
      exists dst. split; [reflexivity|]. rewrite Hty. simpl.
      repeat split; reflexivity.
Qed.

(** C3. [sint_msg_bh] does nothing unless the state is POSTED; from
    POSTED it calls the callback once with the recorded status, clears the
    status, returns to FREE and drops one reference; run again right
    after, it does nothing. *)
Theorem sint_msg_bh_spec (w : world) (sm : HvSintStagedMessage) :
  staged_msg (sint_route w) = Some sm ->
  match state sm with
  | HV_STAGED_MSG_POSTED =>
      0 < refcount (sint_route w) ->
      exists w' tail,
        sint_msg_bh w = Some w' /\
        staged_msg (sint_route w') =
          Some {| msg := msg sm; cb_data := cb_data sm; status := 0;
                  state := HV_STAGED_MSG_FREE |} /\
        refcount (sint_route w') = refcount (sint_route w) - 1 /\
        synic w' = synic w /\
        effects w' = effects w ++ cb_call (cb_data sm) (status sm) :: tail /\
        cb_calls tail = 0%nat /\
        cb_calls (effects w') = S (cb_calls (effects w)) /\
        sint_msg_bh w' = Some w'
  | HV_STAGED_MSG_FREE | HV_STAGED_MSG_BUSY => sint_msg_bh w = Some w
  end.
Proof.
  intros Hsm. unfold sint_msg_bh. rewrite Hsm.
  destruct (state sm) eqn:Hst; simpl; try reflexivity.
  intros Href. unfold hyperv_sint_route_unref. simpl.
  destruct (refcount (sint_route w) <=? 0) eqn:Hle; [apply Z.leb_le in Hle; lia|].
  destruct (refcount (sint_route w) - 1 =? 0) eqn:Hz; simpl.
  - destruct (gsi (sint_route w) =? 0) eqn:Hg; simpl.
    + eexists _, [route_free]. split; [reflexivity|]. simpl.
      rewrite <- app_assoc. repeat split; try reflexivity.
      rewrite !cb_calls_app. unfold cb_calls. simpl. lia.
    + eexists _, [irqfd_release _; route_free]. split; [reflexivity|]. simpl.
      rewrite <- !app_assoc. repeat split; try reflexivity.
      rewrite !cb_calls_app. unfold cb_calls. simpl. lia.
  - eexists _, []. split; [reflexivity|]. simpl.
    repeat split; try reflexivity.
    rewrite !cb_calls_app. unfold cb_calls. simpl. lia.
Qed.

(** One full cycle FREE -> BUSY -> POSTED -> FREE: post, delivery and
    completion all succeed, the callback is called exactly once and the
    reference count is back where it started. *)
Lemma staged_msg_cycle_one_callback (w : world) (sm : HvSintStagedMessage)
    (src_msg : hyperv_message) :
  staged_msg (sint_route w) = Some sm ->
  state sm = HV_STAGED_MSG_FREE ->
  0 < refcount (sint_route w) < 2 ^ 32 - 1 ->
  msg_page_addr (synic w) = 0 \/
    0 <= sint (sint_route w) < Z.of_nat (length (msg_page (synic w))) ->
  exists w1 w2 w3,
    hyperv_post_msg w src_msg = Some (0, w1) /\
    cpu_post_msg notifier_rc w1 = Some w2 /\
    sint_msg_bh w2 = Some w3 /\
    cb_calls (effects w3) = S (cb_calls (effects w)) /\
    refcount (sint_route w3) = refcount (sint_route w) /\
    (exists sm3, staged_msg (sint_route w3) = Some sm3 /\
                 state sm3 = HV_STAGED_MSG_FREE).
Proof.
  intros Hsm Hst [Hr0 Hr1] Hrange.
  assert (Hw : wrap32 (refcount (sint_route w) + 1) = refcount (sint_route w) + 1).
  { unfold wrap32. apply Z.mod_small. lia. }
  assert (Hle : (refcount (sint_route w) + 1 <=? 0) = false) by (apply Z.leb_gt; lia).
  assert (Hnz : (refcount (sint_route w) + 1 - 1 =? 0) = false) by (apply Z.eqb_neq; lia).
  assert (Hpost : hyperv_post_msg w src_msg =
            Some (0, {| sint_route :=
                          {| sint := sint (sint_route w); gsi := gsi (sint_route w);
                             staged_msg :=
                               Some {| msg := src_msg; cb_data := cb_data sm;
                                       status := status sm;
                                       state := HV_STAGED_MSG_BUSY |};
                             refcount := refcount (sint_route w) + 1 |};
                        synic := synic w;
                        effects := effects w ++ [run_on_cpu_cpu_post_msg] |})).
  { unfold hyperv_post_msg, hyperv_sint_route_ref. rewrite Hsm, Hst.
    cbn -[wrap32]. rewrite Hw. reflexivity. }
  rewrite Hpost. clear Hpost.
  eexists. cut (exists w2 w3,
    cpu_post_msg notifier_rc
      {| sint_route :=
           {| sint := sint (sint_route w); gsi := gsi (sint_route w);
              staged_msg :=
                Some {| msg := src_msg; cb_data := cb_data sm; status := status sm;
                        state := HV_STAGED_MSG_BUSY |};
              refcount := refcount (sint_route w) + 1 |};
         synic := synic w;
         effects := effects w ++ [run_on_cpu_cpu_post_msg] |} = Some w2 /\
    sint_msg_bh w2 = Some w3 /\
    cb_calls (effects w3) = S (cb_calls (effects w)) /\
    refcount (sint_route w3) = refcount (sint_route w) /\
    (exists sm3, staged_msg (sint_route w3) = Some sm3 /\
                 state sm3 = HV_STAGED_MSG_FREE)).
  { intros (w2 & w3 & H). exists w2, w3. split; [reflexivity | exact H]. }
  assert (Hbh : forall st l sy,
            sint_msg_bh
              {| sint_route :=
                   {| sint := sint (sint_route w); gsi := gsi (sint_route w);
                      staged_msg :=
                        Some {| msg := src_msg; cb_data := cb_data sm; status := st;
                                state := HV_STAGED_MSG_POSTED |};
                      refcount := refcount (sint_route w) + 1 |};
                 synic := sy; effects := l |} =
            Some {| sint_route :=
                      {| sint := sint (sint_route w); gsi := gsi (sint_route w);
                         staged_msg :=
                           Some {| msg := src_msg; cb_data := cb_data sm; status := 0;
                                   state := HV_STAGED_MSG_FREE |};
                         refcount := refcount (sint_route w) + 1 - 1 |};
                    synic := sy; effects := l ++ [cb_call (cb_data sm) st] |}).
  { intros st l sy. unfold sint_msg_bh, hyperv_sint_route_unref. cbn.
    rewrite Hle, Hnz. reflexivity. }
  assert (Hfin : forall st l sy,
            cb_calls l = cb_calls (effects w) ->
            exists w3,
              sint_msg_bh
                {| sint_route :=
                     {| sint := sint (sint_route w); gsi := gsi (sint_route w);
                        staged_msg :=
                          Some {| msg := src_msg; cb_data := cb_data sm; status := st;
                                  state := HV_STAGED_MSG_POSTED |};
                        refcount := refcount (sint_route w) + 1 |};
                   synic := sy; effects := l |} = Some w3 /\
              cb_calls (effects w3) = S (cb_calls (effects w)) /\
              refcount (sint_route w3) = refcount (sint_route w) /\
              (exists sm3, staged_msg (sint_route w3) = Some sm3 /\
                           state sm3 = HV_STAGED_MSG_FREE)).
  { intros st l sy Hl. eexists. split; [apply Hbh|].
    cbn [effects sint_route refcount staged_msg state].
    split; [rewrite cb_calls_app, Hl; unfold cb_calls; simpl; lia|].
    split; [lia|]. eexists. split; reflexivity. }
  unfold cpu_post_msg, hyperv_sint_route_set_sint. cbn.
  destruct (msg_page_addr (synic w) =? 0) eqn:Haddr.
  - destruct (Hfin (- ENXIO)
                ((effects w ++ [run_on_cpu_cpu_post_msg]) ++ [bh_schedule_sint_msg_bh])
                (synic w)) as (w3 & H3).
    { rewrite !cb_calls_app. unfold cb_calls. simpl. lia. }
    eexists _, w3. split; [reflexivity|]. exact H3.
  - apply Z.eqb_neq in Haddr. destruct Hrange as [H0 | Hrange]; [contradiction|].
    destruct (lookup_lt_is_Some_2 (msg_page (synic w)) (Z.to_nat (sint (sint_route w))))
      as [dst Hdst]; [lia|].
    rewrite Hdst.
    destruct (message_type dst =? HV_MESSAGE_NONE); cbn.
    + destruct (gsi (sint_route w) =? 0); cbn.
      * edestruct Hfin as (w3 & H3);
          [|eexists _, w3; split; [reflexivity|]; exact H3].
        cbn -[cb_calls]. rewrite !cb_calls_app. unfold cb_calls. simpl. lia.
      * edestruct Hfin as (w3 & H3);
          [|eexists _, w3; split; [reflexivity|]; exact H3].
        cbn -[cb_calls]. rewrite !cb_calls_app. unfold cb_calls. simpl. lia.
    + edestruct Hfin as (w3 & H3);
        [|eexists _, w3; split; [reflexivity|]; exact H3].
      cbn -[cb_calls]. rewrite !cb_calls_app. unfold cb_calls. simpl. lia.
Qed.

(** ** Event flags *)

Lemma BIT_MASK_pow2 e : BIT_MASK e = 2 ^ (e mod BITS_PER_LONG).
Proof. unfold BIT_MASK. apply Z.shiftl_1_l. Qed.

(** C6, as the code has it.  For an event number below
    [HV_EVENT_FLAGS_COUNT], SynIC enabled, event page mapped and the
    route's slot inside the page: an already
    set bit leaves the world unchanged and returns 0; a clear bit is set,
    the event page is marked dirty, and the route's notifier is set once
    when the route has a GSI (a route without one raises nothing and the
    call returns 0). *)
Theorem hyperv_set_event_flag_edge (w : world) (eventno : Z) :
  0 <= eventno < HV_EVENT_FLAGS_COUNT ->
  sctl_enabled (synic w) = true ->
  event_page_addr (synic w) <> 0 ->
  let fw := flags_words HV_EVENT_FLAGS_COUNT in
  0 <= sint (sint_route w) ->
  (sint (sint_route w) + 1) * fw <= Z.of_nat (length (event_page (synic w))) ->
  let i := Z.to_nat (sint (sint_route w) * fw + BIT_WORD eventno) in
  let g := gsi (sint_route w) in
  exists old,
    event_page (synic w) !! i = Some old /\
    if Z.testbit old (eventno mod BITS_PER_LONG) then
      hyperv_set_event_flag HV_EVENT_FLAGS_COUNT notifier_rc w eventno = Some (0, w)
    else
      exists w',
        hyperv_set_event_flag HV_EVENT_FLAGS_COUNT notifier_rc w eventno =
          Some (if g =? 0 then 0 else notifier_rc, w') /\
        sint_route w' = sint_route w /\
        synic w' =
          with_event_page (<[i := Z.lor old (BIT_MASK eventno)]> (event_page (synic w)))
            (synic w) /\
        Z.testbit (Z.lor old (BIT_MASK eventno)) (eventno mod BITS_PER_LONG) = true /\
        effects w' =
          effects w ++ set_dirty_event_page ::
            (if g =? 0 then [] else [event_notifier_set g]) /\
        sint_raised (effects w') =
          (sint_raised (effects w) + (if (g =? 0)%Z then 0 else 1))%nat.
Proof.
  intros He Hen Hpg fw Hs Hlen i g.
  assert (Hk : 0 <= eventno mod BITS_PER_LONG) by (apply Z.mod_pos_bound; reflexivity).
  assert (Hw : 0 <= BIT_WORD eventno < fw).
  { subst fw. unfold flags_words, BITS_TO_LONGS, BIT_WORD, BITS_PER_LONG.
    split; [apply Z.div_pos; lia|].
    apply Z.div_lt_upper_bound; [lia|].
    pose proof (Z.mul_div_le (HV_EVENT_FLAGS_COUNT + 64 - 1) 64 eq_refl).
    pose proof (Z.mod_pos_bound (HV_EVENT_FLAGS_COUNT + 64 - 1) 64 eq_refl).
    pose proof (Z.div_mod (HV_EVENT_FLAGS_COUNT + 64 - 1) 64). lia. }
  assert (Hlt : (i < length (event_page (synic w)))%nat).
  { subst i. nia. }
  destruct (lookup_lt_is_Some_2 _ _ Hlt) as [old Hold].
  exists old. split; [exact Hold|].
  unfold hyperv_set_event_flag.
  destruct (eventno >? HV_EVENT_FLAGS_COUNT) eqn:Hgt; [apply Z.gtb_lt in Hgt; lia|].
  rewrite Hen. simpl.
  destruct (event_page_addr (synic w) =? 0) eqn:Ha; [apply Z.eqb_eq in Ha; contradiction|].
  fold fw. fold i. rewrite Hold. rewrite BIT_MASK_pow2, land_pow2_testbit by exact Hk.
  destruct (Z.testbit old (eventno mod BITS_PER_LONG)) eqn:Hb; simpl.
  - rewrite lor_pow2_id by assumption.
    rewrite (list_insert_id _ _ _ Hold).
    unfold with_synic, with_event_page. rewrite synic_eta, world_eta. reflexivity.
  - unfold hyperv_sint_route_set_sint. simpl. fold g.
    assert (Hset : Z.testbit (Z.lor old (2 ^ (eventno mod BITS_PER_LONG)))
                     (eventno mod BITS_PER_LONG) = true).
    { rewrite Z.lor_spec, Z.pow2_bits_eqb, Z.eqb_refl by exact Hk. apply orb_true_r. }
    destruct (g =? 0) eqn:Hg; eexists; (split; [reflexivity|]); simpl;
      repeat split; try reflexivity; try exact Hset.
    + rewrite sint_raised_app. unfold sint_raised. simpl. lia.
    + rewrite <- app_assoc. reflexivity.
    + rewrite !sint_raised_app. unfold sint_raised. simpl. lia.
Qed.

(** The error paths of [hyperv_set_event_flag]: the statuses are distinct
    and the world is returned as it was. *)
Lemma hyperv_set_event_flag_errors (w : world) (eventno : Z) :
  (eventno > HV_EVENT_FLAGS_COUNT ->
   hyperv_set_event_flag HV_EVENT_FLAGS_COUNT notifier_rc w eventno =
     Some (- EINVAL, w)) /\
  (eventno <= HV_EVENT_FLAGS_COUNT ->
   sctl_enabled (synic w) = false \/ event_page_addr (synic w) = 0 ->
   hyperv_set_event_flag HV_EVENT_FLAGS_COUNT notifier_rc w eventno =
     Some (- ENXIO, w)).
Proof.
  unfold hyperv_set_event_flag. split.
  - intros H. destruct (eventno >? HV_EVENT_FLAGS_COUNT) eqn:Hgt; [reflexivity|].
    rewrite Z.gtb_ltb in Hgt. apply Z.ltb_ge in Hgt. lia.
  - intros H Hd. destruct (eventno >? HV_EVENT_FLAGS_COUNT) eqn:Hgt.
    + apply Z.gtb_lt in Hgt. lia.
    + destruct Hd as [-> | ->]; [reflexivity|].
      rewrite Z.eqb_refl, orb_true_r. reflexivity.
Qed.

(** The event number [HV_EVENT_FLAGS_COUNT] is never answered with the
    out-of-range rejection when the SynIC is enabled and the page mapped:
    the call goes on to the flag words. *)
Lemma hyperv_set_event_flag_count_passes (w : world) :
  sctl_enabled (synic w) = true ->
  event_page_addr (synic w) <> 0 ->
  hyperv_set_event_flag HV_EVENT_FLAGS_COUNT notifier_rc w HV_EVENT_FLAGS_COUNT
    <> Some (- EINVAL, w).
Proof.
  intros Hen Hpg. unfold hyperv_set_event_flag.
  rewrite Z.gtb_ltb, Z.ltb_irrefl, Hen. simpl.
  destruct (event_page_addr (synic w) =? 0) eqn:Ha; [apply Z.eqb_eq in Ha; contradiction|].
  destruct (event_page (synic w) !! _) as [old|]; [|discriminate].
  destruct (negb _).
  - unfold hyperv_sint_route_set_sint. simpl.
    destruct (gsi (sint_route w) =? 0); [discriminate|].
    intros [= _ Hw]. apply (f_equal effects) in Hw. simpl in Hw.
    apply (f_equal length) in Hw. rewrite !length_app in Hw. simpl in Hw. lia.
  - discriminate.
Qed.

End SynICFacts.

(** ** Concrete runs *)

Section SynICRuns.
Import SynIC Sample.

Lemma hyperv_post_msg_spec_witness :
  staged_msg (sint_route (world0 5 HV_STAGED_MSG_FREE)) =
    Some (staged0 HV_STAGED_MSG_FREE) /\
  exists w', hyperv_post_msg (world0 5 HV_STAGED_MSG_FREE) msg0 = Some (0, w').
Proof.
  split; [reflexivity|].
  destruct (hyperv_post_msg_spec (world0 5 HV_STAGED_MSG_FREE)
              (staged0 HV_STAGED_MSG_FREE) msg0 eq_refl) as [H _].
  simpl in H. destruct H as [w' [H _]]. exists w'. exact H.
Defined.

Lemma cpu_post_msg_spec_witness :
  exists w', cpu_post_msg 0 (world0 5 HV_STAGED_MSG_BUSY) = Some w'.
Proof.
  destruct (cpu_post_msg_spec 0 (world0 5 HV_STAGED_MSG_BUSY)
              (staged0 HV_STAGED_MSG_BUSY) eq_refl eq_refl) as (w' & st & H & _).
  - right. simpl. lia.
  - exists w'. exact H.
Defined.

(** A route without a GSI, slot free: the message is delivered and the
    completion scheduled, and no notifier is set. *)
Lemma cpu_post_msg_no_gsi_counterexample :
  exists w',
    cpu_post_msg 0 (world0 0 HV_STAGED_MSG_BUSY) = Some w' /\
    msg_page (synic (world0 0 HV_STAGED_MSG_BUSY)) !! 2%nat = Some msg0 /\
    msg_page (synic w') !! 2%nat = Some msgAA /\
    effects w' = [set_dirty_msg_page; bh_schedule_sint_msg_bh] /\
    sint_raised (effects w') = 0%nat /\
    ~ (exists g, In (event_notifier_set g) (effects w')).
Proof.
  eexists. split; [reflexivity|]. repeat split; try reflexivity.
  intros [g [H | [H | []]]]; discriminate H.
Qed.

Lemma sint_msg_bh_spec_witness :
  exists w', sint_msg_bh (world0 5 HV_STAGED_MSG_POSTED) = Some w' /\
             cb_calls (effects w') = 1%nat.
Proof.
  pose proof (sint_msg_bh_spec (world0 5 HV_STAGED_MSG_POSTED)
                (staged0 HV_STAGED_MSG_POSTED) eq_refl) as H.
  simpl in H. destruct H as (w' & tail & H & _ & _ & _ & _ & _ & Hc & _); [lia|].
  exists w'. split; [exact H | exact Hc].
Defined.

Lemma hyperv_set_event_flag_edge_witness :
  exists w',
    hyperv_set_event_flag flags_count 0 (world0 5 HV_STAGED_MSG_FREE) 5 = Some (0, w') /\
    sint_raised (effects w') = 1%nat.
Proof.
  destruct (hyperv_set_event_flag_edge flags_count 0 (world0 5 HV_STAGED_MSG_FREE) 5)
    as (old & Hold & H).
  - unfold flags_count. lia.
  - reflexivity.
  - simpl. lia.
  - simpl. lia.
  - vm_compute. discriminate.
  - vm_compute in Hold. injection Hold as <-.
    cbv beta iota zeta in H. change (Z.testbit 0 (5 mod BITS_PER_LONG)) with false in H.
    cbv iota in H. destruct H as (w' & Hrun & _ & _ & _ & _ & Hr).
    exists w'. split; [exact Hrun | exact Hr].
Defined.

(** A route without a GSI, flag 5 clear: the bit is set, the page is
    marked dirty and no interrupt edge is raised. *)
Lemma hyperv_set_event_flag_no_gsi_counterexample :
  exists w',
    hyperv_set_event_flag flags_count 0 (world0 0 HV_STAGED_MSG_FREE) 5 = Some (0, w') /\
    event_page (synic (world0 0 HV_STAGED_MSG_FREE)) !! 64%nat = Some 0 /\
    event_page (synic w') !! 64%nat = Some 32 /\
    effects w' = [set_dirty_event_page] /\
    sint_raised (effects w') <> S (sint_raised (effects (world0 0 HV_STAGED_MSG_FREE))).
Proof.
  eexists. split; [reflexivity|]. repeat split; try reflexivity.
  vm_compute. discriminate.
Qed.

(** C7 at the boundary: the event number [HV_EVENT_FLAGS_COUNT] itself
    passes the range check.  With 2048 flags per SINT, on the route of
    SINT 2, the call returns the notifier's result instead of [-EINVAL],
    writes bit 0 of word 96 of the event page, the first flag word of
    SINT 3, marks the page dirty and signals the route. *)
Theorem hyperv_set_event_flag_at_count :
  exists w',
    hyperv_set_event_flag flags_count 0 (world0 5 HV_STAGED_MSG_FREE) flags_count
      = Some (0, w') /\
    event_page (synic (world0 5 HV_STAGED_MSG_FREE)) !! 96%nat = Some 0 /\
    event_page (synic w') !! 96%nat = Some 1 /\
    effects w' = [set_dirty_event_page; event_notifier_set 5] /\
    hyperv_set_event_flag flags_count 0 (world0 5 HV_STAGED_MSG_FREE) flags_count
      <> Some (- EINVAL, world0 5 HV_STAGED_MSG_FREE).
Proof.
  eexists. split; [reflexivity|]. repeat split; try reflexivity.
  vm_compute. discriminate.
Qed.

End SynICRuns.

(** * Properties of the VTL code *)

Section VsmFacts.
Import Vsm.

(** ** Register reads *)

(** C10. For the names LDTR, TR, IDTR and GDTR [get_vp_register] returns
    success and the value zero in both halves, whatever the register
    holds. *)
Theorem get_vp_register_descriptor_zero (m : machine) (target_vcpu : Z)
    (c : CPUState) (name : hv_register_name) :
  cpus m !! target_vcpu = Some c ->
  name = HV_X64_REGISTER_LDTR \/ name = HV_X64_REGISTER_TR \/
  name = HV_X64_REGISTER_IDTR \/ name = HV_X64_REGISTER_GDTR ->
  get_vp_register m name target_vcpu =
    Some (HV_STATUS_SUCCESS, {| low := 0; high := 0 |}).
Proof.
  intros Hc Hn. unfold get_vp_register. rewrite Hc. simpl.
  destruct Hn as [-> | [-> | [-> | ->]]]; reflexivity.
Qed.

(** The value does not follow the register: two vCPUs that differ in the
    descriptor registers read the same. *)
Lemma get_vp_register_descriptor_independent (m1 m2 : machine) (t1 t2 : Z)
    (c1 c2 : CPUState) (name : hv_register_name) :
  cpus m1 !! t1 = Some c1 -> cpus m2 !! t2 = Some c2 ->
  name = HV_X64_REGISTER_LDTR \/ name = HV_X64_REGISTER_TR \/
  name = HV_X64_REGISTER_IDTR \/ name = HV_X64_REGISTER_GDTR ->
  get_vp_register m1 name t1 = get_vp_register m2 name t2.
Proof.
  intros H1 H2 Hn. unfold get_vp_register. rewrite H1, H2. simpl.
  destruct Hn as [-> | [-> | [-> | ->]]]; reflexivity.
Qed.

(** ** ENABLE_PARTITION_VTL *)

(** C8, as the code has it.  For a fast call that targets the calling
    partition: a target VTL above [maximum_vtl], or one already in the
    enabled set, is refused with invalid-parameter and the machine is as
    before.  Whatever the arguments, a call that does not succeed changes
    nothing, a call that succeeds adds the bit of the target VTL to the
    enabled set and nothing else, and a fast self-targeted call without
    the MBEC flag for a VTL in range and not yet enabled succeeds. *)
Theorem hyperv_hcall_vtl_enable_partition_vtl_spec (m : machine)
    (cs param1 param2 : Z) (fast : bool) :
  0 <= p_enabled_vtl_set (hv_vsm_partition_status m) < 2 ^ 16 ->
  0 <= maximum_vtl (hv_vsm_partition_status m) <= 15 ->
  let st := hv_vsm_partition_status m in
  let t := Z.land param2 255 in
  let r := hyperv_hcall_vtl_enable_partition_vtl m cs param1 param2 fast in
  (fast = true -> param1 = HV_PARTITION_ID_SELF -> maximum_vtl st < t ->
   r = (HV_STATUS_INVALID_PARAMETER, m)) /\
  (fast = true -> param1 = HV_PARTITION_ID_SELF ->
   Z.testbit (p_enabled_vtl_set st) t = true ->
   r = (HV_STATUS_INVALID_PARAMETER, m)) /\
  (fst r <> HV_STATUS_SUCCESS -> snd r = m) /\
  (fst r = HV_STATUS_SUCCESS ->
   t <= maximum_vtl st /\
   Z.testbit (p_enabled_vtl_set st) t = false /\
   snd r =
     with_partition_status
       {| p_enabled_vtl_set := Z.lor (p_enabled_vtl_set st) (2 ^ t);
          maximum_vtl := maximum_vtl st;
          mbec_enabled_vtl_set := mbec_enabled_vtl_set st |} m /\
   forall j, 0 <= j ->
     Z.testbit (p_enabled_vtl_set (hv_vsm_partition_status (snd r))) j =
       Z.testbit (p_enabled_vtl_set st) j || (t =? j)) /\
  (fast = true -> param1 = HV_PARTITION_ID_SELF ->
   Z.land (Z.land (Z.shiftr param2 8) 255) 1 = 0 ->
   t <= maximum_vtl st -> Z.testbit (p_enabled_vtl_set st) t = false ->
   fst r = HV_STATUS_SUCCESS).
Proof.
  intros Hset Hmax st t r.
  assert (Ht : 0 <= t) by (apply Z.land_nonneg; right; lia).
  subst r. unfold hyperv_hcall_vtl_enable_partition_vtl.
  fold st. fold t.
  destruct fast; simpl; [|repeat split; intros; try discriminate; try reflexivity; congruence].
  destruct (param1 =? HV_PARTITION_ID_SELF) eqn:Hp; simpl.
  2:{ apply Z.eqb_neq in Hp.
      repeat split; intros; try discriminate; try reflexivity; try congruence. }
  destruct (Z.land (Z.land (Z.shiftr param2 8) 255) 1 =? 0) eqn:Hm; simpl.
  2:{ apply Z.eqb_neq in Hm.
      repeat split; intros; try discriminate; try reflexivity; try congruence. }
  destruct (t >? maximum_vtl st) eqn:Hgt; simpl.
  { apply Z.gtb_lt in Hgt.
    repeat split; intros; try discriminate; try reflexivity; try congruence; lia. }
  rewrite Z.gtb_ltb in Hgt. apply Z.ltb_ge in Hgt.
  rewrite land_pow2_zero by exact Ht.
  destruct (Z.testbit (p_enabled_vtl_set st) t) eqn:Hb; simpl.
  { repeat split; intros; try discriminate; try reflexivity; try congruence; lia. }
  rewrite Z.shiftl_1_l, wrap16_lor_pow2 by (fold st in Hset, Hmax; lia).
  repeat split; intros; try discriminate; try reflexivity; try congruence; try lia.
  rewrite Z.lor_spec, Z.pow2_bits_eqb by lia. reflexivity.
Qed.

(** ** VTL_CALL and VTL_RETURN *)

(** C5 at VTL0.  [hyperv_hcall_vtl_return] has no check of the level it
    is called from: from vCPU 0 it looks for vCPU -1, gets [NULL] and
    dereferences it.  No machine makes it return an error. *)
Theorem hyperv_hcall_vtl_return_vtl0 (m : machine) :
  hyperv_hcall_vtl_return m 0 = None.
Proof.
  unfold hyperv_hcall_vtl_return, hyperv_get_prev_vtl, hyperv_vsm_vp_index,
    get_active_vtl, cpu_index. simpl.
  destruct (cpus m !! 0) as [c|]; simpl; reflexivity.
Qed.

(** Whenever [hyperv_hcall_vtl_return] returns, it returns [EXCP_HALTED]:
    it has no error result. *)
Lemma hyperv_hcall_vtl_return_result (m m' : machine) (active_cs r : Z) :
  hyperv_hcall_vtl_return m active_cs = Some (r, m') -> r = EXCP_HALTED.
Proof.
  unfold hyperv_hcall_vtl_return. intros H.
  simplify_option_eq. reflexivity.
Qed.

(** The guard of [hyperv_hcall_vtl_call]: from a VTL above 1 the call
    never switches; when the vCPU of the next VTL exists it returns -1 and
    the machine is as before. *)
Lemma hyperv_hcall_vtl_call_above_1 (m : machine) (active_cs : Z) :
  1 < active_cs ->
  hyperv_hcall_vtl_call m active_cs = None \/
  hyperv_hcall_vtl_call m active_cs = Some (-1, m).
Proof.
  intros Ha.
  destruct (hyperv_hcall_vtl_call m active_cs) as [[r m']|] eqn:H; [|left; reflexivity].
  right. unfold hyperv_hcall_vtl_call in H.
  assert (Hgt : (active_cs >? 1) = true) by (apply Z.gtb_lt; lia).
  simplify_option_eq. rewrite Hgt in H.
  case_match; simplify_eq; reflexivity.
Qed.

Lemma hyperv_vsm_vcpu_found (m : machine) (vp v : Z) :
  0 <= v < 2 ^ 31 -> is_Some (cpus m !! v) ->
  hyperv_vsm_vcpu m vp (wrap32 v) = Some (Some v).
Proof.
  intros Hv [c Hc]. unfold hyperv_vsm_vcpu.
  assert (Hw : wrap32 v = v) by (unfold wrap32; apply Z.mod_small; lia).
  assert (Hi : to_int32 v = v).
  { unfold to_int32. rewrite Z.mod_small by lia.
    destruct (v <? 2 ^ 31) eqn:Hlt; [reflexivity|]. apply Z.ltb_ge in Hlt. lia. }
  rewrite Hw, Hi. unfold qemu_get_cpu.
  destruct (v <? 0) eqn:Hneg; [apply Z.ltb_lt in Hneg; lia|].
  rewrite Hc. unfold cpu_index. cbn. rewrite Hc. cbn.
  rewrite Hw, Z.eqb_refl. reflexivity.
Qed.

Lemma hyperv_hcall_vtl_call_rejected (m : machine) (active_cs : Z) :
  1 < active_cs -> active_cs + 1 < 2 ^ 31 ->
  is_Some (cpus m !! active_cs) -> is_Some (cpus m !! (active_cs + 1)) ->
  hyperv_hcall_vtl_call m active_cs = Some (-1, m).
Proof.
  intros Ha Hb [ca Hca] Hn.
  unfold hyperv_hcall_vtl_call, hyperv_get_next_vtl, hyperv_vsm_vp_index,
    get_active_vtl, cpu_index. cbn. rewrite Hca. cbn.
  rewrite hyperv_vsm_vcpu_found by (try lia; exact Hn).
  destruct Hn as [cn Hcn]. cbn. rewrite Hcn. cbn.
  destruct (active_cs >? 1) eqn:Hgt; [reflexivity|].
  rewrite Z.gtb_ltb in Hgt. apply Z.ltb_ge in Hgt. lia.
Qed.

(** ** The state transplanted by a VTL switch *)

Lemma hyperv_sync_shared_vtl_state_result (m : machine) (active_cs next_cs : Z)
    (ca cn : CPUState) (v : VpVsmState) :
  iothread_locked m = true ->
  cpus m !! active_cs = Some ca ->
  cpus m !! next_cs = Some cn ->
  vp_vsm cn = Some v ->
  hyperv_sync_shared_vtl_state m active_cs next_cs =
    Some (update_cpu m next_cs
            {| env := synced_env (env ca) (env cn) (priv_state v);
               apic_base := Z.lor (apic_base cn) MSR_IA32_APICBASE_BSP;
               vp_vsm := Some (with_priv_state (save_priv (env cn) (priv_state v)) v);
               stop := stop cn; stopped := stopped cn |}).
Proof.
  intros Hl Ha Hn Hv. unfold hyperv_sync_shared_vtl_state.
  rewrite Hl, Ha, Hn. cbn.
  unfold hyperv_save_priv_vtl_state. rewrite Hv. cbn. reflexivity.
Qed.

(** Fields of the destination that keep the destination's own values. *)
Lemma synced_env_retained (s d : CPUX86State.t) (p : kvm_hv_vcpu_per_vtl_state.t) :
  env_wf s -> env_wf d -> priv_wf p ->
  let d' := synced_env s d p in
  CPUX86State.kernelgsbase d' = CPUX86State.kernelgsbase d /\
  CPUX86State.tsc_aux d' = CPUX86State.tsc_aux d /\
  CPUX86State.sysenter_cs d' = CPUX86State.sysenter_cs d /\
  CPUX86State.sysenter_esp d' = CPUX86State.sysenter_esp d /\
  CPUX86State.sysenter_eip d' = CPUX86State.sysenter_eip d /\
  CPUX86State.star d' = CPUX86State.star d /\
  CPUX86State.lstar d' = CPUX86State.lstar d /\
  CPUX86State.cstar d' = CPUX86State.cstar d /\
  CPUX86State.fmask d' = CPUX86State.fmask d /\
  CPUX86State.pat d' = CPUX86State.pat d /\
  CPUX86State.efer d' = CPUX86State.efer d /\
  CPUX86State.eip d' = CPUX86State.eip d /\
  CPUX86State.eflags d' = CPUX86State.eflags d /\
  CPUX86State.regs d' !!! R_ESP = CPUX86State.regs d !!! R_ESP /\
  CPUX86State.cr d' !!! 0%nat = CPUX86State.cr d !!! 0%nat /\
  CPUX86State.cr d' !!! 3%nat = CPUX86State.cr d !!! 3%nat /\
  CPUX86State.cr d' !!! 4%nat = CPUX86State.cr d !!! 4%nat /\
  CPUX86State.msr_hv_synic_control d' = CPUX86State.msr_hv_synic_control d /\
  CPUX86State.msr_hv_synic_evt_page d' = CPUX86State.msr_hv_synic_evt_page d /\
  CPUX86State.msr_hv_synic_msg_page d' = CPUX86State.msr_hv_synic_msg_page d /\
  CPUX86State.msr_hv_synic_sint d' = CPUX86State.msr_hv_synic_sint d /\
  CPUX86State.msr_hv_stimer_config d' = CPUX86State.msr_hv_stimer_config d /\
  CPUX86State.msr_hv_stimer_count d' = CPUX86State.msr_hv_stimer_count d /\
  CPUX86State.msr_hv_guest_os_id d' = CPUX86State.msr_hv_guest_os_id d /\
  CPUX86State.msr_hv_hypercall d' = CPUX86State.msr_hv_hypercall d /\
  CPUX86State.msr_hv_tsc d' = CPUX86State.msr_hv_tsc d /\
  CPUX86State.exception_nr d' = CPUX86State.exception_nr d /\
  CPUX86State.interrupt_injected d' = CPUX86State.interrupt_injected d /\
  CPUX86State.soft_interrupt d' = CPUX86State.soft_interrupt d /\
  CPUX86State.exception_pending d' = CPUX86State.exception_pending d /\
  CPUX86State.exception_injected d' = CPUX86State.exception_injected d /\
  CPUX86State.has_error_code d' = CPUX86State.has_error_code d /\
  CPUX86State.exception_has_payload d' = CPUX86State.exception_has_payload d /\
  CPUX86State.exception_payload d' = CPUX86State.exception_payload d /\
  CPUX86State.triple_fault_pending d' = CPUX86State.triple_fault_pending d /\
  CPUX86State.ins_len d' = CPUX86State.ins_len d /\
  CPUX86State.sipi_vector d' = CPUX86State.sipi_vector d.
Proof.
  intros (Hsr & Hss & Hsc & Hsd & Hs1 & Hs2 & Hs3)
         (Hdr & Hds & Hdc & Hdd & Hd1 & Hd2 & Hd3) (Hp1 & Hp2 & Hp3) d'.
  subst d'. unfold synced_env. cbn.
  rewrite !array_copy_all by (rewrite ?array_copy_all; congruence).
  repeat split; try reflexivity.
  - apply list_lookup_total_insert_eq. unfold R_ESP. lia.
  - rewrite list_lookup_total_insert_ne by lia.
    rewrite list_lookup_total_insert_ne by lia.
    apply list_lookup_total_insert_eq. lia.
  - rewrite list_lookup_total_insert_ne by lia.
    apply list_lookup_total_insert_eq. rewrite length_insert. lia.
  - apply list_lookup_total_insert_eq. rewrite !length_insert. lia.
Qed.

(** Fields of the destination that end up with the source's values, and
    the three fields that get neither: every debug register, DR7 included,
    comes from the source although [hyperv_save_priv_vtl_state] has saved
    the destination's DR7; the FS and GS base MSRs are first written back
    and then replaced by the bases of the destination's FS and GS segment
    caches. *)
Lemma synced_env_copied (s d : CPUX86State.t) (p : kvm_hv_vcpu_per_vtl_state.t) :
  let d' := synced_env s d p in
  CPUX86State.dr d' = CPUX86State.dr s /\
  (forall i, i <> R_ESP -> CPUX86State.regs d' !!! i = CPUX86State.regs s !!! i) /\
  CPUX86State.cr d' !!! 1%nat = CPUX86State.cr s !!! 1%nat /\
  CPUX86State.cr d' !!! 2%nat = CPUX86State.cr s !!! 2%nat /\
  CPUX86State.msr_hv_vapic d' = CPUX86State.msr_hv_vapic s /\
  CPUX86State.vsm_code_page_offsets64 d' = CPUX86State.vsm_code_page_offsets64 s /\
  CPUX86State.vsm_code_page_offsets32 d' = CPUX86State.vsm_code_page_offsets32 s /\
  CPUX86State.other d' = CPUX86State.other s /\
  CPUX86State.gsbase d' = SegmentCache.base (CPUX86State.segs d !!! R_GS) /\
  CPUX86State.fsbase d' = SegmentCache.base (CPUX86State.segs d !!! R_FS) /\
  CPUX86State.mp_state d' = KVM_MP_STATE_RUNNABLE.
Proof.
  intros d'. subst d'. unfold synced_env. cbn.
  repeat split; try reflexivity.
  - intros i Hi. apply list_lookup_total_insert_ne. congruence.
  - rewrite !list_lookup_total_insert_ne by lia. reflexivity.
  - rewrite !list_lookup_total_insert_ne by lia. reflexivity.
Qed.

(** ** ENABLE_VP_VTL *)

Lemma land_15_range x : 0 <= Z.land x 15 <= 15.
Proof.
  change 15 with (Z.ones 4) at 1 2. rewrite Z.land_ones by lia.
  pose proof (Z.mod_pos_bound x (2 ^ 4)). lia.
Qed.

Lemma hyperv_vsm_vcpu_some (m : machine) (vp v : Z) (p : option Z) :
  0 <= v < 2 ^ 31 ->
  hyperv_vsm_vcpu m vp (wrap32 v) = Some p -> p = Some v /\ is_Some (cpus m !! v).
Proof.
  intros Hv. unfold hyperv_vsm_vcpu.
  assert (Hw : wrap32 v = v) by (unfold wrap32; apply Z.mod_small; lia).
  assert (Hi : to_int32 v = v).
  { unfold to_int32. rewrite Z.mod_small by lia.
    destruct (v <? 2 ^ 31) eqn:Hlt; [reflexivity|]. apply Z.ltb_ge in Hlt. lia. }
  rewrite Hw, Hi. unfold qemu_get_cpu.
  destruct (v <? 0) eqn:Hneg; [apply Z.ltb_lt in Hneg; lia|].
  destruct (cpus m !! v) as [c|] eqn:Hc; cbn; [|discriminate].
  rewrite Hc. cbn. rewrite Hw, Z.eqb_refl. intros [= <-]. split; [reflexivity | eauto].
Qed.

Lemma target_is_self (m : machine) (cs : Z) (c : CPUState) (vpi : Z) :
  cpus m !! cs = Some c -> 0 <= cs < 2 ^ 31 ->
  (if negb (vpi =? HV_VP_INDEX_SELF) && negb (vpi =? wrap32 cs)
   then hyperv_vsm_vcpu m vpi (wrap32 cs) else Some (Some cs)) = Some (Some cs).
Proof.
  intros Hc Hr.
  destruct (negb (vpi =? HV_VP_INDEX_SELF) && negb (vpi =? wrap32 cs)); [|reflexivity].
  apply hyperv_vsm_vcpu_found; [exact Hr | eexists; exact Hc].
Qed.

Lemma with_vp_vsm_same (c : CPUState) : with_vp_vsm (vp_vsm c) c = c.
Proof. destruct c; reflexivity. Qed.

Variable HV_NUM_VTLS : Z.
Variable new_cpu_state : CPUState.
Variable cpu_physical_memory_map : Z -> option hv_enable_vp_vtl.

Lemma x86_cpu_new_lookup (m : machine) (apic_id k : Z) :
  cpus (x86_cpu_new new_cpu_state m apic_id) !! k =
    match cpus m !! k with
    | Some x => Some x
    | None => if decide (k = apic_id) then Some (with_vp_vsm None new_cpu_state) else None
    end.
Proof.
  unfold x86_cpu_new. destruct (cpus m !! apic_id) as [x|] eqn:Hx.
  - destruct (cpus m !! k) eqn:Hk; [reflexivity|].
    destruct (decide (k = apic_id)) as [-> | Hne]; [congruence | reflexivity].
  - cbn. destruct (decide (k = apic_id)) as [-> | Hne].
    + rewrite lookup_insert_eq, Hx. reflexivity.
    + rewrite lookup_insert_ne by congruence. destruct (cpus m !! k); reflexivity.
Qed.

(** [hyperv_set_seg] leaves in the segment cache what [seeded_segment]
    asks for, whatever was there. *)
Lemma hyperv_set_seg_seeded (lhs : SegmentCache.t) (r : hv_x64_segment_register.t) :
  seeded_segment r (hyperv_set_seg lhs r).
Proof.
  unfold seeded_segment, hyperv_set_seg, segment_attributes. cbn.
  split; [reflexivity|]. split; [reflexivity|]. split; [reflexivity|].
  unfold DESC_TYPE_SHIFT, DESC_DPL_SHIFT, DESC_L_SHIFT, DESC_B_SHIFT,
    DESC_P_MASK, DESC_S_MASK, DESC_G_MASK, DESC_AVL_MASK.
  rewrite !Z.shiftl_1_l, <- !Z.shiftl_mul_pow2 by lia.
  apply Z.bits_inj'. intros n _. rewrite !Z.lor_spec.
  destruct (Z.testbit (Z.shiftl (hv_x64_segment_register.segment_type r) 8) n),
    (Z.testbit (Z.shiftl (hv_x64_segment_register.present r) 15) n),
    (Z.testbit (Z.shiftl (hv_x64_segment_register.descriptor_privilege_level r) 13) n),
    (Z.testbit (Z.shiftl (hv_x64_segment_register._default r) 22) n),
    (Z.testbit (Z.shiftl (hv_x64_segment_register.non_system_segment r) 12) n),
    (Z.testbit (Z.shiftl (hv_x64_segment_register._long r) 21) n),
    (Z.testbit (Z.shiftl (hv_x64_segment_register.granularity r) 23) n),
    (Z.testbit (Z.shiftl (hv_x64_segment_register.available r) 20) n); reflexivity.
Qed.

(** [hyperv_set_vtl_cpu_state] seeds a register file of the declared
    sizes from the context. *)
Lemma hyperv_set_vtl_cpu_state_seeded (e : CPUX86State.t) (ctx : hv_init_vp_context.t) :
  env_wf e -> seeded_from ctx (hyperv_set_vtl_cpu_state e ctx).
Proof.
  intros (Hr & Hs & Hc & _). unfold seeded_from, hyperv_set_vtl_cpu_state.
  cbn [CPUX86State.eip CPUX86State.regs CPUX86State.eflags CPUX86State.efer
       CPUX86State.cr CPUX86State.pat CPUX86State.segs CPUX86State.ldt CPUX86State.tr
       CPUX86State.gdt CPUX86State.idt CPUX86State.fsbase CPUX86State.gsbase
       CPUX86State.mp_state].
  unfold R_CS, R_DS, R_ES, R_FS, R_GS, R_SS, R_ESP.
  repeat match goal with |- _ /\ _ => split end;
    try reflexivity;
    try (split; reflexivity);
    try apply hyperv_set_seg_seeded;
    try (rewrite ?list_lookup_total_insert_ne by lia;
         rewrite list_lookup_total_insert_eq by (rewrite ?length_insert; lia);
         first [reflexivity | apply hyperv_set_seg_seeded]).
Qed.

(** C9, as the code has it.  For a call in the memory-based convention
    whose input block is mapped, targets the calling partition and names
    the calling vCPU (index "self" or 0): a target VTL that is not enabled
    for the partition is refused with invalid-parameter and nothing
    changes; a target VTL that is already enabled for the vCPU is refused
    with invalid-parameter, and nothing changes but that a vCPU without a
    VSM object (for which VTL0 counts as enabled) has been given one when
    the call got as far as that check; a call that succeeds has created
    vCPU 1 if the target VTL had no vCPU, given the target VTL's vCPU a
    VSM object, seeded its registers from the caller's [vp_context]
    (instruction pointer, stack pointer, flags, EFER, CR0, CR3, CR4, PAT,
    every segment register with its attributes, LDTR, TR, GDTR, IDTR, FS
    and GS base) and added the VTL to the calling vCPU's enabled set;
    and the call does succeed whenever the target VTL is within the
    maximum, enabled for the partition, not yet enabled for the vCPU, not
    the caller's own, and its vCPU is absent (VTL1) or has no VSM object.
    The register arrays of the vCPUs have their declared sizes. *)
Theorem hyperv_hcall_vtl_enable_vp_vtl_spec (m : machine) (cs param : Z)
    (input : hv_enable_vp_vtl) (c : CPUState) :
  cpu_physical_memory_map param = Some input ->
  partition_id input = HV_PARTITION_ID_SELF ->
  vp_index input = HV_VP_INDEX_SELF \/ vp_index input = 0 ->
  cpus m !! cs = Some c ->
  0 <= cs < 2 ^ 31 ->
  env_wf (env new_cpu_state) ->
  (forall k ck, cpus m !! k = Some ck -> env_wf (env ck)) ->
  let t := Z.land (target_vtl input) 15 in
  let st := hv_vsm_partition_status m in
  let r := hyperv_hcall_vtl_enable_vp_vtl HV_NUM_VTLS new_cpu_state
             cpu_physical_memory_map m cs param false in
  (Z.testbit (p_enabled_vtl_set st) t = false ->
   r = Some (HV_STATUS_INVALID_PARAMETER, m)) /\
  (forall v, vp_vsm c = Some v -> Z.testbit (enabled_vtl_set v) t = true ->
   r = Some (HV_STATUS_INVALID_PARAMETER, m)) /\
  (vp_vsm c = None ->
   Z.testbit (enabled_vtl_set (vp_vsm_realize HV_NUM_VTLS cs)) t = true ->
   t = 0 /\
   r = Some (HV_STATUS_INVALID_PARAMETER,
             if (t <=? maximum_vtl st) && Z.testbit (p_enabled_vtl_set st) t
             then update_cpu m cs (with_vp_vsm (Some (vp_vsm_realize HV_NUM_VTLS cs)) c)
             else m)) /\
  (forall m', r = Some (HV_STATUS_SUCCESS, m') ->
   let v0 := default (vp_vsm_realize HV_NUM_VTLS cs) (vp_vsm c) in
   let c2 := default (with_vp_vsm None new_cpu_state) (cpus m !! t) in
   t <= maximum_vtl st /\
   Z.testbit (p_enabled_vtl_set st) t = true /\
   Z.testbit (enabled_vtl_set v0) t = false /\
   t <> cs /\
   (cpus m !! t = None -> t = 1) /\
   cpus m' !! t =
     Some (with_env (hyperv_set_vtl_cpu_state (env c2) (vp_context input))
             (with_vp_vsm (Some (vp_vsm_realize HV_NUM_VTLS t)) c2)) /\
   (exists ct, cpus m' !! t = Some ct /\
               vp_vsm ct = Some (vp_vsm_realize HV_NUM_VTLS t) /\
               seeded_from (vp_context input) (env ct)) /\
   cpus m' !! cs =
     Some (with_vp_vsm
             (Some (with_enabled_vtl_set
                      (wrap16 (Z.lor (enabled_vtl_set v0) (2 ^ t))) v0)) c) /\
   Z.testbit (wrap16 (Z.lor (enabled_vtl_set v0) (2 ^ t))) t = true) /\
  (t <= maximum_vtl st -> Z.testbit (p_enabled_vtl_set st) t = true ->
   Z.testbit (enabled_vtl_set (default (vp_vsm_realize HV_NUM_VTLS cs) (vp_vsm c))) t = false ->
   t <> cs ->
   match cpus m !! t with Some ct => vp_vsm ct = None | None => t = 1 end ->
   exists m', r = Some (HV_STATUS_SUCCESS, m')).
Proof.
  intros Hmap Hpid Hvp Hc Hcs Hwfn Hwf t st r.
  pose proof (land_15_range (target_vtl input)) as Ht. fold t in Ht.
  assert (Hr : r =
    if t >? maximum_vtl st then Some (HV_STATUS_INVALID_PARAMETER, m)
    else if negb (Z.testbit (p_enabled_vtl_set st) t)
    then Some (HV_STATUS_INVALID_PARAMETER, m)
    else
      m1 ← (match vp_vsm c with
            | None => hyperv_vp_vsm_add HV_NUM_VTLS m cs
            | Some _ => Some m
            end);
      tc1 ← cpus m1 !! cs;
      v1 ← vp_vsm tc1;
      if Z.testbit (enabled_vtl_set v1) t then Some (HV_STATUS_INVALID_PARAMETER, m1)
      else
        '(m2, vtl_cpu) ← hyperv_init_vtl_vcpu new_cpu_state m1 cs cs t;
        match vtl_cpu with
        | None => Some (HV_STATUS_INVALID_PARAMETER, m2)
        | Some vc =>
            m3 ← hyperv_vp_vsm_add HV_NUM_VTLS m2 vc;
            c3 ← cpus m3 !! vc;
            let m4 :=
              update_cpu m3 vc
                (with_env (hyperv_set_vtl_cpu_state (env c3) (vp_context input)) c3) in
            tc4 ← cpus m4 !! cs;
            v4 ← vp_vsm tc4;
            Some (HV_STATUS_SUCCESS,
                  update_cpu m4 cs
                    (with_vp_vsm
                       (Some (with_enabled_vtl_set
                                (wrap16 (Z.lor (enabled_vtl_set v4) (2 ^ t))) v4)) tc4))
        end).
  { subst r. unfold hyperv_hcall_vtl_enable_vp_vtl.
    rewrite Hmap, Hpid, Z.eqb_refl.
    assert (Hv : negb (vp_index input =? HV_VP_INDEX_SELF) &&
                 negb (vp_index input =? 0) = false).
    { destruct Hvp as [-> | ->]; reflexivity. }
    rewrite Hv. cbv beta iota zeta.
    unfold cpu_index. cbn [mbind option_bind negb]. rewrite Hc.
    cbn [mbind option_bind].
    rewrite (target_is_self m cs c _ Hc Hcs). cbn [mbind option_bind].
    fold t. fold st. rewrite land_pow2_zero by lia. rewrite Hc.
    cbn [mbind option_bind]. rewrite Z.shiftl_1_l.
    destruct (t >? maximum_vtl st); [reflexivity|].
    destruct (negb (Z.testbit (p_enabled_vtl_set st) t)); [reflexivity|].
    destruct (match vp_vsm c with
              | Some _ => Some m
              | None => hyperv_vp_vsm_add HV_NUM_VTLS m cs
              end) as [m1|]; [|reflexivity].
    cbn [mbind option_bind].
    destruct (cpus m1 !! cs) as [tc1|]; [|reflexivity]. cbn [mbind option_bind].
    destruct (vp_vsm tc1) as [v1|]; [|reflexivity]. cbn [mbind option_bind].
    rewrite <- Z.shiftl_1_l, land_pow2_zero by lia. rewrite negb_involutive.
    reflexivity. }
  clearbody r. subst r. split; [|split; [|split; [|split]]].
  - intros Hb. rewrite Hb. cbn. destruct (t >? maximum_vtl st); reflexivity.
  - intros v Hv Hb. rewrite Hv. cbn [mbind option_bind]. rewrite Hc.
    cbn [mbind option_bind]. rewrite Hv. cbn [mbind option_bind]. rewrite Hb.
    destruct (t >? maximum_vtl st); [reflexivity|].
    destruct (negb (Z.testbit (p_enabled_vtl_set st) t)); reflexivity.
  - intros Hv Hb.
    assert (Ht0 : t = 0).
    { cbn [vp_vsm_realize enabled_vtl_set] in Hb. rewrite Z.shiftl_1_l in Hb.
      rewrite Z.pow2_bits_eqb in Hb by lia. apply Z.eqb_eq in Hb. lia. }
    split; [exact Ht0|].
    rewrite Hv. unfold hyperv_vp_vsm_add. rewrite Hc. cbn [mbind option_bind].
    rewrite Hv. cbn [mbind option_bind cpus update_cpu with_cpus].
    rewrite lookup_insert_eq. cbn [mbind option_bind vp_vsm with_vp_vsm]. rewrite Hb.
    rewrite Z.gtb_ltb, Z.leb_antisym.
    destruct (maximum_vtl st <? t); [reflexivity|].
    destruct (Z.testbit (p_enabled_vtl_set st) t); reflexivity.
  - intros m' H v0 c2.
    destruct (t >? maximum_vtl st) eqn:Hmax; [discriminate|].
    destruct (Z.testbit (p_enabled_vtl_set st) t) eqn:Hpe; [|discriminate].
    cbn [negb] in H.
    set (m1 := match vp_vsm c with
               | Some _ => m
               | None => update_cpu m cs (with_vp_vsm (Some v0) c)
               end).
    assert (Hm1 : match vp_vsm c with
                  | Some _ => Some m
                  | None => hyperv_vp_vsm_add HV_NUM_VTLS m cs
                  end = Some m1).
    { unfold hyperv_vp_vsm_add. rewrite Hc. cbn. subst m1 v0.
      destruct (vp_vsm c) eqn:Hvc; reflexivity. }
    rewrite Hm1 in H. cbn [mbind option_bind] in H.
    assert (Hc1 : cpus m1 !! cs = Some (with_vp_vsm (Some v0) c)).
    { subst m1 v0. destruct (vp_vsm c) eqn:Hvc; cbn.
      - rewrite Hc, <- Hvc, with_vp_vsm_same. reflexivity.
      - apply lookup_insert_eq. }
    assert (Hother : forall k, k <> cs -> cpus m1 !! k = cpus m !! k).
    { intros k Hk. subst m1. destruct (vp_vsm c); [reflexivity|].
      cbn. apply lookup_insert_ne. congruence. }
    rewrite Hc1 in H. cbn [mbind option_bind vp_vsm with_vp_vsm] in H.
    destruct (Z.testbit (enabled_vtl_set v0) t) eqn:Hvb; [discriminate|].
    unfold hyperv_init_vtl_vcpu in H. rewrite Hc1 in H. cbn [mbind option_bind] in H.
    destruct (hyperv_vsm_vcpu (x86_cpu_new new_cpu_state m1 1) (wrap32 cs) (wrap32 t))
      as [p|] eqn:Hfind; [|discriminate].
    apply hyperv_vsm_vcpu_some in Hfind; [|lia]. destruct Hfind as [-> [c2' Hc2]].
    cbn [mbind option_bind] in H. unfold cpu_index in H.
    cbn [mbind option_bind] in H. rewrite Hc2 in H. cbn [mbind option_bind] in H.
    unfold hyperv_vp_vsm_add in H. rewrite Hc2 in H. cbn [mbind option_bind] in H.
    destruct (vp_vsm c2') eqn:Hv2; [discriminate|]. cbn [mbind option_bind] in H.
    assert (Hne : t <> cs).
    { intros ->. rewrite x86_cpu_new_lookup, Hc1 in Hc2.
      injection Hc2 as <-. cbn in Hv2. discriminate. }
    assert (Hc2m : c2' = c2 /\ (cpus m !! t = None -> t = 1)).
    { rewrite x86_cpu_new_lookup, (Hother t Hne) in Hc2. subst c2.
      destruct (cpus m !! t) as [x|]; cbn.
      - injection Hc2 as <-. split; [reflexivity | discriminate].
      - destruct (decide (t = 1)); [|discriminate].
        injection Hc2 as <-. split; [reflexivity | intros _; assumption]. }
    destruct Hc2m as [-> Hnew].
    cbn [cpus update_cpu with_cpus] in H.
    rewrite lookup_insert_eq in H. cbn [mbind option_bind] in H.
    rewrite lookup_insert_ne in H by congruence.
    rewrite lookup_insert_ne in H by congruence.
    rewrite x86_cpu_new_lookup, Hc1 in H. cbn [mbind option_bind vp_vsm with_vp_vsm] in H.
    injection H as <-. cbn [cpus update_cpu with_cpus].
    assert (Hmx : t <= maximum_vtl st).
    { rewrite Z.gtb_ltb in Hmax. apply Z.ltb_ge in Hmax. exact Hmax. }
    assert (Hwf2 : env_wf (env c2)).
    { subst c2. destruct (cpus m !! t) as [x|] eqn:Hx; cbn.
      - exact (Hwf t x Hx).
      - exact Hwfn. }
    split; [exact Hmx|]. split; [reflexivity|]. split; [reflexivity|].
    split; [exact Hne|]. split; [exact Hnew|].
    match goal with |- ?L = ?R /\ _ => assert (Hct : L = R) end.
    { rewrite lookup_insert_ne by congruence. rewrite lookup_insert_eq. reflexivity. }
    split; [exact Hct|].
    split.
    { eexists. split; [exact Hct|]. split; [reflexivity|].
      apply hyperv_set_vtl_cpu_state_seeded. exact Hwf2. }
    split.
    + rewrite lookup_insert_eq. destruct c; reflexivity.
    + unfold wrap16. rewrite Z.mod_pow2_bits_low by lia.
      rewrite Z.lor_spec, Z.pow2_bits_eqb, Z.eqb_refl by lia. apply orb_true_r.
  - intros Hmx Hpe Hvb Hne Hct.
    assert (Hmax : (t >? maximum_vtl st) = false)
      by (rewrite Z.gtb_ltb; apply Z.ltb_ge; lia).
    rewrite Hmax, Hpe. cbn [negb].
    set (v0 := default (vp_vsm_realize HV_NUM_VTLS cs) (vp_vsm c)) in *.
    set (m1 := match vp_vsm c with
               | Some _ => m
               | None => update_cpu m cs (with_vp_vsm (Some v0) c)
               end).
    assert (Hm1 : match vp_vsm c with
                  | Some _ => Some m
                  | None => hyperv_vp_vsm_add HV_NUM_VTLS m cs
                  end = Some m1).
    { unfold hyperv_vp_vsm_add. rewrite Hc. cbn. subst m1 v0.
      destruct (vp_vsm c) eqn:Hvc; reflexivity. }
    rewrite Hm1. cbn [mbind option_bind].
    assert (Hc1 : cpus m1 !! cs = Some (with_vp_vsm (Some v0) c)).
    { subst m1 v0. destruct (vp_vsm c) eqn:Hvc; cbn.
      - rewrite Hc, <- Hvc, with_vp_vsm_same. reflexivity.
      - apply lookup_insert_eq. }
    assert (Hother : forall k, k <> cs -> cpus m1 !! k = cpus m !! k).
    { intros k Hk. subst m1. destruct (vp_vsm c); [reflexivity|].
      cbn. apply lookup_insert_ne. congruence. }
    rewrite Hc1. cbn [mbind option_bind vp_vsm with_vp_vsm]. rewrite Hvb.
    unfold hyperv_init_vtl_vcpu. rewrite Hc1. cbn [mbind option_bind].
    assert (Hc2 : exists c2, cpus (x86_cpu_new new_cpu_state m1 1) !! t = Some c2 /\
                             vp_vsm c2 = None).
    { rewrite x86_cpu_new_lookup, (Hother t Hne).
      destruct (cpus m !! t) as [ct|]; [eauto|].
      destruct (decide (t = 1)); [|contradiction]. eexists. split; reflexivity. }
    destruct Hc2 as (c2 & Hc2 & Hv2).
    rewrite (hyperv_vsm_vcpu_found _ _ t) by (try lia; eauto).
    cbn [mbind option_bind]. unfold cpu_index. cbn [mbind option_bind].
    rewrite Hc2. cbn [mbind option_bind].
    unfold hyperv_vp_vsm_add. rewrite Hc2. cbn [mbind option_bind]. rewrite Hv2.
    cbn [mbind option_bind cpus update_cpu with_cpus].
    rewrite lookup_insert_eq. cbn [mbind option_bind].
    rewrite lookup_insert_ne by congruence. rewrite lookup_insert_ne by congruence.
    rewrite x86_cpu_new_lookup, Hc1. cbn [mbind option_bind vp_vsm with_vp_vsm].
    eexists. reflexivity.
Qed.

(** The registers [hyperv_set_vtl_cpu_state] seeds from a [vp_context]. *)
Lemma hyperv_set_vtl_cpu_state_seeds (e : CPUX86State.t) (ctx : hv_init_vp_context.t) :
  env_wf e ->
  let e' := hyperv_set_vtl_cpu_state e ctx in
  CPUX86State.eip e' = hv_init_vp_context.rip ctx /\
  CPUX86State.regs e' !!! R_ESP = hv_init_vp_context.rsp ctx /\
  CPUX86State.eflags e' = hv_init_vp_context.rflags ctx /\
  CPUX86State.efer e' = hv_init_vp_context.efer ctx /\
  CPUX86State.cr e' !!! 0%nat = hv_init_vp_context.cr0 ctx /\
  CPUX86State.cr e' !!! 3%nat = hv_init_vp_context.cr3 ctx /\
  CPUX86State.cr e' !!! 4%nat = hv_init_vp_context.cr4 ctx /\
  CPUX86State.pat e' = hv_init_vp_context.msr_cr_pat ctx /\
  CPUX86State.segs e' !!! R_CS =
    hyperv_set_seg (CPUX86State.segs e !!! R_CS) (hv_init_vp_context.cs ctx) /\
  CPUX86State.segs e' !!! R_SS =
    hyperv_set_seg (CPUX86State.segs e !!! R_SS) (hv_init_vp_context.ss ctx) /\
  CPUX86State.tr e' = hyperv_set_seg (CPUX86State.tr e) (hv_init_vp_context.tr ctx) /\
  CPUX86State.ldt e' = hyperv_set_seg (CPUX86State.ldt e) (hv_init_vp_context.ldtr ctx) /\
  SegmentCache.base (CPUX86State.gdt e') =
    hv_x64_table_register.base (hv_init_vp_context.gdtr ctx) /\
  SegmentCache.base (CPUX86State.idt e') =
    hv_x64_table_register.base (hv_init_vp_context.idtr ctx) /\
  CPUX86State.gsbase e' = hv_x64_segment_register.base (hv_init_vp_context.gs ctx) /\
  CPUX86State.fsbase e' = hv_x64_segment_register.base (hv_init_vp_context.fs ctx) /\
  CPUX86State.mp_state e' = KVM_MP_STATE_RUNNABLE.
Proof.
  intros (Hr & Hs & Hc & _) e'. subst e'. cbn.
  repeat split; try reflexivity.
  - apply list_lookup_total_insert_eq. unfold R_ESP. lia.
  - rewrite !list_lookup_total_insert_ne by lia.
    apply list_lookup_total_insert_eq. lia.
  - rewrite list_lookup_total_insert_ne by lia.
    apply list_lookup_total_insert_eq. rewrite length_insert. lia.
  - apply list_lookup_total_insert_eq. rewrite !length_insert. lia.
  - unfold R_CS, R_DS, R_ES, R_FS, R_GS, R_SS.
    rewrite !list_lookup_total_insert_ne by lia.
    rewrite list_lookup_total_insert_eq by lia. reflexivity.
  - unfold R_CS, R_DS, R_ES, R_FS, R_GS, R_SS.
    rewrite list_lookup_total_insert_eq by (rewrite !length_insert; lia).
    reflexivity.
Qed.

End VsmFacts.

(** ** Concrete runs *)

Section VsmRuns.
Import Vsm VsmSample.

Lemma get_vp_register_descriptor_zero_witness :
  get_vp_register machine_vtl01 HV_X64_REGISTER_GDTR 1 =
    Some (HV_STATUS_SUCCESS, {| low := 0; high := 0 |}) /\
  SegmentCache.base (CPUX86State.gdt (env_of 200)) = 207.
Proof.
  split; [|reflexivity].
  apply (get_vp_register_descriptor_zero machine_vtl01 1
           (cpu_of 200 (Some (vpvsm_of 1 1)) true) HV_X64_REGISTER_GDTR).
  - reflexivity.
  - right. right. right. reflexivity.
Defined.

(** C4 on a VTL_CALL from VTL0 (vCPU 0) to VTL1 (vCPU 1).  Before the
    call DR7 is 110 in the source and 210 in the destination.  After it
    the destination's DR7 is 110, while the 210 that
    [hyperv_save_priv_vtl_state] saved stays in [priv_state]: the restore
    has no assignment for it.  The GS base MSR of the destination, 214
    before, is 204 after, the base of its GS segment cache.  The kernel GS
    base (213) is kept. *)
Theorem vtl_call_destination_dr7 :
  exists m' c1' v1',
    hyperv_hcall_vtl_call machine_vtl01 0 = Some (EXCP_HALTED, m') /\
    cpus m' !! 1 = Some c1' /\ vp_vsm c1' = Some v1' /\
    CPUX86State.dr (env_of 100) !!! 7%nat = 110 /\
    CPUX86State.dr (env_of 200) !!! 7%nat = 210 /\
    CPUX86State.dr (env c1') !!! 7%nat = 110 /\
    kvm_hv_vcpu_per_vtl_state.dr7 (priv_state v1') = 210 /\
    CPUX86State.gsbase (env_of 200) = 214 /\
    CPUX86State.gsbase (env c1') = 204 /\
    kvm_hv_vcpu_per_vtl_state.msr_gsbase (priv_state v1') = 214 /\
    CPUX86State.kernelgsbase (env c1') = 213.
Proof.
  eexists _, _, _. split; [vm_compute; reflexivity|].
  split; [vm_compute; reflexivity|].
  split; [reflexivity|]. repeat split; reflexivity.
Qed.

(** From VTL1 the return works: vCPU 0 runs again and vCPU 1 is stopped. *)
Lemma hyperv_hcall_vtl_return_from_vtl1 :
  exists m' c0 c1,
    hyperv_hcall_vtl_return machine_vtl10 1 = Some (EXCP_HALTED, m') /\
    cpus m' !! 0 = Some c0 /\ cpus m' !! 1 = Some c1 /\
    stopped c0 = false /\ stopped c1 = true.
Proof.
  eexists _, _, _. split; [vm_compute; reflexivity|].
  split; [vm_compute; reflexivity|]. split; [vm_compute; reflexivity|].
  split; reflexivity.
Qed.

Lemma hyperv_hcall_vtl_enable_partition_vtl_spec_witness :
  fst (hyperv_hcall_vtl_enable_partition_vtl (machine_vtl0 1) 0
         HV_PARTITION_ID_SELF 1 true) = HV_STATUS_SUCCESS.
Proof.
  destruct (hyperv_hcall_vtl_enable_partition_vtl_spec (machine_vtl0 1) 0
              HV_PARTITION_ID_SELF 1 true) as (_ & _ & _ & _ & H).
  - simpl. lia.
  - simpl. lia.
  - apply H; first [reflexivity | simpl; lia].
Defined.

(** Fast calls for partition 0: a target VTL above the maximum (200) and
    one already enabled (0) are both answered with invalid-partition-id;
    the same two in the memory-based convention with
    invalid-hypercall-code. *)
Lemma enable_partition_vtl_counterexample :
  maximum_vtl (hv_vsm_partition_status (machine_vtl0 1)) = 1 /\
  Z.testbit (p_enabled_vtl_set (hv_vsm_partition_status (machine_vtl0 1))) 0 = true /\
  hyperv_hcall_vtl_enable_partition_vtl (machine_vtl0 1) 0 0 200 true =
    (HV_STATUS_INVALID_PARTITION_ID, machine_vtl0 1) /\
  hyperv_hcall_vtl_enable_partition_vtl (machine_vtl0 1) 0 0 0 true =
    (HV_STATUS_INVALID_PARTITION_ID, machine_vtl0 1) /\
  hyperv_hcall_vtl_enable_partition_vtl (machine_vtl0 1) 0 HV_PARTITION_ID_SELF 200 false =
    (HV_STATUS_INVALID_HYPERCALL_CODE, machine_vtl0 1) /\
  hyperv_hcall_vtl_enable_partition_vtl (machine_vtl0 1) 0 HV_PARTITION_ID_SELF 0 false =
    (HV_STATUS_INVALID_HYPERCALL_CODE, machine_vtl0 1) /\
  fst (hyperv_hcall_vtl_enable_partition_vtl (machine_vtl0 1) 0 0 200 true)
    <> HV_STATUS_INVALID_PARAMETER /\
  fst (hyperv_hcall_vtl_enable_partition_vtl (machine_vtl0 1) 0 0 0 true)
    <> HV_STATUS_INVALID_PARAMETER.
Proof. repeat split; try reflexivity; discriminate. Qed.

Lemma hyperv_hcall_vtl_enable_vp_vtl_spec_witness :
  exists m' c1 c0 v0,
    hyperv_hcall_vtl_enable_vp_vtl 2 fresh_cpu guest_map (machine_vtl0 3) 0 1 false =
      Some (HV_STATUS_SUCCESS, m') /\
    cpus m' !! 1 = Some c1 /\
    seeded_from vp_context0 (env c1) /\
    cpus m' !! 0 = Some c0 /\ vp_vsm c0 = Some v0 /\ enabled_vtl_set v0 = 3.
Proof.
  assert (Hrun : exists m',
             hyperv_hcall_vtl_enable_vp_vtl 2 fresh_cpu guest_map (machine_vtl0 3) 0 1 false =
               Some (HV_STATUS_SUCCESS, m'))
    by (eexists; vm_compute; reflexivity).
  destruct Hrun as [m' Hrun]. exists m'.
  destruct (hyperv_hcall_vtl_enable_vp_vtl_spec 2 fresh_cpu guest_map (machine_vtl0 3) 0 1
              (enable_input 1) (cpu_of 100 None false)) as (_ & _ & _ & Hs & _).
  - reflexivity.
  - reflexivity.
  - left. reflexivity.
  - reflexivity.
  - lia.
  - repeat split; reflexivity.
  - intros k ck Hk. unfold machine_vtl0, machine_of in Hk. cbn [cpus] in Hk.
    apply lookup_singleton_Some in Hk. destruct Hk as [_ <-].
    repeat split; reflexivity.
  - destruct (Hs m' Hrun) as (_ & _ & _ & _ & _ & _ & (c1 & H1 & _ & Hseed) & H0 & _).
    exists c1. eexists _, _. split; [exact Hrun|]. split; [exact H1|].
    split; [exact Hseed|]. split; [exact H0|]. split; reflexivity.
Defined.

(** With VTL1 not enabled for the partition: a call that names partition 0
    is answered with invalid-partition-id, and a fast call with
    invalid-hypercall-input.  With VTL1 enabled for partition and vCPU, a
    fast call is answered with invalid-hypercall-input as well. *)
Lemma enable_vp_vtl_counterexample :
  Z.testbit (p_enabled_vtl_set (hv_vsm_partition_status (machine_vtl0 1))) 1 = false /\
  hyperv_hcall_vtl_enable_vp_vtl 2 fresh_cpu guest_map_partition0 (machine_vtl0 1) 0 1 false =
    Some (HV_STATUS_INVALID_PARTITION_ID, machine_vtl0 1) /\
  hyperv_hcall_vtl_enable_vp_vtl 2 fresh_cpu guest_map (machine_vtl0 1) 0 1 true =
    Some (HV_STATUS_INVALID_HYPERCALL_INPUT, machine_vtl0 1) /\
  hyperv_hcall_vtl_enable_vp_vtl 2 fresh_cpu guest_map machine_vtl01 0 1 true =
    Some (HV_STATUS_INVALID_HYPERCALL_INPUT, machine_vtl01) /\
  hyperv_hcall_vtl_enable_vp_vtl 2 fresh_cpu guest_map_partition0 (machine_vtl0 1) 0 1 false
    <> Some (HV_STATUS_INVALID_PARAMETER, machine_vtl0 1).
Proof. repeat split; try reflexivity; discriminate. Qed.

(** A call for VTL0 from a vCPU that has no VSM object yet: VTL0 counts
    as enabled in the object the call creates, so the call is refused
    with invalid-parameter, and the vCPU keeps the new object. *)
Lemma enable_vp_vtl_vtl0_refused :
  vp_vsm (cpu_of 100 None false) = None /\
  exists m' c0,
    hyperv_hcall_vtl_enable_vp_vtl 2 fresh_cpu guest_map (machine_vtl0 3) 0 0 false =
      Some (HV_STATUS_INVALID_PARAMETER, m') /\
    cpus m' !! 0 = Some c0 /\ vp_vsm c0 = Some (vp_vsm_realize 2 0).
Proof.
  split; [reflexivity|]. eexists _, _. split; [vm_compute; reflexivity|].
  split; [vm_compute; reflexivity | reflexivity].
Qed.

End VsmRuns.

(** * Further properties of the staged-message state machine and event flags *)

Section SynICMore.
Import SynIC.

Variable HV_EVENT_FLAGS_COUNT : Z.
Variable notifier_rc : Z.

Lemma with_refcount_same (r : HvSintRoute) : with_refcount (refcount r) r = r.
Proof. destruct r; reflexivity. Qed.

Lemma with_route_same (w : world) : with_route (sint_route w) w = w.
Proof. destruct w; reflexivity. Qed.

Lemma wrap32_small (x : Z) : 0 <= x < 2 ^ 32 -> wrap32 x = x.
Proof. intros H. unfold wrap32. apply Z.mod_small. exact H. Qed.

(** X1. Reference counting round trip.  Taking a reference and dropping it
    again gives back the route as it was, and so does dropping a reference
    that is not the last one and taking it again; neither frees the route
    or releases its interrupt line. *)
Theorem hyperv_sint_route_ref_unref (w : world) :
  0 < refcount (sint_route w) < 2 ^ 32 - 1 ->
  hyperv_sint_route_unref (hyperv_sint_route_ref w) = Some w /\
  (1 < refcount (sint_route w) ->
   exists w1, hyperv_sint_route_unref w = Some w1 /\ hyperv_sint_route_ref w1 = w).
Proof.
  intros Hr. destruct w as [[si g st r] sy ef]. cbn in Hr. split.
  - unfold hyperv_sint_route_unref, hyperv_sint_route_ref. cbn.
    rewrite wrap32_small by lia.
    destruct (r + 1 <=? 0) eqn:H1; [apply Z.leb_le in H1; lia|].
    replace (r + 1 - 1) with r by lia.
    destruct (r =? 0) eqn:H2; [apply Z.eqb_eq in H2; lia|]. reflexivity.
  - intros H1. cbn in H1. unfold hyperv_sint_route_unref, hyperv_sint_route_ref. cbn.
    destruct (r <=? 0) eqn:H2; [apply Z.leb_le in H2; lia|].
    destruct (r - 1 =? 0) eqn:H3; [apply Z.eqb_eq in H3; lia|]. cbn.
    eexists. split; [reflexivity|]. cbn.
    rewrite wrap32_small by lia. replace (r - 1 + 1) with r by lia. reflexivity.
Qed.

(** X2. Back-pressure window.  Once [hyperv_post_msg] has accepted a message,
    every further post is refused with [-EAGAIN] and changes nothing, both
    before and after [cpu_post_msg] has run; only when [sint_msg_bh] has
    completed the message is the next post accepted. *)
Theorem hyperv_post_msg_window (w : world) (sm : HvSintStagedMessage)
    (m1 m2 : hyperv_message) :
  staged_msg (sint_route w) = Some sm ->
  state sm = HV_STAGED_MSG_FREE ->
  0 < refcount (sint_route w) < 2 ^ 32 - 1 ->
  is_Some (msg_page (synic w) !! Z.to_nat (sint (sint_route w))) ->
  exists w1 w2 w3 w4,
    hyperv_post_msg w m1 = Some (0, w1) /\
    hyperv_post_msg w1 m2 = Some (- EAGAIN, w1) /\
    cpu_post_msg notifier_rc w1 = Some w2 /\
    hyperv_post_msg w2 m2 = Some (- EAGAIN, w2) /\
    sint_msg_bh w2 = Some w3 /\
    hyperv_post_msg w3 m2 = Some (0, w4).
Proof.
  intros Hs Hst Hr [dst Hdst].
  destruct w as [[si g st r] sy ef]. destruct sm as [m0 cd s0 stt].
  cbn in Hs, Hst, Hr, Hdst. subst st stt.
  assert (Hw : wrap32 (r + 1) = r + 1) by (apply wrap32_small; lia).
  assert (H1 : (r + 1 <=? 0) = false) by (apply Z.leb_gt; lia).
  assert (H2 : (r + 1 - 1 =? 0) = false) by (apply Z.eqb_neq; lia).
  destruct (msg_page_addr sy =? 0) eqn:Ha;
    [| destruct (message_type dst =? HV_MESSAGE_NONE) eqn:Ht;
       [destruct (g =? 0) eqn:Hg|]];
    (eexists _, _, _, _;
     split; [unfold hyperv_post_msg, hyperv_sint_route_ref; cbn; reflexivity|];
     split; [unfold hyperv_post_msg; cbn; reflexivity|];
     split; [unfold cpu_post_msg, hyperv_sint_route_set_sint, posted; cbn;
             rewrite ?Ha, ?Hdst; cbn; rewrite ?Ht; cbn; rewrite ?Hg; reflexivity|];
     split; [unfold hyperv_post_msg; cbn; reflexivity|];
     split; [unfold sint_msg_bh, hyperv_sint_route_unref; cbn; rewrite Hw, H1, H2; cbn;
             reflexivity|];
     unfold hyperv_post_msg; cbn; reflexivity).
Qed.

(** X3. A whole posting to a free slot.  Post, delivery and completion put
    the posted message into the route's slot of the message page and
    leave every other slot and the event page as they were; the route is
    back in its free state with the reference count it had; and the calls
    made are, in this order: the delivery scheduled on the vCPU, the
    interrupt (only for a route with a GSI), the dirty mark, the
    scheduling of the completion, and one completion callback whose
    status is what raising the interrupt returned (0 without a GSI). *)
Theorem post_msg_cycle_free_slot (w : world) (sm : HvSintStagedMessage)
    (src dst : hyperv_message) :
  staged_msg (sint_route w) = Some sm ->
  state sm = HV_STAGED_MSG_FREE ->
  0 < refcount (sint_route w) < 2 ^ 32 - 1 ->
  msg_page_addr (synic w) <> 0 ->
  msg_page (synic w) !! Z.to_nat (sint (sint_route w)) = Some dst ->
  message_type dst = HV_MESSAGE_NONE ->
  exists w1 w2 w3,
    hyperv_post_msg w src = Some (0, w1) /\
    cpu_post_msg notifier_rc w1 = Some w2 /\
    sint_msg_bh w2 = Some w3 /\
    msg_page (synic w3) = <[Z.to_nat (sint (sint_route w)) := src]> (msg_page (synic w)) /\
    event_page (synic w3) = event_page (synic w) /\
    sint_route w3 =
      with_staged (Some {| msg := src; cb_data := cb_data sm; status := 0;
                           state := HV_STAGED_MSG_FREE |}) (sint_route w) /\
    effects w3 =
      effects w ++ [run_on_cpu_cpu_post_msg] ++
      (if gsi (sint_route w) =? 0 then [] else [event_notifier_set (gsi (sint_route w))]) ++
      [set_dirty_msg_page; bh_schedule_sint_msg_bh;
       cb_call (cb_data sm) (if gsi (sint_route w) =? 0 then 0 else notifier_rc)].
Proof.
  intros Hs Hst Hr Ha Hdst Ht.
  destruct w as [[si g st r] sy ef]. destruct sm as [m0 cd s0 stt].
  cbn in Hs, Hst, Hr, Ha, Hdst. subst st stt.
  assert (Hw : wrap32 (r + 1) = r + 1) by (apply wrap32_small; lia).
  assert (H1 : (r + 1 <=? 0) = false) by (apply Z.leb_gt; lia).
  assert (H2 : (r + 1 - 1 =? 0) = false) by (apply Z.eqb_neq; lia).
  apply Z.eqb_neq in Ha. apply Z.eqb_eq in Ht.
  destruct (g =? 0) eqn:Hg;
    (eexists _, _, _;
     split; [unfold hyperv_post_msg, hyperv_sint_route_ref; cbn; reflexivity|];
     split; [unfold cpu_post_msg, hyperv_sint_route_set_sint, posted; cbn;
             rewrite Ha, Hdst; cbn; rewrite Ht; cbn; rewrite Hg; reflexivity|];
     split; [unfold sint_msg_bh, hyperv_sint_route_unref; cbn; rewrite Hw, H1, H2; cbn;
             reflexivity|];
     cbn; rewrite ?Hg; repeat split; try reflexivity;
     first [ unfold with_staged, with_refcount; cbn; f_equal; lia
           | rewrite <- ?app_assoc; reflexivity ]).
Qed.

(** X4. A posting to a slot the guest has not consumed.  Delivery changes
    nothing in the message page but the pending flag of that slot, calls
    no completion callback and schedules none; the completion runs when
    the guest's acknowledgement arrives, with status [-EAGAIN], and frees
    the staging area. *)
Theorem post_msg_cycle_busy_slot (w : world) (sm : HvSintStagedMessage)
    (src dst : hyperv_message) :
  staged_msg (sint_route w) = Some sm ->
  state sm = HV_STAGED_MSG_FREE ->
  0 < refcount (sint_route w) < 2 ^ 32 - 1 ->
  msg_page_addr (synic w) <> 0 ->
  msg_page (synic w) !! Z.to_nat (sint (sint_route w)) = Some dst ->
  message_type dst <> HV_MESSAGE_NONE ->
  exists w1 w2 w3,
    hyperv_post_msg w src = Some (0, w1) /\
    cpu_post_msg notifier_rc w1 = Some w2 /\
    msg_page (synic w2) =
      <[Z.to_nat (sint (sint_route w)) :=
          set_message_flags (Z.lor (message_flags dst) HV_MESSAGE_FLAG_PENDING) dst]>
        (msg_page (synic w)) /\
    effects w2 = effects w ++ [run_on_cpu_cpu_post_msg; set_dirty_msg_page] /\
    sint_msg_bh (sint_ack_handler w2) = Some w3 /\
    effects w3 =
      effects w2 ++ [bh_schedule_sint_msg_bh; cb_call (cb_data sm) (- EAGAIN)] /\
    synic w3 = synic w2 /\
    sint_route w3 =
      with_staged (Some {| msg := src; cb_data := cb_data sm; status := 0;
                           state := HV_STAGED_MSG_FREE |}) (sint_route w).
Proof.
  intros Hs Hst Hr Ha Hdst Ht.
  destruct w as [[si g st r] sy ef]. destruct sm as [m0 cd s0 stt].
  cbn in Hs, Hst, Hr, Ha, Hdst. subst st stt.
  assert (Hw : wrap32 (r + 1) = r + 1) by (apply wrap32_small; lia).
  assert (H1 : (r + 1 <=? 0) = false) by (apply Z.leb_gt; lia).
  assert (H2 : (r + 1 - 1 =? 0) = false) by (apply Z.eqb_neq; lia).
  apply Z.eqb_neq in Ha. apply Z.eqb_neq in Ht.
  eexists _, _, _.
  split; [unfold hyperv_post_msg, hyperv_sint_route_ref; cbn; reflexivity|].
  split; [unfold cpu_post_msg, hyperv_sint_route_set_sint, posted; cbn;
          rewrite Ha, Hdst; cbn; rewrite Ht; cbn; reflexivity|].
  split; [reflexivity|].
  split; [cbn; rewrite <- ?app_assoc; reflexivity|].
  split; [unfold sint_msg_bh, sint_ack_handler, hyperv_sint_route_unref; cbn;
          rewrite Hw, H1, H2; cbn; reflexivity|].
  cbn. repeat split; try reflexivity;
    first [ unfold with_staged, with_refcount; cbn; f_equal; lia
          | rewrite <- ?app_assoc; reflexivity ].
Qed.

(** X5. Signalling an event flag twice.  After a call that got past the
    checks, a second call for the same flag returns 0 and leaves the
    event page, the route and the calls made exactly as the first call
    left them: no second dirty mark, no second interrupt. *)
Theorem hyperv_set_event_flag_twice (w w1 : world) (eventno r : Z) :
  eventno <= HV_EVENT_FLAGS_COUNT ->
  sctl_enabled (synic w) = true ->
  event_page_addr (synic w) <> 0 ->
  hyperv_set_event_flag HV_EVENT_FLAGS_COUNT notifier_rc w eventno = Some (r, w1) ->
  hyperv_set_event_flag HV_EVENT_FLAGS_COUNT notifier_rc w1 eventno = Some (0, w1).
Proof.
  intros Hle Hen Hpg H.
  assert (Hgt : (eventno >? HV_EVENT_FLAGS_COUNT) = false).
  { rewrite Z.gtb_ltb. apply Z.ltb_ge. exact Hle. }
  apply Z.eqb_neq in Hpg.
  destruct w as [rt sy ef]. cbn in Hen, Hpg.
  unfold hyperv_set_event_flag in H. cbn in H.
  rewrite Hgt, Hen, Hpg in H. cbn in H.
  set (i := Z.to_nat (sint rt * flags_words HV_EVENT_FLAGS_COUNT + BIT_WORD eventno)) in *.
  destruct (event_page sy !! i) as [old|] eqn:Hold; [|discriminate].
  assert (Hm : 0 <= BIT_MASK eventno).
  { rewrite BIT_MASK_pow2. apply Z.pow_nonneg. lia. }
  assert (Hset : Z.land (Z.lor old (BIT_MASK eventno)) (BIT_MASK eventno) = BIT_MASK eventno).
  { apply Z.bits_inj'. intros n Hn. rewrite Z.land_spec, Z.lor_spec.
    destruct (Z.testbit old n), (Z.testbit (BIT_MASK eventno) n); reflexivity. }
  assert (Hi : (i < length (event_page sy))%nat) by (eapply lookup_lt_Some; exact Hold).
  assert (Hw1 : synic w1 =
                with_event_page (<[i := Z.lor old (BIT_MASK eventno)]> (event_page sy)) sy /\
                sint_route w1 = rt).
  { destruct (negb (Z.land old (BIT_MASK eventno) =? BIT_MASK eventno)).
    - unfold hyperv_sint_route_set_sint in H. cbn in H.
      destruct (gsi rt =? 0); injection H as <- <-; split; reflexivity.
    - injection H as <- <-. split; reflexivity. }
  destruct Hw1 as [Hsy Hrt]. destruct w1 as [rt1 sy1 ef1]. cbn in Hsy, Hrt. subst rt1 sy1.
  unfold hyperv_set_event_flag. cbn. rewrite Hgt, Hen, Hpg. cbn. fold i.
  rewrite list_lookup_insert_eq by exact Hi. rewrite Hset, Z.eqb_refl. cbn.
  rewrite list_insert_insert_eq.
  rewrite <- Z.lor_assoc, Z.lor_diag. reflexivity.
Qed.

(** X6. What signalling an event flag leaves alone.  Whatever the call
    returns, the event page keeps its length, every bit other than the
    one addressed keeps its value (no flag is ever cleared), and the
    message page, the page addresses and the route are untouched. *)
Theorem hyperv_set_event_flag_frame (w w1 : world) (eventno r : Z) :
  hyperv_set_event_flag HV_EVENT_FLAGS_COUNT notifier_rc w eventno = Some (r, w1) ->
  length (event_page (synic w1)) = length (event_page (synic w)) /\
  (forall (j : nat) (n : Z),
     0 <= n ->
     j <> Z.to_nat (sint (sint_route w) * flags_words HV_EVENT_FLAGS_COUNT + BIT_WORD eventno)
     \/ n <> eventno mod BITS_PER_LONG ->
     Z.testbit (event_page (synic w1) !!! j) n = Z.testbit (event_page (synic w) !!! j) n) /\
  (forall (j : nat) (n : Z),
     Z.testbit (event_page (synic w) !!! j) n = true ->
     Z.testbit (event_page (synic w1) !!! j) n = true) /\
  msg_page (synic w1) = msg_page (synic w) /\
  msg_page_addr (synic w1) = msg_page_addr (synic w) /\
  event_page_addr (synic w1) = event_page_addr (synic w) /\
  sctl_enabled (synic w1) = sctl_enabled (synic w) /\
  sint_route w1 = sint_route w.
Proof.
  intros H. destruct w as [rt sy ef]. unfold hyperv_set_event_flag in H. cbn in H.
  cbn [sint_route synic].
  set (i := Z.to_nat (sint rt * flags_words HV_EVENT_FLAGS_COUNT + BIT_WORD eventno)) in *.
  assert (Hsame : synic w1 = sy /\ sint_route w1 = rt \/
                  exists old, event_page sy !! i = Some old /\
                    synic w1 = with_event_page (<[i := Z.lor old (BIT_MASK eventno)]>
                                                  (event_page sy)) sy /\
                    sint_route w1 = rt).
  { destruct (eventno >? HV_EVENT_FLAGS_COUNT); [injection H as <- <-; left; split; reflexivity|].
    destruct (negb (sctl_enabled sy) || (event_page_addr sy =? 0));
      [injection H as <- <-; left; split; reflexivity|].
    destruct (event_page sy !! i) as [old|] eqn:Hold; [|discriminate].
    right. exists old. split; [reflexivity|].
    destruct (negb (Z.land old (BIT_MASK eventno) =? BIT_MASK eventno)).
    - unfold hyperv_sint_route_set_sint in H. cbn in H.
      destruct (gsi rt =? 0); injection H as <- <-; split; reflexivity.
    - injection H as <- <-. split; reflexivity. }
  destruct Hsame as [[-> ->] | (old & Hold & -> & ->)].
  - repeat split; auto.
  - cbn. assert (Hi : (i < length (event_page sy))%nat) by (eapply lookup_lt_Some; exact Hold).
    assert (Hold' : event_page sy !!! i = old) by (apply list_lookup_total_correct; exact Hold).
    repeat split.
    + apply length_insert.
    + intros j n Hn Hne. destruct (decide (j = i)) as [->|Hji].
      * rewrite list_lookup_total_insert_eq by exact Hi. rewrite Hold'.
        rewrite Z.lor_spec, BIT_MASK_pow2, Z.pow2_bits_eqb by
          (apply Z.mod_pos_bound; unfold BITS_PER_LONG; lia).
        destruct Hne as [Hne|Hne]; [congruence|].
        destruct (Z.eqb_spec (eventno mod BITS_PER_LONG) n) as [E|E]; [lia|].
        apply orb_false_r.
      * rewrite list_lookup_total_insert_ne by congruence. reflexivity.
    + intros j n Hb. destruct (decide (j = i)) as [->|Hji].
      * rewrite list_lookup_total_insert_eq by exact Hi. rewrite Hold' in Hb.
        rewrite Z.lor_spec, Hb. reflexivity.
      * rewrite list_lookup_total_insert_ne by congruence. exact Hb.
Qed.

End SynICMore.

(** * Connection registries *)

Section QList.

Context {A : Type} (key : A -> Z).

Lemma qlist_find_None (k : Z) (l : list A) :
  Handlers.qlist_find key k l = None <-> k ∉ key <$> l.
Proof.
  induction l as [|h l IH]; cbn.
  - split; [intros _; apply not_elem_of_nil | reflexivity].
  - rewrite not_elem_of_cons. destruct (Z.eqb_spec (key h) k) as [E|E].
    + split; [discriminate | intros [H _]; congruence].
    + rewrite IH. split; [intros H; split; [congruence | exact H] | intros [_ H]; exact H].
Qed.

Lemma qlist_find_Some (k : Z) (l : list A) (h : A) :
  Handlers.qlist_find key k l = Some h -> h ∈ l /\ key h = k.
Proof.
  induction l as [|x l IH]; cbn; [discriminate|].
  destruct (Z.eqb_spec (key x) k) as [E|E].
  - intros [= <-]. split; [apply list_elem_of_here | exact E].
  - intros H. destruct (IH H) as [H1 H2]. split; [apply list_elem_of_further; exact H1 | exact H2].
Qed.

Lemma qlist_remove_keys (k x : Z) (l : list A) :
  x ∈ key <$> Handlers.qlist_remove key k l -> x ∈ key <$> l.
Proof.
  induction l as [|h l IH]; cbn; [trivial|].
  destruct (key h =? k).
  - intros H. apply list_elem_of_further. exact H.
  - cbn. rewrite !elem_of_cons. intros [H|H]; [left; exact H | right; apply IH; exact H].
Qed.

Lemma qlist_remove_NoDup (k : Z) (l : list A) :
  NoDup (key <$> l) ->
  NoDup (key <$> Handlers.qlist_remove key k l) /\
  k ∉ key <$> Handlers.qlist_remove key k l.
Proof.
  induction l as [|h l IH]; cbn.
  - intros _. split; [apply NoDup_nil_2 | apply not_elem_of_nil].
  - rewrite NoDup_cons. intros [Hh Hl]. destruct (Z.eqb_spec (key h) k) as [E|E].
    + split; [exact Hl | rewrite <- E; exact Hh].
    + destruct (IH Hl) as [H1 H2]. cbn. split.
      * apply NoDup_cons. split; [|exact H1]. intros H. apply Hh.
        eapply qlist_remove_keys. exact H.
      * rewrite not_elem_of_cons. split; [congruence | exact H2].
Qed.

Lemma qlist_find_remove_ne (k k' : Z) (l : list A) :
  k' <> k ->
  Handlers.qlist_find key k' (Handlers.qlist_remove key k l) = Handlers.qlist_find key k' l.
Proof.
  intros Hne. induction l as [|h l IH]; cbn; [reflexivity|].
  destruct (Z.eqb_spec (key h) k) as [E|E].
  - destruct (Z.eqb_spec (key h) k') as [E'|E']; [congruence | reflexivity].
  - cbn. rewrite IH. reflexivity.
Qed.

End QList.

Section HandlerFacts.
Import Handlers.

Variable HV_CONNECTION_ID_MASK : Z.
Variable msg_align : Z.
Variable payload_capacity : Z.
Variable cpu_physical_memory_map : Z -> option hyperv_post_message_input.
Variable ldq_phys : Z -> Z.
Variable kvm_has_hyperv_eventfd : bool.
Variable kvm_vm_ioctl_rc : Z.

(** X7. One registration per connection id.  If no two entries of the message
    handler table have the same connection id, none have after
    [hyperv_set_msg_handler], whatever it was asked and whatever it
    returned; and it fails exactly on a second registration ([-EEXIST])
    and on unregistering an id that is not there ([-ENOENT]), leaving the
    table as it was. *)
Theorem hyperv_set_msg_handler_unique (l : list MsgHandler.t) (conn_id : Z)
    (handler : option HvMsgHandler) (data : Z) :
  NoDup (MsgHandler.conn_id <$> l) ->
  let '(ret, l') := hyperv_set_msg_handler l conn_id handler data in
  NoDup (MsgHandler.conn_id <$> l') /\
  (ret = 0 \/ ret = - EEXIST \/ ret = - ENOENT) /\
  (ret = - EEXIST <-> (conn_id ∈ MsgHandler.conn_id <$> l) /\ is_Some handler) /\
  (ret = - ENOENT <-> (conn_id ∉ MsgHandler.conn_id <$> l) /\ handler = None) /\
  (ret <> 0 -> l' = l).
Proof.
  intros Hnd. unfold hyperv_set_msg_handler.
  assert (Hne : - EEXIST <> - ENOENT /\ 0 <> - EEXIST /\ 0 <> - ENOENT).
  { unfold EEXIST, ENOENT. lia. }
  destruct Hne as (Hne1 & Hne2 & Hne3).
  destruct (qlist_find MsgHandler.conn_id conn_id l) as [mh|] eqn:Hf.
  - assert (Hin : conn_id ∈ MsgHandler.conn_id <$> l).
    { destruct (qlist_find_Some _ _ _ _ Hf) as [H1 H2]. rewrite <- H2.
      apply list_elem_of_fmap_2. exact H1. }
    destruct handler as [h|].
    + split; [exact Hnd|]. split; [right; left; reflexivity|].
      split; [split; [intros _; split; [exact Hin | eauto] | reflexivity]|].
      split; [split; [intros H; congruence | intros [H _]; contradiction]|].
      reflexivity.
    + split; [apply qlist_remove_NoDup; exact Hnd|]. split; [left; reflexivity|].
      split; [split; [intros H; congruence | intros [_ [x Hx]]; discriminate]|].
      split; [split; [intros H; congruence | intros [H _]; contradiction]|].
      intros H. congruence.
  - apply qlist_find_None in Hf. destruct handler as [h|].
    + split; [cbn; apply NoDup_cons; split; assumption|]. split; [left; reflexivity|].
      split; [split; [intros H; congruence | intros [H _]; contradiction]|].
      split; [split; [intros H; congruence | intros [_ H]; discriminate]|].
      intros H. congruence.
    + split; [exact Hnd|]. split; [right; right; reflexivity|].
      split; [split; [intros H; congruence | intros [H _]; contradiction]|].
      split; [split; [intros _; split; [exact Hf | reflexivity] | reflexivity]|].
      reflexivity.
Qed.

(** Registration and dispatch.  After a handler has been registered for
    a connection id that was free, POST_MESSAGE with a mapped, aligned
    input block of admissible payload size whose connection id, masked,
    is that id returns what the handler returns for this block and the
    registered data (as a 16-bit value); a block for any other connection
    id is treated as before the registration. *)
Lemma hyperv_hcall_post_message_after_register (l : list MsgHandler.t) (conn_id : Z)
    (h : HvMsgHandler) (data : Z) :
  conn_id ∉ MsgHandler.conn_id <$> l ->
  exists l',
    hyperv_set_msg_handler l conn_id (Some h) data = (0, l') /\
    forall (param : Z) (msg : hyperv_post_message_input),
      Z.land param (msg_align - 1) = 0 ->
      cpu_physical_memory_map param = Some msg ->
      payload_size msg <= payload_capacity ->
      (Z.land (connection_id msg) HV_CONNECTION_ID_MASK = conn_id ->
       hyperv_hcall_post_message HV_CONNECTION_ID_MASK msg_align payload_capacity
         cpu_physical_memory_map l' param false = Vsm.wrap16 (h msg data)) /\
      (Z.land (connection_id msg) HV_CONNECTION_ID_MASK <> conn_id ->
       hyperv_hcall_post_message HV_CONNECTION_ID_MASK msg_align payload_capacity
         cpu_physical_memory_map l' param false = hyperv_hcall_post_message HV_CONNECTION_ID_MASK msg_align payload_capacity
         cpu_physical_memory_map l param false).
Proof.
  intros Hfree. apply qlist_find_None in Hfree.
  unfold hyperv_set_msg_handler. rewrite Hfree. eexists. split; [reflexivity|].
  intros param msg Hal Hmap Hsz. unfold hyperv_hcall_post_message.
  rewrite Hal, Hmap. cbn.
  assert (Hgt : (payload_size msg >? payload_capacity) = false).
  { rewrite Z.gtb_ltb. apply Z.ltb_ge. exact Hsz. }
  rewrite Hgt. split; intros Hc.
  - rewrite Hc, Z.eqb_refl. reflexivity.
  - destruct (Z.eqb_spec conn_id (Z.land (connection_id msg) HV_CONNECTION_ID_MASK));
      [congruence | reflexivity].
Qed.

(** X8. Registration, dispatch and unregistration.  A handler registered
    for a free connection id is what POST_MESSAGE calls for a mapped,
    aligned input block of admissible payload size carrying that id (the
    result is the handler's, as a 16-bit value), where before the
    registration the call returned the invalid-connection-id status; a
    block for any other id is treated as before; and unregistering the id
    again gives back the table as it was. *)
Theorem hyperv_hcall_post_message_dispatch (l : list MsgHandler.t) (conn_id : Z)
    (h : HvMsgHandler) (data data' : Z) :
  conn_id ∉ MsgHandler.conn_id <$> l ->
  exists l1,
    hyperv_set_msg_handler l conn_id (Some h) data = (0, l1) /\
    hyperv_set_msg_handler l1 conn_id None data' = (0, l) /\
    forall (param : Z) (msg : hyperv_post_message_input),
      Z.land param (msg_align - 1) = 0 ->
      cpu_physical_memory_map param = Some msg ->
      payload_size msg <= payload_capacity ->
      (Z.land (connection_id msg) HV_CONNECTION_ID_MASK = conn_id ->
       hyperv_hcall_post_message HV_CONNECTION_ID_MASK msg_align payload_capacity
         cpu_physical_memory_map l1 param false = Vsm.wrap16 (h msg data) /\
       hyperv_hcall_post_message HV_CONNECTION_ID_MASK msg_align payload_capacity
         cpu_physical_memory_map l param false = HV_STATUS_INVALID_CONNECTION_ID) /\
      (Z.land (connection_id msg) HV_CONNECTION_ID_MASK <> conn_id ->
       hyperv_hcall_post_message HV_CONNECTION_ID_MASK msg_align payload_capacity
         cpu_physical_memory_map l1 param false =
       hyperv_hcall_post_message HV_CONNECTION_ID_MASK msg_align payload_capacity
         cpu_physical_memory_map l param false).
Proof.
  intros Hfree.
  destruct (hyperv_hcall_post_message_after_register l conn_id h data Hfree)
    as (l1 & Hreg & Hpost).
  exists l1. split; [exact Hreg|].
  apply qlist_find_None in Hfree.
  split.
  - unfold hyperv_set_msg_handler in Hreg. rewrite Hfree in Hreg.
    injection Hreg as <-.
    unfold hyperv_set_msg_handler. cbn. rewrite Z.eqb_refl. reflexivity.
  - intros param msg Hal Hmap Hsz.
    destruct (Hpost param msg Hal Hmap Hsz) as [Hsame Hother].
    split; [|exact Hother].
    intros Hc. split; [exact (Hsame Hc)|].
    unfold hyperv_hcall_post_message. rewrite Hal, Hmap. cbn.
    assert (Hgt : (payload_size msg >? payload_capacity) = false).
    { rewrite Z.gtb_ltb. apply Z.ltb_ge. exact Hsz. }
    rewrite Hgt, Hc, Hfree. reflexivity.
Qed.

(** Unregistration.  In a table without duplicate ids, unregistering a
    registered connection id succeeds, and afterwards POST_MESSAGE for
    that id finds no handler and returns the invalid-connection-id
    status, while a block for any other connection id is treated as
    before. *)
Lemma hyperv_hcall_post_message_after_unregister (l : list MsgHandler.t) (conn_id : Z)
    (data : Z) :
  NoDup (MsgHandler.conn_id <$> l) ->
  conn_id ∈ MsgHandler.conn_id <$> l ->
  exists l',
    hyperv_set_msg_handler l conn_id None data = (0, l') /\
    forall (param : Z) (msg : hyperv_post_message_input),
      Z.land param (msg_align - 1) = 0 ->
      cpu_physical_memory_map param = Some msg ->
      payload_size msg <= payload_capacity ->
      (Z.land (connection_id msg) HV_CONNECTION_ID_MASK = conn_id ->
       hyperv_hcall_post_message HV_CONNECTION_ID_MASK msg_align payload_capacity
         cpu_physical_memory_map l' param false = HV_STATUS_INVALID_CONNECTION_ID) /\
      (Z.land (connection_id msg) HV_CONNECTION_ID_MASK <> conn_id ->
       hyperv_hcall_post_message HV_CONNECTION_ID_MASK msg_align payload_capacity
         cpu_physical_memory_map l' param false = hyperv_hcall_post_message HV_CONNECTION_ID_MASK msg_align payload_capacity
         cpu_physical_memory_map l param false).
Proof.
  intros Hnd Hin. unfold hyperv_set_msg_handler.
  destruct (qlist_find MsgHandler.conn_id conn_id l) as [mh|] eqn:Hf;
    [|apply qlist_find_None in Hf; contradiction].
  eexists. split; [reflexivity|].
  intros param msg Hal Hmap Hsz. unfold hyperv_hcall_post_message.
  rewrite Hal, Hmap. cbn.
  assert (Hgt : (payload_size msg >? payload_capacity) = false).
  { rewrite Z.gtb_ltb. apply Z.ltb_ge. exact Hsz. }
  rewrite Hgt. split; intros Hc.
  - rewrite Hc.
    destruct (qlist_remove_NoDup MsgHandler.conn_id conn_id l Hnd) as [_ Hout].
    apply qlist_find_None in Hout. rewrite Hout. reflexivity.
  - rewrite qlist_find_remove_ne by exact Hc. reflexivity.
Qed.

(** What POST_MESSAGE checks before it looks for a handler.  A fast call,
    a misaligned address, a block that is not fully mapped and a payload
    size above the capacity are each answered with their own status, in
    this order, whatever handlers are registered: no handler is called. *)
Lemma hyperv_hcall_post_message_checks (l : list MsgHandler.t) (param : Z) (fast : bool) :
  (fast = true -> hyperv_hcall_post_message HV_CONNECTION_ID_MASK msg_align payload_capacity
         cpu_physical_memory_map l param fast = HV_STATUS_INVALID_HYPERCALL_CODE) /\
  (fast = false -> Z.land param (msg_align - 1) <> 0 ->
   hyperv_hcall_post_message HV_CONNECTION_ID_MASK msg_align payload_capacity
         cpu_physical_memory_map l param fast = HV_STATUS_INVALID_ALIGNMENT) /\
  (fast = false -> Z.land param (msg_align - 1) = 0 ->
   cpu_physical_memory_map param = None ->
   hyperv_hcall_post_message HV_CONNECTION_ID_MASK msg_align payload_capacity
         cpu_physical_memory_map l param fast = HV_STATUS_INSUFFICIENT_MEMORY) /\
  (forall msg, fast = false -> Z.land param (msg_align - 1) = 0 ->
   cpu_physical_memory_map param = Some msg ->
   payload_capacity < payload_size msg ->
   hyperv_hcall_post_message HV_CONNECTION_ID_MASK msg_align payload_capacity
         cpu_physical_memory_map l param fast = HV_STATUS_INVALID_HYPERCALL_INPUT).
Proof.
  unfold hyperv_hcall_post_message. repeat split.
  - intros ->. reflexivity.
  - intros -> Hal. apply Z.eqb_neq in Hal. rewrite Hal. reflexivity.
  - intros -> Hal Hmap. rewrite Hal, Hmap. reflexivity.
  - intros msg -> Hal Hmap Hsz. rewrite Hal, Hmap. cbn.
    apply Z.gtb_lt in Hsz. rewrite Hsz. reflexivity.
Qed.

(** X9. SIGNAL_EVENT signals at most one notifier, and only a registered one.
    Whatever the parameter and the calling convention, either no
    notifier is set, or the call returns 0 and has set exactly the
    notifier of the first table entry whose connection id equals the
    event parameter; that parameter then has no bit set in the
    flag-number field (bits 32 to 47) and none outside the connection-id
    mask. *)
Theorem hyperv_hcall_signal_event_sound (l : list EventFlagHandler.t) (param : Z)
    (fast : bool) :
  let '(ret, set) := hyperv_hcall_signal_event HV_CONNECTION_ID_MASK ldq_phys l param fast in
  set = [] \/
  exists (handler : EventFlagHandler.t),
    let p := if fast then param else ldq_phys param in
    ret = 0 /\
    set = [EventFlagHandler.notifier handler] /\
    qlist_find EventFlagHandler.conn_id p l = Some handler /\
    EventFlagHandler.conn_id handler = p /\
    Z.land p 281470681743360 = 0 /\
    Z.ldiff p HV_CONNECTION_ID_MASK = 0.
Proof.
  unfold hyperv_hcall_signal_event.
  assert (Hlk : forall p,
    let '(ret, set) :=
      (if negb (Z.land p 281470681743360 =? 0) then (HV_STATUS_INVALID_PORT_ID, [])
       else if negb (Z.ldiff p HV_CONNECTION_ID_MASK =? 0)
            then (HV_STATUS_INVALID_HYPERCALL_INPUT, [])
            else match qlist_find EventFlagHandler.conn_id p l with
                 | Some handler => (0, [EventFlagHandler.notifier handler])
                 | None => (HV_STATUS_INVALID_CONNECTION_ID, [])
                 end) in
    set = [] \/
    exists handler, ret = 0 /\ set = [EventFlagHandler.notifier handler] /\
      qlist_find EventFlagHandler.conn_id p l = Some handler /\
      EventFlagHandler.conn_id handler = p /\
      Z.land p 281470681743360 = 0 /\ Z.ldiff p HV_CONNECTION_ID_MASK = 0).
  { intros p.
    destruct (Z.eqb_spec (Z.land p 281470681743360) 0) as [E1|E1]; cbn; [|left; reflexivity].
    destruct (Z.eqb_spec (Z.ldiff p HV_CONNECTION_ID_MASK) 0) as [E2|E2]; cbn;
      [|left; reflexivity].
    destruct (qlist_find EventFlagHandler.conn_id p l) as [hd|] eqn:Hf; [|left; reflexivity].
    right. exists hd. destruct (qlist_find_Some _ _ _ _ Hf) as [_ Hk].
    repeat split; auto. }
  destruct fast; cbn.
  - apply Hlk.
  - destruct (negb (Z.land param (8 - 1) =? 0)); cbn; [left; reflexivity | apply Hlk].
Qed.

(** X10. Registration and signalling.  When event flags are processed in
    user space (KVM lacks the eventfd capability or the file has chosen
    user space before), registering a notifier for a free connection id
    that lies inside the connection-id mask succeeds, and afterwards
    SIGNAL_EVENT with that id, passed in a register or read from aligned
    guest memory, sets exactly that notifier and returns 0; a second
    registration for the id fails with [-EEXIST]. *)
Theorem hyperv_hcall_signal_event_registered (r : event_registry) (conn_id n : Z) :
  process_event_flags_userspace r = true \/ kvm_has_hyperv_eventfd = false ->
  conn_id ∉ EventFlagHandler.conn_id <$> event_flag_handlers r ->
  Z.land conn_id 281470681743360 = 0 ->
  Z.ldiff conn_id HV_CONNECTION_ID_MASK = 0 ->
  exists r',
    hyperv_set_event_flag_handler kvm_has_hyperv_eventfd kvm_vm_ioctl_rc r conn_id (Some n) = (0, r') /\
    process_event_flags_userspace r' = true /\
    hyperv_hcall_signal_event HV_CONNECTION_ID_MASK ldq_phys
      (event_flag_handlers r') conn_id true = (0, [n]) /\
    (forall addr, Z.land addr 7 = 0 -> ldq_phys addr = conn_id ->
       hyperv_hcall_signal_event HV_CONNECTION_ID_MASK ldq_phys
         (event_flag_handlers r') addr false = (0, [n])) /\
    forall n', hyperv_set_event_flag_handler kvm_has_hyperv_eventfd kvm_vm_ioctl_rc r' conn_id
                (Some n') = (- EEXIST, r').
Proof.
  intros Hus Hfree Hport Hmask. apply qlist_find_None in Hfree.
  assert (Hu : (if negb (process_event_flags_userspace r) && negb kvm_has_hyperv_eventfd
                then true else process_event_flags_userspace r) = true).
  { destruct Hus as [-> | ->]; [reflexivity|].
    destruct (process_event_flags_userspace r); reflexivity. }
  unfold hyperv_set_event_flag_handler, set_event_flag_handler.
  rewrite Hu, Hfree. cbn. eexists. split; [reflexivity|]. cbn.
  assert (Hsig : hyperv_hcall_signal_event HV_CONNECTION_ID_MASK ldq_phys
            ({| EventFlagHandler.conn_id := conn_id; EventFlagHandler.notifier := n |}
               :: event_flag_handlers r) conn_id true = (0, [n])).
  { unfold hyperv_hcall_signal_event. cbn. rewrite Hport, Hmask. cbn.
    rewrite Z.eqb_refl. reflexivity. }
  repeat split.
  - exact Hsig.
  - intros addr Hal Hld. unfold hyperv_hcall_signal_event. cbn.
    change (8 - 1) with 7. rewrite Hal, Hld. cbn. rewrite Hport, Hmask. cbn.
    rewrite Z.eqb_refl. reflexivity.
  - intros n'. cbn. rewrite Z.eqb_refl. reflexivity.
Qed.

(** The choice between KVM and user space is made once.  While KVM
    offers the eventfd capability and user space has not been chosen, a
    registration goes to KVM, returns what the ioctl returns and leaves
    the table of this file alone; once user space has been chosen it
    stays chosen, whatever KVM offers later. *)
Lemma hyperv_set_event_flag_handler_choice (r : event_registry) (conn_id : Z)
    (notifier : option Z) :
  let '(ret, r') := hyperv_set_event_flag_handler kvm_has_hyperv_eventfd kvm_vm_ioctl_rc r conn_id
                      notifier in
  (process_event_flags_userspace r = true -> process_event_flags_userspace r' = true) /\
  (process_event_flags_userspace r = false -> kvm_has_hyperv_eventfd = true ->
   ret = kvm_vm_ioctl_rc /\ r' = r) /\
  (process_event_flags_userspace r' = true ->
   (ret, event_flag_handlers r') =
     set_event_flag_handler (event_flag_handlers r) conn_id notifier).
Proof.
  unfold hyperv_set_event_flag_handler.
  destruct r as [us l]. cbn.
  destruct us; cbn.
  - destruct (set_event_flag_handler l conn_id notifier) as [ret l'] eqn:E. cbn.
    repeat split; auto; discriminate.
  - destruct kvm_has_hyperv_eventfd; cbn.
    + repeat split; auto; discriminate.
    + destruct (set_event_flag_handler l conn_id notifier) as [ret l'] eqn:E. cbn.
      repeat split; auto; discriminate.
Qed.

End HandlerFacts.

(** * The SynIC device *)

Section SynICDevFacts.
Import SynIC SynICDev.

Variable HV_EVENT_FLAGS_COUNT : Z.
Variable notifier_rc : Z.
Variable get_synic : Z -> option SynICState.
Variable ack_notifier_init_rc : Z.
Variable set_notifier_init_rc : Z.
Variable kvm_irqchip_add_hv_sint_route : Z -> Z -> Z.
Variable kvm_irqchip_add_irqfd_notifier_gsi : Z -> Z.
Variable HV_MESSAGE_PAYLOAD_BYTE_COUNT : nat.

(** Page mapping is idempotent and balanced.  [synic_update] leaves the
    SynIC with the control bit and the two page addresses it was given and
    with the pages' contents untouched; it removes a page's region only if
    the page was mapped (old address not 0) and adds it only at the new
    address, when that is not 0 and differs from the old one; and a second
    call with the same arguments makes no region call and changes
    nothing. *)
Lemma synic_update_idempotent (synic : SynICState) (sctl_enable : bool)
    (msg_addr event_addr : Z) :
  let '(s1, ops) := synic_update synic sctl_enable msg_addr event_addr in
  s1 = {| sctl_enabled := sctl_enable; msg_page_addr := msg_addr;
          event_page_addr := event_addr; msg_page := msg_page synic;
          event_page := event_page synic |} /\
  (msg_page_del ∈ ops -> msg_page_addr synic <> 0 /\ msg_page_addr synic <> msg_addr) /\
  (event_page_del ∈ ops -> event_page_addr synic <> 0 /\ event_page_addr synic <> event_addr) /\
  (forall a, msg_page_add a ∈ ops -> a = msg_addr /\ a <> 0 /\ msg_page_addr synic <> a) /\
  (forall a, event_page_add a ∈ ops -> a = event_addr /\ a <> 0 /\ event_page_addr synic <> a) /\
  synic_update s1 sctl_enable msg_addr event_addr = (s1, []).
Proof.
  destruct synic as [en ma ea mp ep]. unfold synic_update. cbn.
  destruct (Z.eqb_spec ma msg_addr) as [E1|E1], (Z.eqb_spec ea event_addr) as [E2|E2];
    destruct (Z.eqb_spec ma 0) as [E3|E3], (Z.eqb_spec ea 0) as [E4|E4];
    destruct (Z.eqb_spec msg_addr 0) as [E5|E5], (Z.eqb_spec event_addr 0) as [E6|E6];
    cbn; subst; rewrite ?Z.eqb_refl; cbn;
    repeat split; intros;
    rewrite ?elem_of_cons, ?elem_of_nil in *;
    try (f_equal; congruence); intuition congruence.
Qed.

(** X11. Reset.  After [synic_reset] the SynIC is disabled, both pages are
    unmapped, every slot of the message page is empty and every event
    flag is clear; from then on signalling an event flag fails with
    [-EINVAL] or [-ENXIO] and delivering a staged message completes with
    [-ENXIO], neither touching a page or raising an interrupt.  Resetting
    a SynIC with a SINT route still registered is a failed assertion. *)
Theorem synic_reset_disables (synic : SynICState) (routes : list HvSintRoute) :
  (routes <> [] -> synic_reset synic routes = None) /\
  exists s' ops,
    synic_reset synic [] = Some (s', ops) /\
    sctl_enabled s' = false /\ msg_page_addr s' = 0 /\ event_page_addr s' = 0 /\
    length (msg_page s') = length (msg_page synic) /\
    length (event_page s') = length (event_page synic) /\
    (forall i m, msg_page s' !! i = Some m -> message_type m = HV_MESSAGE_NONE) /\
    (forall i x, event_page s' !! i = Some x -> x = 0) /\
    (forall rt ef eventno,
       let w := {| sint_route := rt; synic := s'; effects := ef |} in
       hyperv_set_event_flag HV_EVENT_FLAGS_COUNT notifier_rc w eventno
         = Some (- EINVAL, w) \/
       hyperv_set_event_flag HV_EVENT_FLAGS_COUNT notifier_rc w eventno
         = Some (- ENXIO, w)) /\
    (forall rt ef sm,
       staged_msg rt = Some sm -> state sm = HV_STAGED_MSG_BUSY ->
       let w := {| sint_route := rt; synic := s'; effects := ef |} in
       cpu_post_msg notifier_rc w = Some (posted false (- ENXIO) sm w)).
Proof.
  split.
  - destruct routes; [congruence | reflexivity].
  - unfold synic_reset. destruct (synic_update _ false 0 0) as [s' ops] eqn:E.
    exists s', ops. split; [reflexivity|].
    pose proof (synic_update_idempotent
                  (with_event_page (replicate (length (event_page synic)) 0)
                     (with_msg_page (zero_message <$> msg_page synic) synic)) false 0 0) as H.
    change (map zero_message (msg_page synic)) with (zero_message <$> msg_page synic) in E.
    rewrite E in H. destruct H as (-> & _). cbn.
    repeat split.
    + apply length_fmap.
    + apply length_replicate.
    + intros i m Hm. rewrite list_lookup_fmap in Hm.
      destruct (msg_page synic !! i); cbn in Hm; [|discriminate].
      injection Hm as <-. reflexivity.
    + intros i x Hx. apply lookup_replicate in Hx. tauto.
    + intros rt ef eventno. unfold hyperv_set_event_flag. cbn.
      destruct (eventno >? HV_EVENT_FLAGS_COUNT); [left | right]; reflexivity.
    + intros rt ef sm Hs Hb. unfold cpu_post_msg. cbn. rewrite Hs, Hb. reflexivity.
Qed.

(** X12. Creating a SINT route.  A call that returns no route leaves the list
    of routes alone.  A call that returns a route has put exactly that
    route at the head of the list and undone nothing; the route has the
    requested SINT and one reference, a free staging area with the
    caller's data exactly when a callback was passed, and a GSI that is 0
    when the SynIC control is disabled and the non-negative number KVM
    assigned otherwise. *)
Theorem hyperv_sint_route_new_result (m : Vsm.machine) (routes : list HvSintRoute)
    (vp_index sint0 : Z) (cb : bool) (cb_data0 : Z)
    (res : option HvSintRoute) (routes' : list HvSintRoute) (undone : list cleanup) :
  hyperv_sint_route_new get_synic ack_notifier_init_rc set_notifier_init_rc
    kvm_irqchip_add_hv_sint_route kvm_irqchip_add_irqfd_notifier_gsi
    HV_MESSAGE_PAYLOAD_BYTE_COUNT
    m routes vp_index sint0 cb cb_data0 = Some (res, routes', undone) ->
  match res with
  | None => routes' = routes
  | Some r =>
      routes' = r :: routes /\ undone = [] /\
      sint r = sint0 /\ refcount r = 1 /\
      (cb = false -> staged_msg r = None) /\
      (cb = true ->
       exists sm, staged_msg r = Some sm /\ state sm = HV_STAGED_MSG_FREE /\
                  cb_data sm = cb_data0 /\ status sm = 0) /\
      exists c synic,
        hyperv_find_vcpu m vp_index = Some (Some c) /\ get_synic c = Some synic /\
        (sctl_enabled synic = false -> gsi r = 0) /\
        (sctl_enabled synic = true ->
         gsi r = kvm_irqchip_add_hv_sint_route vp_index sint0 /\ 0 <= gsi r)
  end.
Proof.
  unfold hyperv_sint_route_new. intros H.
  destruct (hyperv_find_vcpu m vp_index) as [[c|]|] eqn:Hc; cbn in H;
    [| injection H as <- <- <-; reflexivity | discriminate].
  destruct (get_synic c) as [synic|] eqn:Hs; [| injection H as <- <- <-; reflexivity].
  destruct (cb && negb (ack_notifier_init_rc =? 0)); [injection H as <- <- <-; reflexivity|].
  destruct (sctl_enabled synic) eqn:Hen; cbn in H.
  - destruct (negb (set_notifier_init_rc =? 0)); [injection H as <- <- <-; reflexivity|].
    destruct (kvm_irqchip_add_hv_sint_route vp_index sint0 <? 0) eqn:Hg;
      [injection H as <- <- <-; reflexivity|].
    destruct (negb (kvm_irqchip_add_irqfd_notifier_gsi
                      (kvm_irqchip_add_hv_sint_route vp_index sint0) =? 0));
      injection H as <- <- <-; [reflexivity|]. cbn.
    apply Z.ltb_ge in Hg.
    repeat split; try reflexivity.
    + intros ->. reflexivity.
    + intros ->. eexists. repeat split; reflexivity.
    + exists c, synic. repeat split; try assumption; try reflexivity; congruence.
  - injection H as <- <- <-. cbn.
    repeat split; try reflexivity.
    + intros ->. reflexivity.
    + intros ->. eexists. repeat split; reflexivity.
    + exists c, synic. repeat split; try assumption; try reflexivity; congruence.
Qed.

(** X13. A route created while the SynIC control is disabled never raises an
    interrupt.  Such a route has no GSI; whatever the SynIC's state is
    later (enabled, pages mapped), signalling an event flag through it and
    delivering a staged message through it call no [event_notifier_set],
    and the delivery to a free slot records the status 0. *)
Theorem hyperv_sint_route_new_disabled_silent (m : Vsm.machine)
    (routes : list HvSintRoute) (vp_index sint0 : Z) (cb : bool) (cb_data0 c : Z)
    (synic0 : SynICState) :
  SynICDev.hyperv_find_vcpu m vp_index = Some (Some c) ->
  get_synic c = Some synic0 ->
  sctl_enabled synic0 = false ->
  cb = false \/ ack_notifier_init_rc = 0 ->
  exists r,
    hyperv_sint_route_new get_synic ack_notifier_init_rc set_notifier_init_rc
      kvm_irqchip_add_hv_sint_route kvm_irqchip_add_irqfd_notifier_gsi
    HV_MESSAGE_PAYLOAD_BYTE_COUNT
      m routes vp_index sint0 cb cb_data0 = Some (Some r, r :: routes, []) /\
    gsi r = 0 /\
    forall (sy : SynICState) (ef : list effect),
      let w := {| sint_route := r; synic := sy; effects := ef |} in
      (forall eventno ret w',
         hyperv_set_event_flag HV_EVENT_FLAGS_COUNT notifier_rc w eventno = Some (ret, w') ->
         sint_raised (effects w') = sint_raised ef /\
         (ret = 0 \/ ret = - EINVAL \/ ret = - ENXIO)) /\
      (forall sm w',
         cpu_post_msg notifier_rc
           (with_route (with_staged (Some sm) r) w) = Some w' ->
         sint_raised (effects w') = sint_raised ef /\
         exists sm', staged_msg (sint_route w') = Some sm' /\
                     (status sm' = 0 \/ status sm' = - ENXIO \/ status sm' = - EAGAIN)).
Proof.
  intros Hc Hs Hen Hcb. unfold hyperv_sint_route_new. rewrite Hc. cbn. rewrite Hs, Hen.
  assert (Hack : cb && negb (ack_notifier_init_rc =? 0) = false).
  { destruct Hcb as [-> | ->]; [reflexivity | apply andb_false_r]. }
  rewrite Hack. cbn. eexists. split; [reflexivity|]. split; [reflexivity|].
  intros sy ef. split.
  - intros eventno ret w' H. unfold hyperv_set_event_flag in H. cbn in H.
    destruct (eventno >? HV_EVENT_FLAGS_COUNT);
      [injection H as <- <-; split; [reflexivity | right; left; reflexivity]|].
    destruct (negb (sctl_enabled sy) || (event_page_addr sy =? 0));
      [injection H as <- <-; split; [reflexivity | right; right; reflexivity]|].
    destruct (event_page sy !! _) as [old|]; [|discriminate].
    destruct (negb (Z.land old (BIT_MASK eventno) =? BIT_MASK eventno)).
    + unfold hyperv_sint_route_set_sint in H. cbn in H. injection H as <- <-. cbn -[sint_raised].
      rewrite sint_raised_app. cbn. split; [lia | left; reflexivity].
    + injection H as <- <-. split; [reflexivity | left; reflexivity].
  - intros sm w' H. unfold cpu_post_msg in H. cbn in H.
    destruct (negb (staged_state_eqb (state sm) HV_STAGED_MSG_BUSY)); [discriminate|].
    destruct (msg_page_addr sy =? 0).
    + injection H as <-. unfold posted. cbn -[sint_raised]. rewrite sint_raised_app. cbn.
      split; [lia|]. eexists. split; [reflexivity|]. cbn. right; left; reflexivity.
    + destruct (msg_page sy !! _) as [dst|]; [|discriminate].
      destruct (negb (message_type dst =? HV_MESSAGE_NONE)).
      * injection H as <-. unfold posted. cbn -[sint_raised]. rewrite sint_raised_app. cbn.
        split; [lia|]. eexists. split; [reflexivity|]. cbn. right; right; reflexivity.
      * unfold hyperv_sint_route_set_sint in H. cbn in H. injection H as <-.
        unfold posted. cbn -[sint_raised]. rewrite !sint_raised_app. cbn.
        split; [lia|]. eexists. split; [reflexivity|]. cbn. left; reflexivity.
Qed.

End SynICDevFacts.

(** * Segment registers: conversion between the two representations *)

Section SegmentFacts.
Import Vsm.

Lemma seg_attrs_all_back_true : seg_attrs_all_back = true.
Proof. vm_compute. reflexivity. Qed.

Lemma forallb_seqZ (f : Z -> bool) (m n x : Z) :
  forallb f (seqZ m n) = true -> m <= x < m + n -> f x = true.
Proof.
  intros H Hx. rewrite forallb_forall in H. apply H. apply list_elem_of_In.
  apply elem_of_seqZ. exact Hx.
Qed.

Lemma seg_attrs_back_range (t s d p a l b g : Z) :
  0 <= t < 16 -> 0 <= s < 2 -> 0 <= d < 4 -> 0 <= p < 2 ->
  0 <= a < 2 -> 0 <= l < 2 -> 0 <= b < 2 -> 0 <= g < 2 ->
  seg_attrs_back t s d p a l b g = true.
Proof.
  intros Ht Hs Hd Hp Ha Hl Hb Hg. pose proof seg_attrs_all_back_true as H.
  unfold seg_attrs_all_back in H.
  apply (forallb_seqZ _ 0 16 t) in H; [|lia].
  apply (forallb_seqZ _ 0 2 s) in H; [|lia].
  apply (forallb_seqZ _ 0 4 d) in H; [|lia].
  apply (forallb_seqZ _ 0 2 p) in H; [|lia].
  apply (forallb_seqZ _ 0 2 a) in H; [|lia].
  apply (forallb_seqZ _ 0 2 l) in H; [|lia].
  apply (forallb_seqZ _ 0 2 b) in H; [|lia].
  apply (forallb_seqZ _ 0 2 g) in H; [|lia].
  exact H.
Qed.

(** X14. Writing a segment register and reading it back.  For a segment
    register whose bit-fields are in range, [hyperv_get_seg] after
    [hyperv_set_seg] gives back every field: base, limit, selector, type,
    S, DPL, P, AVL, L, D/B and G, whatever the segment cache held
    before. *)
Theorem hyperv_get_seg_set_seg (lhs : SegmentCache.t) (rhs : hv_x64_segment_register.t) :
  seg_wf rhs -> hyperv_get_seg (hyperv_set_seg lhs rhs) = rhs.
Proof.
  destruct rhs as [bs lim sel t s d p rsv a l b g].
  intros (Hsel & Ht & Hs & Hd & Hp & Hr & Ha & Hl & Hb & Hg).
  cbn [hv_x64_segment_register.selector hv_x64_segment_register.segment_type
       hv_x64_segment_register.non_system_segment
       hv_x64_segment_register.descriptor_privilege_level
       hv_x64_segment_register.present hv_x64_segment_register.reserved
       hv_x64_segment_register.available hv_x64_segment_register._long
       hv_x64_segment_register._default hv_x64_segment_register.granularity] in *.
  subst rsv.
  pose proof (seg_attrs_back_range t s d p a l b g Ht Hs Hd Hp Ha Hl Hb Hg) as H.
  unfold seg_attrs_back in H. cbv zeta in H.
  repeat (apply andb_prop in H; destruct H as [H ?]).
  repeat match goal with E : (_ =? _) = true |- _ => apply Z.eqb_eq in E end.
  unfold hyperv_get_seg at 1.
  f_equal; try assumption; try reflexivity.
  cbn [SegmentCache.selector hyperv_set_seg hv_x64_segment_register.selector].
  unfold wrap16. apply Z.mod_small. exact Hsel.
Qed.

Lemma shift_field (f k m w : Z) :
  0 <= k -> 0 <= w -> m = Z.ones w ->
  Z.shiftl (Z.land (Z.shiftr f k) m) k = Z.land f (Z.shiftl m k).
Proof.
  intros Hk Hw ->. apply Z.bits_inj'. intros n Hn.
  rewrite Z.land_spec, !Z.shiftl_spec by lia.
  destruct (Z_lt_le_dec n k) as [Hlt|Hge].
  - rewrite (Z.testbit_neg_r (Z.land (Z.shiftr f k) (Z.ones w)) (n - k)) by lia.
    rewrite (Z.testbit_neg_r (Z.ones w) (n - k)) by lia. symmetry. apply andb_false_r.
  - rewrite Z.land_spec, Z.shiftr_spec by lia.
    replace (n - k + k) with n by lia. reflexivity.
Qed.

Lemma flag_field (f k : Z) :
  0 <= k -> nonzero (Z.land f (Z.shiftl 1 k)) * Z.shiftl 1 k = Z.land f (Z.shiftl 1 k).
Proof.
  intros Hk. unfold nonzero. rewrite land_pow2_zero by exact Hk.
  rewrite Z.shiftl_1_l.
  destruct (Z.testbit f k) eqn:Hb; cbn.
  - rewrite Z.mul_1_l. symmetry. apply Z.eqb_eq. rewrite land_pow2_testbit by exact Hk.
    exact Hb.
  - symmetry. apply Z.eqb_eq. rewrite <- Z.shiftl_1_l. rewrite land_pow2_zero by exact Hk.
    rewrite Hb. reflexivity.
Qed.

(** What a save by [hyperv_get_seg] and a restore by [hyperv_set_seg]
    leave of a segment cache. *)
Lemma hyperv_set_seg_carried (lhs s : SegmentCache.t) :
  hyperv_set_seg lhs (hyperv_get_seg s) = carried_segment s.
Proof.
  destruct s as [sel bs lim f]. unfold hyperv_set_seg, hyperv_get_seg, carried_segment.
  cbn. f_equal.
  unfold DESC_TYPE_SHIFT, DESC_DPL_SHIFT, DESC_L_SHIFT, DESC_B_SHIFT,
    DESC_P_MASK, DESC_S_MASK, DESC_G_MASK, DESC_AVL_MASK.
  rewrite (shift_field f 8 15 4), (shift_field f 13 3 2), (shift_field f 22 1 1),
    (shift_field f 21 1 1) by (lia || reflexivity).
  rewrite (flag_field f 15), (flag_field f 12), (flag_field f 23), (flag_field f 20) by lia.
  rewrite <- !Z.land_lor_distr_r. reflexivity.
Qed.

(** X15. Reading a segment cache and writing it back.  [hyperv_set_seg] after
    [hyperv_get_seg] keeps base and limit, cuts the selector to sixteen
    bits, and keeps of the flags exactly the attribute bits (type, S, DPL,
    P, AVL, L, D/B, G): every other flag bit of the segment cache is
    cleared, whatever it was. *)
Theorem hyperv_set_seg_get_seg (lhs s : SegmentCache.t) :
  hyperv_set_seg lhs (hyperv_get_seg s) =
    {| SegmentCache.selector := wrap16 (SegmentCache.selector s);
       SegmentCache.base := SegmentCache.base s;
       SegmentCache.limit := SegmentCache.limit s;
       SegmentCache.flags := Z.land (SegmentCache.flags s) DESC_ATTR_MASK |}.
Proof.
  destruct s as [sel bs lim f]. unfold hyperv_set_seg, hyperv_get_seg. cbn.
  f_equal.
  unfold DESC_TYPE_SHIFT, DESC_DPL_SHIFT, DESC_L_SHIFT, DESC_B_SHIFT,
    DESC_P_MASK, DESC_S_MASK, DESC_G_MASK, DESC_AVL_MASK.
  rewrite (shift_field f 8 15 4), (shift_field f 13 3 2), (shift_field f 22 1 1),
    (shift_field f 21 1 1) by (lia || reflexivity).
  rewrite (flag_field f 15), (flag_field f 12), (flag_field f 23), (flag_field f 20) by lia.
  rewrite <- !Z.land_lor_distr_r. reflexivity.
Qed.

End SegmentFacts.

(** * The VTL switch as a whole *)

Section SwitchFacts.
Import Vsm VsmRegs.

Lemma isolated_fields_synced (s d : CPUX86State.t) (p : kvm_hv_vcpu_per_vtl_state.t) :
  env_wf s -> env_wf d -> priv_wf p ->
  isolated_fields (synced_env s d p) = isolated_fields d.
Proof.
  intros Hs Hd Hp. pose proof (synced_env_retained s d p Hs Hd Hp) as H.
  cbv zeta in H. decompose [and] H. clear H.
  unfold isolated_fields. congruence.
Qed.

Lemma shared_fields_synced (s d : CPUX86State.t) (p : kvm_hv_vcpu_per_vtl_state.t) :
  shared_fields (synced_env s d p) = shared_fields s.
Proof.
  pose proof (synced_env_copied s d p) as H. cbv zeta in H.
  destruct H as (H1 & _ & H3 & H4 & H5 & H6 & H7 & H8 & _).
  unfold shared_fields. rewrite H1, H3, H4, H5, H6, H7, H8.
  unfold synced_env. cbn. rewrite list_insert_insert_eq. reflexivity.
Qed.

Lemma descriptor_fields_synced (s d : CPUX86State.t) (p : kvm_hv_vcpu_per_vtl_state.t) :
  env_wf s -> env_wf d ->
  descriptor_fields (synced_env s d p) = switched_descriptors s d.
Proof.
  intros (_ & Hs & _) (_ & Hd & _).
  unfold descriptor_fields, switched_descriptors, synced_env.
  cbn [hyperv_set_vtl_cpu_state restore_msrs restore_ctx save_priv
       CPUX86State.segs CPUX86State.ldt CPUX86State.tr CPUX86State.gdt CPUX86State.idt
       CPUX86State.fsbase CPUX86State.gsbase CPUX86State.mp_state
       hv_init_vp_context.cs hv_init_vp_context.ds hv_init_vp_context.es
       hv_init_vp_context.fs hv_init_vp_context.gs hv_init_vp_context.ss
       hv_init_vp_context.tr hv_init_vp_context.ldtr hv_init_vp_context.idtr
       hv_init_vp_context.gdtr
       kvm_hv_vcpu_per_vtl_state.cs kvm_hv_vcpu_per_vtl_state.ds
       kvm_hv_vcpu_per_vtl_state.es kvm_hv_vcpu_per_vtl_state.fs
       kvm_hv_vcpu_per_vtl_state.gs kvm_hv_vcpu_per_vtl_state.ss
       kvm_hv_vcpu_per_vtl_state.tr kvm_hv_vcpu_per_vtl_state.ldtr
       kvm_hv_vcpu_per_vtl_state.idtr kvm_hv_vcpu_per_vtl_state.gdtr].
  rewrite !hyperv_set_seg_carried.
  destruct (CPUX86State.segs s) as [|s0 [|s1 [|s2 [|s3 [|s4 [|s5 [|]]]]]]];
    try discriminate Hs.
  destruct (CPUX86State.segs d) as [|d0 [|d1 [|d2 [|d3 [|d4 [|d5 [|]]]]]]];
    try discriminate Hd.
  reflexivity.
Qed.

Lemma switched_descriptors_back (s d : CPUX86State.t) (p : kvm_hv_vcpu_per_vtl_state.t)
    (e : CPUX86State.t) :
  switched_descriptors (synced_env e s p) d = switched_descriptors e d.
Proof. reflexivity. Qed.

Lemma synced_env_wf (s d : CPUX86State.t) (p : kvm_hv_vcpu_per_vtl_state.t) :
  env_wf s -> env_wf (synced_env s d p).
Proof.
  intros (H1 & H2 & H3 & H4 & H5 & H6 & H7). unfold env_wf, synced_env. cbn.
  rewrite !length_insert, !array_copy_length. repeat split; assumption.
Qed.

Lemma save_priv_wf (e : CPUX86State.t) (p : kvm_hv_vcpu_per_vtl_state.t) :
  priv_wf p -> priv_wf (save_priv e p).
Proof.
  intros (H1 & H2 & H3). unfold priv_wf, save_priv. cbn.
  rewrite !array_copy_length. repeat split; assumption.
Qed.

Lemma switch_vtl_spec (m : machine) (a n : Z) (ca cn : CPUState) (v : VpVsmState) :
  a <> n ->
  cpus m !! a = Some ca -> cpus m !! n = Some cn -> vp_vsm cn = Some v ->
  exists m',
    switch_vtl m a n = Some m' /\
    cpus m' !! a = Some (with_run false true ca) /\
    cpus m' !! n = Some (switched_cpu ca cn v) /\
    (forall k, k <> a -> k <> n -> cpus m' !! k = cpus m !! k) /\
    hv_vsm_partition_status m' = hv_vsm_partition_status m /\
    hv_vsm_partition_capabilities m' = hv_vsm_partition_capabilities m /\
    hv_vsm_partition_config m' = hv_vsm_partition_config m /\
    iothread_locked m' = false.
Proof.
  intros Hne Ha Hn Hv. unfold switch_vtl.
  rewrite (hyperv_sync_shared_vtl_state_result _ a n ca cn v) by (try reflexivity; assumption).
  cbn [mbind option_bind]. unfold cpu_resume. cbn [cpus update_cpu with_cpus].
  rewrite lookup_insert_eq. cbn [mbind option_bind]. unfold qemu_cpu_stop.
  cbn [cpus update_cpu with_cpus].
  rewrite !lookup_insert_ne by congruence. cbn [cpus with_iothread_locked]. rewrite Ha.
  cbn [mbind option_bind]. eexists. split; [reflexivity|]. cbn.
  split; [apply lookup_insert_eq|].
  split; [rewrite lookup_insert_ne by congruence; rewrite lookup_insert_eq; reflexivity|].
  split; [|repeat split; reflexivity].
  intros k Hka Hkn. rewrite !lookup_insert_ne by congruence. reflexivity.
Qed.

Lemma set_vtl_entry_reason_spec (m : machine) (n : Z) (cn : CPUState) (v : VpVsmState)
    (reason : Z) :
  cpus m !! n = Some cn -> vp_vsm cn = Some v ->
  exists m',
    set_vtl_entry_reason m n reason = Some m' /\
    cpus m' !! n = Some (with_vp_vsm (Some (with_entry_reason reason v)) cn) /\
    (forall k, k <> n -> cpus m' !! k = cpus m !! k) /\
    hv_vsm_partition_status m' = hv_vsm_partition_status m /\
    hv_vsm_partition_capabilities m' = hv_vsm_partition_capabilities m /\
    hv_vsm_partition_config m' = hv_vsm_partition_config m /\
    iothread_locked m' = iothread_locked m.
Proof.
  intros Hn Hv. unfold set_vtl_entry_reason, hyperv_hv_assist_page_enabled,
    hv_write_vtl_control, with_entry_reason.
  rewrite Hn. cbn [mbind option_bind]. rewrite Hv.
  destruct (vp_assist v) as [ctl|] eqn:Hctl.
  - rewrite bool_decide_eq_true_2 by eauto. rewrite ?Hn. cbn [mbind option_bind].
    rewrite ?Hv. cbn [mbind option_bind]. rewrite ?Hctl.
    eexists. split; [reflexivity|]. cbn.
    split; [apply lookup_insert_eq|].
    split; [|repeat split; reflexivity].
    intros k Hk. rewrite lookup_insert_ne by congruence. reflexivity.
  - rewrite bool_decide_eq_false_2 by (intros [x Hx]; discriminate).
    exists m. split; [reflexivity|].
    split.
    { rewrite Hn. f_equal. destruct cn as [e ab vv st sd]. cbn in Hv. subst vv.
      unfold with_vp_vsm, with_vp_assist. cbn. rewrite <- Hctl.
      destruct v; reflexivity. }
    repeat split; reflexivity.
Qed.

Lemma hyperv_hcall_vtl_call_spec (m : machine) (a : Z) (ca cn : CPUState)
    (v : VpVsmState) :
  0 <= a <= 1 ->
  cpus m !! a = Some ca -> cpus m !! (a + 1) = Some cn -> vp_vsm cn = Some v ->
  exists m',
    hyperv_hcall_vtl_call m a = Some (EXCP_HALTED, m') /\
    cpus m' !! a = Some (with_run false true ca) /\
    cpus m' !! (a + 1) =
      Some (switched_cpu ca
              (with_vp_vsm (Some (with_entry_reason HV_VTL_ENTRY_VTL_CALL v)) cn)
              (with_entry_reason HV_VTL_ENTRY_VTL_CALL v)) /\
    (forall k, k <> a -> k <> a + 1 -> cpus m' !! k = cpus m !! k) /\
    hv_vsm_partition_status m' = hv_vsm_partition_status m /\
    hv_vsm_partition_capabilities m' = hv_vsm_partition_capabilities m /\
    hv_vsm_partition_config m' = hv_vsm_partition_config m /\
    iothread_locked m' = false.
Proof.
  intros Hr Ha Hn Hv.
  unfold hyperv_hcall_vtl_call, hyperv_get_next_vtl, hyperv_vsm_vp_index,
    get_active_vtl, cpu_index. cbn [mbind option_bind]. rewrite Ha. cbn [mbind option_bind].
  rewrite hyperv_vsm_vcpu_found by (try lia; eauto).
  cbn [mbind option_bind]. rewrite Hn. cbn [mbind option_bind].
  assert (Hgt : (a >? 1) = false) by (rewrite Z.gtb_ltb; apply Z.ltb_ge; lia).
  rewrite Hgt.
  destruct (set_vtl_entry_reason_spec m (a + 1) cn v HV_VTL_ENTRY_VTL_CALL Hn Hv)
    as (m1 & -> & Hn1 & Hk1 & Hs1 & Hc1 & Hp1 & Hl1).
  cbn [mbind option_bind].
  assert (Ha1 : cpus m1 !! a = Some ca) by (rewrite Hk1 by lia; exact Ha).
  destruct (switch_vtl_spec m1 a (a + 1) ca _ _ ltac:(lia) Ha1 Hn1 eq_refl)
    as (m2 & -> & Ha2 & Hn2 & Hk2 & Hs2 & Hc2 & Hp2 & Hl2).
  cbn [mbind option_bind]. exists m2. split; [reflexivity|].
  split; [exact Ha2|]. split; [exact Hn2|].
  split; [intros k H1 H2; rewrite Hk2, Hk1 by assumption; reflexivity|].
  repeat split; congruence.
Qed.

Lemma hyperv_hcall_vtl_return_spec (m : machine) (a : Z) (ca cn : CPUState)
    (v : VpVsmState) :
  1 <= a < 2 ^ 31 ->
  cpus m !! a = Some ca -> cpus m !! (a - 1) = Some cn -> vp_vsm cn = Some v ->
  exists m',
    hyperv_hcall_vtl_return m a = Some (EXCP_HALTED, m') /\
    cpus m' !! a = Some (with_run false true ca) /\
    cpus m' !! (a - 1) = Some (switched_cpu ca cn v) /\
    (forall k, k <> a -> k <> a - 1 -> cpus m' !! k = cpus m !! k) /\
    hv_vsm_partition_status m' = hv_vsm_partition_status m /\
    hv_vsm_partition_capabilities m' = hv_vsm_partition_capabilities m /\
    hv_vsm_partition_config m' = hv_vsm_partition_config m /\
    iothread_locked m' = false.
Proof.
  intros Hr Ha Hn Hv.
  unfold hyperv_hcall_vtl_return, hyperv_get_prev_vtl, hyperv_vsm_vp_index,
    get_active_vtl, cpu_index. cbn [mbind option_bind]. rewrite Ha. cbn [mbind option_bind].
  rewrite hyperv_vsm_vcpu_found by (try lia; eauto).
  cbn [mbind option_bind]. rewrite Hn. cbn [mbind option_bind].
  destruct (switch_vtl_spec m a (a - 1) ca cn v ltac:(lia) Ha Hn Hv)
    as (m2 & -> & H).
  cbn [mbind option_bind]. exists m2. split; [reflexivity | exact H].
Qed.

(** X16. What a synchronisation of the shared state does and what it leaves
    alone.  With the iothread lock held, [hyperv_sync_shared_vtl_state]
    rewrites the destination vCPU only: the scalar fields of its register
    file listed in [isolated_fields] keep the destination's value, the
    general registers other than RSP, CR1, CR2, the debug registers and
    the rest of the structure listed in [shared_fields] become the
    source's, its
    saved private state is the snapshot of its registers before the call,
    and its run state, VTL sets and assist page are as before; the
    source, every other vCPU and the partition-wide state are untouched.
    Without the lock the call changes nothing at all. *)
Theorem hyperv_sync_shared_vtl_state_isolates (m : machine) (a n : Z) (ca cn : CPUState)
    (v : VpVsmState) :
  cpus m !! a = Some ca -> cpus m !! n = Some cn -> vp_vsm cn = Some v ->
  env_wf (env ca) -> env_wf (env cn) -> priv_wf (priv_state v) ->
  (iothread_locked m = false -> hyperv_sync_shared_vtl_state m a n = Some m) /\
  (iothread_locked m = true ->
   exists m' cn',
     hyperv_sync_shared_vtl_state m a n = Some m' /\
     cpus m' !! n = Some cn' /\
     isolated_fields (env cn') = isolated_fields (env cn) /\
     shared_fields (env cn') = shared_fields (env ca) /\
     env_wf (env cn') /\
     vp_vsm cn' = Some (with_priv_state (save_priv (env cn) (priv_state v)) v) /\
     stop cn' = stop cn /\ stopped cn' = stopped cn /\
     (forall k, k <> n -> cpus m' !! k = cpus m !! k) /\
     hv_vsm_partition_status m' = hv_vsm_partition_status m /\
     hv_vsm_partition_config m' = hv_vsm_partition_config m /\
     iothread_locked m' = true).
Proof.
  intros Ha Hn Hv Hwa Hwn Hwp. split.
  - intros Hl. unfold hyperv_sync_shared_vtl_state. rewrite Hl. reflexivity.
  - intros Hl.
    rewrite (hyperv_sync_shared_vtl_state_result _ a n ca cn v) by assumption.
    eexists _, _. split; [reflexivity|]. cbn.
    split; [apply lookup_insert_eq|]. cbn.
    split; [apply isolated_fields_synced; assumption|].
    split; [apply shared_fields_synced|].
    split; [apply synced_env_wf; assumption|].
    split; [reflexivity|]. split; [reflexivity|]. split; [reflexivity|].
    split; [|repeat split; try reflexivity; exact Hl].
    intros k Hk. rewrite lookup_insert_ne by congruence. reflexivity.
Qed.

(** X17. VTL_CALL from VTL0 or VTL1 with the next VTL's vCPU present.  The
    call returns [EXCP_HALTED]; afterwards the source vCPU is stopped with
    its registers and VP-VSM state untouched and the destination vCPU is
    running.  Of the destination's register file, the scalar fields of
    [isolated_fields] have the values they had before the call; the
    fields of [shared_fields], every debug register among them, DR7
    included, are the source's; and the segment state is what
    [switched_descriptors] says: segment registers, LDTR and TR are the
    destination's own with the selector cut to sixteen bits and only the
    attribute bits of the flags, GDTR and IDTR have the destination's base
    and sixteen bits of its limit with the source's selector and flags,
    and the FS and GS base are the bases of the destination's FS and GS
    segment registers, not what the two base registers held.  The entry
    reason "VTL call" is in the destination's assist page if it has one
    mapped, the iothread lock is released, and no other vCPU and no
    partition-wide state has changed. *)
Theorem hyperv_hcall_vtl_call_switches (m : machine) (a : Z) (ca cn : CPUState)
    (v : VpVsmState) :
  0 <= a <= 1 ->
  cpus m !! a = Some ca -> cpus m !! (a + 1) = Some cn -> vp_vsm cn = Some v ->
  env_wf (env ca) -> env_wf (env cn) -> priv_wf (priv_state v) ->
  exists m' cn' v',
    hyperv_hcall_vtl_call m a = Some (EXCP_HALTED, m') /\
    cpus m' !! a = Some (with_run false true ca) /\
    cpus m' !! (a + 1) = Some cn' /\
    stop cn' = false /\ stopped cn' = false /\
    isolated_fields (env cn') = isolated_fields (env cn) /\
    shared_fields (env cn') = shared_fields (env ca) /\
    descriptor_fields (env cn') = switched_descriptors (env ca) (env cn) /\
    vp_vsm cn' = Some v' /\
    vp_assist v' = vp_assist (with_entry_reason HV_VTL_ENTRY_VTL_CALL v) /\
    enabled_vtl_set v' = enabled_vtl_set v /\
    vsm_vtl_config v' = vsm_vtl_config v /\
    priv_state v' = save_priv (env cn) (priv_state v) /\
    (forall k, k <> a -> k <> a + 1 -> cpus m' !! k = cpus m !! k) /\
    hv_vsm_partition_status m' = hv_vsm_partition_status m /\
    hv_vsm_partition_config m' = hv_vsm_partition_config m /\
    iothread_locked m' = false.
Proof.
  intros Hr Ha Hn Hv Hwa Hwn Hwp.
  destruct (hyperv_hcall_vtl_call_spec m a ca cn v Hr Ha Hn Hv)
    as (m' & Hcall & Ha' & Hn' & Hk' & Hs' & _ & Hp' & Hl').
  eexists m', _, _. split; [exact Hcall|].
  split; [exact Ha'|]. split; [exact Hn'|]. cbn.
  split; [reflexivity|]. split; [reflexivity|].
  split; [apply isolated_fields_synced; assumption|].
  split; [apply shared_fields_synced|].
  split; [apply descriptor_fields_synced; assumption|].
  split; [reflexivity|]. cbn.
  split; [reflexivity|]. split; [reflexivity|]. split; [reflexivity|]. split; [reflexivity|].
  split; [exact Hk'|].
  repeat split; assumption.
Qed.

(** VTL_RETURN from a VTL above 0 with the previous VTL's vCPU present:
    the same switch in the other direction, without an entry reason.  The
    vCPU of the lower VTL runs again with the fields of [isolated_fields]
    as they were when it was left and the segment state of
    [switched_descriptors], the caller's vCPU is stopped and untouched. *)
Lemma hyperv_hcall_vtl_return_switches (m : machine) (a : Z) (ca cn : CPUState)
    (v : VpVsmState) :
  1 <= a < 2 ^ 31 ->
  cpus m !! a = Some ca -> cpus m !! (a - 1) = Some cn -> vp_vsm cn = Some v ->
  env_wf (env ca) -> env_wf (env cn) -> priv_wf (priv_state v) ->
  exists m' cn',
    hyperv_hcall_vtl_return m a = Some (EXCP_HALTED, m') /\
    cpus m' !! a = Some (with_run false true ca) /\
    cpus m' !! (a - 1) = Some cn' /\
    stop cn' = false /\ stopped cn' = false /\
    isolated_fields (env cn') = isolated_fields (env cn) /\
    shared_fields (env cn') = shared_fields (env ca) /\
    descriptor_fields (env cn') = switched_descriptors (env ca) (env cn) /\
    vp_vsm cn' = Some (with_priv_state (save_priv (env cn) (priv_state v)) v) /\
    (forall k, k <> a -> k <> a - 1 -> cpus m' !! k = cpus m !! k) /\
    hv_vsm_partition_status m' = hv_vsm_partition_status m /\
    hv_vsm_partition_config m' = hv_vsm_partition_config m /\
    iothread_locked m' = false.
Proof.
  intros Hr Ha Hn Hv Hwa Hwn Hwp.
  destruct (hyperv_hcall_vtl_return_spec m a ca cn v Hr Ha Hn Hv)
    as (m' & Hret & Ha' & Hn' & Hk' & Hs' & _ & Hp' & Hl').
  eexists m', _. split; [exact Hret|].
  split; [exact Ha'|]. split; [exact Hn'|]. cbn.
  split; [reflexivity|]. split; [reflexivity|].
  split; [apply isolated_fields_synced; assumption|].
  split; [apply shared_fields_synced|].
  split; [apply descriptor_fields_synced; assumption|].
  split; [reflexivity|].
  split; [exact Hk'|].
  repeat split; assumption.
Qed.

(** X18. A call into VTL1 followed at once by the return.  Both hypercalls
    return [EXCP_HALTED]; afterwards VTL0 is running and VTL1 is stopped
    again.  The register file of VTL0 has the scalar fields of
    [isolated_fields] and the fields of [shared_fields] as before the
    call, but not all of its segment state: its segment registers, LDTR
    and TR come back with the selector cut to sixteen bits and only the
    attribute bits of the flags, GDTR and IDTR with sixteen bits of the
    limit, and the FS and GS base come back as the bases of the FS and GS
    segment registers, whatever the two base registers held before the
    call.  VTL1 has kept its [isolated_fields] and has the segment state
    the call left it. *)
Theorem hyperv_hcall_vtl_call_return (m : machine) (c0 c1 : CPUState)
    (v0 v1 : VpVsmState) :
  cpus m !! 0 = Some c0 -> cpus m !! 1 = Some c1 ->
  vp_vsm c0 = Some v0 -> vp_vsm c1 = Some v1 ->
  env_wf (env c0) -> env_wf (env c1) ->
  priv_wf (priv_state v0) -> priv_wf (priv_state v1) ->
  exists m1 m2 c0' c1',
    hyperv_hcall_vtl_call m 0 = Some (EXCP_HALTED, m1) /\
    hyperv_hcall_vtl_return m1 1 = Some (EXCP_HALTED, m2) /\
    cpus m2 !! 0 = Some c0' /\ cpus m2 !! 1 = Some c1' /\
    stopped c0' = false /\ stopped c1' = true /\
    isolated_fields (env c0') = isolated_fields (env c0) /\
    shared_fields (env c0') = shared_fields (env c0) /\
    descriptor_fields (env c0') = switched_descriptors (env c0) (env c0) /\
    isolated_fields (env c1') = isolated_fields (env c1) /\
    descriptor_fields (env c1') = switched_descriptors (env c0) (env c1) /\
    iothread_locked m2 = false.
Proof.
  intros H0 H1 Hv0 Hv1 Hw0 Hw1 Hp0 Hp1.
  destruct (hyperv_hcall_vtl_call_spec m 0 c0 c1 v1 ltac:(lia) H0 H1 Hv1)
    as (m1 & Hcall & H01 & H11 & _).
  change (0 + 1) with 1 in H11.
  assert (Hv0' : vp_vsm (with_run false true c0) = Some v0) by exact Hv0.
  destruct (hyperv_hcall_vtl_return_spec m1 1 _ _ v0 ltac:(lia) H11 H01 Hv0')
    as (m2 & Hret & H12 & H02 & _ & _ & _ & _ & Hl2).
  change (1 - 1) with 0 in H02.
  eexists m1, m2, _, _.
  split; [exact Hcall|]. split; [exact Hret|].
  split; [exact H02|]. split; [exact H12|]. cbn.
  split; [reflexivity|]. split; [reflexivity|].
  split; [apply isolated_fields_synced; try assumption;
          apply synced_env_wf; assumption|].
  split; [rewrite !shared_fields_synced; reflexivity|].
  split; [rewrite descriptor_fields_synced by (try assumption; apply synced_env_wf; assumption);
          apply switched_descriptors_back|].
  split; [apply isolated_fields_synced; assumption|].
  split; [apply descriptor_fields_synced; assumption|].
  exact Hl2.
Qed.

(** X19. Entry into a higher VTL on an interrupt.  The notifier of VTL0's
    vCPU does nothing, and so does the notifier of a vCPU that is already
    running.  For a stopped vCPU of VTL [n] above 0 it stops the vCPU of
    the VTL below, records the entry reason "interrupt" in the assist
    page of the destination if it has one mapped, and resumes the
    destination.  If the iothread lock is held the registers are
    transplanted as in a VTL call: the scalar fields of [isolated_fields]
    keep the destination's values, the fields of [shared_fields], DR7
    among them, become the source's, and the segment state is that of
    [switched_descriptors] (selectors cut to sixteen bits, attribute bits
    only, table limits cut to sixteen bits, FS and GS base replaced by
    the bases of the FS and GS segment registers).  If the lock is not
    held the destination runs with its registers as they were. *)
Theorem vp_vsm_notifier_enters (m : machine) (n : Z) (ca cn : CPUState) (v : VpVsmState) :
  cpus m !! n = Some cn ->
  (n = 0 -> vp_vsm_notifier m n = Some m) /\
  (1 <= n < 2 ^ 31 -> cpus m !! (n - 1) = Some ca -> stopped cn = false ->
   vp_vsm_notifier m n = Some m) /\
  (1 <= n < 2 ^ 31 -> cpus m !! (n - 1) = Some ca -> stopped cn = true ->
   vp_vsm cn = Some v ->
   env_wf (env ca) -> env_wf (env cn) -> priv_wf (priv_state v) ->
   exists m' cn' v',
     vp_vsm_notifier m n = Some m' /\
     cpus m' !! (n - 1) = Some (with_run false true ca) /\
     cpus m' !! n = Some cn' /\
     stop cn' = false /\ stopped cn' = false /\
     vp_vsm cn' = Some v' /\
     vp_assist v' = vp_assist (with_entry_reason HV_VTL_ENTRY_INTERRUPT v) /\
     (iothread_locked m = true ->
      isolated_fields (env cn') = isolated_fields (env cn) /\
      shared_fields (env cn') = shared_fields (env ca) /\
      descriptor_fields (env cn') = switched_descriptors (env ca) (env cn)) /\
     (iothread_locked m = false -> env cn' = env cn) /\
     (forall k, k <> n -> k <> n - 1 -> cpus m' !! k = cpus m !! k) /\
     iothread_locked m' = iothread_locked m).
Proof.
  intros Hn. split; [|split].
  - intros ->. unfold vp_vsm_notifier, get_active_vtl, cpu_index.
    cbn [mbind option_bind]. rewrite Hn. reflexivity.
  - intros Hr Ha Hst. unfold vp_vsm_notifier, hyperv_get_prev_vtl, hyperv_vsm_vp_index,
      get_active_vtl, cpu_index.
    cbn [mbind option_bind]. rewrite Hn. cbn [mbind option_bind].
    destruct (Z.eqb_spec n 0) as [E|E]; [lia|].
    rewrite hyperv_vsm_vcpu_found by (try lia; eauto).
    cbn [mbind option_bind]. rewrite Hst. reflexivity.
  - intros Hr Ha Hst Hv Hwa Hwn Hwp.
    unfold vp_vsm_notifier, hyperv_get_prev_vtl, hyperv_vsm_vp_index, hyperv_vp_index,
      get_active_vtl, cpu_index.
    cbn [mbind option_bind]. rewrite Hn. cbn [mbind option_bind].
    destruct (Z.eqb_spec n 0) as [E|E]; [lia|].
    rewrite hyperv_vsm_vcpu_found by (try lia; eauto).
    cbn [mbind option_bind]. rewrite Hst, Ha. cbn [mbind option_bind negb].
    unfold wait_cpu_stopped. cbn [cpus update_cpu with_cpus].
    rewrite lookup_insert_eq. cbn [mbind option_bind].
    set (m2 := update_cpu _ (n - 1) _).
    assert (Hn2 : cpus m2 !! n = Some cn).
    { subst m2. cbn. rewrite !lookup_insert_ne by lia. exact Hn. }
    assert (Ha2 : cpus m2 !! (n - 1) = Some (with_run false true ca)).
    { subst m2. cbn. rewrite lookup_insert_eq. reflexivity. }
    assert (Hk2 : forall k, k <> n - 1 -> cpus m2 !! k = cpus m !! k).
    { intros k Hk. subst m2. cbn. rewrite !lookup_insert_ne by congruence. reflexivity. }
    assert (Hl2 : iothread_locked m2 = iothread_locked m) by reflexivity.
    clearbody m2.
    destruct (set_vtl_entry_reason_spec m2 n cn v HV_VTL_ENTRY_INTERRUPT Hn2 Hv)
      as (m3 & -> & Hn3 & Hk3 & _ & _ & _ & Hl3).
    cbn [mbind option_bind].
    assert (Ha3 : cpus m3 !! (n - 1) = Some (with_run false true ca))
      by (rewrite Hk3 by lia; exact Ha2).
    destruct (iothread_locked m) eqn:Hl.
    + rewrite (hyperv_sync_shared_vtl_state_result m3 (n - 1) n _ _ _
                 ltac:(congruence) Ha3 Hn3 eq_refl).
      cbn [mbind option_bind]. unfold cpu_resume. cbn [cpus update_cpu with_cpus].
      rewrite lookup_insert_eq. cbn [mbind option_bind].
      eexists _, _, _. split; [reflexivity|]. cbn.
      split; [rewrite !lookup_insert_ne by lia; exact Ha3|].
      split; [apply lookup_insert_eq|]. cbn.
      split; [reflexivity|]. split; [reflexivity|]. split; [reflexivity|]. cbn.
      split; [reflexivity|].
      split; [intros _; split; [apply isolated_fields_synced; assumption|];
              split; [apply shared_fields_synced
                     | apply descriptor_fields_synced; assumption]|].
      split; [discriminate|].
      split; [|congruence].
      intros k H1 H2. rewrite !lookup_insert_ne by congruence.
      rewrite Hk3, Hk2 by assumption. reflexivity.
    + unfold hyperv_sync_shared_vtl_state.
      replace (iothread_locked m3) with false by congruence.
      cbn [mbind option_bind negb]. unfold cpu_resume. rewrite Hn3.
      cbn [mbind option_bind].
      eexists _, _, _. split; [reflexivity|]. cbn.
      split; [rewrite !lookup_insert_ne by lia; exact Ha3|].
      split; [apply lookup_insert_eq|]. cbn.
      split; [reflexivity|]. split; [reflexivity|]. split; [reflexivity|]. cbn.
      split; [reflexivity|].
      split; [discriminate|].
      split; [reflexivity|].
      split; [|congruence].
      intros k H1 H2. rewrite !lookup_insert_ne by congruence.
      rewrite Hk3, Hk2 by assumption. reflexivity.
Qed.

End SwitchFacts.

(** * Partition-wide enablement and the VP registers *)

Section RegisterFacts.
Import Vsm VsmRegs.

Variable P : platform.

Lemma wrap16_testbit (x n : Z) :
  0 <= n -> Z.testbit (wrap16 x) n = (n <? 16) && Z.testbit x n.
Proof.
  intros Hn. unfold wrap16. destruct (Z.ltb_spec n 16) as [H|H]; cbn.
  - apply Z.mod_pow2_bits_low. lia.
  - apply Z.mod_pow2_bits_high. lia.
Qed.

(** X20. The partition's enabled-VTL set only grows and stays within the
    maximum.  Whatever ENABLE_PARTITION_VTL is called with and whatever it
    returns, it changes nothing but the enabled-VTL set of the partition
    status; a set that fits in its sixteen bits before does so after and
    has lost no VTL; and if no VTL above the maximum was enabled before,
    none is after. *)
Theorem hyperv_hcall_vtl_enable_partition_vtl_invariant (m m' : machine)
    (cs param1 param2 : Z) (fast : bool) (st : hv_status) :
  hyperv_hcall_vtl_enable_partition_vtl m cs param1 param2 fast = (st, m') ->
  let s := hv_vsm_partition_status m in
  let s' := hv_vsm_partition_status m' in
  cpus m' = cpus m /\
  hv_vsm_partition_config m' = hv_vsm_partition_config m /\
  hv_vsm_partition_capabilities m' = hv_vsm_partition_capabilities m /\
  maximum_vtl s' = maximum_vtl s /\
  mbec_enabled_vtl_set s' = mbec_enabled_vtl_set s /\
  (0 <= p_enabled_vtl_set s < 2 ^ 16 ->
   0 <= p_enabled_vtl_set s' < 2 ^ 16 /\
   forall n, Z.testbit (p_enabled_vtl_set s) n = true ->
             Z.testbit (p_enabled_vtl_set s') n = true) /\
  ((forall n, 0 <= n -> Z.testbit (p_enabled_vtl_set s) n = true -> n <= maximum_vtl s) ->
   forall n, 0 <= n -> Z.testbit (p_enabled_vtl_set s') n = true -> n <= maximum_vtl s).
Proof.
  intros H s s'. subst s s'. unfold hyperv_hcall_vtl_enable_partition_vtl in H.
  assert (Hsame : m' = m ->
    cpus m' = cpus m /\
    hv_vsm_partition_config m' = hv_vsm_partition_config m /\
    hv_vsm_partition_capabilities m' = hv_vsm_partition_capabilities m /\
    maximum_vtl (hv_vsm_partition_status m') = maximum_vtl (hv_vsm_partition_status m) /\
    mbec_enabled_vtl_set (hv_vsm_partition_status m') =
      mbec_enabled_vtl_set (hv_vsm_partition_status m) /\
    (0 <= p_enabled_vtl_set (hv_vsm_partition_status m) < 2 ^ 16 ->
     0 <= p_enabled_vtl_set (hv_vsm_partition_status m') < 2 ^ 16 /\
     forall n, Z.testbit (p_enabled_vtl_set (hv_vsm_partition_status m)) n = true ->
               Z.testbit (p_enabled_vtl_set (hv_vsm_partition_status m')) n = true) /\
    ((forall n, 0 <= n -> Z.testbit (p_enabled_vtl_set (hv_vsm_partition_status m)) n = true ->
                n <= maximum_vtl (hv_vsm_partition_status m)) ->
     forall n, 0 <= n -> Z.testbit (p_enabled_vtl_set (hv_vsm_partition_status m')) n = true ->
               n <= maximum_vtl (hv_vsm_partition_status m))).
  { intros ->. intuition auto. }
  destruct (negb fast); [injection H as <- <-; apply Hsame; reflexivity|].
  destruct (negb (param1 =? HV_PARTITION_ID_SELF));
    [injection H as <- <-; apply Hsame; reflexivity|].
  destruct (negb (Z.land (Z.land (Z.shiftr param2 8) 255) 1 =? 0));
    [injection H as <- <-; apply Hsame; reflexivity|].
  destruct (Z.land param2 255 >? maximum_vtl (hv_vsm_partition_status m)) eqn:Hmax;
    [injection H as <- <-; apply Hsame; reflexivity|].
  destruct (negb (Z.land (p_enabled_vtl_set (hv_vsm_partition_status m))
                    (Z.shiftl 1 (Z.land param2 255)) =? 0));
    [injection H as <- <-; apply Hsame; reflexivity|].
  clear Hsame. injection H as <- <-.
  rewrite Z.gtb_ltb in Hmax. apply Z.ltb_ge in Hmax.
  assert (Ht : 0 <= Z.land param2 255).
  { change 255 with (Z.ones 8). rewrite Z.land_ones by lia.
    apply Z.mod_pos_bound. lia. }
  cbn. split; [reflexivity|]. split; [reflexivity|]. split; [reflexivity|].
  split; [reflexivity|]. split; [reflexivity|]. split.
  - intros Hset. split; [apply Z.mod_pos_bound; lia|].
    intros n Hb.
    assert (Hn : 0 <= n).
    { destruct (Z_lt_le_dec n 0) as [Hneg|]; [|assumption].
      rewrite Z.testbit_neg_r in Hb by lia. discriminate. }
    rewrite wrap16_testbit by exact Hn.
    destruct (Z.ltb_spec n 16) as [Hlt|Hge]; cbn.
    + rewrite Z.lor_spec, Hb. reflexivity.
    + rewrite (testbit_small_high (p_enabled_vtl_set (hv_vsm_partition_status m)) 16 n)
        in Hb by lia. discriminate.
  - intros Hinv n Hn Hb. rewrite wrap16_testbit in Hb by exact Hn.
    apply andb_prop in Hb. destruct Hb as [_ Hb].
    rewrite Z.lor_spec, Z.shiftl_1_l, Z.pow2_bits_eqb in Hb by exact Ht.
    apply orb_prop in Hb. destruct Hb as [Hb|Hb].
    + apply Hinv; assumption.
    + apply Z.eqb_eq in Hb. lia.
Qed.

(** X21. A VTL is enabled for the partition once.  After a call of
    ENABLE_PARTITION_VTL has succeeded, any further fast, self-targeted
    call for the same VTL fails with invalid-parameter and changes
    nothing. *)
Theorem hyperv_hcall_vtl_enable_partition_vtl_once (m m' : machine)
    (cs cs' param1 param2 param2' : Z) (fast : bool) :
  0 <= maximum_vtl (hv_vsm_partition_status m) <= 15 ->
  0 <= p_enabled_vtl_set (hv_vsm_partition_status m) < 2 ^ 16 ->
  hyperv_hcall_vtl_enable_partition_vtl m cs param1 param2 fast = (HV_STATUS_SUCCESS, m') ->
  Z.land param2' 255 = Z.land param2 255 ->
  hyperv_hcall_vtl_enable_partition_vtl m' cs' HV_PARTITION_ID_SELF param2' true =
    (HV_STATUS_INVALID_PARAMETER, m').
Proof.
  intros Hmax Hset H Ht. unfold hyperv_hcall_vtl_enable_partition_vtl in *.
  destruct (negb fast); [discriminate|].
  destruct (negb (param1 =? HV_PARTITION_ID_SELF)); [discriminate|].
  destruct (negb (Z.land (Z.land (Z.shiftr param2 8) 255) 1 =? 0)); [discriminate|].
  destruct (Z.land param2 255 >? maximum_vtl (hv_vsm_partition_status m)) eqn:Hgt;
    [discriminate|].
  destruct (negb (Z.land (p_enabled_vtl_set (hv_vsm_partition_status m))
                    (Z.shiftl 1 (Z.land param2 255)) =? 0)); [discriminate|].
  injection H as <-. cbn. rewrite Ht, Hgt.
  rewrite Z.gtb_ltb in Hgt. apply Z.ltb_ge in Hgt.
  assert (H0 : 0 <= Z.land param2 255).
  { change 255 with (Z.ones 8). rewrite Z.land_ones by lia.
    apply Z.mod_pos_bound. lia. }
  destruct (negb (Z.land (Z.land (Z.shiftr param2' 8) 255) 1 =? 0)); [reflexivity|].
  rewrite land_pow2_zero by exact H0.
  rewrite wrap16_testbit by exact H0.
  destruct (Z.ltb_spec (Z.land param2 255) 16) as [Hlt|Hge]; [|lia].
  rewrite Z.lor_spec, Z.shiftl_1_l, Z.pow2_bits_eqb, !Z.eqb_refl, orb_true_r by exact H0.
  reflexivity.
Qed.

Lemma env_assign_frame (m : machine) (t : Z) (c : CPUState) (w : env_write) :
  let m' := update_cpu m t (with_env (env_assign w (env c)) c) in
  (forall k, k <> t -> cpus m' !! k = cpus m !! k) /\
  hv_vsm_partition_status m' = hv_vsm_partition_status m /\
  hv_vsm_partition_capabilities m' = hv_vsm_partition_capabilities m /\
  hv_vsm_partition_config m' = hv_vsm_partition_config m /\
  iothread_locked m' = iothread_locked m.
Proof.
  cbn. repeat split. intros k Hk. rewrite lookup_insert_ne by congruence. reflexivity.
Qed.

Lemma set_vp_register_scalar (m : machine) (name : hv_register_name)
    (val : hv_vp_register_val) (t : Z) (dirty : bool) (c : CPUState) :
  cpus m !! t = Some c -> env_wf (env c) -> scalar_register name = true ->
  exists m',
    set_vp_register P m name val t dirty = Some (HV_STATUS_SUCCESS, m', true) /\
    get_vp_register m' name t = Some (HV_STATUS_SUCCESS, {| low := low val; high := 0 |}) /\
    (forall name', scalar_register name' = true -> name' <> name ->
       get_vp_register m' name' t = get_vp_register m name' t) /\
    (forall k, k <> t -> cpus m' !! k = cpus m !! k) /\
    hv_vsm_partition_status m' = hv_vsm_partition_status m /\
    hv_vsm_partition_config m' = hv_vsm_partition_config m.
Proof.
  intros Hc (Hregs & Hsegs & Hcr & Hdr & _) Hs.
  unfold set_vp_register. rewrite Hc. cbn [mbind option_bind].
  destruct name; try discriminate Hs;
    (eexists; split; [reflexivity|];
     split; [unfold get_vp_register; cbn; rewrite lookup_insert_eq; cbn;
             rewrite ?list_lookup_total_insert_eq by lia; reflexivity|];
     split; [|split; [intros k Hk; cbn; rewrite lookup_insert_ne by congruence; reflexivity
                     | split; reflexivity]];
     intros name' Hs' Hne; unfold get_vp_register; cbn; rewrite lookup_insert_eq, Hc; cbn;
     destruct name'; try discriminate Hs'; try congruence; cbn;
     rewrite ?list_lookup_total_insert_ne by lia; reflexivity).
Qed.

(** X22. Writing a register and reading it back.  For each register that is
    one 64-bit field of the register file (RIP, RFLAGS, CR0, CR3, CR4,
    DR7, EFER, SYSENTER_EIP, SYSENTER_ESP, STAR, LSTAR, CSTAR, SFMASK,
    TSC_AUX), [set_vp_register] succeeds and marks the state dirty,
    [get_vp_register] afterwards returns the value written, every other
    such register reads as before, and no other vCPU and no
    partition-wide state has changed. *)
Theorem set_vp_register_get_vp_register (m : machine) (name : hv_register_name)
    (val : hv_vp_register_val) (t : Z) (dirty : bool) (c : CPUState) :
  cpus m !! t = Some c -> env_wf (env c) -> scalar_register name = true ->
  exists m',
    set_vp_register P m name val t dirty = Some (HV_STATUS_SUCCESS, m', true) /\
    get_vp_register m' name t = Some (HV_STATUS_SUCCESS, {| low := low val; high := 0 |}) /\
    (forall name', scalar_register name' = true -> name' <> name ->
       get_vp_register m' name' t = get_vp_register m name' t) /\
    (forall k, k <> t -> cpus m' !! k = cpus m !! k) /\
    hv_vsm_partition_status m' = hv_vsm_partition_status m /\
    hv_vsm_partition_config m' = hv_vsm_partition_config m.
Proof. apply set_vp_register_scalar. Qed.

Lemma set_vp_register_no_case (m : machine) (name : hv_register_name)
    (val : hv_vp_register_val) (t : Z) (dirty : bool) (c : CPUState) :
  cpus m !! t = Some c -> read_only_register name = true ->
  set_vp_register P m name val t dirty = Some (HV_STATUS_INVALID_PARAMETER, m, dirty).
Proof.
  intros Hc Hr. unfold set_vp_register. rewrite Hc. cbn [mbind option_bind].
  destruct name; try discriminate Hr; reflexivity.
Qed.

Lemma get_vp_register_locked (m : machine) (b : bool) (name : hv_register_name) (t : Z) :
  get_vp_register (with_iothread_locked b m) name t = get_vp_register m name t.
Proof. reflexivity. Qed.

(** Registers with a read side only.  [set_vp_register] has no case for
    the APIC base, the VSM capabilities, the partition status, the VP
    status and the code page offsets, which [get_vp_register] reads: a
    write is rejected with invalid-parameter, changes nothing and leaves
    the dirty mark as it was; so is a write to a code that is none of the
    registers it knows. *)
Lemma set_vp_register_read_only (m : machine) (name : hv_register_name)
    (val : hv_vp_register_val) (t : Z) (dirty : bool) (c : CPUState) :
  cpus m !! t = Some c ->
  (read_only_register name = true ->
   set_vp_register P m name val t dirty = Some (HV_STATUS_INVALID_PARAMETER, m, dirty)) /\
  (forall code, name = HV_REGISTER_OTHER code ->
     code <> HV_X64_REGISTER_PENDING_EVENT0 P ->
     code <> HV_REGISTER_VSM_VINA P ->
     code <> HV_X64_REGISTER_CR_INTERCEPT_CONTROL P ->
     code <> HV_X64_REGISTER_CR_INTERCEPT_CR0_MASK P ->
     code <> HV_X64_REGISTER_CR_INTERCEPT_CR4_MASK P ->
     code <> HV_X64_REGISTER_CR_INTERCEPT_IA32_MISC_ENABLE_MASK P ->
     set_vp_register P m name val t dirty = Some (HV_STATUS_INVALID_PARAMETER, m, dirty) /\
     get_vp_register m name t = Some (HV_STATUS_INVALID_PARAMETER, {| low := 0; high := 0 |})).
Proof.
  intros Hc. split.
  - intros Hr. apply (set_vp_register_no_case m name val t dirty c Hc Hr).
  - intros code -> H1 H2 H3 H4 H5 H6. unfold set_vp_register, get_vp_register.
    rewrite Hc. cbn [mbind option_bind].
    apply Z.eqb_neq in H1, H2, H3, H4, H5, H6.
    rewrite H1, H2, H3, H4, H5, H6. split; reflexivity.
Qed.

(** X23. The stack pointer and SYSENTER_CS.  A write of RSP goes to the
    general register with index [REG_RSP], a name that QEMU's register
    headers do not define (their index of the stack pointer is [R_ESP],
    4; the host C library's [REG_RSP] is 15); a read of RSP comes from
    the one with index [R_ESP].  So the write changes exactly the
    register [REG_RSP], and the value written is read back only if the
    two indices are the same: otherwise a read of RSP still returns the
    old stack pointer.  A write of SYSENTER_CS keeps the low 32 bits of
    the value. *)
Theorem set_vp_register_rsp (m : machine) (val : hv_vp_register_val) (t : Z)
    (dirty : bool) (c : CPUState) :
  cpus m !! t = Some c -> env_wf (env c) -> (REG_RSP P < 16)%nat ->
  (exists m' c',
     set_vp_register P m HV_X64_REGISTER_RSP val t dirty = Some (HV_STATUS_SUCCESS, m', true) /\
     cpus m' !! t = Some c' /\
     CPUX86State.regs (env c') = <[REG_RSP P := low val]> (CPUX86State.regs (env c)) /\
     (REG_RSP P = R_ESP ->
      get_vp_register m' HV_X64_REGISTER_RSP t =
        Some (HV_STATUS_SUCCESS, {| low := low val; high := 0 |})) /\
     (REG_RSP P <> R_ESP ->
      get_vp_register m' HV_X64_REGISTER_RSP t = get_vp_register m HV_X64_REGISTER_RSP t)) /\
  (exists m',
     set_vp_register P m HV_X64_REGISTER_SYSENTER_CS val t dirty =
       Some (HV_STATUS_SUCCESS, m', true) /\
     get_vp_register m' HV_X64_REGISTER_SYSENTER_CS t =
       Some (HV_STATUS_SUCCESS, {| low := wrap32 (low val); high := 0 |})).
Proof.
  intros Hc (Hregs & _) Hlt. split.
  - unfold set_vp_register. rewrite Hc. cbn [mbind option_bind].
    destruct (decide (REG_RSP P < length (CPUX86State.regs (env c)))%nat) as [Hd|Hd]; [|lia].
    eexists _, _. split; [reflexivity|].
    split; [cbn; apply lookup_insert_eq|].
    split; [reflexivity|].
    unfold get_vp_register. cbn. rewrite lookup_insert_eq, Hc. cbn. split.
    + intros ->. rewrite list_lookup_total_insert_eq by (unfold R_ESP; lia). reflexivity.
    + intros Hne. rewrite list_lookup_total_insert_ne by exact Hne. reflexivity.
  - unfold set_vp_register. rewrite Hc. cbn [mbind option_bind].
    eexists. split; [reflexivity|].
    unfold get_vp_register. cbn. rewrite lookup_insert_eq. reflexivity.
Qed.

(** X24. The secure-configuration registers of the lower VTLs.  From the
    vCPU of VTL [t], the register of VTL [n] can be written and read
    exactly when [t] is not 0 and [n] is below [t]; otherwise both the
    write and the read are rejected with invalid-parameter and nothing
    changes.  A value written is the value read back, and the registers
    of the other VTLs read as before. *)
Theorem vsm_vp_secure_vtl_config_access (m : machine) (t n : Z)
    (val : hv_vp_register_val) (dirty : bool) (c : CPUState) (v : VpVsmState) :
  cpus m !! t = Some c -> vp_vsm c = Some v ->
  0 <= n -> (Z.to_nat n < length (vsm_vtl_config v))%nat ->
  (t = 0 \/ t <= n ->
   set_vp_register P m (HV_REGISTER_VSM_VP_SECURE_CONFIG_VTL n) val t dirty =
     Some (HV_STATUS_INVALID_PARAMETER, m, dirty) /\
   get_vp_register m (HV_REGISTER_VSM_VP_SECURE_CONFIG_VTL n) t =
     Some (HV_STATUS_INVALID_PARAMETER, {| low := 0; high := 0 |})) /\
  (t <> 0 -> n < t ->
   exists m',
     set_vp_register P m (HV_REGISTER_VSM_VP_SECURE_CONFIG_VTL n) val t dirty =
       Some (HV_STATUS_SUCCESS, m', true) /\
     get_vp_register m' (HV_REGISTER_VSM_VP_SECURE_CONFIG_VTL n) t =
       Some (HV_STATUS_SUCCESS, {| low := low val; high := 0 |}) /\
     (forall n', 0 <= n' -> n' <> n ->
        get_vp_register m' (HV_REGISTER_VSM_VP_SECURE_CONFIG_VTL n') t =
        get_vp_register m (HV_REGISTER_VSM_VP_SECURE_CONFIG_VTL n') t) /\
     (forall k, k <> t -> cpus m' !! k = cpus m !! k) /\
     exists c', cpus m' !! t = Some c' /\ env c' = env c).
Proof.
  intros Hc Hv Hn Hlen. split.
  - intros Hguard.
    assert (Hg : (t =? 0) || (n >=? t) = true).
    { destruct Hguard as [-> | Hle]; [reflexivity|].
      apply orb_true_iff. right. apply Z.geb_le. exact Hle. }
    unfold set_vp_register, get_vp_register, set_vsm_vp_secure_vtl_config,
      get_vsm_vp_secure_vtl_config, get_active_vtl, cpu_index.
    rewrite Hc. cbn [mbind option_bind]. rewrite ?Hc. cbn [mbind option_bind].
    rewrite Hg. split; reflexivity.
  - intros Ht0 Hlt.
    assert (Hg : (t =? 0) || (n >=? t) = false).
    { apply orb_false_iff. split; [apply Z.eqb_neq; exact Ht0|].
      rewrite Z.geb_leb. apply Z.leb_gt. exact Hlt. }
    assert (Hneg : (n <? 0) = false) by (apply Z.ltb_ge; exact Hn).
    destruct (lookup_lt_is_Some_2 _ _ Hlen) as [x Hx].
    unfold set_vp_register, set_vsm_vp_secure_vtl_config, get_active_vtl, cpu_index.
    rewrite Hc. cbn [mbind option_bind]. rewrite ?Hc. cbn [mbind option_bind].
    rewrite Hg, Hv. cbn [mbind option_bind]. rewrite Hneg, Hx. cbn [mbind option_bind].
    eexists. split; [reflexivity|].
    assert (Hget : forall n', 0 <= n' ->
      get_vp_register
        (update_cpu m t
           (with_vp_vsm
              (Some (with_vsm_vtl_config (<[Z.to_nat n := low val]> (vsm_vtl_config v)) v)) c))
        (HV_REGISTER_VSM_VP_SECURE_CONFIG_VTL n') t =
      if (t =? 0) || (n' >=? t) then Some (HV_STATUS_INVALID_PARAMETER, {| low := 0; high := 0 |})
      else match (<[Z.to_nat n := low val]> (vsm_vtl_config v)) !! Z.to_nat n' with
           | Some y => Some (HV_STATUS_SUCCESS, {| low := y; high := 0 |})
           | None => None
           end).
    { intros n' Hn'. unfold get_vp_register, get_vsm_vp_secure_vtl_config, get_active_vtl,
        cpu_index. cbn. rewrite lookup_insert_eq. cbn.
      destruct ((t =? 0) || (n' >=? t)); [reflexivity|]. cbn.
      assert (Hneg' : (n' <? 0) = false) by (apply Z.ltb_ge; exact Hn').
      rewrite Hneg'.
      destruct (<[Z.to_nat n:=low val]> (vsm_vtl_config v) !! Z.to_nat n'); reflexivity. }
    split; [rewrite Hget by exact Hn; rewrite Hg, list_lookup_insert_eq by exact Hlen;
            reflexivity|].
    split.
    { intros n' Hn' Hne. rewrite Hget by exact Hn'.
      unfold get_vp_register, get_vsm_vp_secure_vtl_config, get_active_vtl, cpu_index.
      rewrite Hc. cbn [mbind option_bind]. rewrite ?Hc. cbn [mbind option_bind].
      destruct ((t =? 0) || (n' >=? t)); [reflexivity|]. rewrite Hv. cbn [mbind option_bind].
      assert (Hneg' : (n' <? 0) = false) by (apply Z.ltb_ge; exact Hn').
      rewrite Hneg'. rewrite list_lookup_insert_ne by lia.
      destruct (vsm_vtl_config v !! Z.to_nat n'); reflexivity. }
    split.
    { intros k Hk. cbn. rewrite lookup_insert_ne by congruence. reflexivity. }
    eexists. split; [cbn; apply lookup_insert_eq | reflexivity].
Qed.

Lemma copy_bits_spec (bits from to n : Z) :
  0 <= n ->
  Z.testbit (copy_bits bits from to) n =
    if Z.testbit bits n then Z.testbit from n else Z.testbit to n.
Proof.
  intros Hn. unfold copy_bits.
  rewrite Z.lor_spec, Z.ldiff_spec, Z.land_spec.
  destruct (Z.testbit bits n), (Z.testbit from n), (Z.testbit to n); reflexivity.
Qed.

(** X25. The protection settings of a VTL are write-once.  A write of the
    partition configuration register of a VTL stores the value as it is
    while the VTL's [enable_vtl_protection] field is zero; once that field
    is set, every later write keeps the stored [enable_vtl_protection]
    and [default_vtl_protection_mask] fields, so the field stays set, and
    takes only the remaining bits from the value written.  The registers
    of the other VTLs and the vCPUs are untouched. *)
Theorem set_vsm_partition_config_write_once (m : machine) (vtl data old : Z) :
  0 <= vtl ->
  hv_vsm_partition_config m !! Z.to_nat vtl = Some old ->
  exists m' new,
    set_vsm_partition_config P m vtl data = Some m' /\
    hv_vsm_partition_config m' !! Z.to_nat vtl = Some new /\
    (Z.land old (enable_vtl_protection_bits P) = 0 -> new = data) /\
    (Z.land old (enable_vtl_protection_bits P) <> 0 ->
     Z.land new (enable_vtl_protection_bits P) = Z.land old (enable_vtl_protection_bits P) /\
     Z.land new (default_vtl_protection_mask_bits P) =
       Z.land old (default_vtl_protection_mask_bits P) /\
     Z.ldiff new (Z.lor (enable_vtl_protection_bits P) (default_vtl_protection_mask_bits P)) =
       Z.ldiff data (Z.lor (enable_vtl_protection_bits P) (default_vtl_protection_mask_bits P))) /\
    (forall k, k <> Z.to_nat vtl ->
       hv_vsm_partition_config m' !! k = hv_vsm_partition_config m !! k) /\
    cpus m' = cpus m /\
    hv_vsm_partition_status m' = hv_vsm_partition_status m.
Proof.
  intros Hv Hold. unfold set_vsm_partition_config. rewrite Hold. cbn [mbind option_bind].
  assert (Hlen : (Z.to_nat vtl < length (hv_vsm_partition_config m))%nat)
    by (eapply lookup_lt_Some; exact Hold).
  eexists _, _. split; [reflexivity|]. cbn.
  split; [apply list_lookup_insert_eq; exact Hlen|].
  split; [intros H0; rewrite H0; reflexivity|].
  split.
  - intros Hne. apply Z.eqb_neq in Hne. rewrite Hne. cbn.
    repeat split; apply Z.bits_inj'; intros n Hn;
      rewrite ?Z.land_spec, ?Z.ldiff_spec, ?Z.lor_spec, !copy_bits_spec by exact Hn;
      destruct (Z.testbit (enable_vtl_protection_bits P) n),
               (Z.testbit (default_vtl_protection_mask_bits P) n),
               (Z.testbit old n), (Z.testbit data n); reflexivity.
  - split; [|split; reflexivity].
    intros k Hk. apply list_lookup_insert_ne. congruence.
Qed.

(** X26. The VP assist page.  Called for another VTL than the vCPU's own,
    or for a vCPU without a VP-VSM object, [hyperv_setup_vp_assist] does
    nothing.  Otherwise a page that was mapped before is handed to
    [cpu_physical_memory_unmap] first, whatever the enable bit of the MSR
    value says.  With the enable bit clear nothing else happens: the
    pointer [vp_assist] is not cleared and still names the page that has
    just been unmapped.  With the enable bit set the pointer becomes the
    mapping of the masked address, and once that page is mapped the entry
    reason [set_vtl_entry_reason] writes is what [hv_read_vtl_control]
    reads. *)
Theorem hyperv_setup_vp_assist_effect (m : machine) (cs data vtl : Z) (c : CPUState) :
  cpus m !! cs = Some c ->
  exists m' unmapped,
    hyperv_setup_vp_assist P m cs data vtl = Some (m', unmapped) /\
    (vtl <> cs \/ vp_vsm c = None -> m' = m /\ unmapped = None) /\
    (forall v, vtl = cs -> vp_vsm c = Some v ->
       unmapped = vp_assist v /\
       (Z.land data (HV_X64_MSR_VP_ASSIST_PAGE_ENABLE P) = 0 -> m' = m) /\
       (Z.land data (HV_X64_MSR_VP_ASSIST_PAGE_ENABLE P) <> 0 ->
        cpus m' !! cs =
          Some (with_vp_vsm
                  (Some (with_vp_assist
                           (map_vp_assist P
                              (Z.land data (HV_X64_MSR_VP_ASSIST_PAGE_ADDRESS_MASK P))) v)) c) /\
        (forall k, k <> cs -> cpus m' !! k = cpus m !! k) /\
        forall ctl reason x,
          map_vp_assist P (Z.land data (HV_X64_MSR_VP_ASSIST_PAGE_ADDRESS_MASK P)) = Some ctl ->
          exists m'',
            set_vtl_entry_reason m' cs reason = Some m'' /\
            hv_read_vtl_control m'' cs x = Some (entry_control reason))).
Proof.
  intros Hc. unfold hyperv_setup_vp_assist, hyperv_vp_index, get_active_vtl, cpu_index.
  rewrite Hc. cbn [mbind option_bind]. rewrite ?Hc. cbn [mbind option_bind].
  destruct (Z.eqb_spec vtl cs) as [E|E]; cbn [negb].
  - destruct (vp_vsm c) as [v|] eqn:Hv.
    + destruct (Z.eqb_spec (Z.land data (HV_X64_MSR_VP_ASSIST_PAGE_ENABLE P)) 0) as [E0|E0];
        cbn [negb].
      * exists m, (vp_assist v). split; [reflexivity|].
        split; [intros [H|H]; [contradiction | discriminate]|].
        intros v' _ [= <-]. split; [reflexivity|]. split; [reflexivity|].
        intros Hne. contradiction.
      * eexists _, (vp_assist v). split; [reflexivity|].
        split; [intros [H|H]; [contradiction | discriminate]|].
        intros v' _ [= <-]. split; [reflexivity|].
        split; [intros H0; contradiction|].
        intros _. cbn.
        split; [apply lookup_insert_eq|].
        split; [intros k Hk; rewrite lookup_insert_ne by congruence; reflexivity|].
        intros ctl reason x Hmap.
        unfold set_vtl_entry_reason, hyperv_hv_assist_page_enabled, hv_write_vtl_control.
        cbn. rewrite lookup_insert_eq. cbn. rewrite Hmap.
        rewrite bool_decide_eq_true_2 by eauto.
        eexists. split; [reflexivity|].
        unfold hv_read_vtl_control. cbn. rewrite lookup_insert_eq. reflexivity.
    + exists m, None. split; [reflexivity|]. split; [intros _; split; reflexivity|].
      intros v' _ Hv'. discriminate.
  - exists m, None. split; [reflexivity|]. split; [intros _; split; reflexivity|].
    intros v' Heq. contradiction.
Qed.

End RegisterFacts.

(** * The GET/SET_VP_REGISTERS hypercall *)

Section HypercallFacts.
Import Vsm VsmRegs.

Variable P : platform.

Lemma access_registers_get (t : Z) (names : list Z) (vals done : list hv_vp_register_val)
    (m m1 : machine) (d d1 : bool) (st : hv_status) (out : list hv_vp_register_val) :
  access_registers P false t names vals m d done = Some (st, m1, d1, out) ->
  m1 = m /\ d1 = d.
Proof.
  revert vals done. induction names as [|name names IH]; intros vals done H; cbn in H.
  - injection H as <- <- <- <-. split; reflexivity.
  - destruct vals as [|val vals]; [discriminate|].
    destruct (get_vp_register m (register_name P name) t) as [[[] val']|];
      try discriminate; try (injection H as <- <- <- <-; split; reflexivity).
    eapply IH. exact H.
Qed.

Lemma xmm_store_vals_fields (i : nat) (vals : list hv_vp_register_val)
    (e : kvm_hyperv_exit.t) :
  kvm_hyperv_exit.input (xmm_store_vals i vals e) = kvm_hyperv_exit.input e /\
  kvm_hyperv_exit.ingpa (xmm_store_vals i vals e) = kvm_hyperv_exit.ingpa e /\
  kvm_hyperv_exit.outgpa (xmm_store_vals i vals e) = kvm_hyperv_exit.outgpa e /\
  length (kvm_hyperv_exit.xmm (xmm_store_vals i vals e)) = length (kvm_hyperv_exit.xmm e).
Proof.
  revert i e. induction vals as [|v vals IH]; intros i e; cbn.
  - repeat split.
  - destruct (IH (i + 2)%nat (xmm_store (i + 1) (high v) (xmm_store i (low v) e)))
      as (H1 & H2 & H3 & H4).
    rewrite H1, H2, H3, H4. cbn. rewrite !length_insert. repeat split.
Qed.

Lemma get_set_marshalled_get_pure (m m' : machine) (cs : Z)
    (exit exit' : kvm_hyperv_exit.t) (fast : bool) (nregs rep_idx : Z)
    (inp : hv_get_set_vp_registers.t) (names : list Z) (vals : list hv_vp_register_val)
    (xi : nat) (st : hv_status) (reps : Z) (w : option (Z * list hv_vp_register_val)) :
  get_set_marshalled P m cs exit false fast nregs rep_idx inp names vals xi =
    Some (st, reps, m', exit', w) ->
  cpus m' = cpus m /\
  hv_vsm_partition_status m' = hv_vsm_partition_status m /\
  hv_vsm_partition_config m' = hv_vsm_partition_config m /\
  kvm_hyperv_exit.input exit' = kvm_hyperv_exit.input exit /\
  kvm_hyperv_exit.ingpa exit' = kvm_hyperv_exit.ingpa exit /\
  kvm_hyperv_exit.outgpa exit' = kvm_hyperv_exit.outgpa exit /\
  (st <> HV_STATUS_SUCCESS -> reps = 0 /\ exit' = exit /\ w = None).
Proof.
  unfold get_set_marshalled. cbv zeta. intros H.
  assert (Hfail : forall s : hv_status,
    Some (s, 0, m, exit, @None (Z * list hv_vp_register_val)) = Some (st, reps, m', exit', w) ->
    cpus m' = cpus m /\
    hv_vsm_partition_status m' = hv_vsm_partition_status m /\
    hv_vsm_partition_config m' = hv_vsm_partition_config m /\
    kvm_hyperv_exit.input exit' = kvm_hyperv_exit.input exit /\
    kvm_hyperv_exit.ingpa exit' = kvm_hyperv_exit.ingpa exit /\
    kvm_hyperv_exit.outgpa exit' = kvm_hyperv_exit.outgpa exit /\
    (st <> HV_STATUS_SUCCESS -> reps = 0 /\ exit' = exit /\ w = None)).
  { intros s [= <- <- <- <- <-]. repeat split. }
  destruct (negb (hv_get_set_vp_registers.partition_id inp =? HV_PARTITION_ID_SELF));
    [eapply Hfail; exact H|].
  destruct (get_active_vtl m (Some cs)) as [a|]; [|discriminate].
  cbn [mbind option_bind] in H.
  destruct (negb (Z.land (hv_get_set_vp_registers.input_vtl inp) 16 =? 0) &&
            (Z.land (hv_get_set_vp_registers.input_vtl inp) 15 >=? HV_NUM_VTLS P));
    [eapply Hfail; exact H|].
  destruct (negb (Z.land (hv_get_set_vp_registers.input_vtl inp) 16 =? 0) &&
            (Z.land (hv_get_set_vp_registers.input_vtl inp) 15 >? a));
    [eapply Hfail; exact H|].
  destruct (negb (hv_get_set_vp_registers.vp_index inp =? HV_VP_INDEX_SELF) &&
            negb (hv_get_set_vp_registers.vp_index inp =? 0));
    [eapply Hfail; exact H|].
  match type of H with (?t ≫= _) = _ => destruct t as [target|]; [|discriminate] end.
  cbn [mbind option_bind] in H.
  destruct target as [tv|].
  2:{ destruct (negb (hv_get_set_vp_registers.vp_index inp =? HV_VP_INDEX_SELF) &&
                negb (hv_get_set_vp_registers.vp_index inp =? wrap32 a));
        [eapply Hfail; exact H | discriminate]. }
  destruct names as [|name names]; [discriminate|].
  destruct (access_registers P false tv (name :: names) vals
              (with_iothread_locked true m) false []) as [[[[s1 m1] d1] out]|] eqn:Hacc;
    [|discriminate].
  cbn [mbind option_bind] in H.
  apply access_registers_get in Hacc. destruct Hacc as [-> ->].
  destruct s1; cbn in H.
  - destruct fast; injection H as <- <- <- <- <-.
    + destruct (xmm_store_vals_fields xi out exit) as (H1 & H2 & H3 & _).
      repeat split; try assumption; congruence.
    + repeat split; congruence.
  - injection H as <- <- <- <- <-. repeat split.
  - injection H as <- <- <- <- <-. repeat split.
  - injection H as <- <- <- <- <-. repeat split.
  - injection H as <- <- <- <- <-. repeat split.
  - injection H as <- <- <- <- <-. repeat split.
  - injection H as <- <- <- <- <-. repeat split.
Qed.

(** X27. Reading registers changes none.  Whatever a GET_VP_REGISTERS call is
    given and whatever it returns, the vCPUs and the partition-wide state
    are as before; the hypercall input value and the two parameters in
    the exit structure are unchanged; and a call that does not succeed
    reports no completed repetition, leaves every XMM register as it was
    and writes nothing to guest memory. *)
Theorem hyperv_hcall_get_vp_register_pure (m m' : machine) (cs : Z)
    (exit exit' : kvm_hyperv_exit.t) (st : hv_status) (reps : Z)
    (w : option (Z * list hv_vp_register_val)) :
  hyperv_hcall_get_set_vp_register P m cs exit false = Some (st, reps, m', exit', w) ->
  cpus m' = cpus m /\
  hv_vsm_partition_status m' = hv_vsm_partition_status m /\
  hv_vsm_partition_config m' = hv_vsm_partition_config m /\
  kvm_hyperv_exit.input exit' = kvm_hyperv_exit.input exit /\
  kvm_hyperv_exit.ingpa exit' = kvm_hyperv_exit.ingpa exit /\
  kvm_hyperv_exit.outgpa exit' = kvm_hyperv_exit.outgpa exit /\
  (st <> HV_STATUS_SUCCESS -> reps = 0 /\ exit' = exit /\ w = None).
Proof.
  unfold hyperv_hcall_get_set_vp_register. cbv zeta.
  destruct (negb (Z.land (kvm_hyperv_exit.input exit) (HV_HYPERCALL_FAST P) =? 0)).
  - destruct (negb (Z.land (Z.shiftr (kvm_hyperv_exit.input exit)
                              (HV_HYPERCALL_REP_START_OFFSET P)) 4095 =? 0));
      [intros [= <- <- <- <- <-]; repeat split|].
    match goal with |- context [?n >? 4] => destruct (n >? 4) end;
      [intros [= <- <- <- <- <-]; repeat split|].
    apply get_set_marshalled_get_pure.
  - apply get_set_marshalled_get_pure.
Qed.

(** X28. No access to a higher VTL.  A register call that passes the checks
    of its calling convention and names the calling partition, and whose
    input selects a target VTL, is answered with invalid-hypercall-input
    if that VTL is not below [HV_NUM_VTLS], and with access-denied if it
    is above the caller's VTL; in both cases no register is read or
    written, no XMM register and no guest memory is written, and no
    repetition is reported. *)
Theorem hyperv_hcall_get_set_vp_register_target_vtl (m : machine) (cs : Z)
    (exit : kvm_hyperv_exit.t) (set : bool) (c : CPUState) :
  cpus m !! cs = Some c ->
  (hcall_fast P exit = true -> hcall_rep_idx P exit = 0 /\ hcall_nregs P exit <= 4) ->
  hv_get_set_vp_registers.partition_id (hcall_input P exit) = HV_PARTITION_ID_SELF ->
  Z.land (hv_get_set_vp_registers.input_vtl (hcall_input P exit)) 16 <> 0 ->
  let target_vtl := Z.land (hv_get_set_vp_registers.input_vtl (hcall_input P exit)) 15 in
  (HV_NUM_VTLS P <= target_vtl ->
   hyperv_hcall_get_set_vp_register P m cs exit set =
     Some (HV_STATUS_INVALID_HYPERCALL_INPUT, 0, m, exit, None)) /\
  (target_vtl < HV_NUM_VTLS P -> cs < target_vtl ->
   hyperv_hcall_get_set_vp_register P m cs exit set =
     Some (HV_STATUS_ACCESS_DENIED, 0, m, exit, None)).
Proof.
  intros Hc Hfast Hpart Huse target_vtl. subst target_vtl.
  assert (Hm : forall fast nregs rep_idx names vals xi,
    (HV_NUM_VTLS P <= Z.land (hv_get_set_vp_registers.input_vtl (hcall_input P exit)) 15 ->
     get_set_marshalled P m cs exit set fast nregs rep_idx (hcall_input P exit) names vals xi =
       Some (HV_STATUS_INVALID_HYPERCALL_INPUT, 0, m, exit, None)) /\
    (Z.land (hv_get_set_vp_registers.input_vtl (hcall_input P exit)) 15 < HV_NUM_VTLS P ->
     cs < Z.land (hv_get_set_vp_registers.input_vtl (hcall_input P exit)) 15 ->
     get_set_marshalled P m cs exit set fast nregs rep_idx (hcall_input P exit) names vals xi =
       Some (HV_STATUS_ACCESS_DENIED, 0, m, exit, None))).
  { intros fast nregs rep_idx names vals xi. unfold get_set_marshalled. cbv zeta.
    rewrite Hpart, Z.eqb_refl. cbn [negb]. unfold get_active_vtl, cpu_index.
    cbn [mbind option_bind]. rewrite Hc. cbn [mbind option_bind].
    apply Z.eqb_neq in Huse. rewrite Huse. cbn [negb andb]. split.
    - intros Hge. apply Z.geb_le in Hge. rewrite Hge. reflexivity.
    - intros Hlt Hcs.
      destruct (Z.geb_spec (Z.land (hv_get_set_vp_registers.input_vtl (hcall_input P exit)) 15)
                  (HV_NUM_VTLS P)) as [H|H]; [lia|].
      apply Z.gtb_lt in Hcs. rewrite Hcs. reflexivity. }
  unfold hyperv_hcall_get_set_vp_register. cbv zeta.
  unfold hcall_input, hcall_fast, hcall_nregs, hcall_rep_idx, hcall_rep_cnt in *.
  destruct (negb (Z.land (kvm_hyperv_exit.input exit) (HV_HYPERCALL_FAST P) =? 0)).
  - destruct (Hfast eq_refl) as [Hi Hn]. rewrite Hi in Hn |- *. cbn [negb Z.eqb].
    match goal with
    | |- context [?n >? 4] =>
        replace (n >? 4) with false
          by (symmetry; rewrite Z.gtb_ltb; apply Z.ltb_ge; exact Hn)
    end.
    apply Hm.
  - apply Hm.
Qed.

Lemma hcall_fast_self_unfold (m : machine) (cs : Z) (exit : kvm_hyperv_exit.t)
    (set : bool) (k : Z) :
  1 <= k <= 4 -> hcall_fast_self P exit k ->
  hyperv_hcall_get_set_vp_register P m cs exit set =
    get_set_marshalled P m cs exit set true k 0
      {| hv_get_set_vp_registers.partition_id := HV_PARTITION_ID_SELF;
         hv_get_set_vp_registers.vp_index := HV_VP_INDEX_SELF;
         hv_get_set_vp_registers.input_vtl :=
           Z.land (Z.shiftr (kvm_hyperv_exit.outgpa exit) 32) 255 |}
      (take (Z.to_nat k)
         [wrap32 (kvm_hyperv_exit.xmm exit !!! 0%nat);
          wrap32 (Z.shiftr (kvm_hyperv_exit.xmm exit !!! 0%nat) 32);
          wrap32 (kvm_hyperv_exit.xmm exit !!! 1%nat);
          wrap32 (Z.shiftr (kvm_hyperv_exit.xmm exit !!! 1%nat) 32)])
      (if set then
         (fun i => {| low := kvm_hyperv_exit.xmm exit !!! (2 + 2 * i)%nat;
                      high := kvm_hyperv_exit.xmm exit !!! (2 + 2 * i + 1)%nat |})
           <$> seq 0 (Z.to_nat k)
       else replicate (Z.to_nat k) {| low := 0; high := 0 |})
      (if set then (2 + 2 * Z.to_nat k)%nat else 2%nat).
Proof.
  intros Hk (Hf & Hi & Hn & Hp & Hvp & _).
  unfold hcall_fast, hcall_nregs, hcall_rep_idx, hcall_rep_cnt in *.
  unfold hyperv_hcall_get_set_vp_register. cbv zeta.
  rewrite Hf, Hn, Hi, Hp, Hvp. cbn [negb Z.eqb].
  assert (H4 : (k >? 4) = false) by (rewrite Z.gtb_ltb; apply Z.ltb_ge; lia).
  assert (H0 : (0 <? k) = true) by (apply Z.ltb_lt; lia).
  rewrite H4, H0. reflexivity.
Qed.

Lemma get_set_marshalled_self (m : machine) (cs : Z) (exit : kvm_hyperv_exit.t)
    (set fast : bool) (nregs rep_idx : Z) (inp : hv_get_set_vp_registers.t)
    (name : Z) (names : list Z) (vals : list hv_vp_register_val) (xi : nat) (c : CPUState) :
  cpus m !! cs = Some c -> 0 <= cs < 256 ->
  hv_get_set_vp_registers.partition_id inp = HV_PARTITION_ID_SELF ->
  hv_get_set_vp_registers.vp_index inp = HV_VP_INDEX_SELF ->
  Z.land (hv_get_set_vp_registers.input_vtl inp) 16 = 0 ->
  get_set_marshalled P m cs exit set fast nregs rep_idx inp (name :: names) vals xi =
    match access_registers P set cs (name :: names) vals
            (with_iothread_locked true m) false [] with
    | None => None
    | Some (HV_STATUS_SUCCESS, m1, _, vals') =>
        if set then Some (HV_STATUS_SUCCESS, nregs, with_iothread_locked false m1, exit, None)
        else if fast then
          Some (HV_STATUS_SUCCESS, nregs, with_iothread_locked false m1,
                xmm_store_vals xi vals' exit, None)
        else
          Some (HV_STATUS_SUCCESS, nregs, with_iothread_locked false m1, exit,
                Some (wrap64 (kvm_hyperv_exit.outgpa exit + rep_idx * 16), vals'))
    | Some (status, m1, _, _) => Some (status, 0, with_iothread_locked false m1, exit, None)
    end.
Proof.
  intros Hc Hcs Hp Hvp Hvtl. unfold get_set_marshalled. cbv zeta.
  rewrite Hp, Hvp, Hvtl, !Z.eqb_refl. cbn [negb andb].
  unfold get_active_vtl, hyperv_vsm_vp_index, cpu_index. cbn [mbind option_bind].
  rewrite Hc. cbn [mbind option_bind].
  assert (Hl : Z.land cs 255 = cs).
  { change 255 with (Z.ones 8). rewrite Z.land_ones by lia. apply Z.mod_small. lia. }
  rewrite Hl.
  assert (Hw : wrap32 cs = cs) by (unfold wrap32; apply Z.mod_small; lia).
  rewrite <- Hw at 2.
  rewrite hyperv_vsm_vcpu_found by (try lia; eauto).
  cbn [mbind option_bind].
  destruct (access_registers P set cs (name :: names) vals
              (with_iothread_locked true m) false []) as [[[[[] m1] d1] out]|];
    reflexivity.
Qed.

(** A fast GET of one register for the caller's own vCPU.  The call
    returns success with one completed repetition and the register's
    value in the XMM register after the one holding the code: the low
    half in [xmm[2]], the high half in [xmm[3]]; the machine is as
    before, with the iothread lock released. *)
Lemma hyperv_hcall_get_vp_register_fast (m : machine) (cs : Z)
    (exit : kvm_hyperv_exit.t) (c : CPUState) (val : hv_vp_register_val) :
  cpus m !! cs = Some c -> 0 <= cs < 256 ->
  hcall_fast_self P exit 1 ->
  get_vp_register m (register_name P (wrap32 (kvm_hyperv_exit.xmm exit !!! 0%nat))) cs =
    Some (HV_STATUS_SUCCESS, val) ->
  hyperv_hcall_get_set_vp_register P m cs exit false =
    Some (HV_STATUS_SUCCESS, 1, with_iothread_locked false m,
          xmm_store 3 (high val) (xmm_store 2 (low val) exit), None).
Proof.
  intros Hc Hcs Hself Hget.
  rewrite (hcall_fast_self_unfold m cs exit false 1 ltac:(lia) Hself).
  destruct Hself as (_ & _ & _ & _ & _ & Hvtl).
  change (Z.to_nat 1) with 1%nat. cbn [take replicate].
  rewrite (get_set_marshalled_self m cs exit false true 1 0) with (c := c)
    by (first [exact Hc | exact Hcs | reflexivity | exact Hvtl]).
  cbn [access_registers]. rewrite get_vp_register_locked, Hget. cbn.
  destruct m; reflexivity.
Qed.

(** X29. A fast SET of one register followed by a fast GET of it.  For a
    register that is one field of the register file, the SET succeeds
    with one completed repetition, and a GET of the same code afterwards
    returns the value that was in [xmm[2]] of the SET in its own
    [xmm[2]], with [xmm[3]] zero. *)
Theorem hyperv_hcall_set_get_vp_register_fast (m : machine) (cs : Z)
    (exit_s exit_g : kvm_hyperv_exit.t) (c : CPUState) (name : hv_register_name) :
  cpus m !! cs = Some c -> env_wf (env c) -> 0 <= cs < 256 ->
  hcall_fast_self P exit_s 1 -> hcall_fast_self P exit_g 1 ->
  register_name P (wrap32 (kvm_hyperv_exit.xmm exit_s !!! 0%nat)) = name ->
  register_name P (wrap32 (kvm_hyperv_exit.xmm exit_g !!! 0%nat)) = name ->
  scalar_register name = true ->
  exists m1 m2,
    hyperv_hcall_get_set_vp_register P m cs exit_s true =
      Some (HV_STATUS_SUCCESS, 1, m1, exit_s, None) /\
    hyperv_hcall_get_set_vp_register P m1 cs exit_g false =
      Some (HV_STATUS_SUCCESS, 1, m2,
            xmm_store 3 0 (xmm_store 2 (kvm_hyperv_exit.xmm exit_s !!! 2%nat) exit_g), None) /\
    cpus m2 = cpus m1 /\ iothread_locked m1 = false /\ iothread_locked m2 = false.
Proof.
  intros Hc Hwf Hcs Hs Hg Hns Hng Hsc.
  rewrite (hcall_fast_self_unfold m cs exit_s true 1 ltac:(lia) Hs).
  change (Z.to_nat 1) with 1%nat. cbn [take seq fmap list_fmap].
  assert (Hvs : Z.land (Z.land (Z.shiftr (kvm_hyperv_exit.outgpa exit_s) 32) 255) 16 = 0)
    by (destruct Hs as (_ & _ & _ & _ & _ & H); exact H).
  assert (Hvg : Z.land (Z.land (Z.shiftr (kvm_hyperv_exit.outgpa exit_g) 32) 255) 16 = 0)
    by (destruct Hg as (_ & _ & _ & _ & _ & H); exact H).
  rewrite (get_set_marshalled_self m cs exit_s true true 1 0) with (c := c)
    by (first [exact Hc | exact Hcs | reflexivity | exact Hvs]).
  cbn [access_registers]. rewrite Hns.
  set (val := {| low := _; high := _ |}).
  assert (Hcl : cpus (with_iothread_locked true m) !! cs = Some c) by exact Hc.
  destruct (set_vp_register_scalar P (with_iothread_locked true m) name val cs false c
              Hcl Hwf Hsc) as (m1 & Hset & Hget & _ & Hk & _).
  rewrite Hset.
  assert (Hc1 : exists c1, cpus m1 !! cs = Some c1).
  { unfold get_vp_register in Hget. destruct (cpus m1 !! cs) as [c1|]; [eauto | discriminate]. }
  destruct Hc1 as [c1 Hc1].
  eexists _, _. split; [reflexivity|].
  assert (Hc1' : cpus (with_iothread_locked false m1) !! cs = Some c1) by exact Hc1.
  rewrite (hcall_fast_self_unfold _ cs exit_g false 1 ltac:(lia) Hg).
  change (Z.to_nat 1) with 1%nat. cbn [take replicate].
  rewrite (get_set_marshalled_self _ cs exit_g false true 1 0) with (c := c1)
    by (first [exact Hc1' | exact Hcs | reflexivity | exact Hvg]).
  cbn [access_registers]. rewrite Hng, !get_vp_register_locked, Hget.
  split; [reflexivity|]. repeat split.
Qed.

(** X30. A SET that fails half-way is not undone.  In a fast SET of two
    registers for the caller's own vCPU, of which the first is a field of
    the register file and the second is one [set_vp_register] has no case
    for, the call returns invalid-parameter with no completed repetition,
    and the first register has been written all the same: a read of it
    returns the value from [xmm[2]]. *)
Theorem hyperv_hcall_set_vp_register_partial (m : machine) (cs : Z)
    (exit : kvm_hyperv_exit.t) (c : CPUState) (name1 name2 : hv_register_name) :
  cpus m !! cs = Some c -> env_wf (env c) -> 0 <= cs < 256 ->
  hcall_fast_self P exit 2 ->
  register_name P (wrap32 (kvm_hyperv_exit.xmm exit !!! 0%nat)) = name1 ->
  register_name P (wrap32 (Z.shiftr (kvm_hyperv_exit.xmm exit !!! 0%nat) 32)) = name2 ->
  scalar_register name1 = true -> read_only_register name2 = true ->
  exists m1,
    hyperv_hcall_get_set_vp_register P m cs exit true =
      Some (HV_STATUS_INVALID_PARAMETER, 0, m1, exit, None) /\
    get_vp_register m1 name1 cs =
      Some (HV_STATUS_SUCCESS, {| low := kvm_hyperv_exit.xmm exit !!! 2%nat; high := 0 |}).
Proof.
  intros Hc Hwf Hcs Hs Hn1 Hn2 Hsc Hro.
  rewrite (hcall_fast_self_unfold m cs exit true 2 ltac:(lia) Hs).
  change (Z.to_nat 2) with 2%nat. cbn [take seq fmap list_fmap].
  assert (Hvs : Z.land (Z.land (Z.shiftr (kvm_hyperv_exit.outgpa exit) 32) 255) 16 = 0)
    by (destruct Hs as (_ & _ & _ & _ & _ & H); exact H).
  rewrite (get_set_marshalled_self m cs exit true true 2 0) with (c := c)
    by (first [exact Hc | exact Hcs | reflexivity | exact Hvs]).
  cbn [access_registers]. rewrite Hn1, Hn2.
  set (val1 := {| low := kvm_hyperv_exit.xmm exit !!! (2 + 2 * 0)%nat; high := _ |}).
  set (val2 := {| low := kvm_hyperv_exit.xmm exit !!! (2 + 2 * 1)%nat; high := _ |}).
  assert (Hcl : cpus (with_iothread_locked true m) !! cs = Some c) by exact Hc.
  destruct (set_vp_register_scalar P (with_iothread_locked true m) name1 val1 cs false c
              Hcl Hwf Hsc) as (m1 & Hset & Hget & _).
  rewrite Hset.
  assert (Hc1 : exists c1, cpus m1 !! cs = Some c1).
  { unfold get_vp_register in Hget. destruct (cpus m1 !! cs) as [c1|]; [eauto | discriminate]. }
  destruct Hc1 as [c1 Hc1].
  rewrite (set_vp_register_no_case P m1 name2 val2 cs true c1 Hc1 Hro).
  eexists. split; [reflexivity|].
  rewrite get_vp_register_locked. exact Hget.
Qed.

End HypercallFacts.
(** * Runs of the further properties on the sample configurations *)

Section SynICMoreRuns.
Import SynIC Sample SynICSample.

Lemma hyperv_sint_route_ref_unref_witness :
  hyperv_sint_route_unref (hyperv_sint_route_ref (world0 5 HV_STAGED_MSG_FREE)) =
    Some (world0 5 HV_STAGED_MSG_FREE).
Proof.
  refine (proj1 (hyperv_sint_route_ref_unref (world0 5 HV_STAGED_MSG_FREE) _)).
  simpl. lia.
Defined.

Lemma hyperv_post_msg_window_witness :
  exists w1,
    hyperv_post_msg (world0 5 HV_STAGED_MSG_FREE) msgAA = Some (0, w1) /\
    hyperv_post_msg w1 msg0 = Some (- EAGAIN, w1).
Proof.
  destruct (hyperv_post_msg_window 0 (world0 5 HV_STAGED_MSG_FREE)
              (staged0 HV_STAGED_MSG_FREE) msgAA msg0 eq_refl eq_refl)
    as (w1 & w2 & w3 & w4 & H1 & H2 & _).
  - simpl. lia.
  - eexists. reflexivity.
  - exists w1. split; [exact H1 | exact H2].
Defined.

Lemma post_msg_cycle_free_slot_witness :
  exists w1 w2 w3,
    hyperv_post_msg (world0 5 HV_STAGED_MSG_FREE) msgAA = Some (0, w1) /\
    cpu_post_msg 0 w1 = Some w2 /\
    sint_msg_bh w2 = Some w3 /\
    msg_page (synic w3) !! 2%nat = Some msgAA /\
    effects w3 = [run_on_cpu_cpu_post_msg; event_notifier_set 5; set_dirty_msg_page;
                  bh_schedule_sint_msg_bh; cb_call 7 0].
Proof.
  destruct (post_msg_cycle_free_slot 0 (world0 5 HV_STAGED_MSG_FREE)
              (staged0 HV_STAGED_MSG_FREE) msgAA msg0 eq_refl eq_refl)
    as (w1 & w2 & w3 & H1 & H2 & H3 & H4 & _ & _ & H5).
  - simpl. lia.
  - simpl. lia.
  - reflexivity.
  - reflexivity.
  - exists w1, w2, w3.
    split; [exact H1|]. split; [exact H2|]. split; [exact H3|].
    split; [rewrite H4; reflexivity | rewrite H5; reflexivity].
Defined.

Lemma post_msg_cycle_busy_slot_witness :
  exists w1 w2 w3,
    hyperv_post_msg (world_occupied 5) msg0 = Some (0, w1) /\
    cpu_post_msg 0 w1 = Some w2 /\
    msg_page (synic w2) !! 2%nat =
      Some (set_message_flags HV_MESSAGE_FLAG_PENDING msgAA) /\
    sint_msg_bh (sint_ack_handler w2) = Some w3 /\
    effects w3 = [run_on_cpu_cpu_post_msg; set_dirty_msg_page;
                  bh_schedule_sint_msg_bh; cb_call 7 (- EAGAIN)].
Proof.
  destruct (post_msg_cycle_busy_slot 0 (world_occupied 5)
              (staged0 HV_STAGED_MSG_FREE) msg0 msgAA eq_refl eq_refl)
    as (w1 & w2 & w3 & H1 & H2 & H3 & H4 & H5 & H6 & _).
  - vm_compute. split; reflexivity.
  - vm_compute. discriminate.
  - reflexivity.
  - vm_compute. discriminate.
  - exists w1, w2, w3.
    split; [exact H1|]. split; [exact H2|].
    split; [rewrite H3; reflexivity|]. split; [exact H5|].
    rewrite H6, H4. reflexivity.
Defined.

Lemma hyperv_set_event_flag_twice_witness :
  exists w1,
    hyperv_set_event_flag flags_count 0 (world0 5 HV_STAGED_MSG_FREE) 5 = Some (0, w1) /\
    hyperv_set_event_flag flags_count 0 w1 5 = Some (0, w1).
Proof.
  eexists. split; [reflexivity|].
  apply (hyperv_set_event_flag_twice flags_count 0 (world0 5 HV_STAGED_MSG_FREE) _ 5 0).
  - unfold flags_count. lia.
  - reflexivity.
  - simpl. lia.
  - reflexivity.
Defined.

Lemma hyperv_set_event_flag_frame_witness :
  exists w1,
    hyperv_set_event_flag flags_count 0 (world0 5 HV_STAGED_MSG_FREE) 5 = Some (0, w1) /\
    length (event_page (synic w1)) = 512%nat /\
    msg_page (synic w1) = replicate 16 msg0.
Proof.
  eexists. split; [reflexivity|].
  destruct (hyperv_set_event_flag_frame flags_count 0 (world0 5 HV_STAGED_MSG_FREE) _ 5 0
              eq_refl) as (H1 & _ & _ & H2 & _).
  split; [rewrite H1; reflexivity | rewrite H2; reflexivity].
Defined.

End SynICMoreRuns.

Section HandlerRuns.
Import Handlers HandlerSample.

Lemma hyperv_set_msg_handler_unique_witness :
  NoDup (MsgHandler.conn_id <$> (hyperv_set_msg_handler msg_handlers 7
                                    (Some size_handler) 1).2) /\
  (hyperv_set_msg_handler msg_handlers 3 (Some size_handler) 1).1 = - EEXIST.
Proof.
  assert (Hnd : NoDup (MsgHandler.conn_id <$> msg_handlers)).
  { apply NoDup_singleton. }
  split.
  - exact (proj1 (hyperv_set_msg_handler_unique msg_handlers 7 (Some size_handler) 1 Hnd)).
  - reflexivity.
Defined.

Lemma hyperv_hcall_post_message_dispatch_witness :
  exists l1,
    hyperv_set_msg_handler msg_handlers 7 (Some size_handler) 1 = (0, l1) /\
    hyperv_hcall_post_message connection_mask 4 240 guest_memory l1 4096 false = 17 /\
    hyperv_hcall_post_message connection_mask 4 240 guest_memory msg_handlers 4096 false =
      HV_STATUS_INVALID_CONNECTION_ID /\
    hyperv_set_msg_handler l1 7 None 0 = (0, msg_handlers).
Proof.
  destruct (hyperv_hcall_post_message_dispatch connection_mask 4 240 guest_memory
              msg_handlers 7 size_handler 1 0) as (l1 & H1 & H2 & H3).
  - vm_compute. intros H. apply list_elem_of_In in H. destruct H as [H | []].
    discriminate H.
  - exists l1. split; [exact H1|].
    destruct (H3 4096 post_input eq_refl eq_refl) as [[H4 H5] _].
    + simpl. lia.
    + reflexivity.
    + split; [rewrite H4; reflexivity|]. split; [exact H5 | exact H2].
Defined.

Lemma hyperv_hcall_signal_event_registered_witness :
  exists r',
    hyperv_set_event_flag_handler false 0 registry 9 (Some 42) = (0, r') /\
    hyperv_hcall_signal_event connection_mask (fun _ => 0)
      (event_flag_handlers r') 9 true = (0, [42]).
Proof.
  destruct (hyperv_hcall_signal_event_registered connection_mask (fun _ => 0) false 0
              registry 9 42) as (r' & H1 & _ & H2 & _).
  - right. reflexivity.
  - simpl. apply not_elem_of_nil.
  - reflexivity.
  - reflexivity.
  - exists r'. split; [exact H1 | exact H2].
Defined.

End HandlerRuns.

Section SynICDevRuns.
Import SynIC SynICDev Sample SynICSample.

Lemma hyperv_sint_route_new_result_witness :
  exists r,
    hyperv_sint_route_new (get_synic_of true) 0 0 (fun _ _ => 5) (fun _ => 0) 240
      VsmSample.machine_vtl01 [] 1 2 true 7 = Some (Some r, [r], []) /\
    sint r = 2 /\ refcount r = 1 /\ gsi r = 5.
Proof.
  eexists. split; [reflexivity|].
  destruct (hyperv_sint_route_new_result (get_synic_of true) 0 0 (fun _ _ => 5)
              (fun _ => 0) 240 VsmSample.machine_vtl01 [] 1 2 true 7 _ _ _ eq_refl)
    as (_ & _ & H1 & H2 & _).
  split; [exact H1|]. split; [exact H2 | reflexivity].
Defined.

Lemma hyperv_sint_route_new_disabled_silent_witness :
  exists r,
    hyperv_sint_route_new (get_synic_of false) 0 0 (fun _ _ => 5) (fun _ => 0) 240
      VsmSample.machine_vtl01 [] 1 2 true 7 = Some (Some r, [r], []) /\
    gsi r = 0 /\
    forall w',
      hyperv_set_event_flag flags_count 0
        {| sint_route := r; synic := synic0; effects := [] |} 5 = Some (0, w') ->
      sint_raised (effects w') = 0%nat.
Proof.
  destruct (hyperv_sint_route_new_disabled_silent flags_count 0 (get_synic_of false) 0 0
              (fun _ _ => 5) (fun _ => 0) 240 VsmSample.machine_vtl01 [] 1 2 true 7 1
              (Build_SynICState false 4096 8192 (replicate 16 msg0) (replicate 512 0))
              eq_refl eq_refl eq_refl) as (r & H1 & H2 & H3).
  - right. reflexivity.
  - exists r. split; [exact H1|]. split; [exact H2|].
    intros w' Hw. destruct (H3 synic0 []) as [H4 _].
    exact (proj1 (H4 5 0 w' Hw)).
Defined.

End SynICDevRuns.

Section SegmentRuns.
Import Vsm VsmSample.

Lemma hyperv_get_seg_set_seg_witness :
  hyperv_get_seg (hyperv_set_seg (seg 8 0) (seg_reg 4096)) = seg_reg 4096.
Proof.
  apply (hyperv_get_seg_set_seg (seg 8 0) (seg_reg 4096)).
  vm_compute. repeat split; congruence.
Defined.

End SegmentRuns.

Section VsmMoreRuns.
Import Vsm VsmRegs VsmSample RegSample.

Lemma env_of_wf (k : Z) : env_wf (env_of k).
Proof. repeat split; reflexivity. Defined.

Lemma priv_zero_wf : priv_wf kvm_hv_vcpu_per_vtl_state.zero.
Proof. repeat split; reflexivity. Defined.

Lemma hyperv_sync_shared_vtl_state_isolates_witness :
  exists m' cn',
    hyperv_sync_shared_vtl_state (with_iothread_locked true machine_vtl01) 0 1 = Some m' /\
    cpus m' !! 1 = Some cn' /\
    isolated_fields (env cn') = isolated_fields (env_of 200) /\
    shared_fields (env cn') = shared_fields (env_of 100).
Proof.
  destruct (hyperv_sync_shared_vtl_state_isolates (with_iothread_locked true machine_vtl01)
              0 1 (cpu_of 100 (Some (vpvsm_of 0 3)) false)
              (cpu_of 200 (Some (vpvsm_of 1 1)) true) (vpvsm_of 1 1)
              eq_refl eq_refl eq_refl (env_of_wf 100) (env_of_wf 200) priv_zero_wf)
    as (_ & H).
  destruct (H eq_refl) as (m' & cn' & H1 & H2 & H3 & H4 & _).
  exists m', cn'. split; [exact H1|]. split; [exact H2|]. split; [exact H3 | exact H4].
Defined.

Lemma hyperv_hcall_vtl_call_switches_witness :
  exists m' cn',
    hyperv_hcall_vtl_call machine_vtl01 0 = Some (EXCP_HALTED, m') /\
    cpus m' !! 1 = Some cn' /\ stopped cn' = false /\
    isolated_fields (env cn') = isolated_fields (env_of 200) /\
    shared_fields (env cn') = shared_fields (env_of 100) /\
    descriptor_fields (env cn') = switched_descriptors (env_of 100) (env_of 200) /\
    CPUX86State.gsbase (env_of 200) = 214 /\ CPUX86State.gsbase (env cn') = 204 /\
    CPUX86State.dr (env_of 200) !!! 7%nat = 210 /\ CPUX86State.dr (env cn') !!! 7%nat = 110.
Proof.
  destruct (hyperv_hcall_vtl_call_switches machine_vtl01 0
              (cpu_of 100 (Some (vpvsm_of 0 3)) false)
              (cpu_of 200 (Some (vpvsm_of 1 1)) true) (vpvsm_of 1 1))
    as (m' & cn' & v' & H1 & _ & H2 & _ & H3 & H4 & H5 & H6 & _);
    [lia | reflexivity | reflexivity | reflexivity | apply env_of_wf | apply env_of_wf
     | apply priv_zero_wf |].
  exists m', cn'. split; [exact H1|]. split; [exact H2|]. split; [exact H3|].
  split; [exact H4|]. split; [exact H5|]. split; [exact H6|].
  split; [reflexivity|].
  split; [exact (f_equal (fun x => x.1.2) H6)|].
  split; [reflexivity|].
  exact (f_equal (fun x => x.1.1.1.1.2 !!! 7%nat) H5).
Defined.

Lemma hyperv_hcall_vtl_call_return_witness :
  exists m1 m2 c0',
    hyperv_hcall_vtl_call machine_vtl01 0 = Some (EXCP_HALTED, m1) /\
    hyperv_hcall_vtl_return m1 1 = Some (EXCP_HALTED, m2) /\
    cpus m2 !! 0 = Some c0' /\ stopped c0' = false /\
    isolated_fields (env c0') = isolated_fields (env_of 100) /\
    shared_fields (env c0') = shared_fields (env_of 100) /\
    descriptor_fields (env c0') = switched_descriptors (env_of 100) (env_of 100) /\
    CPUX86State.gsbase (env_of 100) = 114 /\ CPUX86State.gsbase (env c0') = 104.
Proof.
  destruct (hyperv_hcall_vtl_call_return machine_vtl01
              (cpu_of 100 (Some (vpvsm_of 0 3)) false)
              (cpu_of 200 (Some (vpvsm_of 1 1)) true) (vpvsm_of 0 3) (vpvsm_of 1 1)
              eq_refl eq_refl eq_refl eq_refl (env_of_wf 100) (env_of_wf 200)
              priv_zero_wf priv_zero_wf)
    as (m1 & m2 & c0' & c1' & H1 & H2 & H3 & _ & H4 & _ & H5 & H6 & H7 & _).
  exists m1, m2, c0'. split; [exact H1|]. split; [exact H2|]. split; [exact H3|].
  split; [exact H4|]. split; [exact H5|]. split; [exact H6|]. split; [exact H7|].
  split; [reflexivity|].
  exact (f_equal (fun x => x.1.2) H7).
Defined.

Lemma vp_vsm_notifier_enters_witness :
  vp_vsm_notifier machine_vtl10 1 = Some machine_vtl10 /\
  exists m' cn',
    vp_vsm_notifier (with_iothread_locked true machine_vtl01) 1 = Some m' /\
    cpus m' !! 1 = Some cn' /\ stopped cn' = false /\
    cpus m' !! 0 = Some (with_run false true (cpu_of 100 (Some (vpvsm_of 0 3)) false)) /\
    isolated_fields (env cn') = isolated_fields (env_of 200) /\
    shared_fields (env cn') = shared_fields (env_of 100) /\
    descriptor_fields (env cn') = switched_descriptors (env_of 100) (env_of 200) /\
    CPUX86State.gsbase (env_of 200) = 214 /\ CPUX86State.gsbase (env cn') = 204.
Proof.
  split.
  - destruct (vp_vsm_notifier_enters machine_vtl10 1
                (cpu_of 100 (Some (vpvsm_of 0 3)) true)
                (cpu_of 200 (Some (vpvsm_of 1 1)) false) (vpvsm_of 1 1) eq_refl)
      as (_ & H & _).
    apply H; [lia | reflexivity | reflexivity].
  - destruct (vp_vsm_notifier_enters (with_iothread_locked true machine_vtl01) 1
                (cpu_of 100 (Some (vpvsm_of 0 3)) false)
                (cpu_of 200 (Some (vpvsm_of 1 1)) true) (vpvsm_of 1 1) eq_refl)
      as (_ & _ & H).
    destruct H as (m' & cn' & v' & H1 & H2 & H3 & _ & H4 & _ & _ & H5 & _);
      [lia | reflexivity | reflexivity | reflexivity | apply env_of_wf | apply env_of_wf
       | apply priv_zero_wf |].
    destruct (H5 eq_refl) as (H6 & H7 & H8).
    exists m', cn'. split; [exact H1|]. split; [exact H3|]. split; [exact H4|].
    split; [exact H2|]. split; [exact H6|]. split; [exact H7|]. split; [exact H8|].
    split; [reflexivity|].
    exact (f_equal (fun x => x.1.2) H8).
Defined.

End VsmMoreRuns.

Section RegisterRuns.
Import Vsm VsmRegs VsmSample RegSample.

Lemma hyperv_hcall_vtl_enable_partition_vtl_invariant_witness :
  exists m',
    hyperv_hcall_vtl_enable_partition_vtl (machine_vtl0 1) 0 HV_PARTITION_ID_SELF 1 true =
      (HV_STATUS_SUCCESS, m') /\
    cpus m' = cpus (machine_vtl0 1) /\
    Z.testbit (p_enabled_vtl_set (hv_vsm_partition_status m')) 0 = true.
Proof.
  eexists. split; [reflexivity|].
  pose proof (hyperv_hcall_vtl_enable_partition_vtl_invariant (machine_vtl0 1) _ 0
                HV_PARTITION_ID_SELF 1 true HV_STATUS_SUCCESS eq_refl) as H.
  cbv zeta in H. destruct H as (H1 & _ & _ & _ & _ & H2 & _).
  split; [exact H1|].
  destruct H2 as [_ H2]; [simpl; lia|].
  apply H2. reflexivity.
Defined.

Lemma hyperv_hcall_vtl_enable_partition_vtl_once_witness :
  exists m',
    hyperv_hcall_vtl_enable_partition_vtl (machine_vtl0 1) 0 HV_PARTITION_ID_SELF 1 true =
      (HV_STATUS_SUCCESS, m') /\
    hyperv_hcall_vtl_enable_partition_vtl m' 0 HV_PARTITION_ID_SELF 1 true =
      (HV_STATUS_INVALID_PARAMETER, m').
Proof.
  eexists. split; [reflexivity|].
  apply (hyperv_hcall_vtl_enable_partition_vtl_once (machine_vtl0 1) _ 0 0
           HV_PARTITION_ID_SELF 1 1 true).
  - simpl. lia.
  - simpl. lia.
  - reflexivity.
  - reflexivity.
Defined.

Lemma set_vp_register_get_vp_register_witness :
  exists m',
    set_vp_register platform0 machine_vtl01 HV_X64_REGISTER_RIP
      {| low := 4096; high := 9 |} 1 false = Some (HV_STATUS_SUCCESS, m', true) /\
    get_vp_register m' HV_X64_REGISTER_RIP 1 =
      Some (HV_STATUS_SUCCESS, {| low := 4096; high := 0 |}).
Proof.
  destruct (set_vp_register_get_vp_register platform0 machine_vtl01 HV_X64_REGISTER_RIP
              {| low := 4096; high := 9 |} 1 false
              (cpu_of 200 (Some (vpvsm_of 1 1)) true) eq_refl (env_of_wf 200) eq_refl)
    as (m' & H1 & H2 & _).
  exists m'. split; [exact H1 | exact H2].
Defined.

Lemma set_vp_register_rsp_witness :
  exists m' c',
    set_vp_register platform0 machine_vtl01 HV_X64_REGISTER_RSP
      {| low := 4096; high := 9 |} 1 false = Some (HV_STATUS_SUCCESS, m', true) /\
    cpus m' !! 1 = Some c' /\
    CPUX86State.regs (env c') !!! 15%nat = 4096 /\
    CPUX86State.regs (env c') !!! R_ESP = 201 /\
    get_vp_register m' HV_X64_REGISTER_RSP 1 =
      Some (HV_STATUS_SUCCESS, {| low := 201; high := 0 |}).
Proof.
  destruct (set_vp_register_rsp platform0 machine_vtl01 {| low := 4096; high := 9 |} 1 false
              (cpu_of 200 (Some (vpvsm_of 1 1)) true) eq_refl (env_of_wf 200))
    as [(m' & c' & H1 & H2 & H3 & _ & H4) _].
  - vm_compute. lia.
  - exists m', c'. split; [exact H1|]. split; [exact H2|].
    split; [rewrite H3; reflexivity|]. split; [rewrite H3; reflexivity|].
    rewrite H4 by (vm_compute; discriminate). reflexivity.
Defined.

Lemma vsm_vp_secure_vtl_config_access_witness :
  set_vp_register platform0 machine_vtl01 (HV_REGISTER_VSM_VP_SECURE_CONFIG_VTL 0)
    {| low := 5; high := 0 |} 0 false =
    Some (HV_STATUS_INVALID_PARAMETER, machine_vtl01, false) /\
  exists m',
    set_vp_register platform0 machine_vtl01 (HV_REGISTER_VSM_VP_SECURE_CONFIG_VTL 0)
      {| low := 5; high := 0 |} 1 false = Some (HV_STATUS_SUCCESS, m', true) /\
    get_vp_register m' (HV_REGISTER_VSM_VP_SECURE_CONFIG_VTL 0) 1 =
      Some (HV_STATUS_SUCCESS, {| low := 5; high := 0 |}).
Proof.
  split.
  - destruct (vsm_vp_secure_vtl_config_access platform0 machine_vtl01 0 0
                {| low := 5; high := 0 |} false
                (cpu_of 100 (Some (vpvsm_of 0 3)) false) (vpvsm_of 0 3) eq_refl eq_refl)
      as [H _]; [lia | simpl; lia |].
    apply H. left. reflexivity.
  - destruct (vsm_vp_secure_vtl_config_access platform0 machine_vtl01 1 0
                {| low := 5; high := 0 |} false
                (cpu_of 200 (Some (vpvsm_of 1 1)) true) (vpvsm_of 1 1) eq_refl eq_refl)
      as [_ H]; [lia | simpl; lia |].
    destruct H as (m' & H1 & H2 & _); [lia | lia |].
    exists m'. split; [exact H1 | exact H2].
Defined.

Lemma set_vsm_partition_config_write_once_witness :
  exists m' new,
    set_vsm_partition_config platform0 (with_partition_config [3; 0] machine_vtl01) 0 60 =
      Some m' /\
    hv_vsm_partition_config m' !! 0%nat = Some new /\
    Z.land new 1 = 1 /\ Z.land new 30 = 2 /\ Z.ldiff new 31 = 32.
Proof.
  destruct (set_vsm_partition_config_write_once platform0
              (with_partition_config [3; 0] machine_vtl01) 0 60 3)
    as (m' & new & H1 & H2 & _ & H3 & _); [lia | reflexivity |].
  destruct H3 as (H4 & H5 & H6); [vm_compute; discriminate|].
  exists m', new. split; [exact H1|]. split; [exact H2|].
  split; [exact H4|]. split; [exact H5 | exact H6].
Defined.

Lemma hyperv_setup_vp_assist_effect_witness :
  exists m' m'',
    hyperv_setup_vp_assist platform0 machine_vtl01 1 12289 1 = Some (m', None) /\
    set_vtl_entry_reason m' 1 HV_VTL_ENTRY_VTL_CALL = Some m'' /\
    hv_read_vtl_control m'' 1 control0 = Some (entry_control HV_VTL_ENTRY_VTL_CALL) /\
    hyperv_setup_vp_assist platform0 m' 1 0 1 = Some (m', Some control0).
Proof.
  destruct (hyperv_setup_vp_assist_effect platform0 machine_vtl01 1 12289 1
              (cpu_of 200 (Some (vpvsm_of 1 1)) true) eq_refl)
    as (m' & u & H1 & _ & H2).
  destruct (H2 (vpvsm_of 1 1) eq_refl eq_refl) as (Hu & _ & H3).
  destruct H3 as (Hc' & _ & H4); [vm_compute; discriminate|].
  destruct (H4 control0 HV_VTL_ENTRY_VTL_CALL control0 eq_refl) as (m'' & H5 & H6).
  destruct (hyperv_setup_vp_assist_effect platform0 m' 1 0 1 _ Hc')
    as (m2 & u2 & H7 & _ & H8).
  destruct (H8 _ eq_refl eq_refl) as (Hu2 & Hm2 & _).
  rewrite (Hm2 eq_refl), Hu2 in H7. rewrite Hu in H1.
  exists m', m''. split; [exact H1|]. split; [exact H5|]. split; [exact H6 | exact H7].
Defined.

End RegisterRuns.

Section HypercallRuns.
Import Vsm VsmRegs VsmSample RegSample.

Lemma fast_exit_self (reps codes value : Z) :
  1 <= reps <= 4 -> hcall_fast_self platform0 (fast_exit reps codes value 0) reps.
Proof.
  intros H.
  assert (Hk : reps = 1 \/ reps = 2 \/ reps = 3 \/ reps = 4) by lia.
  destruct Hk as [-> | [-> | [-> | ->]]]; repeat split; reflexivity.
Defined.

Lemma hyperv_hcall_get_vp_register_pure_witness :
  exists m',
    hyperv_hcall_get_set_vp_register platform0 machine_vtl01 1 (slow_exit 1) false =
      Some (HV_STATUS_SUCCESS, 1, m', slow_exit 1,
            Some (8192, [{| low := 202; high := 0 |}])) /\
    cpus m' = cpus machine_vtl01.
Proof.
  eexists. split; [reflexivity|].
  exact (proj1 (hyperv_hcall_get_vp_register_pure platform0 machine_vtl01 _ 1 (slow_exit 1)
                  _ _ _ _ eq_refl)).
Defined.

Lemma hyperv_hcall_get_set_vp_register_target_vtl_witness :
  hyperv_hcall_get_set_vp_register platform0 machine_vtl01 0 (fast_exit 1 131088 0 17) true =
    Some (HV_STATUS_ACCESS_DENIED, 0, machine_vtl01, fast_exit 1 131088 0 17, None).
Proof.
  pose proof (hyperv_hcall_get_set_vp_register_target_vtl platform0 machine_vtl01 0
                (fast_exit 1 131088 0 17) true
                (cpu_of 100 (Some (vpvsm_of 0 3)) false) eq_refl) as H.
  destruct H as [_ H].
  - intros _. split; [reflexivity | vm_compute; discriminate].
  - reflexivity.
  - vm_compute. discriminate.
  - apply H; vm_compute; reflexivity.
Defined.

Lemma hyperv_hcall_set_get_vp_register_fast_witness :
  exists m1 m2,
    hyperv_hcall_get_set_vp_register platform0 machine_vtl01 1
      (fast_exit 1 131088 4096 0) true =
      Some (HV_STATUS_SUCCESS, 1, m1, fast_exit 1 131088 4096 0, None) /\
    hyperv_hcall_get_set_vp_register platform0 m1 1 (fast_exit 1 131088 0 0) false =
      Some (HV_STATUS_SUCCESS, 1, m2,
            xmm_store 3 0 (xmm_store 2 4096 (fast_exit 1 131088 0 0)), None).
Proof.
  destruct (hyperv_hcall_set_get_vp_register_fast platform0 machine_vtl01 1
              (fast_exit 1 131088 4096 0) (fast_exit 1 131088 0 0)
              (cpu_of 200 (Some (vpvsm_of 1 1)) true) HV_X64_REGISTER_RIP
              eq_refl (env_of_wf 200)) as (m1 & m2 & H1 & H2 & _).
  - lia.
  - apply fast_exit_self. lia.
  - apply fast_exit_self. lia.
  - reflexivity.
  - reflexivity.
  - reflexivity.
  - exists m1, m2. split; [exact H1 | exact H2].
Defined.

Lemma hyperv_hcall_set_vp_register_partial_witness :
  exists m1,
    hyperv_hcall_get_set_vp_register platform0 machine_vtl01 1
      (fast_exit 2 (131088 + 851972 * 2 ^ 32) 4096 0) true =
      Some (HV_STATUS_INVALID_PARAMETER, 0, m1,
            fast_exit 2 (131088 + 851972 * 2 ^ 32) 4096 0, None) /\
    get_vp_register m1 HV_X64_REGISTER_RIP 1 =
      Some (HV_STATUS_SUCCESS, {| low := 4096; high := 0 |}).
Proof.
  destruct (hyperv_hcall_set_vp_register_partial platform0 machine_vtl01 1
              (fast_exit 2 (131088 + 851972 * 2 ^ 32) 4096 0)
              (cpu_of 200 (Some (vpvsm_of 1 1)) true)
              HV_X64_REGISTER_RIP HV_REGISTER_VSM_PARTITION_STATUS
              eq_refl (env_of_wf 200)) as (m1 & H1 & H2).
  - lia.
  - apply fast_exit_self. lia.
  - reflexivity.
  - reflexivity.
  - reflexivity.
  - reflexivity.
  - exists m1. split; [exact H1 | exact H2].
Defined.

End HypercallRuns.
